(** * Route Sherlock: the analysis engine, embedded and verified

    A shallow embedding of the analysis code of the route-sherlock
    repository:

    - [analysis/paths.py]   ([PathAnalyzer]: path statistics, anomaly report),
    - [analysis/asn.py]     ([ASNAnalyzer]: profile facets, health status),
    - [collectors/bgpstream.py] ([BGPStreamClient.detect_anomalies]),
    - [cli/commands.py]     ([run_peer_risk]: the composite peer-risk score).

    Conventions.  Python [int] is [Z].  Python [str] is [string], read as
    a sequence of ASCII characters.  A provider call either returns a typed
    record or raises; it is an input of type [result].  A Python [set] keeps
    its elements in an order that the language does not fix: the iteration
    order is a parameter of the development ([SetOrder]).  Free-form text
    built with f-strings (descriptions, factor lines) is kept as a
    constructor per message template rather than as characters.  Values
    computed in floating point are kept as exact rationals. *)

From Stdlib Require Import ZArith List String Ascii Bool Lia Permutation QArith.
Import ListNotations.
Local Open Scope Z_scope.

(* ================================================================== *)
(** * Python values and helpers                                         *)
(* ================================================================== *)

Module Py.

(** The exception classes that the modelled code tells apart. *)
Inductive exn : Type :=
| ValueError
| IndexError
| PeeringDBNotFoundError
| PeeringDBError            (* base class: rate limit, auth, transport *)
| RIPEstatError
| OtherException (name : string).

Inductive result (A : Type) : Type :=
| Ok (a : A)
| Raise (e : exn).
Arguments Ok {A} a.
Arguments Raise {A} e.

Definition bind {A B} (c : result A) (k : A -> result B) : result B :=
  match c with
  | Ok a => k a
  | Raise e => Raise e
  end.

Definition is_ok {A} (c : result A) : bool :=
  match c with Ok _ => true | Raise _ => false end.

(** Truth value of an [int], of an [int | None] and of a [str]. *)
Definition truthy_int (z : Z) : bool := negb (z =? 0).

Definition truthy_opt (o : option Z) : bool :=
  match o with
  | Some z => truthy_int z
  | None => false
  end.

Definition truthy_str (s : string) : bool :=
  match s with
  | EmptyString => false
  | String _ _ => true
  end.

Definition nonempty {A} (l : list A) : bool :=
  match l with [] => false | _ :: _ => true end.

(** [l[-1]] on a list known to be non-empty, with the value the callers
    use for the empty one. *)
Definition last_or {A} (l : list A) (d : A) : A := last l d.

(** [l[1:-1]] *)
Definition inner {A} (l : list A) : list A := removelast (tl l).

Definition len {A} (l : list A) : Z := Z.of_nat (List.length l).

(** ** Sets

    A [set] is represented by the list of the values inserted into it.
    Iterating over it (also [list(s)]) goes through an order that
    depends on hashes and on the table's history; all that the language
    promises is that every element comes exactly once. *)
Record SetOrder (A : Type) : Type := {
  iter : list A -> list A;
  iter_NoDup : forall l, NoDup (iter l);
  iter_In : forall l x, In x (iter l) <-> In x l
}.
Arguments iter {A} _ _.
Arguments iter_NoDup {A} _ _.
Arguments iter_In {A} _ _ _.

Definition mem (x : Z) (s : list Z) : bool := existsb (Z.eqb x) s.

(** One admissible order: every element at the place of its first
    insertion. *)
Fixpoint first_seen {A : Type} (eq_dec : forall x y : A, {x = y} + {x <> y})
         (l : list A) : list A :=
  match l with
  | [] => []
  | x :: t => x :: remove eq_dec x (first_seen eq_dec t)
  end.

(** ** Characters and strings *)

Definition is_space (c : ascii) : bool :=
  let n := nat_of_ascii c in
  (((9 <=? n) && (n <=? 13)) || ((28 <=? n) && (n <=? 32)))%nat.

Definition is_digit (c : ascii) : bool :=
  let n := nat_of_ascii c in ((48 <=? n) && (n <=? 57))%nat.

Definition digit_val (c : ascii) : Z := Z.of_nat (nat_of_ascii c) - 48.

Definition lower_char (c : ascii) : ascii :=
  let n := nat_of_ascii c in
  if ((65 <=? n) && (n <=? 90))%nat then ascii_of_nat (n + 32) else c.

Definition upper_char (c : ascii) : ascii :=
  let n := nat_of_ascii c in
  if ((97 <=? n) && (n <=? 122))%nat then ascii_of_nat (n - 32) else c.

Fixpoint lower (s : string) : string :=
  match s with
  | EmptyString => EmptyString
  | String c t => String (lower_char c) (lower t)
  end.

Fixpoint upper (s : string) : string :=
  match s with
  | EmptyString => EmptyString
  | String c t => String (upper_char c) (upper t)
  end.

Definition startswith (s p : string) : bool := String.prefix p s.

(** [c in s] for a one-character [c] *)
Fixpoint contains_char (c : ascii) (s : string) : bool :=
  match s with
  | EmptyString => false
  | String d t => Ascii.eqb c d || contains_char c t
  end.

(** [s.isdigit()] *)
Definition isdigit (s : string) : bool :=
  truthy_str s && forallb is_digit (list_ascii_of_string s).

(** [s.split()]: the maximal runs of non-blank characters *)
Fixpoint split_ws_from (cur : list ascii) (l : list ascii) : list string :=
  match l with
  | [] => match cur with
          | [] => []
          | _ => [string_of_list_ascii (rev cur)]
          end
  | c :: t =>
      if is_space c then
        match cur with
        | [] => split_ws_from [] t
        | _ => string_of_list_ascii (rev cur) :: split_ws_from [] t
        end
      else split_ws_from (c :: cur) t
  end.

Definition split_ws (s : string) : list string :=
  split_ws_from [] (list_ascii_of_string s).

(** [s.split(sep)] for a one-character separator *)
Fixpoint split_on_from (sep : ascii) (cur : list ascii) (l : list ascii)
  : list string :=
  match l with
  | [] => [string_of_list_ascii (rev cur)]
  | c :: t =>
      if Ascii.eqb c sep
      then string_of_list_ascii (rev cur) :: split_on_from sep [] t
      else split_on_from sep (c :: cur) t
  end.

Definition split_on (sep : ascii) (s : string) : list string :=
  split_on_from sep [] (list_ascii_of_string s).

(** [s.strip()] *)
Fixpoint lstrip (l : list ascii) : list ascii :=
  match l with
  | c :: t => if is_space c then lstrip t else l
  | [] => []
  end.

Definition strip (l : list ascii) : list ascii :=
  rev (lstrip (rev (lstrip l))).

(** [int(s)]: blanks around, an optional sign, decimal digits with
    single underscores between them; anything else is a [ValueError].
    (The interpreter's optional cap on the number of digits is not
    modelled.) *)
Fixpoint digits_from (acc : Z) (after_us : bool) (l : list ascii)
  : option Z :=
  match l with
  | [] => if after_us then None else Some acc
  | c :: t =>
      if is_digit c then digits_from (10 * acc + digit_val c) false t
      else if Ascii.eqb c "_" then
             if after_us then None else digits_from acc true t
           else None
  end.

Definition digits (l : list ascii) : option Z :=
  match l with
  | c :: t => if is_digit c then digits_from (digit_val c) false t else None
  | [] => None
  end.

Definition int_of_chars (l : list ascii) : option Z :=
  match strip l with
  | c :: t =>
      if Ascii.eqb c "-" then option_map Z.opp (digits t)
      else if Ascii.eqb c "+" then digits t
      else digits (c :: t)
  | [] => None
  end.

Definition int (s : string) : result Z :=
  match int_of_chars (list_ascii_of_string s) with
  | Some z => Ok z
  | None => Raise ValueError
  end.

(** [l[i]] with its [IndexError] *)
Definition index {A} (l : list A) (i : nat) : result A :=
  match nth_error l i with
  | Some a => Ok a
  | None => Raise IndexError
  end.

End Py.

Notation "x <- c ;; k" := (Py.bind c (fun x => k))
  (at level 61, c at next level, right associativity).

(* ================================================================== *)
(** * Provider records ([models/ripestat.py], [models/peeringdb.py])    *)
(* ================================================================== *)

(** Only the fields that the analysis code reads are kept. *)
Module RIPEstat.

Record RRCPeer : Type := { as_path : string }.
Record RRC : Type := { peers : list RRCPeer }.
Record LookingGlass : Type := { rrcs : list RRC }.

Record ROA : Type := {
  roa_origin : string;
  roa_prefix : string;
  max_length : Z;
  ta : string
}.

Record RPKIValidation : Type := {
  status : string;
  roas : list ROA;
  expected_origin : option Z;
  observed_origin : option Z
}.

Record ASOverview : Type := { holder : option string; rir : option string }.

(** [AnnouncedPrefixes]: the prefixes, as strings *)
Record AnnouncedPrefixes : Type := { prefixes : list string }.

Definition ipv4_prefixes (a : AnnouncedPrefixes) : list string :=
  filter (Py.contains_char ".") (prefixes a).
Definition ipv6_prefixes (a : AnnouncedPrefixes) : list string :=
  filter (Py.contains_char ":") (prefixes a).
Definition prefix_count (a : AnnouncedPrefixes) : Z := Py.len (prefixes a).

Record Neighbour : Type := { asn : Z; power : Z }.

Record ASNeighbours : Type := {
  upstreams : list Neighbour;
  downstreams : list Neighbour;
  left : list Neighbour;
  right : list Neighbour
}.

(** [check_rpki_status]: the prefixes filed under each status *)
Record RPKIByStatus : Type := {
  valid : list string;
  invalid : list string;
  not_found : list string
}.

End RIPEstat.

Module PeeringDB.

Record Network : Type := {
  name : string;
  info_type : string;
  website : string;
  org_id : Z;
  looking_glass : string;
  route_server : string;
  irr_as_set : string;
  policy_url : string;
  policy_general : string
}.

Record Organization : Type := { org_name : string; country : string }.

Record InternetExchange : Type := { ix_name : string }.

Record NetworkPresence : Type := {
  ix_count : Z;
  facility_count : Z;
  exchanges : list InternetExchange
}.

Record NetworkIXLan : Type := { ix_id : Z }.

End PeeringDB.

(* ================================================================== *)
(** * Analysis models ([analysis/models.py])                            *)
(* ================================================================== *)

Module Models.

Inductive HealthStatus : Type := HEALTHY | WARNING | HEALTH_CRITICAL | UNKNOWN.

(** [RiskLevel] has four members; there is no level below [LOW]. *)
Inductive RiskLevel : Type := LOW | MEDIUM | HIGH | CRITICAL.

Inductive AnomalyType : Type :=
| PREFIX_HIJACK | ROUTE_LEAK | PATH_CHANGE | VISIBILITY_DROP
| RPKI_INVALID | MOAS | SUBPREFIX_HIJACK | UNUSUAL_PATH_LENGTH.

Definition RiskLevel_eqb (a b : RiskLevel) : bool :=
  match a, b with
  | LOW, LOW | MEDIUM, MEDIUM | HIGH, HIGH | CRITICAL, CRITICAL => true
  | _, _ => false
  end.

Record ASNIdentity : Type := {
  asn : Z;
  name : string;
  org_name : string;
  country : string;
  rir : string;
  network_type : string;
  website : string
}.

Record RoutingFootprint : Type := {
  ipv4_prefixes : Z;
  ipv6_prefixes : Z;
  total_prefixes : Z;
  ipv4_addresses : Q;
  upstream_count : Z;
  downstream_count : Z;
  peer_count : Z
}.

Record RPKIStatus : Type := {
  has_roas : bool;
  valid_prefixes : Z;
  invalid_prefixes : Z;
  not_found_prefixes : Z;
  coverage_percent : Q
}.

Record ConnectivityProfile : Type := {
  ix_count : Z;
  facility_count : Z;
  peering_policy : string;
  has_looking_glass : bool;
  has_route_server : bool;
  irr_as_set : string;
  ixes : list string;
  top_upstreams : list Z
}.

Record AtlasCoverage : Type := {
  probe_count : Z;
  connected_probes : Z;
  anchor_count : Z;
  countries : list string
}.

Record ASNProfile : Type := {
  identity : ASNIdentity;
  footprint : RoutingFootprint;
  rpki : RPKIStatus;
  connectivity : ConnectivityProfile;
  atlas : AtlasCoverage;
  health : HealthStatus
}.

(** The values the model classes give to fields that are not set. *)
Definition RoutingFootprint_default : RoutingFootprint :=
  {| ipv4_prefixes := 0; ipv6_prefixes := 0; total_prefixes := 0;
     ipv4_addresses := 0%Q; upstream_count := 0; downstream_count := 0;
     peer_count := 0 |}.

Definition RPKIStatus_default : RPKIStatus :=
  {| has_roas := false; valid_prefixes := 0; invalid_prefixes := 0;
     not_found_prefixes := 0; coverage_percent := 0%Q |}.

Definition ConnectivityProfile_default : ConnectivityProfile :=
  {| ix_count := 0; facility_count := 0; peering_policy := "";
     has_looking_glass := false; has_route_server := false;
     irr_as_set := ""; ixes := []; top_upstreams := [] |}.

Definition AtlasCoverage_default : AtlasCoverage :=
  {| probe_count := 0; connected_probes := 0; anchor_count := 0;
     countries := [] |}.

Definition ASNIdentity_default (a : Z) : ASNIdentity :=
  {| asn := a; name := ""; org_name := ""; country := ""; rir := "";
     network_type := ""; website := "" |}.

Record PathHop : Type := {
  hop_asn : Z;
  position : Z;
  is_origin : bool;
  is_destination : bool
}.

Record ASPath : Type := {
  path : list Z;
  hops : list PathHop;
  length : Z;
  origin_asn : Z;
  has_prepending : bool;
  prepend_count : Z
}.

Record PathAnalysis : Type := {
  destination : string;
  path_count : Z;
  unique_paths : list ASPath;
  avg_path_length : Q;
  min_path_length : Z;
  max_path_length : Z;
  common_transit : list Z;
  origin_asns : list Z
}.

Definition PathAnalysis_default (resource : string) : PathAnalysis :=
  {| destination := resource; path_count := 0; unique_paths := [];
     avg_path_length := 0%Q; min_path_length := 0; max_path_length := 0;
     common_transit := []; origin_asns := [] |}.

(** [Anomaly.details], one constructor per detector; the description
    text is the detector's template filled with the same values. *)
Inductive Details : Type :=
| MoasDetails (origins : list Z) (paths_seen : Z)
| RpkiDetails (status : string) (roas : list RIPEstat.ROA)
| LongPathDetails (max_length : Z) (avg_length : Q)
| PrependDetails (prepended_path : list Z) (prepends : Z).

Record Anomaly : Type := {
  type : AnomalyType;
  severity : RiskLevel;
  resource : string;
  details : Details;
  expected_origin : option Z;
  observed_origin : option Z
}.

Record AnomalyReport : Type := {
  report_resource : string;
  anomalies : list Anomaly;
  risk_level : RiskLevel
}.

Definition is_critical (a : Anomaly) : bool :=
  RiskLevel_eqb (severity a) CRITICAL.

Definition anomaly_count (r : AnomalyReport) : Z := Py.len (anomalies r).

End Models.

(* ================================================================== *)
(** * [analysis/paths.py]: class [PathAnalyzer]                         *)
(* ================================================================== *)

Module PathAnalyzer.
Import Py Models.

(** [_parse_as_path]: AS-SET tokens and tokens that are not integers
    are skipped. *)
Definition parse_token (part : string) : list Z :=
  if startswith part "{" then []
  else match int part with
       | Ok z => [z]
       | Raise _ => []
       end.

Definition _parse_as_path (path_str : string) : list Z :=
  flat_map parse_token (split_ws path_str).

(** The prepending loop of [_create_as_path]: the positions [i >= 1]
    with [path[i] == path[i-1]]. *)
Fixpoint count_prepends (p : list Z) : Z :=
  match p with
  | a :: ((b :: _) as t) => (if a =? b then 1 else 0) + count_prepends t
  | _ => 0
  end.

Fixpoint hops_from (i n : Z) (p : list Z) : list PathHop :=
  match p with
  | [] => []
  | a :: t =>
      {| hop_asn := a; position := i; is_origin := i =? 0;
         is_destination := i =? n - 1 |} :: hops_from (i + 1) n t
  end.

Definition _create_as_path (p : list Z) : ASPath :=
  {| path := p;
     hops := hops_from 0 (len p) p;
     length := len p;
     origin_asn := last_or p 0;
     has_prepending := 0 <? count_prepends p;
     prepend_count := count_prepends p |}.

(** ** [collections.Counter]

    A counter is a dict: its keys stay in the order of their first
    insertion. *)
Definition Counter : Type := list (Z * Z).

Fixpoint counter_add (k : Z) (c : Counter) : Counter :=
  match c with
  | [] => [(k, 1)]
  | (k', n) :: t =>
      if k =? k' then (k', n + 1) :: t else (k', n) :: counter_add k t
  end.

(** [c.update(iterable)] *)
Definition counter_update (c : Counter) (ks : list Z) : Counter :=
  fold_left (fun acc k => counter_add k acc) ks c.

(** [c.most_common(n)]: by decreasing count, equal counts in the order
    of the dict. *)
Fixpoint insert_by_count (x : Z * Z) (sorted : list (Z * Z))
  : list (Z * Z) :=
  match sorted with
  | [] => [x]
  | y :: t =>
      if snd x <=? snd y then y :: insert_by_count x t else x :: y :: t
  end.

Definition most_common (n : nat) (c : Counter) : list (Z * Z) :=
  firstn n (fold_left (fun acc x => insert_by_count x acc) c []).

Section WithSetOrder.
(** The iteration orders of the sets of AS numbers and of paths. *)
Context (int_order : SetOrder Z) (path_order : SetOrder (list Z)).

(** [_find_common_transit(paths, threshold=0.5)].  [count >=
    len(paths) * 0.5] is [2 * count >= len(paths)]. *)
Definition transit_asns (p : list Z) : list Z :=
  if 2 <? len p then iter int_order (inner p) else [].

Definition _find_common_transit (paths : list (list Z)) : list Z :=
  match paths with
  | [] => []
  | _ =>
      let asn_counts :=
        fold_left (fun c p => counter_update c (transit_asns p))
                  paths [] in
      map fst
          (filter (fun '(_, count) => len paths <=? 2 * count)
                  (most_common 10 asn_counts))
  end.

(** The two nested loops of [analyze_paths] over the looking glass. *)
Definition peer_paths (peer : RIPEstat.RRCPeer) : list (list Z) :=
  if truthy_str (RIPEstat.as_path peer) then
    let p := _parse_as_path (RIPEstat.as_path peer) in
    if nonempty p then [p] else []
  else [].

Definition collect_paths (lg : RIPEstat.LookingGlass) : list (list Z) :=
  flat_map (fun rrc => flat_map peer_paths (RIPEstat.peers rrc))
           (RIPEstat.rrcs lg).

Definition sum_Z (l : list Z) : Z := fold_right Z.add 0 l.

Definition min_Z (l : list Z) : Z :=
  match l with [] => 0 | a :: t => fold_left Z.min t a end.

Definition max_Z (l : list Z) : Z :=
  match l with [] => 0 | a :: t => fold_left Z.max t a end.

(** [analyze_paths(resource)], given what [get_looking_glass(resource)]
    did. *)
Definition analyze_paths (resource : string)
           (lg_data : result RIPEstat.LookingGlass) : PathAnalysis :=
  match lg_data with
  | Raise _ => PathAnalysis_default resource
  | Ok lg =>
      let all_paths := collect_paths lg in
      let origin_set := map (fun p => last_or p 0) all_paths in
      match all_paths with
      | [] => PathAnalysis_default resource
      | _ =>
          let unique := iter path_order all_paths in
          let path_lengths := map (@len Z) unique in
          {| destination := resource;
             path_count := len all_paths;
             unique_paths := map _create_as_path (firstn 20 unique);
             avg_path_length :=
               Qmake (sum_Z path_lengths) (Z.to_pos (len path_lengths));
             min_path_length := min_Z path_lengths;
             max_path_length := max_Z path_lengths;
             common_transit := _find_common_transit all_paths;
             origin_asns := iter int_order origin_set |}
      end
  end.

(** ** Anomaly detection *)

(** What the three checks obtain from the provider.  The MOAS check and
    the unusual-path check each query the looking glass. *)
Record Observed : Type := {
  lg_for_moas : result RIPEstat.LookingGlass;
  rpki_validation : result RIPEstat.RPKIValidation;
  lg_for_paths : result RIPEstat.LookingGlass
}.

Definition _check_moas (resource : string)
           (lg : result RIPEstat.LookingGlass) : list Anomaly :=
  let analysis := analyze_paths resource lg in
  if 1 <? len (origin_asns analysis) then
    [ {| type := MOAS; severity := HIGH; resource := resource;
         details := MoasDetails (origin_asns analysis)
                                (path_count analysis);
         expected_origin := None; observed_origin := None |} ]
  else [].

Definition _check_rpki (resource : string)
           (v : result RIPEstat.RPKIValidation) : list Anomaly :=
  if startswith (upper resource) "AS" || isdigit resource then []
  else match v with
       | Raise _ => []
       | Ok validation =>
           if String.eqb (RIPEstat.status validation) "invalid" then
             [ {| type := RPKI_INVALID; severity := CRITICAL;
                  resource := resource;
                  details := RpkiDetails (RIPEstat.status validation)
                                         (RIPEstat.roas validation);
                  expected_origin := RIPEstat.expected_origin validation;
                  observed_origin := RIPEstat.observed_origin validation
               |} ]
           else []
       end.

Definition long_path_anomaly (resource : string) (a : PathAnalysis)
  : Anomaly :=
  {| type := UNUSUAL_PATH_LENGTH; severity := MEDIUM;
     resource := resource;
     details := LongPathDetails (max_path_length a) (avg_path_length a);
     expected_origin := None; observed_origin := None |}.

Definition prepend_anomaly (resource : string) (p : ASPath) : Anomaly :=
  {| type := UNUSUAL_PATH_LENGTH; severity := LOW;
     resource := resource;
     details := PrependDetails (path p) (prepend_count p);
     expected_origin := None; observed_origin := None |}.

(** The [for ... break] loop: the first stored path with more than five
    prepends, if there is one. *)
Definition first_prepended (ps : list ASPath) : option ASPath :=
  find (fun p => 5 <? prepend_count p) ps.

Definition _check_unusual_paths (resource : string)
           (lg : result RIPEstat.LookingGlass) : list Anomaly :=
  let analysis := analyze_paths resource lg in
  (if 10 <? max_path_length analysis
   then [long_path_anomaly resource analysis] else [])
  ++ match first_prepended (unique_paths analysis) with
     | Some p => [prepend_anomaly resource p]
     | None => []
     end.

Definition any_severity (s : RiskLevel) (l : list Anomaly) : bool :=
  existsb (fun a => RiskLevel_eqb (severity a) s) l.

(** The [if / elif / elif] that sets the report's level; the field
    keeps its default [RiskLevel.LOW] when no branch is taken. *)
Definition overall_risk (l : list Anomaly) : RiskLevel :=
  if any_severity CRITICAL l then CRITICAL
  else if any_severity HIGH l then HIGH
  else if any_severity MEDIUM l then MEDIUM
  else LOW.

Definition detect_anomalies (resource : string) (o : Observed)
  : AnomalyReport :=
  let found :=
    _check_moas resource (lg_for_moas o)
    ++ _check_rpki resource (rpki_validation o)
    ++ _check_unusual_paths resource (lg_for_paths o) in
  {| report_resource := resource;
     anomalies := found;
     risk_level := overall_risk found |}.

End WithSetOrder.

End PathAnalyzer.

(* ================================================================== *)
(** * [analysis/asn.py]: class [ASNAnalyzer]                            *)
(* ================================================================== *)

Module ASNAnalyzer.
Import Py Models.

(** [AtlasClient.get_asn_coverage]: the dict it builds always has these
    keys. *)
Record CoverageData : Type := {
  cov_probe_count : Z;
  cov_connected_probes : Z;
  cov_anchor_count : Z;
  cov_countries : list string
}.

(** What each provider call of one [get_profile] run did.  The network
    record is fetched once by [get_identity] and once by
    [get_connectivity_profile]. *)
Record Sources : Type := {
  as_overview : result RIPEstat.ASOverview;
  network_for_identity : result PeeringDB.Network;
  organization : Z -> result PeeringDB.Organization;
  announced_prefixes : result RIPEstat.AnnouncedPrefixes;
  as_neighbours : result RIPEstat.ASNeighbours;
  rpki_by_status : result RIPEstat.RPKIByStatus;
  network_presence : result PeeringDB.NetworkPresence;
  network_for_connectivity : result PeeringDB.Network;
  upstream_asns : result (list Z);
  asn_coverage : result CoverageData
}.

Definition or_empty (o : option string) : string :=
  match o with Some s => s | None => "" end.

(** [get_identity].  The first [try] swallows every exception; the
    second one only [PeeringDBNotFoundError], so any other failure of
    [get_network_by_asn] leaves the function as an exception. *)
Definition get_identity (a : Z) (src : Sources) : result ASNIdentity :=
  let identity := ASNIdentity_default a in
  let identity :=
    match as_overview src with
    | Ok overview =>
        {| asn := asn identity;
           name := or_empty (RIPEstat.holder overview);
           org_name := org_name identity; country := country identity;
           rir := or_empty (RIPEstat.rir overview);
           network_type := network_type identity;
           website := website identity |}
    | Raise _ => identity
    end in
  match network_for_identity src with
  | Ok network =>
      let name1 :=
        if truthy_str (name identity) then name identity
        else PeeringDB.name network in
      let '(org1, country1) :=
        if truthy_int (PeeringDB.org_id network) then
          match organization src (PeeringDB.org_id network) with
          | Ok org => (PeeringDB.org_name org, PeeringDB.country org)
          | Raise _ => (org_name identity, country identity)
          end
        else (org_name identity, country identity) in
      Ok {| asn := asn identity; name := name1;
            org_name := org1; country := country1;
            rir := rir identity;
            network_type := PeeringDB.info_type network;
            website := PeeringDB.website network |}
  | Raise PeeringDBNotFoundError => Ok identity
  | Raise e => Raise e
  end.

(** The address estimate of [get_routing_footprint]: a prefix without a
    slash ([IndexError]) or without a number after it ([ValueError]) is
    passed over. *)
Definition prefix_addresses (p : string) : Q :=
  match (piece <- index (split_on "/" p) 1 ;; int piece) with
  | Ok prefix_len => Qpower (2 # 1) (32 - prefix_len)
  | Raise _ => 0%Q
  end.

Definition get_routing_footprint (src : Sources) : RoutingFootprint :=
  let fp := RoutingFootprint_default in
  let fp :=
    match announced_prefixes src with
    | Ok prefixes =>
        {| ipv4_prefixes := len (RIPEstat.ipv4_prefixes prefixes);
           ipv6_prefixes := len (RIPEstat.ipv6_prefixes prefixes);
           total_prefixes := RIPEstat.prefix_count prefixes;
           ipv4_addresses :=
             fold_left (fun total p => Qplus total (prefix_addresses p))
                       (RIPEstat.ipv4_prefixes prefixes) 0%Q;
           upstream_count := upstream_count fp;
           downstream_count := downstream_count fp;
           peer_count := peer_count fp |}
    | Raise _ => fp
    end in
  match as_neighbours src with
  | Ok neighbours =>
      {| ipv4_prefixes := ipv4_prefixes fp;
         ipv6_prefixes := ipv6_prefixes fp;
         total_prefixes := total_prefixes fp;
         ipv4_addresses := ipv4_addresses fp;
         upstream_count := len (RIPEstat.upstreams neighbours);
         downstream_count := len (RIPEstat.downstreams neighbours);
         peer_count := len (RIPEstat.left neighbours)
                       + len (RIPEstat.right neighbours) |}
  | Raise _ => fp
  end.

Definition get_rpki_status (src : Sources) : RPKIStatus :=
  match rpki_by_status src with
  | Ok rpki_data =>
      let valid := len (RIPEstat.valid rpki_data) in
      let invalid := len (RIPEstat.invalid rpki_data) in
      let not_found := len (RIPEstat.not_found rpki_data) in
      let total := valid + invalid + not_found in
      {| has_roas := 0 <? valid;
         valid_prefixes := valid;
         invalid_prefixes := invalid;
         not_found_prefixes := not_found;
         coverage_percent :=
           if 0 <? total then Qmake (valid * 100) (Z.to_pos total)
           else 0%Q |}
  | Raise _ => RPKIStatus_default
  end.

(** [get_connectivity_profile].  The PeeringDB block assigns field by
    field, so a failure of the second call keeps what the first one
    gave.  The top upstreams come from RIPEstat. *)
Definition get_connectivity_profile (src : Sources) : ConnectivityProfile :=
  let profile := ConnectivityProfile_default in
  let profile :=
    match network_presence src with
    | Ok presence =>
        let profile :=
          {| ix_count := PeeringDB.ix_count presence;
             facility_count := PeeringDB.facility_count presence;
             peering_policy := peering_policy profile;
             has_looking_glass := has_looking_glass profile;
             has_route_server := has_route_server profile;
             irr_as_set := irr_as_set profile;
             ixes := map PeeringDB.ix_name
                         (firstn 10 (PeeringDB.exchanges presence));
             top_upstreams := top_upstreams profile |} in
        match network_for_connectivity src with
        | Ok network =>
            {| ix_count := ix_count profile;
               facility_count := facility_count profile;
               peering_policy := PeeringDB.policy_general network;
               has_looking_glass :=
                 truthy_str (PeeringDB.looking_glass network);
               has_route_server :=
                 truthy_str (PeeringDB.route_server network);
               irr_as_set := PeeringDB.irr_as_set network;
               ixes := ixes profile;
               top_upstreams := top_upstreams profile |}
        | Raise _ => profile
        end
    | Raise _ => profile
    end in
  match upstream_asns src with
  | Ok upstreams =>
      {| ix_count := ix_count profile;
         facility_count := facility_count profile;
         peering_policy := peering_policy profile;
         has_looking_glass := has_looking_glass profile;
         has_route_server := has_route_server profile;
         irr_as_set := irr_as_set profile;
         ixes := ixes profile;
         top_upstreams := firstn 5 upstreams |}
  | Raise _ => profile
  end.

Definition get_atlas_coverage (src : Sources) : AtlasCoverage :=
  match asn_coverage src with
  | Ok data =>
      {| probe_count := cov_probe_count data;
         connected_probes := cov_connected_probes data;
         anchor_count := cov_anchor_count data;
         countries := cov_countries data |}
  | Raise _ => AtlasCoverage_default
  end.

(** [_assess_health] *)
Definition _assess_health (footprint : RoutingFootprint)
           (rpki : RPKIStatus) (connectivity : ConnectivityProfile)
  : HealthStatus :=
  let issues := 0 in
  let issues :=
    if 0 <? invalid_prefixes rpki then issues + 2
    else if negb (has_roas rpki) then issues + 1
    else issues in
  let issues :=
    if upstream_count footprint <? 2 then issues + 1 else issues in
  let issues :=
    if ix_count connectivity =? 1 then issues + 1
    else if (ix_count connectivity =? 0)
            && (0 <? total_prefixes footprint) then issues + 1
    else issues in
  if 3 <=? issues then HEALTH_CRITICAL
  else if 2 <=? issues then WARNING
  else if issues =? 0 then HEALTHY
  else WARNING.

(** [get_profile]: [asyncio.gather] without [return_exceptions], so an
    exception of one facet coroutine is the exception of the call. *)
Definition get_profile (a : Z) (src : Sources) : result ASNProfile :=
  identity <- get_identity a src ;;
  let footprint := get_routing_footprint src in
  let rpki := get_rpki_status src in
  let connectivity := get_connectivity_profile src in
  let atlas := get_atlas_coverage src in
  let health := _assess_health footprint rpki connectivity in
  Ok {| identity := identity; footprint := footprint; rpki := rpki;
        connectivity := connectivity; atlas := atlas; health := health |}.

End ASNAnalyzer.

(* ================================================================== *)
(** * [collectors/bgpstream.py]: historical anomaly detection           *)
(* ================================================================== *)

Module BGPStream.
Import Py.

Module BGPEvent.
(** Timestamps are seconds on a time line. *)
Record t : Type := {
  timestamp : Z;
  event_type : string;
  prefix : string;
  as_path : list Z;
  origin_asn : option Z;
  collector : string;
  peer_asn : option Z
}.

Definition is_announcement (e : t) : bool := String.eqb (event_type e) "A".
Definition is_withdrawal (e : t) : bool := String.eqb (event_type e) "W".
End BGPEvent.

(** The [evidence] dict, one constructor per set of keys. *)
Inductive Evidence : Type :=
| MoreSpecificEvidence (as_path : list Z) (origin : option Z)
| LeakEvidence (as_path : list Z) (leaker : Z)
| HijackEvidence (as_path : list Z) (expected actual : Z)
| PathLeakEvidence (as_path baseline_path : list Z) (suspicious_as : Z)
| OriginChangeEvidence (origins : list Z).

Module AnomalyDetection.
Record t : Type := {
  anomaly_type : string;
  timestamp : Z;
  prefix : string;
  evidence : Evidence;
  severity : string
}.
End AnomalyDetection.

Import BGPEvent.
Definition Event : Type := BGPEvent.t.
Definition Detection : Type := AnomalyDetection.t.

Definition mk (ty : string) (ts : Z) (pfx : string) (ev : Evidence)
           (sev : string) : Detection :=
  {| AnomalyDetection.anomaly_type := ty;
     AnomalyDetection.timestamp := ts;
     AnomalyDetection.prefix := pfx;
     AnomalyDetection.evidence := ev;
     AnomalyDetection.severity := sev |}.

(** The accumulators of the main loop.  ([seen_paths] is written but
    never read, and is left out.) *)
Record State : Type := {
  anomalies : list Detection;
  seen_origins : list Z;
  suspicious_ases_seen : list Z
}.

Definition initial : State :=
  {| anomalies := []; seen_origins := []; suspicious_ases_seen := [] |}.

(** First pass: the announced, non-empty paths of at most three hops,
    in the order in which they enter [baseline_paths]. *)
Definition is_baseline (e : Event) : bool :=
  is_announcement e && nonempty (as_path e) && (len (as_path e) <=? 3).

Definition baseline_inserted (events : list Event) : list (list Z) :=
  map as_path (filter is_baseline events).

Definition truthy_prefix (p : option string) : bool :=
  match p with Some s => truthy_str s | None => false end.

(** The prefix-length comparison; the two [int(... .split("/")[1])] can
    raise. *)
Definition more_specific (expected_prefix : option string) (e : Event)
  : result (list Detection) :=
  match expected_prefix with
  | Some ep =>
      if truthy_str ep then
        piece <- index (split_on "/" ep) 1 ;;
        expected_len <- int piece ;;
        actual_len <-
          (if contains_char "/" (prefix e)
           then (p <- index (split_on "/" (prefix e)) 1 ;; int p)
           else Ok 32) ;;
        if (expected_len <? actual_len)
           && startswith (prefix e) (hd EmptyString (split_on "/" ep))
        then Ok [mk "more_specific" (timestamp e) (prefix e)
                    (MoreSpecificEvidence (as_path e) (origin_asn e))
                    "critical"]
        else Ok []
      else Ok []
  | None => Ok []
  end.

(** [if expected_origin and origin and origin != expected_origin] *)
Definition origin_check (expected_origin : option Z) (e : Event)
  : list Detection :=
  match expected_origin, origin_asn e with
  | Some expected, Some origin =>
      if truthy_int expected && truthy_int origin
         && negb (origin =? expected)
      then
        if mem expected (as_path e)
        then [mk "leak" (timestamp e) (prefix e)
                 (LeakEvidence (as_path e) origin) "high"]
        else [mk "hijack" (timestamp e) (prefix e)
                 (HijackEvidence (as_path e) expected origin) "critical"]
      else []
  | _, _ => []
  end.

Definition origin_is (expected_origin : option Z) (e : Event) : bool :=
  match expected_origin, origin_asn e with
  | Some expected, Some origin => truthy_int expected && (origin =? expected)
  | _, _ => false
  end.

(** [len(baseline) <= 2 and event.as_path[0] == baseline[0] and
    event.as_path[-1] == baseline[-1]] *)
Definition matches_baseline (e : Event) (baseline : list Z) : bool :=
  (len baseline <=? 2)
  && (hd 0 (as_path e) =? hd 0 baseline)
  && (last_or (as_path e) 0 =? last_or baseline 0).

(** The inner [for asn in extra_ases] loop. *)
Fixpoint flag_new (e : Event) (baseline : list Z) (asns : list Z)
         (seen : list Z) : list Detection * list Z :=
  match asns with
  | [] => ([], seen)
  | asn :: rest =>
      if mem asn seen then flag_new e baseline rest seen
      else
        let '(found, seen') := flag_new e baseline rest (asn :: seen) in
        (mk "path_leak" (timestamp e) (prefix e)
            (PathLeakEvidence (as_path e) baseline asn) "high" :: found,
         seen')
  end.

Section WithSetOrder.
Context (int_order : SetOrder Z) (path_order : SetOrder (list Z)).
(** [datetime.utcnow()] at the end of the run *)
Context (utcnow : Z).

(** Path-based leak detection for one event: the first baseline path,
    in the set's order, that passes the test decides, and the loop
    over the baseline stops there. *)
Definition path_leak (expected_origin : option Z)
           (baseline_inserted : list (list Z)) (e : Event)
           (seen : list Z) : list Detection * list Z :=
  if origin_is expected_origin e && (2 <? len (as_path e)) then
    let intermediate_ases := iter int_order (inner (as_path e)) in
    match find (matches_baseline e)
               (iter path_order baseline_inserted) with
    | Some baseline => flag_new e baseline intermediate_ases seen
    | None => ([], seen)
    end
  else ([], seen).

Definition track_origin (e : Event) (seen : list Z) : list Z :=
  match origin_asn e with
  | Some origin => if truthy_int origin then seen ++ [origin] else seen
  | None => seen
  end.

(** One turn of the main loop. *)
Definition step (expected_origin : option Z)
           (expected_prefix : option string)
           (baseline_inserted : list (list Z))
           (st : State) (e : Event) : result State :=
  if negb (is_announcement e) then Ok st
  else
    specific <- more_specific expected_prefix e ;;
    let mismatch := origin_check expected_origin e in
    let '(leaks, seen') :=
      path_leak expected_origin baseline_inserted e
                (suspicious_ases_seen st) in
    Ok {| anomalies := anomalies st ++ specific ++ mismatch ++ leaks;
          seen_origins := track_origin e (seen_origins st);
          suspicious_ases_seen := seen' |}.

Fixpoint run (expected_origin : option Z)
         (expected_prefix : option string)
         (baseline_inserted : list (list Z))
         (events : list Event) (st : State) : result State :=
  match events with
  | [] => Ok st
  | e :: rest =>
      st' <- step expected_origin expected_prefix baseline_inserted st e ;;
      run expected_origin expected_prefix baseline_inserted rest st'
  end.

(** The closing block: one [origin_change] per origin that is not the
    expected one, when more than one origin was seen. *)
Definition origin_changes (expected_origin : option Z)
           (expected_prefix : option string)
           (events : list Event) (seen : list Z) : list Detection :=
  match expected_origin with
  | Some expected =>
      if (1 <? len (iter int_order seen)) && truthy_int expected then
        let unexpected :=
          iter int_order
               (filter (fun a => negb (a =? expected)) seen) in
        map (fun _ =>
               mk "origin_change"
                  (match events with
                   | e :: _ => timestamp e
                   | [] => utcnow
                   end)
                  (match expected_prefix with
                   | Some p => if truthy_str p then p else "unknown"
                   | None => "unknown"
                   end)
                  (OriginChangeEvidence (iter int_order seen))
                  "high")
            unexpected
      else []
  | None => []
  end.

Definition detect_anomalies (events : list Event)
           (expected_origin : option Z)
           (expected_prefix : option string) : result (list Detection) :=
  let baseline := baseline_inserted events in
  st <- run expected_origin expected_prefix baseline events initial ;;
  Ok (anomalies st
      ++ origin_changes expected_origin expected_prefix events
                        (seen_origins st)).

End WithSetOrder.

End BGPStream.


(* ================================================================== *)
(** * [cli/commands.py]: [run_peer_risk], the composite peer score      *)
(* ================================================================== *)

Module PeerRisk.
Import Py.

(** The texts appended to [risk_data["warnings"]]. *)
Inductive Warning : Type :=
| NoIrrAsSet
| NoIxPresence
| NotInPeeringDB
| PeeringDBLookupFailed (e : exn)
| HighChurn
| SingleUpstream
| RestrictivePolicy.

(** The factor lines of the five categories. *)
Inductive Factor : Type :=
| PeeringDBRegistered
| IrrAsSet (as_set : string)
| PublishedPolicy
| StrongIxPresence (n : Z)
| GoodIxPresence (n : Z)
| LimitedIxPresence (n : Z)
| HighChurnFactor (penalty : Z)
| ModerateChurn (penalty : Z)
| SomeActivity (penalty : Z)
| StableRouting
| NoStabilityData (e : exn)
| SingleUpstreamFactor
| MultipleUpstreams (n : Z)
| MajorTransit (n : Z)
| NoTopology (e : exn)
| Announcing (n : Z)
| OpenPolicy
| SelectivePolicy
| RestrictivePolicyFactor
| OtherPolicy (policy : string)
| NoPolicyInformation
| IrrRegistered
| MultipleTransit.

(** [risk_data["network"]]: a dict; the keys read further down are
    options here, [None] for a key that was not set. *)
Inductive NetworkName : Type :=
| NameText (s : string)
| NameAS (target : Z).                 (* the text f"AS{target}" *)

Record NetworkInfo : Type := {
  net_name : NetworkName;
  policy : option string;
  irr_as_set : option string
}.

Record Category : Type := {
  score : Z;
  max : Z;
  factors : list Factor
}.

(** What the provider calls of one run did. *)
Record Sources : Type := {
  network : result PeeringDB.Network;
  ixlans : result (list PeeringDB.NetworkIXLan);
  my_ixlans : result (list PeeringDB.NetworkIXLan);
  update_count : result Z;             (* [len(updates.updates)] *)
  stability_prefixes : result Z;
  as_overview : result RIPEstat.ASOverview;
  as_neighbours : result RIPEstat.ASNeighbours;
  rpki_prefixes : result Z             (* [prefixes.prefix_count] *)
}.

Definition distinct (l : list Z) : list Z := nodup Z.eq_dec l.

(** ** 1. Network maturity (0-20)

    The result is the score, its factors, the warnings and the network
    dict.  The score and the warnings are local accumulators: what was
    added before an exception stays; the network dict is replaced by the
    handler.  (The IX-overlap figures computed when [my_asn] is given are
    attached to the report and enter no score; only the failure of their
    provider call is kept.) *)
Definition ix_tier (ix_count : Z) : Z * list Factor * list Warning :=
  if 10 <=? ix_count then (7, [StrongIxPresence ix_count], [])
  else if 5 <=? ix_count then (5, [GoodIxPresence ix_count], [])
  else if 1 <=? ix_count then (2, [LimitedIxPresence ix_count], [])
  else (0, [], [NoIxPresence]).

Definition maturity (target : Z) (my_asn : option Z) (src : Sources)
  : Category * list Warning * NetworkInfo :=
  match network src with
  | Ok net =>
      let has_irr := truthy_str (PeeringDB.irr_as_set net) in
      let has_url := truthy_str (PeeringDB.policy_url net) in
      let s1 := 5 + (if has_irr then 5 else 0) + (if has_url then 3 else 0) in
      let f1 := [PeeringDBRegistered]
                ++ (if has_irr then [IrrAsSet (PeeringDB.irr_as_set net)] else [])
                ++ (if has_url then [PublishedPolicy] else []) in
      let w1 := if has_irr then [] else [NoIrrAsSet] in
      let info :=
        {| net_name := NameText (PeeringDB.name net);
           policy := Some (PeeringDB.policy_general net);
           irr_as_set :=
             if has_irr then Some (PeeringDB.irr_as_set net) else None |} in
      let failed (sc : Z) (fs : list Factor) (ws : list Warning) (e : exn) :=
        match e with
        | PeeringDBNotFoundError =>
            ({| score := sc; max := 20; factors := fs |},
             ws ++ [NotInPeeringDB],
             {| net_name := NameAS target; policy := None;
                irr_as_set := None |})
        | _ =>
            ({| score := sc; max := 20; factors := fs |},
             ws ++ [PeeringDBLookupFailed e],
             {| net_name := NameAS target; policy := None;
                irr_as_set := None |})
        end in
      match ixlans src with
      | Ok conns =>
          let ix_count := len (distinct (map PeeringDB.ix_id conns)) in
          let '(s2, f2, w2) := ix_tier ix_count in
          if truthy_opt my_asn then
            match my_ixlans src with
            | Ok _ =>
                ({| score := s1 + s2; max := 20; factors := f1 ++ f2 |},
                 w1 ++ w2, info)
            | Raise e => failed (s1 + s2) (f1 ++ f2) (w1 ++ w2) e
            end
          else
            ({| score := s1 + s2; max := 20; factors := f1 ++ f2 |},
             w1 ++ w2, info)
      | Raise e => failed s1 f1 w1 e
      end
  | Raise PeeringDBNotFoundError =>
      ({| score := 0; max := 20; factors := [] |}, [NotInPeeringDB],
       {| net_name := NameAS target; policy := None; irr_as_set := None |})
  | Raise e =>
      ({| score := 0; max := 20; factors := [] |}, [PeeringDBLookupFailed e],
       {| net_name := NameAS target; policy := None; irr_as_set := None |})
  end.

(** ** 2. Stability (0-30)

    [updates_per_day = update_count / max(days, 1)] is compared and
    divided as an exact quotient: [updates_per_day > k] is
    [update_count > k * d], and [int(updates_per_day / k)] is the integer
    quotient by [k * d]. *)
Definition stability (days : Z) (src : Sources) : Category * list Warning :=
  match update_count src with
  | Ok n =>
      let d := Z.max days 1 in
      let '(penalty, fs, ws) :=
        if 100 * d <? n then
          let p := Z.min 25 (Z.quot n (20 * d)) in
          (p, [HighChurnFactor p], [HighChurn])
        else if 50 * d <? n then
          let p := Z.min 15 (Z.quot n (10 * d)) in
          (p, [ModerateChurn p], [])
        else if 10 * d <? n then
          let p := Z.min 5 (Z.quot n (5 * d)) in
          (p, [SomeActivity p], [])
        else (0, [StableRouting], []) in
      let fs := match stability_prefixes src with
                | Ok _ => fs
                | Raise e => fs ++ [NoStabilityData e]
                end in
      ({| score := Z.max 0 (30 - penalty); max := 30;
          factors := fs |}, ws)
  | Raise e =>
      ({| score := 30; max := 30; factors := [NoStabilityData e] |}, [])
  end.

(** ** 3. Incident history (0-30)

    Also gives [risk_data["topology"]["upstreams"]] when it was set. *)
Definition incident_history (src : Sources)
  : Category * list Warning * option Z :=
  let '(sc, fs, ws, topo) :=
    match as_overview src with
    | Ok _ =>
        match as_neighbours src with
        | Ok nb =>
            let up := len (RIPEstat.upstreams nb) in
            let down := len (RIPEstat.downstreams nb) in
            let '(sc, fs, ws) :=
              if up =? 1 then (25, [SingleUpstreamFactor], [SingleUpstream])
              else if 3 <=? up then (30, [MultipleUpstreams up], [])
              else (30, [], []) in
            (sc, fs ++ (if 100 <? down then [MajorTransit down] else []),
             ws, Some up)
        | Raise e => (30, [NoTopology e], [], None)
        end
    | Raise e => (30, [NoTopology e], [], None)
    end in
  let fs := match rpki_prefixes src with
            | Ok n => if 0 <? n then fs ++ [Announcing n] else fs
            | Raise _ => fs
            end in
  ({| score := Z.max 0 sc; max := 30; factors := fs |}, ws, topo).

(** ** 4. Policy compatibility (0-10)

    [policy = risk_data.get("network", {}).get("policy", "Unknown")]:
    a missing key reads as the text ["Unknown"]. *)
Definition policy_of (info : NetworkInfo) : string :=
  match policy info with
  | Some p => p
  | None => "Unknown"
  end.

Definition policy_category (info : NetworkInfo) : Category * list Warning :=
  let policy := policy_of info in
  if truthy_str policy then
    let policy_lower := lower policy in
    if String.eqb policy_lower "open" then
      ({| score := 10; max := 10; factors := [OpenPolicy] |}, [])
    else if String.eqb policy_lower "selective" then
      ({| score := 7; max := 10; factors := [SelectivePolicy] |}, [])
    else if String.eqb policy_lower "restrictive" then
      ({| score := 3; max := 10; factors := [RestrictivePolicyFactor] |},
       [RestrictivePolicy])
    else
      ({| score := 5; max := 10; factors := [OtherPolicy policy] |}, [])
  else
    ({| score := 0; max := 10; factors := [NoPolicyInformation] |}, []).

(** ** 5. Security posture (0-10) *)
Definition security (info : NetworkInfo) (topology_upstreams : option Z)
  : Category :=
  let irr := match irr_as_set info with
             | Some s => truthy_str s
             | None => false
             end in
  let multi := match topology_upstreams with
               | Some n => 2 <=? n
               | None => false
               end in
  {| score := Z.min 10 (5 + (if irr then 3 else 0) + (if multi then 2 else 0));
     max := 10;
     factors := (if irr then [IrrRegistered] else [])
                ++ (if multi then [MultipleTransit] else []) |}.

(** ** Total and risk level *)
Definition risk_level_of (total_score : Z) : string * string :=
  if 80 <=? total_score then ("LOW"%string, "RECOMMENDED"%string)
  else if 60 <=? total_score then ("MODERATE"%string, "ACCEPTABLE"%string)
  else if 40 <=? total_score then ("ELEVATED"%string, "CAUTION"%string)
  else ("HIGH"%string, "NOT RECOMMENDED"%string).

Record Assessment : Type := {
  scores : list (string * Category);
  warnings : list Warning;
  network_info : NetworkInfo;
  total_score : Z;
  max_score : Z;
  risk_level : string;
  recommendation : string
}.

(** [risk_data["scores"][key]] *)
Definition category (key : string) (a : Assessment) : option Category :=
  option_map snd (find (fun kc => String.eqb (fst kc) key) (scores a)).

Definition run_peer_risk (target : Z) (my_asn : option Z) (days : Z)
           (src : Sources) : Assessment :=
  let '(m, w1, info) := maturity target my_asn src in
  let '(s, w2) := stability days src in
  let '(i, w3, topo) := incident_history src in
  let info :=
    match as_overview src with
    | Ok overview =>
        match RIPEstat.holder overview with
        | Some h => if truthy_str h
                    then {| net_name := NameText h; policy := policy info;
                            irr_as_set := irr_as_set info |}
                    else info
        | None => info
        end
    | Raise _ => info
    end in
  let '(p, w4) := policy_category info in
  let sec := security info topo in
  let scores := [("maturity", m); ("stability", s); ("incident_history", i);
                 ("policy", p); ("security", sec)]%string in
  let total := fold_right Z.add 0 (map (fun c => score (snd c)) scores) in
  {| scores := scores;
     warnings := w1 ++ w2 ++ w3 ++ w4;
     network_info := info;
     total_score := total;
     max_score := fold_right Z.add 0 (map (fun c => max (snd c)) scores);
     risk_level := fst (risk_level_of total);
     recommendation := snd (risk_level_of total) |}.

End PeerRisk.


(* ================================================================== *)
(** * The specification's own wording                                   *)
(* ================================================================== *)

(** Definitions that follow the text of the specification, to be
    compared with the code above. *)
Module Spec.
Import Py Models.

(** Section 4.2: the issue counter, term by term. *)
Definition spec_issue_count (footprint : RoutingFootprint)
           (rpki : RPKIStatus) (connectivity : ConnectivityProfile) : Z :=
  (if 0 <? invalid_prefixes rpki then 2
   else if has_roas rpki then 0 else 1)
  + (if upstream_count footprint <? 2 then 1 else 0)
  + (if (ix_count connectivity =? 1)
        || ((ix_count connectivity =? 0)
            && (0 <? total_prefixes footprint))
     then 1 else 0).

(** Section 4.2: issues >= 3 critical, 2 warning, 1 warning, 0 healthy. *)
Definition spec_health_of_issues (issues : Z) : HealthStatus :=
  if 3 <=? issues then HEALTH_CRITICAL
  else if issues =? 2 then WARNING
  else if issues =? 1 then WARNING
  else HEALTHY.

(** The figures that the issue count reads, as the providers answered
    in one [get_profile] run; a call that failed contributes nothing. *)
Definition fetched_invalid_prefixes (src : ASNAnalyzer.Sources) : Z :=
  match ASNAnalyzer.rpki_by_status src with
  | Ok data => len (RIPEstat.invalid data)
  | Raise _ => 0
  end.

Definition fetched_has_roas (src : ASNAnalyzer.Sources) : bool :=
  match ASNAnalyzer.rpki_by_status src with
  | Ok data => 0 <? len (RIPEstat.valid data)
  | Raise _ => false
  end.

Definition fetched_upstream_count (src : ASNAnalyzer.Sources) : Z :=
  match ASNAnalyzer.as_neighbours src with
  | Ok neighbours => len (RIPEstat.upstreams neighbours)
  | Raise _ => 0
  end.

Definition fetched_ix_count (src : ASNAnalyzer.Sources) : Z :=
  match ASNAnalyzer.network_presence src with
  | Ok presence => PeeringDB.ix_count presence
  | Raise _ => 0
  end.

Definition fetched_total_prefixes (src : ASNAnalyzer.Sources) : Z :=
  match ASNAnalyzer.announced_prefixes src with
  | Ok announced => len (RIPEstat.prefixes announced)
  | Raise _ => 0
  end.

(** Section 4.2 again, over what was fetched. *)
Definition spec_issues_fetched (src : ASNAnalyzer.Sources) : Z :=
  (if 0 <? fetched_invalid_prefixes src then 2
   else if fetched_has_roas src then 0 else 1)
  + (if fetched_upstream_count src <? 2 then 1 else 0)
  + (if (fetched_ix_count src =? 1)
        || ((fetched_ix_count src =? 0)
            && (0 <? fetched_total_prefixes src))
     then 1 else 0).

(** Section 4.1: critical > high > medium > low > none. *)
Inductive spec_level : Type :=
| level_none | level_low | level_medium | level_high | level_critical.

Definition spec_rank (l : spec_level) : Z :=
  match l with
  | level_none => 0
  | level_low => 1
  | level_medium => 2
  | level_high => 3
  | level_critical => 4
  end.

Definition level_of (r : RiskLevel) : spec_level :=
  match r with
  | LOW => level_low
  | MEDIUM => level_medium
  | HIGH => level_high
  | CRITICAL => level_critical
  end.

Definition spec_higher (a b : spec_level) : spec_level :=
  if spec_rank a <? spec_rank b then b else a.

(** "the highest severity among all collected anomalies", from [bottom]
    when there is none *)
Definition spec_highest_from (bottom : spec_level) (l : list Anomaly)
  : spec_level :=
  fold_right (fun a acc => spec_higher (level_of (severity a)) acc) bottom l.

Definition spec_highest (l : list Anomaly) : spec_level :=
  spec_highest_from level_none l.

(** Every provider call of a [get_profile] run raises. *)
Definition every_source_fails (src : ASNAnalyzer.Sources) : Prop :=
  is_ok (ASNAnalyzer.as_overview src) = false
  /\ is_ok (ASNAnalyzer.network_for_identity src) = false
  /\ (forall org, is_ok (ASNAnalyzer.organization src org) = false)
  /\ is_ok (ASNAnalyzer.announced_prefixes src) = false
  /\ is_ok (ASNAnalyzer.as_neighbours src) = false
  /\ is_ok (ASNAnalyzer.rpki_by_status src) = false
  /\ is_ok (ASNAnalyzer.network_presence src) = false
  /\ is_ok (ASNAnalyzer.network_for_connectivity src) = false
  /\ is_ok (ASNAnalyzer.upstream_asns src) = false
  /\ is_ok (ASNAnalyzer.asn_coverage src) = false.

(** Every PeeringDB call of a [get_profile] run raises. *)
Definition every_peeringdb_call_fails (src : ASNAnalyzer.Sources) : Prop :=
  is_ok (ASNAnalyzer.network_for_identity src) = false
  /\ (forall org, is_ok (ASNAnalyzer.organization src org) = false)
  /\ is_ok (ASNAnalyzer.network_presence src) = false
  /\ is_ok (ASNAnalyzer.network_for_connectivity src) = false.

(** The number of anomalies of a given severity. *)
Definition count_severity (s : RiskLevel) (l : list Anomaly) : nat :=
  List.length (filter (fun a => RiskLevel_eqb (severity a) s) l).

(** The raw paths that one looking-glass query yields: none when the
    query fails. *)
Definition observed_paths (lg_data : result RIPEstat.LookingGlass)
  : list (list Z) :=
  match lg_data with
  | Ok lg => PathAnalyzer.collect_paths lg
  | Raise _ => []
  end.

Definition many_prepends (p : list Z) : bool :=
  5 <? PathAnalyzer.count_prepends p.

(** ** Historical anomaly detection *)

(** The AS number that a detection flags as injected into a path. *)
Definition suspicious_of (d : BGPStream.Detection) : list Z :=
  match BGPStream.AnomalyDetection.evidence d with
  | BGPStream.PathLeakEvidence _ _ a => [a]
  | _ => []
  end.

Definition flagged (l : list BGPStream.Detection) : list Z :=
  flat_map suspicious_of l.

(** The type and the severity that go with each kind of evidence. *)
Definition kind_of (ev : BGPStream.Evidence) : string * string :=
  match ev with
  | BGPStream.MoreSpecificEvidence _ _ =>
      ("more_specific"%string, "critical"%string)
  | BGPStream.LeakEvidence _ _ => ("leak"%string, "high"%string)
  | BGPStream.HijackEvidence _ _ _ => ("hijack"%string, "critical"%string)
  | BGPStream.PathLeakEvidence _ _ _ => ("path_leak"%string, "high"%string)
  | BGPStream.OriginChangeEvidence _ =>
      ("origin_change"%string, "high"%string)
  end.

Definition coherent (d : BGPStream.Detection) : Prop :=
  (BGPStream.AnomalyDetection.anomaly_type d,
   BGPStream.AnomalyDetection.severity d)
  = kind_of (BGPStream.AnomalyDetection.evidence d).

(** A detection that classifies an origin mismatch. *)
Definition is_origin_verdict (d : BGPStream.Detection) : bool :=
  String.eqb (BGPStream.AnomalyDetection.anomaly_type d) "leak"
  || String.eqb (BGPStream.AnomalyDetection.anomaly_type d) "hijack".

(** The two detections of the origin check. *)
Definition leak_of (e : BGPStream.Event) (origin : Z) : BGPStream.Detection :=
  BGPStream.mk "leak" (BGPStream.BGPEvent.timestamp e)
               (BGPStream.BGPEvent.prefix e)
               (BGPStream.LeakEvidence (BGPStream.BGPEvent.as_path e) origin)
               "high".

Definition hijack_of (e : BGPStream.Event) (expected origin : Z)
  : BGPStream.Detection :=
  BGPStream.mk "hijack" (BGPStream.BGPEvent.timestamp e)
               (BGPStream.BGPEvent.prefix e)
               (BGPStream.HijackEvidence (BGPStream.BGPEvent.as_path e)
                                         expected origin)
               "critical".

Definition path_leak_of (e : BGPStream.Event) (baseline : list Z) (asn : Z)
  : BGPStream.Detection :=
  BGPStream.mk "path_leak" (BGPStream.BGPEvent.timestamp e)
               (BGPStream.BGPEvent.prefix e)
               (BGPStream.PathLeakEvidence (BGPStream.BGPEvent.as_path e)
                                           baseline asn)
               "high".

(** The announcement [e] passes the path-based test against the baseline
    path [b]: expected origin, more than two hops, and a baseline path of
    at most two hops with the same first and last AS. *)
Definition qualifies (expected_origin : option Z)
           (baseline : list (list Z)) (e : BGPStream.Event) (b : list Z)
  : Prop :=
  BGPStream.BGPEvent.is_announcement e = true
  /\ BGPStream.origin_is expected_origin e = true
  /\ 2 < len (BGPStream.BGPEvent.as_path e)
  /\ In b baseline
  /\ BGPStream.matches_baseline e b = true.

(** Where a path-leak detection comes from. *)
Definition from_qualifying (expected_origin : option Z)
           (baseline : list (list Z)) (events : list BGPStream.Event)
           (d : BGPStream.Detection) : Prop :=
  match BGPStream.AnomalyDetection.evidence d with
  | BGPStream.PathLeakEvidence _ b a =>
      exists e, In e events
                /\ qualifies expected_origin baseline e b
                /\ In a (inner (BGPStream.BGPEvent.as_path e))
                /\ d = path_leak_of e b a
  | _ => True
  end.

(** ** The origin check and the path-based check, in the words of the
    description *)

(** The origin check applies to an announcement when an expected origin
    is given and is not 0, the observed origin is present and is not 0,
    and the two differ. *)
Definition checked (expected_origin : option Z) (e : BGPStream.Event)
  : bool :=
  match expected_origin, BGPStream.BGPEvent.origin_asn e with
  | Some expected, Some origin =>
      negb (expected =? 0) && negb (origin =? 0)
      && negb (origin =? expected)
  | _, _ => false
  end.

(** Its verdict: a leak when the expected origin occurs in the path, a
    hijack otherwise; nothing when the check does not apply. *)
Definition spec_origin_verdict (expected_origin : option Z)
           (e : BGPStream.Event) : list BGPStream.Detection :=
  match expected_origin, BGPStream.BGPEvent.origin_asn e with
  | Some expected, Some origin =>
      if (expected =? 0) || (origin =? 0) || (origin =? expected) then []
      else if existsb (Z.eqb expected) (BGPStream.BGPEvent.as_path e)
           then [leak_of e origin]
           else [hijack_of e expected origin]
  | _, _ => []
  end.

(** The path-based check applies to the announcement [e] of the run and
    the path [b]: the origin of [e] is the expected origin, which is not
    0; the path of [e] has more than two hops; [b] is an announced path
    of the run, not empty and of at most two hops, with the first and the
    last AS of the path of [e]. *)
Definition spec_qualifies (expected_origin : option Z)
           (events : list BGPStream.Event) (e : BGPStream.Event)
           (b : list Z) : Prop :=
  exists expected,
    expected_origin = Some expected /\ expected <> 0
    /\ In e events
    /\ BGPStream.BGPEvent.is_announcement e = true
    /\ BGPStream.BGPEvent.origin_asn e = Some expected
    /\ 2 < len (BGPStream.BGPEvent.as_path e)
    /\ (exists e0, In e0 events
                   /\ BGPStream.BGPEvent.is_announcement e0 = true
                   /\ BGPStream.BGPEvent.as_path e0 = b)
    /\ b <> [] /\ len b <= 2
    /\ hd 0 b = hd 0 (BGPStream.BGPEvent.as_path e)
    /\ last b 0 = last (BGPStream.BGPEvent.as_path e) 0.

End Spec.


(* ================================================================== *)
(** * Concrete runs                                                     *)
(* ================================================================== *)

(** Inputs used below to run the embedded code. *)
Module Runs.
Import Py.
Local Open Scope string_scope.

Definition a_network (irr url policy : string) : PeeringDB.Network :=
  {| PeeringDB.name := "EXAMPLE-NET"; PeeringDB.info_type := "NSP";
     PeeringDB.website := ""; PeeringDB.org_id := 7;
     PeeringDB.looking_glass := ""; PeeringDB.route_server := "";
     PeeringDB.irr_as_set := irr; PeeringDB.policy_url := url;
     PeeringDB.policy_general := policy |}.

Definition neighbours_with (ups : list Z) : RIPEstat.ASNeighbours :=
  {| RIPEstat.upstreams :=
       map (fun a => {| RIPEstat.asn := a; RIPEstat.power := 1 |}) ups;
     RIPEstat.downstreams := []; RIPEstat.left := []; RIPEstat.right := [] |}.

Definition an_overview : RIPEstat.ASOverview :=
  {| RIPEstat.holder := Some "EXAMPLE-NET"; RIPEstat.rir := Some "RIPE" |}.

(** A registered network with an as-set, no policy URL, no IX, a
    selective policy, quiet routing and one upstream: 10+30+25+7+8. *)
Definition peer_scoring_80 : PeerRisk.Sources :=
  {| PeerRisk.network := Ok (a_network "AS-EXAMPLE" "" "Selective");
     PeerRisk.ixlans := Ok [];
     PeerRisk.my_ixlans := Ok [];
     PeerRisk.update_count := Ok 0%Z;
     PeerRisk.stability_prefixes := Ok 4%Z;
     PeerRisk.as_overview := Ok an_overview;
     PeerRisk.as_neighbours := Ok (neighbours_with [174%Z]);
     PeerRisk.rpki_prefixes := Ok 4%Z |}.

(** The same network with a policy URL and a restrictive policy:
    13+30+25+3+8. *)
Definition peer_scoring_79 : PeerRisk.Sources :=
  {| PeerRisk.network :=
       Ok (a_network "AS-EXAMPLE" "https://example.net/peering" "Restrictive");
     PeerRisk.ixlans := Ok [];
     PeerRisk.my_ixlans := Ok [];
     PeerRisk.update_count := Ok 0%Z;
     PeerRisk.stability_prefixes := Ok 4%Z;
     PeerRisk.as_overview := Ok an_overview;
     PeerRisk.as_neighbours := Ok (neighbours_with [174%Z]);
     PeerRisk.rpki_prefixes := Ok 4%Z |}.

(** A target that PeeringDB does not know. *)
Definition peer_unregistered : PeerRisk.Sources :=
  {| PeerRisk.network := Raise PeeringDBNotFoundError;
     PeerRisk.ixlans := Raise PeeringDBNotFoundError;
     PeerRisk.my_ixlans := Raise PeeringDBNotFoundError;
     PeerRisk.update_count := Ok 0%Z;
     PeerRisk.stability_prefixes := Ok 4%Z;
     PeerRisk.as_overview := Ok an_overview;
     PeerRisk.as_neighbours := Ok (neighbours_with [174%Z; 3356%Z]);
     PeerRisk.rpki_prefixes := Ok 4%Z |}.

(** Every source of a profile fails; PeeringDB answers "not found". *)
Definition nothing_answers : ASNAnalyzer.Sources :=
  {| ASNAnalyzer.as_overview := Raise RIPEstatError;
     ASNAnalyzer.network_for_identity := Raise PeeringDBNotFoundError;
     ASNAnalyzer.organization := fun _ => Raise PeeringDBNotFoundError;
     ASNAnalyzer.announced_prefixes := Raise RIPEstatError;
     ASNAnalyzer.as_neighbours := Raise RIPEstatError;
     ASNAnalyzer.rpki_by_status := Raise RIPEstatError;
     ASNAnalyzer.network_presence := Raise PeeringDBNotFoundError;
     ASNAnalyzer.network_for_connectivity := Raise PeeringDBNotFoundError;
     ASNAnalyzer.upstream_asns := Raise RIPEstatError;
     ASNAnalyzer.asn_coverage := Raise (OtherException "AtlasError") |}.

(** PeeringDB answers "not found" throughout; RIPEstat works and reports
    two upstreams and three prefixes. *)
Definition only_peeringdb_not_found : ASNAnalyzer.Sources :=
  {| ASNAnalyzer.as_overview := Ok an_overview;
     ASNAnalyzer.network_for_identity := Raise PeeringDBNotFoundError;
     ASNAnalyzer.organization := fun _ => Raise PeeringDBNotFoundError;
     ASNAnalyzer.announced_prefixes :=
       Ok {| RIPEstat.prefixes :=
               ["192.0.2.0/24"; "198.51.100.0/24"; "2001:db8::/32"] |};
     ASNAnalyzer.as_neighbours := Ok (neighbours_with [174%Z; 3356%Z]);
     ASNAnalyzer.rpki_by_status :=
       Ok {| RIPEstat.valid := ["192.0.2.0/24"]; RIPEstat.invalid := [];
             RIPEstat.not_found := ["198.51.100.0/24"; "2001:db8::/32"] |};
     ASNAnalyzer.network_presence := Raise PeeringDBNotFoundError;
     ASNAnalyzer.network_for_connectivity := Raise PeeringDBNotFoundError;
     ASNAnalyzer.upstream_asns := Ok [174%Z; 3356%Z];
     ASNAnalyzer.asn_coverage :=
       Ok {| ASNAnalyzer.cov_probe_count := 2%Z;
             ASNAnalyzer.cov_connected_probes := 1%Z;
             ASNAnalyzer.cov_anchor_count := 0%Z;
             ASNAnalyzer.cov_countries := ["NL"] |} |}.

(** PeeringDB is rate limited throughout; everything else as above. *)
Definition peeringdb_rate_limited : ASNAnalyzer.Sources :=
  {| ASNAnalyzer.as_overview := Ok an_overview;
     ASNAnalyzer.network_for_identity := Raise PeeringDBError;
     ASNAnalyzer.organization := fun _ => Raise PeeringDBError;
     ASNAnalyzer.announced_prefixes :=
       ASNAnalyzer.announced_prefixes only_peeringdb_not_found;
     ASNAnalyzer.as_neighbours :=
       ASNAnalyzer.as_neighbours only_peeringdb_not_found;
     ASNAnalyzer.rpki_by_status :=
       ASNAnalyzer.rpki_by_status only_peeringdb_not_found;
     ASNAnalyzer.network_presence := Raise PeeringDBError;
     ASNAnalyzer.network_for_connectivity := Raise PeeringDBError;
     ASNAnalyzer.upstream_asns := Ok [174%Z; 3356%Z];
     ASNAnalyzer.asn_coverage :=
       ASNAnalyzer.asn_coverage only_peeringdb_not_found |}.

(** ** Looking-glass answers *)

Definition looking_glass_of (paths : list string) : RIPEstat.LookingGlass :=
  {| RIPEstat.rrcs :=
       [ {| RIPEstat.peers :=
              map (fun s => {| RIPEstat.as_path := s |}) paths |} ] |}.

(** Three peers: two report the same path. *)
Definition three_paths : RIPEstat.LookingGlass :=
  looking_glass_of ["100 200 300"; "100 200 300"; "400 200 300"].

(** Twenty-one distinct paths: twenty of two hops, then one whose origin
    is prepended six times.  (CPython 3.11 on a 64-bit build iterates
    over the set of these tuples in this very order.) *)
Definition twenty_one_paths : RIPEstat.LookingGlass :=
  looking_glass_of
    ["340 7"; "2382 7"; "2952 7"; "738 7"; "1825 7"; "170 7"; "830 7";
     "1400 7"; "1182 7"; "2597 7"; "2883 7"; "779 7"; "209 7"; "1895 7";
     "418 7"; "440 7"; "156 7"; "1780 7"; "2304 7"; "2119 7";
     "2 7 7 7 7 7 7 7"].

Definition one_prepended_path : RIPEstat.LookingGlass :=
  looking_glass_of ["64500 64501 64501 64501 64501 64501 64501 64501"].

(** No provider answers. *)
Definition no_data : PathAnalyzer.Observed :=
  {| PathAnalyzer.lg_for_moas := Raise RIPEstatError;
     PathAnalyzer.rpki_validation := Raise RIPEstatError;
     PathAnalyzer.lg_for_paths := Raise RIPEstatError |}.

(** One path with six prepends is seen; RPKI says "valid". *)
Definition prepended_data : PathAnalyzer.Observed :=
  {| PathAnalyzer.lg_for_moas := Ok one_prepended_path;
     PathAnalyzer.rpki_validation :=
       Ok {| RIPEstat.status := "valid"; RIPEstat.roas := [];
             RIPEstat.expected_origin := None;
             RIPEstat.observed_origin := None |};
     PathAnalyzer.lg_for_paths := Ok one_prepended_path |}.

(** ** Historical events *)

Definition announce (ts : Z) (pfx : string) (path : list Z)
           (origin : option Z) : BGPStream.Event :=
  {| BGPStream.BGPEvent.timestamp := ts;
     BGPStream.BGPEvent.event_type := "A";
     BGPStream.BGPEvent.prefix := pfx;
     BGPStream.BGPEvent.as_path := path;
     BGPStream.BGPEvent.origin_asn := origin;
     BGPStream.BGPEvent.collector := "route-views2";
     BGPStream.BGPEvent.peer_asn := hd_error path |}.

(** AS 13335 originates the prefix, seen directly by AS 174. *)
Definition normal_event : BGPStream.Event :=
  announce 1719511200 "1.1.1.0/24" [174%Z; 13335%Z] (Some 13335%Z).

(** AS 267613 appears as origin behind AS 13335. *)
Definition leaked_event : BGPStream.Event :=
  announce 1719513000 "1.1.1.0/24" [3356%Z; 13335%Z; 267613%Z]
           (Some 267613%Z).

Definition backtest_events : list BGPStream.Event :=
  repeat normal_event 100 ++ [leaked_event].

(** An announcement whose path ends in AS 0. *)
Definition as0_event : BGPStream.Event :=
  announce 1719513000 "1.1.1.0/24" [174%Z; 0%Z] (Some 0%Z).

(** A three-hop path that enters the baseline, then the same endpoints
    with AS 666 in between. *)
Definition three_hop_event : BGPStream.Event :=
  announce 1719511200 "1.1.1.0/24" [1%Z; 2%Z; 3%Z] (Some 3%Z).

Definition injected_event : BGPStream.Event :=
  announce 1719513000 "1.1.1.0/24" [1%Z; 2%Z; 666%Z; 3%Z] (Some 3%Z).

(** A two-hop path that enters the baseline, then the same endpoints
    with AS 666 and AS 667 in between. *)
Definition direct_event : BGPStream.Event :=
  announce 1719511200 "1.1.1.0/24" [1%Z; 3%Z] (Some 3%Z).

Definition detour_event : BGPStream.Event :=
  announce 1719513000 "1.1.1.0/24" [1%Z; 666%Z; 667%Z; 3%Z] (Some 3%Z).

End Runs.


(* ================================================================== *)
(** * Derived members of the models ([analysis/models.py])              *)
(* ================================================================== *)

Module ModelProperties.
Import Py Models.

(** [RPKIStatus.is_deployed] *)
Definition is_deployed (r : RPKIStatus) : bool :=
  has_roas r && negb (Qle_bool (coverage_percent r) 50).

(** [AnomalyReport.critical_count] *)
Definition critical_count (r : AnomalyReport) : Z :=
  len (filter is_critical (anomalies r)).

End ModelProperties.

(* ================================================================== *)
(** * Notions used to state the further properties                     *)
(* ================================================================== *)

Module Facts.
Import Py Models.

(** The number of raw paths that have [k] strictly between their first
    and their last hop. *)
Definition interior_count (k : Z) (paths : list (list Z)) : Z :=
  len (filter (fun p => (2 <? len p) && mem k (inner p)) paths).

(** The count that a counter holds for [k]: 0 for a missing key. *)
Definition count_of (k : Z) (c : PathAnalyzer.Counter) : Z :=
  match find (fun kc => fst kc =? k) c with
  | Some kc => snd kc
  | None => 0
  end.

(** The AS numbers that occur strictly inside some raw path. *)
Definition interior_asns (paths : list (list Z)) : list Z :=
  flat_map (fun p => if 2 <? len p then inner p else []) paths.

(** The resource names an AS and not a prefix, as [_check_rpki] tests
    it. *)
Definition names_an_as (resource : string) : bool :=
  startswith (upper resource) "AS" || isdigit resource.

(** Two of the paths end in different AS numbers. *)
Definition two_origins (paths : list (list Z)) : Prop :=
  exists p q, In p paths /\ In q paths /\ last p 0 <> last q 0.

End Facts.

(** Conditions on what the anomaly checks observe. *)
Module Checks.
Import Py Models.

(** The validation says "invalid" for a resource that is not an AS. *)
Definition rpki_says_invalid (resource : string)
           (v : result RIPEstat.RPKIValidation) : bool :=
  negb (Facts.names_an_as resource)
  && match v with
     | Ok validation => String.eqb (RIPEstat.status validation) "invalid"
     | Raise _ => false
     end.

(** Some observed path has more than ten hops. *)
Definition long_path (paths : list (list Z)) : Prop :=
  exists p, In p paths /\ 10 < len p.

End Checks.

(* ================================================================== *)
(** * [analysis/asn.py]: [get_recommendations]                          *)
(* ================================================================== *)

Module Recommendations.
Import Py Models.

Inductive RecommendationType : Type :=
| PEER_WITH | JOIN_IX | DEPLOY_RPKI | ADD_UPSTREAM | MONITOR_PREFIX
| UPDATE_IRR.

(** The description texts; the two formatted ones carry their value. *)
Inductive Description : Type :=
| InvalidStatus (invalid_prefixes : Z)
| NoRoasFound
| OnlyCovered (coverage_percent : Q)
| SingleUpstreamPoint
| NoIxDetected
| NoAsSetFound.

Record Recommendation : Type := {
  type : RecommendationType;
  priority : RiskLevel;
  title : string;
  description : Description;
  impact : string;
  effort : string
}.

(** [a < b] on floats *)
Definition Qlt_bool (a b : Q) : bool := negb (Qle_bool b a).

Definition rpki_recommendation (rpki : RPKIStatus) : list Recommendation :=
  if 0 <? invalid_prefixes rpki then
    [ {| type := DEPLOY_RPKI; priority := HIGH;
         title := "Fix invalid RPKI ROAs";
         description := InvalidStatus (invalid_prefixes rpki);
         impact := "Prevents route filtering by RPKI-validating networks";
         effort := "medium" |} ]
  else if negb (has_roas rpki) then
    [ {| type := DEPLOY_RPKI; priority := MEDIUM;
         title := "Deploy RPKI ROAs";
         description := NoRoasFound;
         impact := "Protects against prefix hijacking";
         effort := "low" |} ]
  else if Qlt_bool (coverage_percent rpki) 100 then
    [ {| type := DEPLOY_RPKI; priority := LOW;
         title := "Complete RPKI coverage";
         description := OnlyCovered (coverage_percent rpki);
         impact := "Full protection against hijacking";
         effort := "low" |} ]
  else [].

Definition recommendations_of (profile : ASNProfile) : list Recommendation :=
  rpki_recommendation (rpki profile)
  ++ (if upstream_count (footprint profile) <? 2 then
        [ {| type := ADD_UPSTREAM; priority := HIGH;
             title := "Add upstream diversity";
             description := SingleUpstreamPoint;
             impact := "Improves resilience and redundancy";
             effort := "high" |} ]
      else [])
  ++ (if (ix_count (connectivity profile) =? 0)
         && (10 <? total_prefixes (footprint profile)) then
        [ {| type := JOIN_IX; priority := MEDIUM;
             title := "Consider joining an IX";
             description := NoIxDetected;
             impact := "Reduces latency and transit costs through peering";
             effort := "medium" |} ]
      else [])
  ++ (if negb (truthy_str (irr_as_set (connectivity profile))) then
        [ {| type := UPDATE_IRR; priority := LOW;
             title := "Register IRR as-set";
             description := NoAsSetFound;
             impact := "Enables automated prefix filtering by peers";
             effort := "low" |} ]
      else []).

(** [get_recommendations(asn)] *)
Definition get_recommendations (a : Z) (src : ASNAnalyzer.Sources)
  : result (list Recommendation) :=
  profile <- ASNAnalyzer.get_profile a src ;;
  Ok (recommendations_of profile).

End Recommendations.

(* ================================================================== *)
(** * [analysis/analyzer.py]: the health score of a report              *)
(* ================================================================== *)

Module RouteSherlock.
Import Py Models.

(** The fields of [AnalysisReport] that the score reads. *)
Record AnalysisReport : Type := {
  profile : option ASNProfile;
  anomalies : option AnomalyReport
}.

(** [min(a, b)] and [max(a, b)]: the first argument unless the second is
    strictly smaller, respectively larger. *)
Definition min (a b : Q) : Q := if Recommendations.Qlt_bool b a then b else a.
Definition max (a b : Q) : Q := if Recommendations.Qlt_bool a b then b else a.

(** [_calculate_health_score].  The factor [0.1] is one tenth. *)
Definition _calculate_health_score (report : AnalysisReport) : Q :=
  let score := 100%Q in
  match profile report with
  | None => 50%Q
  | Some p =>
      let score :=
        if 0 <? invalid_prefixes (rpki p) then (score - 30)%Q
        else if negb (has_roas (rpki p)) then (score - 20)%Q
        else if Recommendations.Qlt_bool (coverage_percent (rpki p)) 100
             then (score - (100 - coverage_percent (rpki p)) * (1 # 10))%Q
             else score in
      let score :=
        if upstream_count (footprint p) <? 2 then (score - 15)%Q else score in
      let score :=
        if ix_count (connectivity p) =? 0 then (score - 10)%Q else score in
      let score :=
        match anomalies report with
        | Some r =>
            match risk_level r with
            | CRITICAL => (score - 30)%Q
            | HIGH => (score - 20)%Q
            | MEDIUM => (score - 10)%Q
            | LOW => score
            end
        | None => score
        end in
      let score :=
        match health p with
        | HEALTH_CRITICAL => min score 40
        | WARNING => min score 70
        | _ => score
        end in
      max 0 (min 100 score)
  end.

End RouteSherlock.

(** What a stream of events holds, for the statements on the historical
    detection. *)
Module Stream.
Import Py BGPStream BGPStream.BGPEvent.

(** The origin that an announcement adds to the origins seen. *)
Definition counted_origin (e : Event) : list Z :=
  match origin_asn e with
  | Some origin => if truthy_int origin then [origin] else []
  | None => []
  end.

Definition origins_seen (events : list Event) : list Z :=
  flat_map counted_origin (filter is_announcement events).

Definition of_type (ty : string) (d : Detection) : bool :=
  String.eqb (AnomalyDetection.anomaly_type d) ty.

(** The detections of the prefix-length comparison for one event. *)
Definition specifics (expected_prefix : option string) (e : Event)
  : list Detection :=
  match more_specific expected_prefix e with
  | Ok l => l
  | Raise _ => []
  end.

(** The one detection that the closing block repeats. *)
Definition origin_change_of (utcnow : Z) (expected_prefix : option string)
           (events : list Event) (origins : list Z) : Detection :=
  mk "origin_change"
     (match events with
      | e :: _ => timestamp e
      | [] => utcnow
      end)
     (match expected_prefix with
      | Some p => if truthy_str p then p else "unknown"
      | None => "unknown"
      end)
     (OriginChangeEvidence origins)
     "high".

(** The origins seen other than the expected one, each counted once,
    when an expected origin is given and two origins were seen. *)
Definition unexpected_count (expected_origin : option Z) (seen : list Z)
  : nat :=
  match expected_origin with
  | Some expected =>
      if truthy_int expected
         && (1 <? len (nodup Z.eq_dec seen))
      then List.length
             (nodup Z.eq_dec (filter (fun a => negb (a =? expected)) seen))
      else 0%nat
  | None => 0%nat
  end.

(** What a run over [evs] appends to the detections: no origin change;
    the more-specific detections of each announcement, in order; every
    leak or hijack from the origin check of an announcement; every path
    leak from an announcement with the expected origin and more than two
    hops. *)
Definition run_added (expected_origin : option Z)
           (expected_prefix : option string) (evs : list Event)
           (added : list Detection) : Prop :=
  filter (of_type "origin_change") added = []
  /\ filter (of_type "more_specific") added
     = flat_map (specifics expected_prefix) (filter is_announcement evs)
  /\ Forall (fun d =>
               (of_type "leak" d || of_type "hijack" d = true ->
                exists e, In e evs /\ is_announcement e = true
                          /\ In d (origin_check expected_origin e))
               /\ (of_type "path_leak" d = true ->
                   exists e, In e evs /\ is_announcement e = true
                             /\ origin_is expected_origin e = true
                             /\ 2 < len (as_path e))
               /\ (of_type "more_specific" d
                   || of_type "leak" d
                   || of_type "hijack" d
                   || of_type "path_leak" d = true))
            added.

(** The mask length read from a prefix: [int(p.split("/")[1])]. *)
Definition mask_length (p : string) : result Z :=
  piece <- index (split_on "/" p) 1 ;; int piece.

End Stream.

(* ================================================================== *)
(** * Resource names: [normalize_asn], [_normalize_resource]            *)
(* ================================================================== *)

From Stdlib Require DecimalString DecimalN DecimalPos.

Module Normalize.
Import Py.

(** [str(n)] for a natural number: its decimal digits. *)
Definition decimal (n : N) : string :=
  DecimalString.NilZero.string_of_uint (N.to_uint n).

(** [s.strip()] on a string *)
Definition str_strip (s : string) : string :=
  string_of_list_ascii (strip (list_ascii_of_string s)).

(** [s.replace("AS", "")]: the occurrences found from left to right,
    without looking again at what a removal brings together. *)
Fixpoint remove_AS (l : list ascii) : list ascii :=
  match l with
  | [] => []
  | c :: t =>
      match t with
      | d :: t' =>
          if Ascii.eqb c "A" && Ascii.eqb d "S" then remove_AS t'
          else c :: remove_AS t
      | [] => [c]
      end
  end.

Definition replace_AS (s : string) : string :=
  string_of_list_ascii (remove_AS (list_ascii_of_string s)).

(** [cli/commands.py]:
    [int(asn.strip().upper().replace("AS", ""))] *)
Definition normalize_asn (asn : string) : result Z :=
  int (replace_AS (upper (str_strip asn))).

(** [collectors/ripestat.py]: [RIPEstatClient._normalize_resource] *)
Definition _normalize_resource (resource : string) : string :=
  let resource := upper (str_strip resource) in
  if isdigit resource then ("AS" ++ resource)%string else resource.

End Normalize.

(* ================================================================== *)
(** * [cache/store.py]: class [MemoryCache]                             *)
(* ================================================================== *)

Module MemoryCache.
Import Py.

Section WithValue.
Context {V : Type}.

(** [self._store]: a dict from keys to [(value, expires_at)], in the
    order of insertion.  Times are seconds, as [time.time()] gives them;
    each operation reads the clock once, the [now] it is given. *)
Definition Entry : Type := (V * option Q)%type.
Definition Store : Type := list (string * Entry).

Fixpoint lookup (key : string) (st : Store) : option Entry :=
  match st with
  | [] => None
  | (k, e) :: t => if String.eqb k key then Some e else lookup key t
  end.

(** [del self._store[key]] and [self._store.pop(key, None)] *)
Fixpoint remove (key : string) (st : Store) : Store :=
  match st with
  | [] => []
  | (k, e) :: t => if String.eqb k key then t else (k, e) :: remove key t
  end.

(** [self._store[key] = entry] *)
Fixpoint assign (key : string) (entry : Entry) (st : Store) : Store :=
  match st with
  | [] => [(key, entry)]
  | (k, e) :: t =>
      if String.eqb k key then (k, entry) :: t
      else (k, e) :: assign key entry t
  end.

(** [expires_at is not None and now > expires_at] *)
Definition expired (now : Q) (expires_at : option Q) : bool :=
  match expires_at with
  | Some t => negb (Qle_bool now t)
  | None => false
  end.

Definition get (now : Q) (key : string) (st : Store) : option V * Store :=
  match lookup key st with
  | None => (None, st)
  | Some (value, expires_at) =>
      if expired now expires_at then (None, remove key st)
      else (Some value, st)
  end.

(** [expires_at = time.time() + ttl if ttl else None] *)
Definition set (now : Q) (key : string) (value : V) (ttl : option Z)
           (st : Store) : Store :=
  let expires_at :=
    match ttl with
    | Some t => if truthy_int t then Some (now + inject_Z t)%Q else None
    | None => None
    end in
  assign key (value, expires_at) st.

Definition delete (key : string) (st : Store) : Store := remove key st.

Definition clear (st : Store) : Store := [].

Definition cleanup_expired (now : Q) (st : Store) : Z * Store :=
  let expired_keys :=
    map fst (filter (fun kv => expired now (snd (snd kv))) st) in
  (len expired_keys, fold_left (fun s key => remove key s) expired_keys st).

Definition size (st : Store) : Z := len st.

(** A dict holds each key once. *)
Definition well_formed (st : Store) : Prop := NoDup (map fst st).

End WithValue.

End MemoryCache.

(* ================================================================== *)
(** * [collectors/bgpstream.py]: [investigate_incident]                 *)
(* ================================================================== *)

Module Incident.
Import Py.

(** One value of the [timeline] dict. *)
Module Minute.
Record t : Type := {
  announcements : Z;
  withdrawals : Z;
  anomalies : Z
}.
Definition zero : t :=
  {| announcements := 0; withdrawals := 0; anomalies := 0 |}.
Definition announced (c : t) : t :=
  {| announcements := announcements c + 1; withdrawals := withdrawals c;
     anomalies := anomalies c |}.
Definition withdrawn (c : t) : t :=
  {| announcements := announcements c; withdrawals := withdrawals c + 1;
     anomalies := anomalies c |}.
Definition flagged (c : t) : t :=
  {| announcements := announcements c; withdrawals := withdrawals c;
     anomalies := anomalies c + 1 |}.
End Minute.

(** [sep.join(parts)] *)
Fixpoint join (sep : string) (parts : list string) : string :=
  match parts with
  | [] => EmptyString
  | p :: rest =>
      match rest with
      | [] => p
      | _ :: _ => (p ++ sep ++ join sep rest)%string
      end
  end.

(** [timestamp.replace(second=0, microsecond=0)], on seconds *)
Definition minute_of (ts : Z) : Z := 60 * (ts / 60).

(** The [timeline] dict, from minutes to counts, in insertion order. *)
Definition Timeline : Type := list (Z * Minute.t).

Definition has (minute : Z) (t : Timeline) : bool :=
  existsb (fun mc => fst mc =? minute) t.

(** [timeline[minute][...] += 1] on a key that is present *)
Fixpoint update (minute : Z) (f : Minute.t -> Minute.t) (t : Timeline)
  : Timeline :=
  match t with
  | [] => []
  | (m, c) :: rest =>
      if m =? minute then (m, f c) :: rest
      else (m, c) :: update minute f rest
  end.

Definition count_event (t : Timeline) (e : BGPStream.Event) : Timeline :=
  let minute := minute_of (BGPStream.BGPEvent.timestamp e) in
  let t := if has minute t then t else t ++ [(minute, Minute.zero)] in
  if BGPStream.BGPEvent.is_announcement e
  then update minute Minute.announced t
  else update minute Minute.withdrawn t.

Definition count_anomaly (t : Timeline) (d : BGPStream.Detection)
  : Timeline :=
  let minute := minute_of (BGPStream.AnomalyDetection.timestamp d) in
  if has minute t then update minute Minute.flagged t else t.

(** [sorted(timeline.items())]: the keys differ, so the order is that of
    the minutes. *)
Fixpoint insert_by_minute (x : Z * Minute.t) (sorted : Timeline) : Timeline :=
  match sorted with
  | [] => [x]
  | y :: rest =>
      if fst x <? fst y then x :: y :: rest
      else y :: insert_by_minute x rest
  end.

Definition sorted_items (t : Timeline) : Timeline :=
  fold_right insert_by_minute [] t.

(** The AS numbers that one anomaly adds to [involved_ases]: its
    ["as_path"] and its ["leaker"], where the evidence has these keys. *)
Definition evidence_ases (ev : BGPStream.Evidence) : list Z :=
  match ev with
  | BGPStream.MoreSpecificEvidence p _ => p
  | BGPStream.LeakEvidence p leaker => p ++ [leaker]
  | BGPStream.HijackEvidence p _ _ => p
  | BGPStream.PathLeakEvidence p _ _ => p
  | BGPStream.OriginChangeEvidence _ => []
  end.

(** The report, without the fields copied from the arguments
    ([timeframe], [collectors_queried]). *)
Record Report : Type := {
  prefix : string;
  expected_origin : Z;
  total_events : Z;
  announcements : Z;
  withdrawals : Z;
  anomalies : list BGPStream.Detection;
  involved_ases : list Z;
  timeline : Timeline;
  first_anomaly : option Z
}.

(** The network part of the prefix with a final dot, as
    ["1.1.1."] for ["1.1.1.0/24"]. *)
Definition prefix_network (prefix : string) : string :=
  let prefix_base := hd EmptyString (split_on "/" prefix) in
  (join "." (firstn 3 (split_on "." prefix_base)) ++ ".")%string.

Definition relevant (prefix : string) (e : BGPStream.Event) : bool :=
  startswith (BGPStream.BGPEvent.prefix e) (prefix_network prefix)
  || String.eqb (BGPStream.BGPEvent.prefix e) prefix.

Section WithSetOrder.
Context (int_order : SetOrder Z) (path_order : SetOrder (list Z)).
Context (utcnow : Z).

(** [investigate_incident], given what [get_updates] did for the time
    window. *)
Definition investigate_incident (prefix : string) (expected_origin : Z)
           (updates : result (list BGPStream.Event)) : result Report :=
  events <- updates ;;
  let relevant_events := filter (relevant prefix) events in
  anomalies <-
    BGPStream.detect_anomalies int_order path_order utcnow relevant_events
                               (Some expected_origin) (Some prefix) ;;
  let timeline := fold_left count_event relevant_events [] in
  let timeline := fold_left count_anomaly anomalies timeline in
  let involved :=
    flat_map (fun d => evidence_ases (BGPStream.AnomalyDetection.evidence d))
             anomalies in
  Ok {| prefix := prefix;
        expected_origin := expected_origin;
        total_events := len relevant_events;
        announcements :=
          len (filter BGPStream.BGPEvent.is_announcement relevant_events);
        withdrawals :=
          len (filter BGPStream.BGPEvent.is_withdrawal relevant_events);
        anomalies := anomalies;
        involved_ases :=
          iter int_order (List.remove Z.eq_dec expected_origin involved);
        timeline := sorted_items timeline;
        first_anomaly :=
          match anomalies with
          | d :: _ => Some (BGPStream.AnomalyDetection.timestamp d)
          | [] => None
          end |}.

End WithSetOrder.

(** The sum of one count over a timeline. *)
Definition total (g : Minute.t -> Z) (t : Timeline) : Z :=
  fold_right (fun mc acc => g (snd mc) + acc) 0 t.

End Incident.

(* ================================================================== *)
(** * [analysis/peering.py]: class [PeeringAnalyzer]                    *)
(* ================================================================== *)

Module PeeringAnalyzer.
Import Py.

(** [PeeringOpportunity]: the exchange of each common IX, and the
    common facilities by name. *)
Record PeeringOpportunity : Type := {
  common_ixes : list PeeringDB.InternetExchange;
  common_facilities : list string
}.

Definition opportunity_count (o : PeeringOpportunity) : Z :=
  len (common_ixes o) + len (common_facilities o).

(** The texts appended to [blockers]. *)
Inductive Blocker : Type :=
| NoCommonLocations
| RestrictivePolicyOf (name : string).

(** The texts that [_get_peering_recommendation] returns. *)
Inductive Advice : Type :=
| EstablishAt (best_ix : string)
| NegotiationNeeded
| JoinCommonIxFirst
| PrivatePeeringPossible
| NoImmediateOpportunity.

Definition _get_peering_recommendation (opportunity : PeeringOpportunity)
           (feasibility : string) (blockers : list Blocker) : Advice :=
  match (if String.eqb feasibility "high"
         then hd_error (common_ixes opportunity) else None) with
  | Some best => EstablishAt (PeeringDB.ix_name best)
  | None =>
      if String.eqb feasibility "medium" then
        if nonempty (common_ixes opportunity) then NegotiationNeeded
        else JoinCommonIxFirst
      else if negb (nonempty (common_ixes opportunity))
              && nonempty (common_facilities opportunity)
           then PrivatePeeringPossible
           else NoImmediateOpportunity
  end.

(** The analysis dict, without the fields copied from the inputs. *)
Record Analysis : Type := {
  count : Z;
  feasibility : string;
  blockers : list Blocker;
  recommendation : Advice
}.

Inductive Outcome : Type :=
| Analysed (a : Analysis)
| ErrorOnly.                       (* the dict with the one key "error" *)

Definition restrictive (net : PeeringDB.Network) : bool :=
  String.eqb (lower (PeeringDB.policy_general net)) "restrictive".

(** [analyze_peering_opportunity], given what the three PeeringDB calls
    did; the second and third are reached only when the ones before
    returned. *)
Definition analyze_peering_opportunity
           (opportunity : result PeeringOpportunity)
           (net1 net2 : result PeeringDB.Network) : result Outcome :=
  match (o <- opportunity ;; n1 <- net1 ;; n2 <- net2 ;; Ok (o, n1, n2)) with
  | Ok (o, n1, n2) =>
      let feasibility := "high"%string in
      let blockers := [] in
      let '(feasibility, blockers) :=
        if negb (nonempty (common_ixes o))
           && negb (nonempty (common_facilities o))
        then ("low"%string, blockers ++ [NoCommonLocations])
        else (feasibility, blockers) in
      let '(feasibility, blockers) :=
        if restrictive n2
        then (if String.eqb feasibility "high" then "medium"%string
              else feasibility,
              blockers ++ [RestrictivePolicyOf (PeeringDB.name n2)])
        else (feasibility, blockers) in
      let '(feasibility, blockers) :=
        if restrictive n1
        then (if String.eqb feasibility "high" then "medium"%string
              else feasibility,
              blockers ++ [RestrictivePolicyOf (PeeringDB.name n1)])
        else (feasibility, blockers) in
      Ok (Analysed
            {| count := opportunity_count o;
               feasibility := feasibility;
               blockers := blockers;
               recommendation :=
                 _get_peering_recommendation o feasibility blockers |})
  | Raise PeeringDBNotFoundError => Ok ErrorOnly
  | Raise e => Raise e
  end.

(** ** [find_common_peers] *)

(** [sorted(s)] on AS numbers *)
Fixpoint insert_sorted (x : Z) (sorted : list Z) : list Z :=
  match sorted with
  | [] => [x]
  | y :: rest => if x <? y then x :: y :: rest else y :: insert_sorted x rest
  end.

Definition sorted (l : list Z) : list Z := fold_right insert_sorted [] l.

(** A loop whose body can raise. *)
Fixpoint fold_result {A B : Type} (f : A -> B -> result A) (l : list B)
         (a : A) : result A :=
  match l with
  | [] => Ok a
  | b :: rest => a' <- f a b ;; fold_result f rest a'
  end.

(** One turn of the loop over the common exchanges: [members] are the AS
    numbers of the members of the exchange. *)
Definition members_step (asn1 asn2 : Z) (get_ix_members : Z -> result (list Z))
           (acc : list Z * list Z) (ix_id : Z) : result (list Z * list Z) :=
  member_asns <- get_ix_members ix_id ;;
  Ok ((if mem asn1 member_asns then fst acc ++ member_asns else fst acc),
      (if mem asn2 member_asns then snd acc ++ member_asns else snd acc)).

Section WithSetOrder.
Context (int_order : SetOrder Z).

Definition common_peers_or_raise (asn1 asn2 : Z)
           (conn1 conn2 : result (list PeeringDB.NetworkIXLan))
           (get_ix_members : Z -> result (list Z)) : result (list Z) :=
  c1 <- conn1 ;;
  c2 <- conn2 ;;
  let ix_ids1 := map PeeringDB.ix_id c1 in
  let ix_ids2 := map PeeringDB.ix_id c2 in
  let common_ix_ids :=
    iter int_order (filter (fun i => mem i ix_ids2) ix_ids1) in
  if negb (nonempty common_ix_ids) then Ok []
  else
    acc <- fold_result (members_step asn1 asn2 get_ix_members)
                       common_ix_ids ([], []) ;;
    let common := filter (fun a => mem a (snd acc)) (fst acc) in
    let common :=
      List.remove Z.eq_dec asn2 (List.remove Z.eq_dec asn1 common) in
    Ok (sorted (iter int_order common)).

(** [find_common_peers]: any exception gives the empty list. *)
Definition find_common_peers (asn1 asn2 : Z)
           (conn1 conn2 : result (list PeeringDB.NetworkIXLan))
           (get_ix_members : Z -> result (list Z)) : list Z :=
  match common_peers_or_raise asn1 asn2 conn1 conn2 get_ix_members with
  | Ok l => l
  | Raise _ => []
  end.

End WithSetOrder.

(** What the statements on [find_common_peers] speak of: the exchanges
    where both networks have a port, and the members met there next to
    one of them. *)
Definition common_ix (c1 c2 : list PeeringDB.NetworkIXLan) (ix : Z) : Prop :=
  In ix (map PeeringDB.ix_id c1) /\ In ix (map PeeringDB.ix_id c2).

Definition met_at (get_ix_members : Z -> result (list Z))
           (c1 c2 : list PeeringDB.NetworkIXLan) (asn k : Z) : Prop :=
  exists ix members,
    common_ix c1 c2 ix /\ get_ix_members ix = Ok members
    /\ In asn members /\ In k members.

(** ** [find_peering_candidates] *)

(** The fields of a PeeringDB network record that are read here. *)
Record Network : Type := {
  name : string;
  policy_general : string;
  info_ratio : string
}.

(** [PeeringCandidate].  The score is a float; every value it takes is a
    sum of whole numbers. *)
Record PeeringCandidate : Type := {
  asn : Z;
  candidate_name : string;
  peering_policy : string;
  common_ix_count : Z;
  candidate_ixes : list string;
  traffic_ratio : string;
  score : Z
}.

(** [_score_candidate] *)
Definition _score_candidate (candidate : PeeringCandidate)
           (upstream_asns : list Z) : Z :=
  let score := 0 in
  let score :=
    if String.eqb (lower (peering_policy candidate)) "open" then score + 2
    else if String.eqb (lower (peering_policy candidate)) "selective"
         then score + 1
         else score in
  let score := score + common_ix_count candidate * 1 in
  let score := if mem (asn candidate) upstream_asns then score + 3
               else score in
  if String.eqb (lower (traffic_ratio candidate)) "balanced"
     || String.eqb (lower (traffic_ratio candidate)) "mostly inbound"
  then score + 1 else score.

(** [upstream_asns]: empty when the neighbour lookup fails. *)
Definition upstreams_or_none (neighbours : result RIPEstat.ASNeighbours)
  : list Z :=
  match neighbours with
  | Ok n => map RIPEstat.asn (RIPEstat.upstreams n)
  | Raise _ => []
  end.

(** [seen_asns] and [candidate_map], the latter in insertion order. *)
Record Scan : Type := {
  seen_asns : list Z;
  candidate_map : list PeeringCandidate
}.

(** [member.asn in candidate_map] and the two updates that follow *)
Fixpoint count_again (member : Z) (ix_name : string)
         (m : list PeeringCandidate) : list PeeringCandidate :=
  match m with
  | [] => []
  | c :: rest =>
      if asn c =? member then
        {| asn := asn c; candidate_name := candidate_name c;
           peering_policy := peering_policy c;
           common_ix_count := common_ix_count c + 1;
           candidate_ixes := candidate_ixes c ++ [ix_name];
           traffic_ratio := traffic_ratio c; score := score c |} :: rest
      else c :: count_again member ix_name rest
  end.

(** [candidate_map[member.asn] = candidate] for a new key *)
Definition accepts (policy : string) : bool :=
  String.eqb (lower policy) "open" || String.eqb (lower policy) "selective".

Section Candidates.
Context (int_order : SetOrder Z).
Context (target : Z).
Context (get_ix_members : Z -> result (list Z)).
Context (get_ix : Z -> result PeeringDB.InternetExchange).
Context (get_network_by_asn : Z -> result Network).

(** The loop over the members of one exchange.  An exception other than
    "not found" ends it; what was recorded up to there stays. *)
Fixpoint scan_members (ix_name : string) (members : list Z) (st : Scan)
  : Scan :=
  match members with
  | [] => st
  | member :: rest =>
      if member =? target then scan_members ix_name rest st
      else if mem member (seen_asns st) then
        scan_members ix_name rest
          {| seen_asns := seen_asns st;
             candidate_map :=
               count_again member ix_name (candidate_map st) |}
      else
        let st := {| seen_asns := seen_asns st ++ [member];
                     candidate_map := candidate_map st |} in
        match get_network_by_asn member with
        | Ok network =>
            if accepts (policy_general network) then
              scan_members ix_name rest
                {| seen_asns := seen_asns st;
                   candidate_map :=
                     candidate_map st
                     ++ [ {| asn := member;
                             candidate_name := name network;
                             peering_policy := policy_general network;
                             common_ix_count := 1;
                             candidate_ixes := [ix_name];
                             traffic_ratio := info_ratio network;
                             score := 0 |} ] |}
            else scan_members ix_name rest st
        | Raise PeeringDBNotFoundError => scan_members ix_name rest st
        | Raise _ => st
        end
  end.

(** One exchange: a failure of either lookup passes it over. *)
Definition scan_ix (st : Scan) (ix_id : Z) : Scan :=
  match get_ix_members ix_id with
  | Ok members =>
      match get_ix ix_id with
      | Ok ix => scan_members (PeeringDB.ix_name ix) members st
      | Raise _ => st
      end
  | Raise _ => st
  end.

(** [candidates.sort(key=lambda x: x.score, reverse=True)]: stable. *)
Fixpoint insert_by_score (x : PeeringCandidate)
         (sorted : list PeeringCandidate) : list PeeringCandidate :=
  match sorted with
  | [] => [x]
  | y :: rest =>
      if score x <=? score y then y :: insert_by_score x rest
      else x :: y :: rest
  end.

Definition sort_by_score (l : list PeeringCandidate)
  : list PeeringCandidate :=
  fold_left (fun acc x => insert_by_score x acc) l [].

(** [l[:n]], also for a negative [n] *)
Definition slice_to {A : Type} (n : Z) (l : list A) : list A :=
  if 0 <=? n then firstn (Z.to_nat n) l
  else firstn (List.length l - Z.to_nat (- n)) l.

Definition rescored (upstream_asns : list Z) (c : PeeringCandidate)
  : PeeringCandidate :=
  {| asn := asn c; candidate_name := candidate_name c;
     peering_policy := peering_policy c;
     common_ix_count := common_ix_count c;
     candidate_ixes := candidate_ixes c;
     traffic_ratio := traffic_ratio c;
     score := _score_candidate c upstream_asns |}.

Definition find_peering_candidates (max_candidates : Z)
           (target_ixlans : result (list PeeringDB.NetworkIXLan))
           (neighbours : result RIPEstat.ASNeighbours)
  : result (list PeeringCandidate) :=
  match target_ixlans with
  | Ok ixlans =>
      let target_ix_ids := iter int_order (map PeeringDB.ix_id ixlans) in
      if negb (nonempty target_ix_ids) then Ok []
      else
        let upstream_asns := upstreams_or_none neighbours in
        let st :=
          fold_left scan_ix (firstn 10 target_ix_ids)
                    {| seen_asns := []; candidate_map := [] |} in
        let candidates := map (rescored upstream_asns) (candidate_map st) in
        Ok (slice_to max_candidates (sort_by_score candidates))
  | Raise PeeringDBNotFoundError => Ok (slice_to max_candidates [])
  | Raise e => Raise e
  end.

End Candidates.

(** Descending order of score. *)
Definition by_score_desc (a b : PeeringCandidate) : Prop :=
  score b <= score a.

Section Described.
Context (target : Z).
Context (get_ix_members : Z -> result (list Z)).
Context (get_ix : Z -> result PeeringDB.InternetExchange).
Context (get_network_by_asn : Z -> result Network).
Context (ixlans : list PeeringDB.NetworkIXLan).

(** A name in [common_ixes] is that of an exchange of the target network
    whose member list holds the candidate. *)
Definition met_on (member : Z) (ix_name : string) : Prop :=
  exists ix_id ix members,
    In ix_id (map PeeringDB.ix_id ixlans)
    /\ get_ix ix_id = Ok ix
    /\ PeeringDB.ix_name ix = ix_name
    /\ get_ix_members ix_id = Ok members
    /\ In member members.

(** What holds of every candidate, whatever its score. *)
Definition described (c : PeeringCandidate) : Prop :=
  asn c <> target
  /\ (exists network,
        get_network_by_asn (asn c) = Ok network
        /\ candidate_name c = name network
        /\ peering_policy c = policy_general network
        /\ traffic_ratio c = info_ratio network)
  /\ accepts (peering_policy c) = true
  /\ common_ix_count c = len (candidate_ixes c)
  /\ 1 <= common_ix_count c
  /\ Forall (met_on (asn c)) (candidate_ixes c).

(** The invariant of the scan. *)
Definition scan_ok (st : Scan) : Prop :=
  NoDup (map asn (candidate_map st))
  /\ Forall (fun c => In (asn c) (seen_asns st) /\ described c)
            (candidate_map st).

End Described.

(** The AS numbers that [find_common_peers] is to return. *)
Definition is_common_peer (asn1 asn2 : Z)
           (conn1 conn2 : result (list PeeringDB.NetworkIXLan))
           (get_ix_members : Z -> result (list Z)) (k : Z) : Prop :=
  exists c1 c2,
    conn1 = Ok c1 /\ conn2 = Ok c2
    /\ (forall ix, common_ix c1 c2 ix -> is_ok (get_ix_members ix) = true)
    /\ k <> asn1 /\ k <> asn2
    /\ met_at get_ix_members c1 c2 asn1 k
    /\ met_at get_ix_members c1 c2 asn2 k.

End PeeringAnalyzer.

(** Inputs for a run of [find_peering_candidates]: AS64500 at two
    exchanges, the second of which lists AS64501 twice. *)
Module CandidateRun.
Import Py.
Local Open Scope string_scope.

Definition target : Z := 64500.

Definition ixlans : list PeeringDB.NetworkIXLan :=
  [ {| PeeringDB.ix_id := 1 |}; {| PeeringDB.ix_id := 2 |} ].

Definition get_ix_members (ix_id : Z) : result (list Z) :=
  if Z.eqb ix_id 1 then Ok [64500; 64501; 64502; 64503]
  else if Z.eqb ix_id 2 then Ok [64502; 64501; 64501]
  else Raise PeeringDBNotFoundError.

Definition get_ix (ix_id : Z) : result PeeringDB.InternetExchange :=
  if Z.eqb ix_id 1 then Ok {| PeeringDB.ix_name := "IX-A" |}
  else if Z.eqb ix_id 2 then Ok {| PeeringDB.ix_name := "IX-B" |}
  else Raise PeeringDBNotFoundError.

Definition get_network_by_asn (asn : Z) : result PeeringAnalyzer.Network :=
  if Z.eqb asn 64501 then
    Ok {| PeeringAnalyzer.name := "ONE";
          PeeringAnalyzer.policy_general := "Open";
          PeeringAnalyzer.info_ratio := "Balanced" |}
  else if Z.eqb asn 64502 then
    Ok {| PeeringAnalyzer.name := "TWO";
          PeeringAnalyzer.policy_general := "Selective";
          PeeringAnalyzer.info_ratio := "Mostly Outbound" |}
  else if Z.eqb asn 64503 then
    Ok {| PeeringAnalyzer.name := "THREE";
          PeeringAnalyzer.policy_general := "Restrictive";
          PeeringAnalyzer.info_ratio := "Balanced" |}
  else Raise PeeringDBNotFoundError.

Definition neighbours : result RIPEstat.ASNeighbours :=
  Ok {| RIPEstat.upstreams :=
          [ {| RIPEstat.asn := 64502; RIPEstat.power := 1 |} ];
        RIPEstat.downstreams := []; RIPEstat.left := [];
        RIPEstat.right := [] |}.

(** AS64501 is counted three times over two exchanges. *)
Definition candidates : list PeeringAnalyzer.PeeringCandidate :=
  [ {| PeeringAnalyzer.asn := 64501;
       PeeringAnalyzer.candidate_name := "ONE";
       PeeringAnalyzer.peering_policy := "Open";
       PeeringAnalyzer.common_ix_count := 3;
       PeeringAnalyzer.candidate_ixes := ["IX-A"; "IX-B"; "IX-B"];
       PeeringAnalyzer.traffic_ratio := "Balanced";
       PeeringAnalyzer.score := 6 |};
    {| PeeringAnalyzer.asn := 64502;
       PeeringAnalyzer.candidate_name := "TWO";
       PeeringAnalyzer.peering_policy := "Selective";
       PeeringAnalyzer.common_ix_count := 2;
       PeeringAnalyzer.candidate_ixes := ["IX-A"; "IX-B"];
       PeeringAnalyzer.traffic_ratio := "Mostly Outbound";
       PeeringAnalyzer.score := 6 |} ].

End CandidateRun.

(* ================================================================== *)
(** * [analysis/paths.py]: [get_path_changes]                           *)
(* ================================================================== *)

Module PathChanges.
Import Py.
Local Open Scope string_scope.

(** ** Dates

    A [datetime] is counted in microseconds from [datetime.min], the
    first instant of year 1; [datetime.max] is the last microsecond of
    year 9999, 3652059 days later.  A [timedelta] is a number of
    microseconds whose whole days do not exceed 999999999 in
    magnitude. *)
Definition OverflowError : exn := OtherException "OverflowError".

Definition datetime_max : Z := 3652059 * 86400 * 1000000 - 1.

(** [timedelta(hours=hours)] *)
Definition timedelta_hours (hours : Z) : result Z :=
  let seconds := hours * 3600 in
  let days := seconds / 86400 in
  if Z.leb (-999999999) days && Z.leb days 999999999
  then Ok (seconds * 1000000)
  else Raise OverflowError.

(** [t - delta] for a [datetime] and a [timedelta] *)
Definition datetime_sub (t delta : Z) : result Z :=
  let r := t - delta in
  if Z.leb 0 r && Z.leb r datetime_max then Ok r else Raise OverflowError.

(** The look-back window of [hours] before [utcnow] can be computed. *)
Definition window_in_range (utcnow hours : Z) : Prop :=
  -999999999 <= hours * 3600 / 86400 <= 999999999
  /\ 0 <= utcnow - hours * 3600 * 1000000 <= datetime_max.

Section WithValue.
(** The values of the [attrs] dict are not inspected. *)
Context {Value : Type}.

(** [BGPUpdate], the fields read here; [attrs] is a dict or [None]. *)
Record BGPUpdate : Type := {
  timestamp : string;
  type : string;
  attrs : option (list (string * Value))
}.

(** [key in d] and [d.get(key)] for a dict kept as an association list *)
Definition has_key (key : string) (d : list (string * Value)) : bool :=
  existsb (fun kv => String.eqb (fst kv) key) d.

Fixpoint dict_get (key : string) (d : list (string * Value))
  : option Value :=
  match d with
  | [] => None
  | (k, v) :: rest => if String.eqb k key then Some v else dict_get key rest
  end.

(** One entry of [path_changes] *)
Record PathChange : Type := {
  change_timestamp : string;
  change_type : string;
  path : option Value
}.

(** [update.attrs and "as_path" in update.attrs] *)
Definition carries_path (update : BGPUpdate) : bool :=
  match attrs update with
  | None => false
  | Some d => nonempty d && has_key "as_path" d
  end.

Definition change_of (update : BGPUpdate) : PathChange :=
  {| change_timestamp := timestamp update;
     change_type := type update;
     path := match attrs update with
             | Some d => dict_get "as_path" d
             | None => None
             end |}.

(** The three accumulators of the loop. *)
Record Tally : Type := {
  tally_announcements : Z;
  tally_withdrawals : Z;
  tally_changes : list PathChange
}.

Definition step (t : Tally) (update : BGPUpdate) : Tally :=
  let announcements :=
    if String.eqb (type update) "A" then tally_announcements t + 1
    else tally_announcements t in
  let withdrawals :=
    if String.eqb (type update) "A" then tally_withdrawals t
    else if String.eqb (type update) "W" then tally_withdrawals t + 1
    else tally_withdrawals t in
  {| tally_announcements := announcements;
     tally_withdrawals := withdrawals;
     tally_changes :=
       if carries_path update then tally_changes t ++ [change_of update]
       else tally_changes t |}.

(** The dict that is returned: the report, or the resource and the
    exception that was caught. *)
Record Report : Type := {
  resource : string;
  period_hours : Z;
  announcements : Z;
  withdrawals : Z;
  total_updates : Z;
  path_changes : list PathChange;
  is_stable : bool
}.

Inductive Outcome : Type :=
| Changes (r : Report)
| Error (resource : string) (e : exn).

(** What the [try] block returns, given the answer of
    [get_bgp_updates]. *)
Definition report_of (resource : string) (hours : Z)
           (updates : result (list BGPUpdate)) : Outcome :=
  match updates with
  | Ok updates =>
      let t := fold_left step updates
                 {| tally_announcements := 0; tally_withdrawals := 0;
                    tally_changes := [] |} in
      Changes
        {| resource := resource;
           period_hours := hours;
           announcements := tally_announcements t;
           withdrawals := tally_withdrawals t;
           total_updates := len updates;
           path_changes := firstn 50 (tally_changes t);
           is_stable := Z.ltb (len updates) 10 |}
  | Raise e => Error resource e
  end.

(** The two statements before the [try]:
    [end_time = datetime.utcnow()] and
    [start_time = end_time - timedelta(hours=hours)].  Both operations
    raise [OverflowError] outside their range, and nothing catches it. *)
Definition get_path_changes (utcnow : Z)
           (get_bgp_updates : string -> Z -> Z -> result (list BGPUpdate))
           (resource : string) (hours : Z) : result Outcome :=
  let end_time := utcnow in
  delta <- timedelta_hours hours ;;
  start_time <- datetime_sub end_time delta ;;
  Ok (report_of resource hours
                (get_bgp_updates resource start_time end_time)).

End WithValue.
Arguments BGPUpdate : clear implicits.
Arguments PathChange : clear implicits.
Arguments Tally : clear implicits.
Arguments Report : clear implicits.
Arguments Outcome : clear implicits.

End PathChanges.

(** Inputs for a run of [get_path_changes]: the clock at
    2024-06-27 18:00 UTC, and a lookup that answers with one announcement
    carrying an AS path and one withdrawal. *)
Module PathChangeRun.
Import Py.
Local Open Scope string_scope.

Definition utcnow : Z := 63855108000000000.

Definition updates : list (PathChanges.BGPUpdate string) :=
  [ {| PathChanges.timestamp := "2024-06-27T17:00:00";
       PathChanges.type := "A";
       PathChanges.attrs := Some [("as_path", "3356 13335")] |};
    {| PathChanges.timestamp := "2024-06-27T17:05:00";
       PathChanges.type := "W";
       PathChanges.attrs := None |} ].

Definition get_bgp_updates (resource : string) (start_time end_time : Z)
  : result (list (PathChanges.BGPUpdate string)) :=
  Ok updates.

End PathChangeRun.


(* ================================================================== *)
(** * Properties                                                        *)
(* ================================================================== *)

(** ** Set orders *)

Section SetOrderFacts.
Context {A : Type} (eq_dec : forall x y : A, {x = y} + {x <> y}).

Lemma remove_keeps_NoDup (x : A) (l : list A) :
  NoDup l -> NoDup (remove eq_dec x l).
Proof.
  induction 1 as [|y l Hy Hl IH]; simpl; [constructor|].
  destruct (eq_dec x y) as [->|Hne]; [exact IH|].
  constructor; [|exact IH].
  intro Hin. apply in_remove in Hin. tauto.
Qed.

Lemma first_seen_NoDup (l : list A) : NoDup (Py.first_seen eq_dec l).
Proof.
  induction l as [|x t IH]; simpl; constructor.
  - apply remove_In.
  - now apply remove_keeps_NoDup.
Qed.

Lemma first_seen_In (l : list A) (x : A) :
  In x (Py.first_seen eq_dec l) <-> In x l.
Proof.
  induction l as [|y t IH]; simpl; [tauto|].
  split.
  - intros [->|Hin]; [now left|].
    apply in_remove in Hin. right. now apply IH.
  - intros [->|Hin]; [now left|].
    destruct (eq_dec y x) as [->|Hne]; [now left|].
    right. apply in_in_remove; [congruence|]. now apply IH.
Qed.

Definition insertion_order : Py.SetOrder A :=
  {| Py.iter := Py.first_seen eq_dec;
     Py.iter_NoDup := first_seen_NoDup;
     Py.iter_In := first_seen_In |}.

(** A set fed with copies of one value iterates over that value once. *)
Lemma iter_constant (o : Py.SetOrder A) (x : A) (l : list A) :
  l <> [] -> (forall y, In y l -> y = x) -> Py.iter o l = [x].
Proof.
  intros Hne Hall.
  assert (Hin : In x (Py.iter o l)).
  { apply (Py.iter_In o). destruct l as [|y t]; [congruence|].
    rewrite <- (Hall y); now left. }
  assert (Hsub : forall y, In y (Py.iter o l) -> y = x).
  { intros y Hy. apply Hall. now apply (Py.iter_In o). }
  pose proof (Py.iter_NoDup o l) as Hnd.
  destruct (Py.iter o l) as [|a [|b r]]; simpl in *.
  - contradiction.
  - f_equal. apply Hsub. now left.
  - exfalso. inversion Hnd as [|? ? Hnotin _]; subst.
    apply Hnotin. left.
    rewrite (Hsub a), (Hsub b); auto.
Qed.

Lemma iter_Permutation (o : Py.SetOrder A) (l : list A) :
  Permutation (Py.iter o l) (nodup eq_dec l).
Proof.
  apply NoDup_Permutation.
  - apply Py.iter_NoDup.
  - apply NoDup_nodup.
  - intro x. rewrite Py.iter_In, nodup_In. tauto.
Qed.

End SetOrderFacts.

Definition int_insertion_order : Py.SetOrder Z := insertion_order Z.eq_dec.
Definition path_insertion_order : Py.SetOrder (list Z) :=
  insertion_order (list_eq_dec Z.eq_dec).

(** ** Peer-risk score: the risk level *)

Lemma risk_level_of_tiers (total : Z) :
  (80 <= total ->
   PeerRisk.risk_level_of total = ("LOW", "RECOMMENDED")%string)
  /\ (60 <= total < 80 ->
      PeerRisk.risk_level_of total = ("MODERATE", "ACCEPTABLE")%string)
  /\ (40 <= total < 60 ->
      PeerRisk.risk_level_of total = ("ELEVATED", "CAUTION")%string)
  /\ (total < 40 ->
      PeerRisk.risk_level_of total = ("HIGH", "NOT RECOMMENDED")%string).
Proof.
  unfold PeerRisk.risk_level_of.
  repeat split; intros H;
    destruct (Z.leb_spec 80 total); try lia;
    destruct (Z.leb_spec 60 total); try lia;
    destruct (Z.leb_spec 40 total); try lia; reflexivity.
Qed.

Lemma run_peer_risk_verdict (target : Z) (my_asn : option Z) (days : Z)
      (src : PeerRisk.Sources) :
  let a := PeerRisk.run_peer_risk target my_asn days src in
  (PeerRisk.risk_level a, PeerRisk.recommendation a)
  = PeerRisk.risk_level_of (PeerRisk.total_score a)
  /\ PeerRisk.total_score a
     = fold_right Z.add 0
                  (map (fun c => PeerRisk.score (snd c)) (PeerRisk.scores a)).
Proof.
  unfold PeerRisk.run_peer_risk.
  destruct (PeerRisk.maturity target my_asn src) as [[m w1] info].
  destruct (PeerRisk.stability days src) as [s w2].
  destruct (PeerRisk.incident_history src) as [[i w3] topo].
  match goal with
  | |- context [PeerRisk.policy_category ?x] =>
      destruct (PeerRisk.policy_category x) as [p w4]
  end.
  cbn [PeerRisk.risk_level PeerRisk.recommendation PeerRisk.total_score
       PeerRisk.scores].
  split; [|reflexivity].
  now destruct (PeerRisk.risk_level_of _).
Qed.

(** C1.  For every peer-risk assessment the total is the sum of the five
    category scores, and the risk level and the recommendation follow
    from it alone: a total of 80 or more gives LOW / RECOMMENDED, 60 to
    79 MODERATE / ACCEPTABLE, 40 to 59 ELEVATED / CAUTION, less than 40
    HIGH / NOT RECOMMENDED.  Exactly 80 is LOW and 79 is MODERATE. *)
Theorem peer_risk_level_by_total (target : Z) (my_asn : option Z) (days : Z)
        (src : PeerRisk.Sources) :
  let a := PeerRisk.run_peer_risk target my_asn days src in
  let total := PeerRisk.total_score a in
  let verdict := (PeerRisk.risk_level a, PeerRisk.recommendation a) in
  total = fold_right Z.add 0
                     (map (fun c => PeerRisk.score (snd c)) (PeerRisk.scores a))
  /\ (80 <= total -> verdict = ("LOW", "RECOMMENDED")%string)
  /\ (60 <= total < 80 -> verdict = ("MODERATE", "ACCEPTABLE")%string)
  /\ (40 <= total < 60 -> verdict = ("ELEVATED", "CAUTION")%string)
  /\ (total < 40 -> verdict = ("HIGH", "NOT RECOMMENDED")%string)
  /\ PeerRisk.risk_level_of 80 = ("LOW", "RECOMMENDED")%string
  /\ PeerRisk.risk_level_of 79 = ("MODERATE", "ACCEPTABLE")%string.
Proof.
  intros a total verdict.
  destruct (run_peer_risk_verdict target my_asn days src) as [Hv Ht].
  fold a in Hv, Ht. fold total in Hv, Ht. fold verdict in Hv.
  destruct (risk_level_of_tiers total) as (H80 & H60 & H40 & H0).
  repeat split; try reflexivity; try exact Ht; intros H; rewrite Hv; auto.
Qed.

(** A run whose total is exactly 80 is LOW / RECOMMENDED, and one whose
    total is exactly 79 is MODERATE / ACCEPTABLE. *)
Lemma peer_risk_level_by_total_witness :
  (80 <= PeerRisk.total_score
           (PeerRisk.run_peer_risk 64500 None 30 Runs.peer_scoring_80)
   /\ (PeerRisk.risk_level
         (PeerRisk.run_peer_risk 64500 None 30 Runs.peer_scoring_80),
       PeerRisk.recommendation
         (PeerRisk.run_peer_risk 64500 None 30 Runs.peer_scoring_80))
      = ("LOW", "RECOMMENDED")%string)
  /\ (60 <= PeerRisk.total_score
              (PeerRisk.run_peer_risk 64500 None 30 Runs.peer_scoring_79)
            < 80
      /\ (PeerRisk.risk_level
            (PeerRisk.run_peer_risk 64500 None 30 Runs.peer_scoring_79),
          PeerRisk.recommendation
            (PeerRisk.run_peer_risk 64500 None 30 Runs.peer_scoring_79))
         = ("MODERATE", "ACCEPTABLE")%string).
Proof.
  assert (H80 : 80 <= PeerRisk.total_score
                  (PeerRisk.run_peer_risk 64500 None 30 Runs.peer_scoring_80))
    by (vm_compute; discriminate).
  assert (H79 : 60 <= PeerRisk.total_score
                  (PeerRisk.run_peer_risk 64500 None 30 Runs.peer_scoring_79)
                < 80)
    by (vm_compute; split; [discriminate | reflexivity]).
  split; (split; [assumption|]).
  - exact (proj1 (proj2 (peer_risk_level_by_total
                           64500 None 30 Runs.peer_scoring_80)) H80).
  - exact (proj1 (proj2 (proj2 (peer_risk_level_by_total
                                  64500 None 30 Runs.peer_scoring_79))) H79).
Defined.

Example peer_scoring_totals :
  PeerRisk.total_score
    (PeerRisk.run_peer_risk 64500 None 30 Runs.peer_scoring_80) = 80
  /\ PeerRisk.total_score
       (PeerRisk.run_peer_risk 64500 None 30 Runs.peer_scoring_79) = 79.
Proof. split; reflexivity. Qed.

(** ** Peer-risk score: the policy category *)






Example policy_unregistered_is_5 :
  PeerRisk.category
    "policy" (PeerRisk.run_peer_risk 64500 None 30 Runs.peer_unregistered)
  = Some {| PeerRisk.score := 5; PeerRisk.max := 10;
            PeerRisk.factors := [PeerRisk.OtherPolicy "Unknown"] |}.
Proof. reflexivity. Qed.

(** ** ASN profile: the health status *)

Lemma spec_issue_count_range (footprint : Models.RoutingFootprint)
      (rpki : Models.RPKIStatus) (connectivity : Models.ConnectivityProfile) :
  0 <= Spec.spec_issue_count footprint rpki connectivity <= 4.
Proof.
  unfold Spec.spec_issue_count.
  destruct (0 <? Models.invalid_prefixes rpki), (Models.has_roas rpki),
    (Models.upstream_count footprint <? 2),
    ((Models.ix_count connectivity =? 1)
     || ((Models.ix_count connectivity =? 0)
         && (0 <? Models.total_prefixes footprint)))%bool; lia.
Qed.

Lemma assess_health_by_issues (footprint : Models.RoutingFootprint)
      (rpki : Models.RPKIStatus) (connectivity : Models.ConnectivityProfile) :
  ASNAnalyzer._assess_health footprint rpki connectivity
  = Spec.spec_health_of_issues
      (Spec.spec_issue_count footprint rpki connectivity).
Proof.
  unfold ASNAnalyzer._assess_health, Spec.spec_issue_count,
    Spec.spec_health_of_issues.
  destruct (0 <? Models.invalid_prefixes rpki), (Models.has_roas rpki),
    (Models.upstream_count footprint <? 2),
    (Models.ix_count connectivity =? 1),
    (Models.ix_count connectivity =? 0),
    (0 <? Models.total_prefixes footprint); reflexivity.
Qed.

Lemma get_profile_health (a : Z) (src : ASNAnalyzer.Sources)
      (p : Models.ASNProfile) :
  ASNAnalyzer.get_profile a src = Py.Ok p ->
  Models.footprint p = ASNAnalyzer.get_routing_footprint src
  /\ Models.rpki p = ASNAnalyzer.get_rpki_status src
  /\ Models.connectivity p = ASNAnalyzer.get_connectivity_profile src
  /\ Models.atlas p = ASNAnalyzer.get_atlas_coverage src
  /\ Models.health p
     = ASNAnalyzer._assess_health (Models.footprint p) (Models.rpki p)
                                  (Models.connectivity p).
Proof.
  unfold ASNAnalyzer.get_profile.
  destruct (ASNAnalyzer.get_identity a src) as [identity|e]; cbn [Py.bind];
    [|discriminate].
  intros H. injection H as <-. cbn. repeat split.
Qed.

Lemma fetched_figures (src : ASNAnalyzer.Sources) :
  Models.invalid_prefixes (ASNAnalyzer.get_rpki_status src)
  = Spec.fetched_invalid_prefixes src
  /\ Models.has_roas (ASNAnalyzer.get_rpki_status src)
     = Spec.fetched_has_roas src
  /\ Models.upstream_count (ASNAnalyzer.get_routing_footprint src)
     = Spec.fetched_upstream_count src
  /\ Models.total_prefixes (ASNAnalyzer.get_routing_footprint src)
     = Spec.fetched_total_prefixes src
  /\ Models.ix_count (ASNAnalyzer.get_connectivity_profile src)
     = Spec.fetched_ix_count src.
Proof.
  unfold ASNAnalyzer.get_rpki_status, ASNAnalyzer.get_routing_footprint,
    ASNAnalyzer.get_connectivity_profile, Spec.fetched_invalid_prefixes,
    Spec.fetched_has_roas, Spec.fetched_upstream_count,
    Spec.fetched_total_prefixes, Spec.fetched_ix_count.
  destruct (ASNAnalyzer.rpki_by_status src),
    (ASNAnalyzer.announced_prefixes src), (ASNAnalyzer.as_neighbours src),
    (ASNAnalyzer.network_presence src),
    (ASNAnalyzer.network_for_connectivity src),
    (ASNAnalyzer.upstream_asns src); repeat split.
Qed.

(** C4.  The facets of a profile that [get_profile] returns are the
    fetched ones, and its health status is a function of an issue count
    over them, that is over what the providers answered (a failed call
    counting as nothing): 2 issues if a prefix is RPKI-invalid, else 1
    if there is no ROA; 1 if there are fewer than 2 upstreams; 1 if the
    IX count is 1, or is 0 while prefixes are announced.  Three issues
    or more are critical, two a warning, one a warning, none healthy. *)
Theorem health_is_function_of_issue_count (a : Z) (src : ASNAnalyzer.Sources)
        (p : Models.ASNProfile) :
  ASNAnalyzer.get_profile a src = Py.Ok p ->
  let issues :=
    Spec.spec_issue_count (Models.footprint p) (Models.rpki p)
                          (Models.connectivity p) in
  Models.health p = Spec.spec_health_of_issues issues
  /\ 0 <= issues <= 4
  /\ (3 <= issues -> Models.health p = Models.HEALTH_CRITICAL)
  /\ (issues = 2 -> Models.health p = Models.WARNING)
  /\ (issues = 1 -> Models.health p = Models.WARNING)
  /\ (issues = 0 -> Models.health p = Models.HEALTHY)
  /\ Models.footprint p = ASNAnalyzer.get_routing_footprint src
  /\ Models.rpki p = ASNAnalyzer.get_rpki_status src
  /\ Models.connectivity p = ASNAnalyzer.get_connectivity_profile src
  /\ issues = Spec.spec_issues_fetched src
  /\ Models.health p
     = Spec.spec_health_of_issues (Spec.spec_issues_fetched src).
Proof.
  intros Hp issues.
  destruct (get_profile_health a src p Hp) as (Hf & Hr & Hc & _ & Hh).
  rewrite assess_health_by_issues in Hh. fold issues in Hh.
  pose proof (spec_issue_count_range (Models.footprint p) (Models.rpki p)
                                     (Models.connectivity p)) as Hrange.
  fold issues in Hrange.
  assert (Hfetched : issues = Spec.spec_issues_fetched src).
  { unfold issues, Spec.spec_issue_count, Spec.spec_issues_fetched.
    rewrite Hf, Hr, Hc.
    destruct (fetched_figures src) as (-> & -> & -> & -> & ->).
    reflexivity. }
  split; [exact Hh|]. split; [exact Hrange|].
  assert (Hmap :
            (3 <= issues -> Models.health p = Models.HEALTH_CRITICAL)
            /\ (issues = 2 -> Models.health p = Models.WARNING)
            /\ (issues = 1 -> Models.health p = Models.WARNING)
            /\ (issues = 0 -> Models.health p = Models.HEALTHY)).
  { rewrite Hh. unfold Spec.spec_health_of_issues.
    repeat split; intros H;
      destruct (Z.leb_spec 3 issues); try lia;
      destruct (Z.eqb_spec issues 2); try lia;
      destruct (Z.eqb_spec issues 1); try lia; reflexivity. }
  destruct Hmap as (H3 & H2 & H1 & H0).
  split; [exact H3|]. split; [exact H2|]. split; [exact H1|].
  split; [exact H0|]. split; [exact Hf|]. split; [exact Hr|].
  split; [exact Hc|]. split; [exact Hfetched|].
  rewrite <- Hfetched. exact Hh.
Qed.

(** With PeeringDB answering "not found" and RIPEstat reporting one ROA
    and two upstreams, the only issue is the missing IX presence. *)
Lemma health_is_function_of_issue_count_witness :
  exists p : Models.ASNProfile,
    ASNAnalyzer.get_profile 64500 Runs.only_peeringdb_not_found = Py.Ok p
    /\ Models.rpki p
       = ASNAnalyzer.get_rpki_status Runs.only_peeringdb_not_found
    /\ Spec.spec_issues_fetched Runs.only_peeringdb_not_found = 1
    /\ Spec.spec_issue_count (Models.footprint p) (Models.rpki p)
                             (Models.connectivity p) = 1
    /\ Models.health p = Models.WARNING.
Proof.
  eexists. split; [reflexivity|].
  destruct (health_is_function_of_issue_count
              64500 Runs.only_peeringdb_not_found _ eq_refl)
    as (_ & _ & _ & _ & H1 & _ & _ & Hr & _ & Hfetched & _).
  split; [exact Hr|]. split; [reflexivity|]. split; [reflexivity|].
  apply H1. reflexivity.
Defined.

Lemma assess_health_not_unknown (footprint : Models.RoutingFootprint)
      (rpki : Models.RPKIStatus) (connectivity : Models.ConnectivityProfile) :
  ASNAnalyzer._assess_health footprint rpki connectivity <> Models.UNKNOWN.
Proof.
  rewrite assess_health_by_issues. unfold Spec.spec_health_of_issues.
  generalize (Spec.spec_issue_count footprint rpki connectivity); intro n.
  destruct (3 <=? n), (n =? 2), (n =? 1); discriminate.
Qed.

Lemma not_ok_raises {A : Type} (c : Py.result A) :
  Py.is_ok c = false -> exists e, c = Py.Raise e.
Proof. destruct c as [a|e]; [discriminate | now exists e]. Qed.

(** When nothing answers, every facet but the identity keeps the values
    of its model class. *)
Lemma facets_when_every_source_fails (src : ASNAnalyzer.Sources) :
  Spec.every_source_fails src ->
  ASNAnalyzer.get_routing_footprint src = Models.RoutingFootprint_default
  /\ ASNAnalyzer.get_rpki_status src = Models.RPKIStatus_default
  /\ ASNAnalyzer.get_connectivity_profile src
     = Models.ConnectivityProfile_default
  /\ ASNAnalyzer.get_atlas_coverage src = Models.AtlasCoverage_default.
Proof.
  intros (_ & _ & _ & Hap & Hnb & Hrp & Hpr & _ & Hup & Hcov).
  apply not_ok_raises in Hap, Hnb, Hrp, Hpr, Hup, Hcov.
  destruct Hap as [? Hap], Hnb as [? Hnb], Hrp as [? Hrp], Hpr as [? Hpr],
    Hup as [? Hup], Hcov as [? Hcov].
  unfold ASNAnalyzer.get_routing_footprint, ASNAnalyzer.get_rpki_status,
    ASNAnalyzer.get_connectivity_profile, ASNAnalyzer.get_atlas_coverage.
  rewrite Hap, Hnb, Hrp, Hpr, Hup, Hcov. repeat split.
Qed.

(** C10.  A profile returned by [get_profile] never has the health status
    "unknown": it is healthy, warning or critical.  When every data source
    fails, the facets of the returned profile have their zero values and
    its status is "warning" (two issues: no ROA, fewer than two
    upstreams). *)
Theorem profile_health_never_unknown (a : Z) (src : ASNAnalyzer.Sources)
        (p : Models.ASNProfile) :
  ASNAnalyzer.get_profile a src = Py.Ok p ->
  Models.health p <> Models.UNKNOWN
  /\ (Models.health p = Models.HEALTHY
      \/ Models.health p = Models.WARNING
      \/ Models.health p = Models.HEALTH_CRITICAL)
  /\ (Spec.every_source_fails src ->
      Models.footprint p = Models.RoutingFootprint_default
      /\ Models.rpki p = Models.RPKIStatus_default
      /\ Models.connectivity p = Models.ConnectivityProfile_default
      /\ Models.atlas p = Models.AtlasCoverage_default
      /\ Spec.spec_issue_count (Models.footprint p) (Models.rpki p)
                               (Models.connectivity p) = 2
      /\ Models.health p = Models.WARNING).
Proof.
  intros Hp.
  destruct (get_profile_health a src p Hp) as (Hf & Hr & Hc & Ha & Hh).
  assert (Hnot : Models.health p <> Models.UNKNOWN)
    by (rewrite Hh; apply assess_health_not_unknown).
  split; [exact Hnot|]. split.
  - destruct (Models.health p); auto. congruence.
  - intros Hfail.
    destruct (facets_when_every_source_fails src Hfail)
      as (Hf' & Hr' & Hc' & Ha').
    rewrite Hh, Hf, Hr, Hc, Ha, Hf', Hr', Hc', Ha'. repeat split.
Qed.

(** The run in which nothing answers returns a profile, and its status
    is "warning". *)
Lemma profile_health_never_unknown_witness :
  exists p : Models.ASNProfile,
    ASNAnalyzer.get_profile 64500 Runs.nothing_answers = Py.Ok p
    /\ Spec.every_source_fails Runs.nothing_answers
    /\ Models.health p <> Models.UNKNOWN
    /\ Models.health p = Models.WARNING.
Proof.
  assert (Hfail : Spec.every_source_fails Runs.nothing_answers)
    by (unfold Spec.every_source_fails; cbn; repeat split).
  eexists. split; [reflexivity|]. split; [exact Hfail|].
  pose proof (profile_health_never_unknown
                64500 Runs.nothing_answers _ eq_refl) as (Hnot & _ & Hall).
  split; [exact Hnot|].
  exact (proj2 (proj2 (proj2 (proj2 (proj2 (Hall Hfail)))))).
Defined.

(** Whatever the other sources do, [get_profile] returns when the network
    lookup of the identity facet succeeds or answers "not found". *)
Lemma get_profile_returns (a : Z) (src : ASNAnalyzer.Sources) :
  match ASNAnalyzer.network_for_identity src with
  | Py.Ok _ | Py.Raise Py.PeeringDBNotFoundError => True
  | Py.Raise _ => False
  end ->
  exists p, ASNAnalyzer.get_profile a src = Py.Ok p.
Proof.
  unfold ASNAnalyzer.get_profile, ASNAnalyzer.get_identity.
  destruct (ASNAnalyzer.network_for_identity src) as [net|[| | | | |n]];
    try contradiction; intros _.
  - destruct (if Py.truthy_int (PeeringDB.org_id net) then _ else _).
    cbn. eauto.
  - cbn. eauto.
Qed.

(** ** ASN profile: PeeringDB does not answer *)

(** C7 (as amended).  If every PeeringDB call fails during [get_profile],
    the connectivity facet has no IX, no facility, no exchange names, no
    policy, no as-set and no looking glass or route server; its top
    upstreams are the first five that RIPEstat reports (none when that
    call fails too).  The health status is computed from it all the same,
    and [get_profile] returns a profile with this facet when the failure
    is "not found". *)
Theorem connectivity_when_peeringdb_fails (a : Z) (src : ASNAnalyzer.Sources) :
  Spec.every_peeringdb_call_fails src ->
  let c := ASNAnalyzer.get_connectivity_profile src in
  let h := ASNAnalyzer._assess_health
             (ASNAnalyzer.get_routing_footprint src)
             (ASNAnalyzer.get_rpki_status src) c in
  Models.ix_count c = 0
  /\ Models.facility_count c = 0
  /\ Models.ixes c = []
  /\ Models.peering_policy c = ""%string
  /\ Models.irr_as_set c = ""%string
  /\ Models.has_looking_glass c = false
  /\ Models.has_route_server c = false
  /\ Models.top_upstreams c
     = match ASNAnalyzer.upstream_asns src with
       | Py.Ok upstreams => firstn 5 upstreams
       | Py.Raise _ => []
       end
  /\ (h = Models.HEALTHY \/ h = Models.WARNING \/ h = Models.HEALTH_CRITICAL)
  /\ (forall p, ASNAnalyzer.get_profile a src = Py.Ok p ->
                Models.connectivity p = c /\ Models.health p = h)
  /\ (ASNAnalyzer.network_for_identity src
      = Py.Raise Py.PeeringDBNotFoundError ->
      exists p, ASNAnalyzer.get_profile a src = Py.Ok p).
Proof.
  intros (Hid & _ & Hpr & _) c h.
  apply not_ok_raises in Hpr. destruct Hpr as [e Hpr].
  assert (Hc : c = match ASNAnalyzer.upstream_asns src with
                   | Py.Ok upstreams =>
                       {| Models.ix_count := 0; Models.facility_count := 0;
                          Models.peering_policy := "";
                          Models.has_looking_glass := false;
                          Models.has_route_server := false;
                          Models.irr_as_set := ""; Models.ixes := [];
                          Models.top_upstreams := firstn 5 upstreams |}
                   | Py.Raise _ => Models.ConnectivityProfile_default
                   end).
  { subst c. unfold ASNAnalyzer.get_connectivity_profile. rewrite Hpr.
    now destruct (ASNAnalyzer.upstream_asns src). }
  repeat match goal with |- _ /\ _ => split end;
    try (rewrite Hc; now destruct (ASNAnalyzer.upstream_asns src)).
  - pose proof (assess_health_not_unknown
                  (ASNAnalyzer.get_routing_footprint src)
                  (ASNAnalyzer.get_rpki_status src) c) as Hnot.
    fold h in Hnot. destruct h; auto. congruence.
  - intros p Hp.
    destruct (get_profile_health a src p Hp) as (Hf & Hr & Hcp & _ & Hh).
    split; [exact Hcp|]. rewrite Hh, Hf, Hr, Hcp. reflexivity.
  - intros Hnf. apply get_profile_returns. now rewrite Hnf.
Qed.

(** With PeeringDB answering "not found" to every call, a profile is
    returned; its connectivity facet has no IX and no facility. *)
Lemma connectivity_when_peeringdb_fails_witness :
  Spec.every_peeringdb_call_fails Runs.only_peeringdb_not_found
  /\ (exists p, ASNAnalyzer.get_profile 64500 Runs.only_peeringdb_not_found
                = Py.Ok p)
  /\ Models.ix_count
       (ASNAnalyzer.get_connectivity_profile Runs.only_peeringdb_not_found) = 0
  /\ Models.facility_count
       (ASNAnalyzer.get_connectivity_profile Runs.only_peeringdb_not_found) = 0.
Proof.
  assert (Hfail : Spec.every_peeringdb_call_fails Runs.only_peeringdb_not_found)
    by (unfold Spec.every_peeringdb_call_fails; cbn; repeat split).
  pose proof (connectivity_when_peeringdb_fails
                64500 Runs.only_peeringdb_not_found Hfail)
    as (Hix & Hfac & _ & _ & _ & _ & _ & _ & _ & _ & Hret).
  split; [exact Hfail|]. split; [exact (Hret eq_refl)|].
  split; [exact Hix | exact Hfac].
Defined.

(** C7 as stated fails: every PeeringDB call fails, a profile is
    returned, and its connectivity facet is not the zero value, for its
    list of top upstreams is not empty. *)
Lemma connectivity_zero_value_counterexample :
  Spec.every_peeringdb_call_fails Runs.only_peeringdb_not_found
  /\ exists p : Models.ASNProfile,
       ASNAnalyzer.get_profile 64500 Runs.only_peeringdb_not_found = Py.Ok p
       /\ Models.top_upstreams (Models.connectivity p) = [174; 3356]
       /\ Models.connectivity p <> Models.ConnectivityProfile_default.
Proof.
  split; [unfold Spec.every_peeringdb_call_fails; cbn; repeat split|].
  eexists. split; [reflexivity|]. split; [reflexivity|].
  cbn. discriminate.
Qed.

(** The same run with PeeringDB failing in another way than "not found":
    the exception of [get_identity] is the outcome of [get_profile]. *)
Example get_profile_raises_when_rate_limited :
  Spec.every_peeringdb_call_fails Runs.peeringdb_rate_limited
  /\ ASNAnalyzer.get_profile 64500 Runs.peeringdb_rate_limited
     = Py.Raise Py.PeeringDBError
  /\ Models.ix_count
       (ASNAnalyzer.get_connectivity_profile Runs.peeringdb_rate_limited) = 0.
Proof.
  split; [unfold Spec.every_peeringdb_call_fails; cbn; repeat split|].
  split; reflexivity.
Qed.

(** ** Anomaly report: the overall risk level *)

Section AnomalyReports.
Context (int_order : Py.SetOrder Z) (path_order : Py.SetOrder (list Z)).

Lemma overall_risk_cons (a : Models.Anomaly) (l : list Models.Anomaly) :
  Spec.level_of (PathAnalyzer.overall_risk (a :: l))
  = Spec.spec_higher (Spec.level_of (Models.severity a))
                     (Spec.level_of (PathAnalyzer.overall_risk l)).
Proof.
  unfold PathAnalyzer.overall_risk, PathAnalyzer.any_severity.
  cbn [existsb].
  destruct (Models.severity a);
    destruct (existsb _ l), (existsb _ l), (existsb _ l); reflexivity.
Qed.

Lemma overall_risk_highest (l : list Models.Anomaly) :
  Spec.level_of (PathAnalyzer.overall_risk l)
  = Spec.spec_highest_from Spec.level_low l.
Proof.
  induction l as [|a l IH]; [reflexivity|].
  rewrite overall_risk_cons, IH. reflexivity.
Qed.

Lemma spec_highest_from_bounds (bottom : Spec.spec_level)
      (l : list Models.Anomaly) :
  Spec.spec_rank bottom
  <= Spec.spec_rank (Spec.spec_highest_from bottom l)
  /\ (forall a, In a l ->
        Spec.spec_rank (Spec.level_of (Models.severity a))
        <= Spec.spec_rank (Spec.spec_highest_from bottom l))
  /\ (Spec.spec_highest_from bottom l = bottom
      \/ exists a, In a l
           /\ Spec.level_of (Models.severity a)
              = Spec.spec_highest_from bottom l).
Proof.
  induction l as [|a l (IHb & IHall & IHex)]; cbn [Spec.spec_highest_from fold_right].
  - split; [lia|]. split; [contradiction | now left].
  - fold (Spec.spec_highest_from bottom l).
    unfold Spec.spec_higher.
    destruct (Z.ltb_spec (Spec.spec_rank (Spec.level_of (Models.severity a)))
                         (Spec.spec_rank (Spec.spec_highest_from bottom l)))
      as [Hlt|Hge].
    + split; [exact IHb|]. split.
      * intros x [<-|Hx]; [lia | now apply IHall].
      * destruct IHex as [Hb | (x & Hx & Hlev)]; [now left|].
        right. exists x. split; [now right | exact Hlev].
    + split; [lia|]. split.
      * intros x [<-|Hx]; [lia | specialize (IHall x Hx); lia].
      * right. exists a. split; [now left | reflexivity].
Qed.

(** C8 (as amended).  The risk level of an anomaly report is the highest
    severity among its anomalies in the order critical > high > medium >
    low, where "low" is the bottom: a report without anomalies is "low",
    as is a report whose anomalies are all of low severity. *)
Theorem report_risk_level_is_highest_severity (resource : string)
        (o : PathAnalyzer.Observed) :
  let r := PathAnalyzer.detect_anomalies int_order path_order resource o in
  Spec.level_of (Models.risk_level r)
  = Spec.spec_highest_from Spec.level_low (Models.anomalies r)
  /\ (forall a, In a (Models.anomalies r) ->
        Spec.spec_rank (Spec.level_of (Models.severity a))
        <= Spec.spec_rank (Spec.level_of (Models.risk_level r)))
  /\ (Models.anomalies r <> [] ->
      Models.risk_level r <> Models.LOW ->
      exists a, In a (Models.anomalies r)
                /\ Models.severity a = Models.risk_level r)
  /\ (Models.anomalies r = [] -> Models.risk_level r = Models.LOW)
  /\ ((forall a, In a (Models.anomalies r) -> Models.severity a = Models.LOW)
      -> Models.risk_level r = Models.LOW).
Proof.
  intros r.
  assert (Hlev : Spec.level_of (Models.risk_level r)
                 = Spec.spec_highest_from Spec.level_low (Models.anomalies r))
    by apply overall_risk_highest.
  destruct (spec_highest_from_bounds Spec.level_low (Models.anomalies r))
    as (_ & Hall & Hex).
  rewrite <- Hlev in Hall, Hex.
  split; [exact Hlev|]. split; [exact Hall|]. split; [|split].
  - intros _ Hnot. destruct Hex as [Hb | (a & Ha & Hsev)].
    + destruct (Models.risk_level r); try discriminate. congruence.
    + exists a. split; [exact Ha|].
      destruct (Models.severity a), (Models.risk_level r);
        try discriminate; reflexivity.
  - intros Hnil. cbn [Models.risk_level r PathAnalyzer.detect_anomalies] in *.
    unfold r in *. cbn in Hnil |- *. now rewrite Hnil.
  - intros Hlow. destruct Hex as [Hb | (a & Ha & Hsev)].
    + destruct (Models.risk_level r); try discriminate. reflexivity.
    + rewrite (Hlow a Ha) in Hsev.
      destruct (Models.risk_level r); try discriminate. reflexivity.
Qed.

End AnomalyReports.

(** On data without any anomaly the report is "low". *)
Lemma report_risk_level_is_highest_severity_witness :
  Models.anomalies
    (PathAnalyzer.detect_anomalies int_insertion_order path_insertion_order
                                   "192.0.2.0/24" Runs.no_data) = []
  /\ Models.risk_level
       (PathAnalyzer.detect_anomalies int_insertion_order path_insertion_order
                                      "192.0.2.0/24" Runs.no_data)
     = Models.LOW.
Proof.
  assert (Hnil : Models.anomalies
                   (PathAnalyzer.detect_anomalies
                      int_insertion_order path_insertion_order
                      "192.0.2.0/24" Runs.no_data) = []) by reflexivity.
  split; [exact Hnil|].
  exact (proj1 (proj2 (proj2 (proj2
           (report_risk_level_is_highest_severity
              int_insertion_order path_insertion_order
              "192.0.2.0/24" Runs.no_data)))) Hnil).
Defined.

(** C8 as stated fails: the report without anomalies does not carry the
    level "none" that the highest-severity order of the specification
    gives to an empty list; it carries "low", the level of the report
    whose only anomaly is of low severity. *)
Lemma empty_report_level_counterexample :
  Models.anomalies
    (PathAnalyzer.detect_anomalies int_insertion_order path_insertion_order
                                   "192.0.2.0/24" Runs.no_data) = []
  /\ Spec.level_of
       (Models.risk_level
          (PathAnalyzer.detect_anomalies
             int_insertion_order path_insertion_order
             "192.0.2.0/24" Runs.no_data))
     <> Spec.spec_highest
          (Models.anomalies
             (PathAnalyzer.detect_anomalies
                int_insertion_order path_insertion_order
                "192.0.2.0/24" Runs.no_data))
  /\ (exists a : Models.Anomaly,
        Models.anomalies
          (PathAnalyzer.detect_anomalies
             int_insertion_order path_insertion_order
             "192.0.2.0/24" Runs.prepended_data) = [a]
        /\ Models.severity a = Models.LOW)
  /\ Models.risk_level
       (PathAnalyzer.detect_anomalies int_insertion_order path_insertion_order
                                      "192.0.2.0/24" Runs.no_data)
     = Models.risk_level
         (PathAnalyzer.detect_anomalies
            int_insertion_order path_insertion_order
            "192.0.2.0/24" Runs.prepended_data).
Proof.
  split; [reflexivity|]. split; [vm_compute; discriminate|].
  split; [|reflexivity].
  eexists. split; [vm_compute; reflexivity | reflexivity].
Qed.

(** ** Path analysis *)

Lemma iter_nil {A : Type} (o : Py.SetOrder A) : Py.iter o [] = [].
Proof.
  destruct (Py.iter o []) as [|x t] eqn:E; [reflexivity|].
  exfalso. apply (Py.iter_In o [] x). rewrite E. now left.
Qed.

Lemma fold_max_spec (t : list Z) (a : Z) :
  In (fold_left Z.max t a) (a :: t)
  /\ forall x, In x (a :: t) -> x <= fold_left Z.max t a.
Proof.
  revert a. induction t as [|b t IH]; intros a; cbn [fold_left].
  - split; [now left|]. intros x [Hx|[]]. lia.
  - destruct (IH (Z.max a b)) as [Hin Hle]. split.
    + destruct Hin as [Hm|Hin]; [|now right; right].
      rewrite <- Hm. destruct (Z.max_spec a b) as [[_ ->]|[_ ->]];
        [right; now left | now left].
    + pose proof (Hle (Z.max a b) (or_introl eq_refl)) as Hab.
      intros x [Hx|[Hx|Hx]].
      * lia.
      * lia.
      * apply Hle. now right.
Qed.

Lemma max_Z_exceeds (k : Z) (l : list Z) :
  0 <= k -> (k <? PathAnalyzer.max_Z l) = existsb (fun x => k <? x) l.
Proof.
  intros Hk. destruct l as [|a t]; [cbn; now apply Z.ltb_ge|].
  cbn [PathAnalyzer.max_Z].
  destruct (fold_max_spec t a) as [Hin Hle].
  destruct (existsb (fun x => k <? x) (a :: t)) eqn:E.
  - apply existsb_exists in E. destruct E as (x & Hx & Hkx).
    apply Z.ltb_lt in Hkx. apply Z.ltb_lt. specialize (Hle x Hx). lia.
  - apply Z.ltb_ge. destruct (Z.le_gt_cases (fold_left Z.max t a) k); [easy|].
    assert (existsb (fun x => k <? x) (a :: t) = true); [|congruence].
    apply existsb_exists. exists (fold_left Z.max t a).
    split; [exact Hin | now apply Z.ltb_lt].
Qed.

Lemma existsb_same_elements {A : Type} (f : A -> bool) (l l' : list A) :
  (forall x, In x l <-> In x l') -> existsb f l = existsb f l'.
Proof.
  intros H.
  destruct (existsb f l) eqn:E, (existsb f l') eqn:E'; try reflexivity.
  - apply existsb_exists in E. destruct E as (x & Hx & Hf).
    assert (existsb f l' = true); [|congruence].
    apply existsb_exists. exists x. split; [now apply H | exact Hf].
  - apply existsb_exists in E'. destruct E' as (x & Hx & Hf).
    assert (existsb f l = true); [|congruence].
    apply existsb_exists. exists x. split; [now apply H | exact Hf].
Qed.

Lemma existsb_through_map {A B : Type} (g : A -> B) (f : B -> bool)
      (l : list A) :
  existsb f (map g l) = existsb (fun x => f (g x)) l.
Proof.
  induction l as [|x t IH]; [reflexivity|]. cbn. now rewrite IH.
Qed.

Lemma find_map {A B : Type} (g : A -> B) (f : B -> bool) (l : list A) :
  find f (map g l) = option_map g (find (fun x => f (g x)) l).
Proof.
  induction l as [|x t IH]; [reflexivity|]. cbn.
  now destruct (f (g x)).
Qed.

Lemma find_existsb {A : Type} (f : A -> bool) (l : list A) :
  existsb f l = match find f l with Some _ => true | None => false end.
Proof.
  induction l as [|x t IH]; [reflexivity|]. cbn.
  now destruct (f x).
Qed.

Section PathAnalysis.
Context (int_order : Py.SetOrder Z) (path_order : Py.SetOrder (list Z)).

(** The fields of an analysis in terms of the raw paths. *)
Lemma analyze_paths_fields (resource : string)
      (lg : Py.result RIPEstat.LookingGlass) :
  let a := PathAnalyzer.analyze_paths int_order path_order resource lg in
  let unique := Py.iter path_order (Spec.observed_paths lg) in
  Models.path_count a = Py.len (Spec.observed_paths lg)
  /\ Models.unique_paths a
     = map PathAnalyzer._create_as_path (firstn 20 unique)
  /\ Models.max_path_length a = PathAnalyzer.max_Z (map (@Py.len Z) unique)
  /\ Models.min_path_length a = PathAnalyzer.min_Z (map (@Py.len Z) unique).
Proof.
  unfold PathAnalyzer.analyze_paths, Spec.observed_paths.
  destruct lg as [lg|e]; cbn [Models.path_count Models.unique_paths
    Models.max_path_length Models.min_path_length Models.PathAnalysis_default].
  - destruct (PathAnalyzer.collect_paths lg) as [|p t] eqn:E.
    + cbn. rewrite iter_nil. repeat split.
    + cbn [Models.path_count Models.unique_paths Models.max_path_length
           Models.min_path_length]. repeat split.
  - rewrite iter_nil. repeat split.
Qed.

Lemma long_path_seen (resource : string)
      (lg : Py.result RIPEstat.LookingGlass) :
  (10 <? Models.max_path_length (PathAnalyzer.analyze_paths int_order path_order resource lg))
  = existsb (fun p => 10 <? Py.len p) (Spec.observed_paths lg).
Proof.
  destruct (analyze_paths_fields resource lg) as (_ & _ & -> & _).
  rewrite max_Z_exceeds by lia. rewrite existsb_through_map.
  apply existsb_same_elements. intro p. apply (Py.iter_In path_order).
Qed.

(** C9 (as amended).  The unusual-path check emits exactly one
    "unusual_path_length" anomaly of medium severity when some observed
    path has more than 10 hops, and none otherwise.  It emits exactly one
    more, of low severity, when one of the deduplicated paths kept in the
    analysis has more than 5 prepends, and that one is about the first
    such path; none otherwise.  The analysis keeps the first 20
    deduplicated paths in the iteration order of the set. *)
Theorem unusual_path_anomalies (resource : string)
        (lg : Py.result RIPEstat.LookingGlass) :
  let a := PathAnalyzer.analyze_paths int_order path_order resource lg in
  let out := PathAnalyzer._check_unusual_paths int_order path_order resource lg in
  let kept := firstn 20 (Py.iter path_order (Spec.observed_paths lg)) in
  (forall x, In x out ->
     Models.type x = Models.UNUSUAL_PATH_LENGTH
     /\ (Models.severity x = Models.MEDIUM \/ Models.severity x = Models.LOW))
  /\ Spec.count_severity Models.MEDIUM out
     = (if existsb (fun p => 10 <? Py.len p) (Spec.observed_paths lg)
        then 1%nat else 0%nat)
  /\ Models.unique_paths a = map PathAnalyzer._create_as_path kept
  /\ Spec.count_severity Models.LOW out
     = (if existsb Spec.many_prepends kept then 1%nat else 0%nat)
  /\ (forall p, find Spec.many_prepends kept = Some p ->
        In (PathAnalyzer.prepend_anomaly
              resource (PathAnalyzer._create_as_path p)) out).
Proof.
  intros a out kept.
  destruct (analyze_paths_fields resource lg) as (_ & Hkept & _ & _).
  fold a in Hkept. fold kept in Hkept.
  pose proof (long_path_seen resource lg) as Hlong. fold a in Hlong.
  assert (Hfind : PathAnalyzer.first_prepended (Models.unique_paths a)
                  = option_map PathAnalyzer._create_as_path
                               (find Spec.many_prepends kept)).
  { rewrite Hkept. unfold PathAnalyzer.first_prepended.
    rewrite find_map. reflexivity. }
  assert (Hout : out
    = (if existsb (fun p => 10 <? Py.len p) (Spec.observed_paths lg)
       then [PathAnalyzer.long_path_anomaly resource a] else [])
      ++ match find Spec.many_prepends kept with
         | Some p => [PathAnalyzer.prepend_anomaly
                        resource (PathAnalyzer._create_as_path p)]
         | None => []
         end).
  { unfold out, PathAnalyzer._check_unusual_paths. fold a.
    rewrite Hlong, Hfind. now destruct (find Spec.many_prepends kept). }
  rewrite (find_existsb Spec.many_prepends kept).
  split; [|split; [|split; [exact Hkept|split]]].
  - intros x. rewrite Hout, in_app_iff.
    destruct (existsb _ (Spec.observed_paths lg)),
      (find Spec.many_prepends kept); cbn; intuition (subst; cbn; auto).
  - rewrite Hout. unfold Spec.count_severity.
    destruct (existsb _ (Spec.observed_paths lg)),
      (find Spec.many_prepends kept); reflexivity.
  - rewrite Hout. unfold Spec.count_severity.
    destruct (existsb _ (Spec.observed_paths lg)),
      (find Spec.many_prepends kept); reflexivity.
  - intros p Hp. rewrite Hout, Hp, in_app_iff. right. now left.
Qed.

End PathAnalysis.

(** A single path with six prepends is reported once, at low severity. *)
Lemma unusual_path_anomalies_witness :
  find Spec.many_prepends
       (firstn 20 (Py.iter path_insertion_order
                           (Spec.observed_paths
                              (Py.Ok Runs.one_prepended_path))))
  = Some [64500; 64501; 64501; 64501; 64501; 64501; 64501; 64501]
  /\ In (PathAnalyzer.prepend_anomaly
           "192.0.2.0/24"
           (PathAnalyzer._create_as_path
              [64500; 64501; 64501; 64501; 64501; 64501; 64501; 64501]))
        (PathAnalyzer._check_unusual_paths
           int_insertion_order path_insertion_order
           "192.0.2.0/24" (Py.Ok Runs.one_prepended_path)).
Proof.
  assert (Hfind :
    find Spec.many_prepends
         (firstn 20 (Py.iter path_insertion_order
                             (Spec.observed_paths
                                (Py.Ok Runs.one_prepended_path))))
    = Some [64500; 64501; 64501; 64501; 64501; 64501; 64501; 64501])
    by (vm_compute; reflexivity).
  split; [exact Hfind|].
  exact (proj2 (proj2 (proj2 (proj2
           (unusual_path_anomalies
              int_insertion_order path_insertion_order
              "192.0.2.0/24" (Py.Ok Runs.one_prepended_path)))))
           _ Hfind).
Defined.

(** C9 as stated fails: of twenty-one deduplicated paths one has six
    prepends, no path has more than ten hops, and the check emits
    nothing, the prepended path being the one that the analysis does not
    keep. *)
Lemma prepend_beyond_twenty_counterexample :
  (exists p : list Z,
     In p (Py.iter path_insertion_order
                   (Spec.observed_paths (Py.Ok Runs.twenty_one_paths)))
     /\ PathAnalyzer.count_prepends p = 6)
  /\ List.length (Py.iter path_insertion_order
                          (Spec.observed_paths (Py.Ok Runs.twenty_one_paths)))
     = 21%nat
  /\ PathAnalyzer._check_unusual_paths
       int_insertion_order path_insertion_order
       "192.0.2.0/24" (Py.Ok Runs.twenty_one_paths) = [].
Proof.
  split; [|split; vm_compute; reflexivity].
  exists [2; 7; 7; 7; 7; 7; 7; 7]. split; [|reflexivity].
  vm_compute. repeat (first [now left | right]).
Qed.

(** ** Path analysis: three observed paths *)

Section ThreePaths.
Context (int_order : Py.SetOrder Z) (path_order : Py.SetOrder (list Z)).

Lemma three_paths_observed :
  PathAnalyzer.collect_paths Runs.three_paths
  = [[100; 200; 300]; [100; 200; 300]; [400; 200; 300]].
Proof. vm_compute. reflexivity. Qed.

Lemma three_paths_unique :
  let unique := Py.iter path_order
                  [[100; 200; 300]; [100; 200; 300]; [400; 200; 300]] in
  unique = [[100; 200; 300]; [400; 200; 300]]
  \/ unique = [[400; 200; 300]; [100; 200; 300]].
Proof.
  intros unique. apply Permutation_length_2_inv.
  apply Permutation_sym.
  exact (iter_Permutation (list_eq_dec Z.eq_dec) path_order _).
Qed.

Lemma three_paths_transit (first : Z) :
  PathAnalyzer.transit_asns int_order [first; 200; 300] = [200].
Proof.
  unfold PathAnalyzer.transit_asns. cbn.
  apply iter_constant; [discriminate|].
  intros y [<-|[]]. reflexivity.
Qed.

(** C2 (as amended).  On the three raw paths [100 200 300], [100 200 300]
    and [400 200 300] the analysis counts 3 paths, keeps 2 unique paths,
    finds the single origin 300 and the lengths 3 and 3, and its common
    transit is exactly [200]: 100 and 400 are first hops, which the count
    leaves out. *)
Theorem analyze_three_paths (resource : string) :
  let a := PathAnalyzer.analyze_paths int_order path_order resource
                                      (Py.Ok Runs.three_paths) in
  Models.path_count a = 3
  /\ List.length (Models.unique_paths a) = 2%nat
  /\ Models.origin_asns a = [300]
  /\ Models.min_path_length a = 3
  /\ Models.max_path_length a = 3
  /\ Models.common_transit a = [200]
  /\ In 200 (Models.common_transit a)
  /\ ~ In 100 (Models.common_transit a)
  /\ ~ In 400 (Models.common_transit a).
Proof.
  intros a.
  assert (Hct : Models.common_transit a = [200]).
  { unfold a, PathAnalyzer.analyze_paths. rewrite three_paths_observed.
    cbn [Models.common_transit]. unfold PathAnalyzer._find_common_transit.
    cbn [fold_left]. rewrite !three_paths_transit. reflexivity. }
  assert (Horig : Models.origin_asns a = [300]).
  { unfold a, PathAnalyzer.analyze_paths. rewrite three_paths_observed.
    cbn [Models.origin_asns]. apply iter_constant; [discriminate|].
    cbn. intuition. }
  destruct (analyze_paths_fields int_order path_order resource
                                 (Py.Ok Runs.three_paths))
    as (Hcount & Hkept & Hmax & Hmin).
  fold a in Hcount, Hkept, Hmax, Hmin.
  unfold Spec.observed_paths in *. rewrite three_paths_observed in *.
  rewrite Hct, Horig, Hcount, Hkept, Hmax, Hmin.
  destruct three_paths_unique as [-> | ->]; cbn;
    repeat split; try (now left); intros [H|H]; try discriminate H; easy.
Qed.

End ThreePaths.

(** C2 as stated fails: 100 is not among the common transit of the three
    paths. *)
Lemma common_transit_100_counterexample :
  ~ (In 200 (Models.common_transit
               (PathAnalyzer.analyze_paths
                  int_insertion_order path_insertion_order
                  "192.0.2.0/24" (Py.Ok Runs.three_paths)))
     /\ In 100 (Models.common_transit
                  (PathAnalyzer.analyze_paths
                     int_insertion_order path_insertion_order
                     "192.0.2.0/24" (Py.Ok Runs.three_paths)))
     /\ ~ In 400 (Models.common_transit
                    (PathAnalyzer.analyze_paths
                       int_insertion_order path_insertion_order
                       "192.0.2.0/24" (Py.Ok Runs.three_paths)))).
Proof.
  intros (_ & H100 & _). vm_compute in H100.
  destruct H100 as [H|[]]. discriminate H.
Qed.

(** ** Historical anomaly detection *)

Import BGPStream BGPStream.BGPEvent.

Lemma mem_In (x : Z) (s : list Z) : Py.mem x s = true <-> In x s.
Proof.
  unfold Py.mem. rewrite existsb_exists. split.
  - intros (y & Hy & Heq). apply Z.eqb_eq in Heq. now subst.
  - intros H. exists x. split; [exact H | apply Z.eqb_refl].
Qed.

Lemma flagged_app (l l' : list Detection) :
  Spec.flagged (l ++ l') = Spec.flagged l ++ Spec.flagged l'.
Proof. apply flat_map_app. Qed.

(** What the inner loop of the path-based check adds. *)
Lemma flag_new_spec (e : Event) (baseline : list Z) (asns : list Z) :
  forall seen found seen',
    flag_new e baseline asns seen = (found, seen') ->
    Forall (fun d =>
              exists asn, In asn asns
                /\ d = mk "path_leak" (timestamp e) (prefix e)
                          (PathLeakEvidence (as_path e) baseline asn) "high")
           found
    /\ NoDup (Spec.flagged found)
    /\ (forall x, In x (Spec.flagged found) -> In x asns /\ ~ In x seen)
    /\ (forall x, In x seen' <-> In x seen \/ In x (Spec.flagged found))
    /\ (forall x, In x asns -> In x seen').
Proof.
  induction asns as [|asn rest IH]; intros seen found seen' H; cbn in H.
  - injection H as <- <-. cbn. repeat split; try constructor;
      try contradiction; try tauto.
  - destruct (Py.mem asn seen) eqn:Hmem.
    + apply mem_In in Hmem.
      destruct (IH _ _ _ H) as (Hall & Hnd & Hnew & Hseen & Hcov).
      split; [|split; [exact Hnd|split; [|split; [exact Hseen|]]]].
      * eapply Forall_impl; [|exact Hall].
        intros d (a & Ha & Hd). exists a. split; [now right | exact Hd].
      * intros x Hx. destruct (Hnew x Hx). split; [now right | assumption].
      * intros x [<-|Hx]; [apply Hseen; now left | now apply Hcov].
    + assert (Hnot : ~ In asn seen)
        by (intro Hin; apply mem_In in Hin; congruence).
      destruct (flag_new e baseline rest (asn :: seen)) as [found0 seen0]
        eqn:Hrec.
      injection H as <- <-.
      destruct (IH _ _ _ Hrec) as (Hall & Hnd & Hnew & Hseen & Hcov).
      split; [|split; [|split; [|split]]].
      * constructor.
        -- exists asn. split; [now left | reflexivity].
        -- eapply Forall_impl; [|exact Hall].
           intros d (a & Ha & Hd). exists a. split; [now right | exact Hd].
      * cbn. constructor; [|exact Hnd].
        intros Hin. destruct (Hnew asn Hin) as [_ Hn]. apply Hn. now left.
      * cbn. intros x [<-|Hx]; [split; [now left | exact Hnot]|].
        destruct (Hnew x Hx) as [Hr Hn].
        split; [now right | intro; apply Hn; now right].
      * cbn. intros x. rewrite Hseen. cbn. tauto.
      * intros x [<-|Hx]; [apply Hseen; left; now left | now apply Hcov].
Qed.

Section Replay.
Context (int_order : Py.SetOrder Z) (path_order : Py.SetOrder (list Z)).
Context (utcnow : Z).
Context (expected_origin : option Z) (expected_prefix : option string).
Context (baseline : list (list Z)).

Lemma more_specific_shape (e : Event) (l : list Detection) :
  more_specific expected_prefix e = Py.Ok l ->
  l = [] \/ l = [mk "more_specific" (timestamp e) (prefix e)
                    (MoreSpecificEvidence (as_path e) (origin_asn e))
                    "critical"].
Proof.
  unfold more_specific.
  destruct expected_prefix as [ep|]; [|intros H; injection H as <-; now left].
  destruct (Py.truthy_str ep); [|intros H; injection H as <-; now left].
  destruct (Py.index _ 1) as [piece|]; cbn [Py.bind]; [|discriminate].
  destruct (Py.int piece) as [n|]; cbn [Py.bind]; [|discriminate].
  destruct (if Py.contains_char "/" (prefix e) then _ else _) as [m|];
    cbn [Py.bind]; [|discriminate].
  destruct (_ && _); intros H; injection H as <-; [now right | now left].
Qed.

Lemma origin_check_shape (e : Event) :
  origin_check expected_origin e = []
  \/ (exists expected origin,
        expected_origin = Some expected /\ origin_asn e = Some origin
        /\ expected <> 0 /\ origin <> 0 /\ origin <> expected
        /\ ((In expected (as_path e)
             /\ origin_check expected_origin e = [Spec.leak_of e origin])
            \/ (~ In expected (as_path e)
                /\ origin_check expected_origin e
                   = [Spec.hijack_of e expected origin]))).
Proof.
  unfold origin_check.
  destruct expected_origin as [expected|]; [|now left].
  destruct (origin_asn e) as [origin|]; [|now left].
  unfold Py.truthy_int.
  destruct (Z.eqb_spec expected 0); [now left|].
  destruct (Z.eqb_spec origin 0); [now left|].
  destruct (Z.eqb_spec origin expected); [now left|].
  cbn [negb andb]. right. exists expected, origin.
  repeat (split; [reflexivity || assumption|]).
  destruct (Py.mem expected (as_path e)) eqn:Hmem.
  - left. split; [now apply mem_In | reflexivity].
  - right. split; [|reflexivity].
    intro Hin. apply mem_In in Hin. congruence.
Qed.

(** The path-based check on one event. *)
Lemma path_leak_shape (e : Event) (seen : list Z) (leaks : list Detection)
      (seen' : list Z) :
  path_leak int_order path_order expected_origin baseline e seen
  = (leaks, seen') ->
  (leaks = [] /\ seen' = seen)
  \/ (origin_is expected_origin e = true
      /\ 2 < Py.len (as_path e)
      /\ exists b,
           In b baseline /\ matches_baseline e b = true
           /\ flag_new e b (Py.iter int_order (Py.inner (as_path e))) seen
              = (leaks, seen')).
Proof.
  unfold path_leak.
  destruct (origin_is expected_origin e) eqn:Ho; cbn [andb];
    [|intros H; injection H as <- <-; now left].
  destruct (Z.ltb_spec 2 (Py.len (as_path e))) as [Hlen|Hlen];
    [|intros H; injection H as <- <-; now left].
  destruct (find (matches_baseline e) (Py.iter path_order baseline))
    as [b|] eqn:Hfind; [|intros H; injection H as <- <-; now left].
  intros H. right. split; [reflexivity|]. split; [exact Hlen|].
  apply find_some in Hfind. destruct Hfind as [Hin Hm].
  exists b. split; [now apply (Py.iter_In path_order) | now split].
Qed.

(** One turn of the loop, taken apart. *)
Lemma step_shape (st st' : State) (e : Event) :
  step int_order path_order expected_origin expected_prefix baseline st e
  = Py.Ok st' ->
  (is_announcement e = false /\ st' = st)
  \/ (is_announcement e = true
      /\ exists specific leaks,
           more_specific expected_prefix e = Py.Ok specific
           /\ path_leak int_order path_order expected_origin baseline e
                        (suspicious_ases_seen st)
              = (leaks, suspicious_ases_seen st')
           /\ anomalies st'
              = anomalies st ++ specific
                ++ origin_check expected_origin e ++ leaks).
Proof.
  unfold step. destruct (is_announcement e); cbn [negb].
  - destruct (more_specific expected_prefix e) as [specific|]; cbn [Py.bind];
      [|discriminate].
    destruct (path_leak _ _ _ _ e (suspicious_ases_seen st))
      as [leaks seen'] eqn:Hpl.
    intros H. injection H as <-. right. split; [reflexivity|].
    exists specific, leaks. cbn. repeat split.
  - intros H. injection H as <-. now left.
Qed.

End Replay.

Section Detection.
Context (int_order : Py.SetOrder Z) (path_order : Py.SetOrder (list Z)).
Context (utcnow : Z).
Context (expected_origin : option Z) (expected_prefix : option string).
Context (events : list Event).

Local Definition base : list (list Z) := baseline_inserted events.

(** What one turn adds to the detections and to the set of flagged AS
    numbers. *)
Lemma step_effects (st st' : State) (e : Event) :
  In e events ->
  step int_order path_order expected_origin expected_prefix base st e
  = Py.Ok st' ->
  exists added,
    anomalies st' = anomalies st ++ added
    /\ Forall Spec.coherent added
    /\ Forall (Spec.from_qualifying expected_origin base events) added
    /\ filter Spec.is_origin_verdict added
       = (if is_announcement e then origin_check expected_origin e else [])
    /\ NoDup (Spec.flagged added)
    /\ (forall x, In x (Spec.flagged added) ->
                  ~ In x (suspicious_ases_seen st))
    /\ (forall x, In x (suspicious_ases_seen st')
                  <-> In x (suspicious_ases_seen st)
                      \/ In x (Spec.flagged added))
    /\ (forall b, Spec.qualifies expected_origin base e b ->
                  forall a, In a (Py.inner (as_path e)) ->
                            In a (suspicious_ases_seen st')).
Proof.
  intros Hin Hstep.
  destruct (step_shape _ _ _ _ _ _ _ _ Hstep)
    as [[Hann ->] | (Hann & specific & leaks & Hms & Hpl & Hanom)].
  - exists []. rewrite app_nil_r, Hann. cbn.
    repeat split; try constructor; try tauto.
    intros b (Hq & _). congruence.
  - exists (specific ++ origin_check expected_origin e ++ leaks).
    split; [exact Hanom|]. rewrite Hann.
    (* the three groups of detections *)
    assert (Hspec : Forall Spec.coherent specific
                    /\ Forall (Spec.from_qualifying expected_origin base events)
                              specific
                    /\ filter Spec.is_origin_verdict specific = []
                    /\ Spec.flagged specific = []).
    { destruct (more_specific_shape _ _ _ Hms) as [-> | ->]; cbn;
        repeat split; repeat constructor. }
    assert (Horig : Forall Spec.coherent (origin_check expected_origin e)
                    /\ Forall (Spec.from_qualifying expected_origin base events)
                              (origin_check expected_origin e)
                    /\ filter Spec.is_origin_verdict
                              (origin_check expected_origin e)
                       = origin_check expected_origin e
                    /\ Spec.flagged (origin_check expected_origin e) = []).
    { destruct (origin_check_shape expected_origin e)
        as [-> | (ex & og & _ & _ & _ & _ & _ & [[_ ->] | [_ ->]])]; cbn;
        repeat split; repeat constructor. }
    destruct Hspec as (Hs1 & Hs2 & Hs3 & Hs4).
    destruct Horig as (Ho1 & Ho2 & Ho3 & Ho4).
    destruct (path_leak_shape _ _ _ _ _ _ _ _ Hpl)
      as [[-> Hseen] | (Horigin & Hlen & b & Hb & Hmatch & Hflag)].
    + rewrite app_nil_r.
      split; [apply Forall_app; now split|].
      split; [apply Forall_app; now split|].
      split; [rewrite filter_app, Hs3, Ho3; reflexivity|].
      rewrite flagged_app, Hs4, Ho4. cbn [app In].
      split; [constructor|]. split; [tauto|].
      split; [rewrite Hseen; tauto|].
      intros b (_ & Horigin & Hlen & Hb & Hmatch) a Ha.
      unfold path_leak in Hpl. rewrite Horigin in Hpl.
      apply Z.ltb_lt in Hlen. rewrite Hlen in Hpl. cbn [andb] in Hpl.
      destruct (find (matches_baseline e) (Py.iter path_order base))
        as [b'|] eqn:Hfind.
      * destruct (flag_new_spec _ _ _ _ _ _ Hpl) as (_ & _ & _ & _ & Hcov).
        apply Hcov. now apply (Py.iter_In int_order).
      * assert (Hno : matches_baseline e b = false).
        { apply (find_none _ _ Hfind b). now apply (Py.iter_In path_order). }
        congruence.
    + destruct (flag_new_spec _ _ _ _ _ _ Hflag)
        as (Hall & Hnd & Hnew & Hs & Hcov).
      assert (Hl1 : Forall Spec.coherent leaks).
      { eapply Forall_impl; [|exact Hall]. intros d (a & _ & ->).
        reflexivity. }
      assert (Hl2 : Forall (Spec.from_qualifying expected_origin base events)
                           leaks).
      { eapply Forall_impl; [|exact Hall]. intros d (a & Ha & ->).
        cbn. exists e. split; [exact Hin|].
        split; [repeat split; assumption|].
        split; [now apply (Py.iter_In int_order) | reflexivity]. }
      assert (Hl3 : filter Spec.is_origin_verdict leaks = []).
      { clear -Hall. induction Hall as [|d l (a & _ & ->) _ IH];
          [reflexivity | exact IH]. }
      split; [repeat (apply Forall_app; split); assumption|].
      split; [repeat (apply Forall_app; split); assumption|].
      split; [rewrite !filter_app, Hs3, Ho3, Hl3, app_nil_r; reflexivity|].
      rewrite !flagged_app, Hs4, Ho4. cbn [app].
      split; [exact Hnd|].
      split; [intros x Hx; now destruct (Hnew x Hx)|].
      split; [exact Hs|].
      intros _ _ a Ha. apply Hcov. now apply (Py.iter_In int_order).
Qed.

(** The same for a whole run. *)
Lemma run_effects (evs : list Event) :
  forall st st',
    incl evs events ->
    run int_order path_order expected_origin expected_prefix base evs st
    = Py.Ok st' ->
    exists added,
      anomalies st' = anomalies st ++ added
      /\ Forall Spec.coherent added
      /\ Forall (Spec.from_qualifying expected_origin base events) added
      /\ filter Spec.is_origin_verdict added
         = flat_map (origin_check expected_origin)
                    (filter is_announcement evs)
      /\ NoDup (Spec.flagged added)
      /\ (forall x, In x (Spec.flagged added) ->
                    ~ In x (suspicious_ases_seen st))
      /\ (forall x, In x (suspicious_ases_seen st')
                    <-> In x (suspicious_ases_seen st)
                        \/ In x (Spec.flagged added))
      /\ (forall e b, In e evs -> Spec.qualifies expected_origin base e b ->
                      forall a, In a (Py.inner (as_path e)) ->
                                In a (suspicious_ases_seen st')).
Proof.
  induction evs as [|e rest IH]; intros st st' Hincl; cbn [run].
  - intros H. injection H as <-. exists []. rewrite app_nil_r. cbn.
    repeat split; try constructor; try tauto.
  - destruct (step _ _ _ _ _ st e) as [st1|] eqn:Hs; cbn [Py.bind];
      [|discriminate].
    intros Hrun.
    assert (Hin : In e events) by (apply Hincl; now left).
    destruct (step_effects st st1 e Hin Hs)
      as (a1 & Han1 & Hc1 & Hq1 & Hv1 & Hn1 & Hf1 & Hs1 & Hcov1).
    destruct (IH st1 st' (fun x Hx => Hincl x (or_intror Hx)) Hrun)
      as (a2 & Han2 & Hc2 & Hq2 & Hv2 & Hn2 & Hf2 & Hs2 & Hcov2).
    exists (a1 ++ a2).
    split; [rewrite Han2, Han1, app_assoc; reflexivity|].
    split; [apply Forall_app; now split|].
    split; [apply Forall_app; now split|].
    split.
    { rewrite filter_app, Hv1, Hv2. cbn [filter].
      destruct (is_announcement e); reflexivity. }
    rewrite flagged_app.
    split.
    { apply NoDup_app; [exact Hn1 | exact Hn2 |].
      intros x Hx1 Hx2. apply (Hf2 x Hx2). apply Hs1. now right. }
    split.
    { intros x Hx. apply in_app_iff in Hx. destruct Hx as [Hx|Hx].
      - now apply Hf1.
      - intro Hseen. apply (Hf2 x Hx). apply Hs1. now left. }
    split.
    { intros x. rewrite Hs2, Hs1, in_app_iff. tauto. }
    intros e' b [<-|He'] Hq a Ha.
    + apply Hs2. left. now apply (Hcov1 b Hq a).
    + now apply (Hcov2 e' b He' Hq a).
Qed.

Lemma origin_changes_effects (seen : list Z) :
  let l := origin_changes int_order utcnow expected_origin expected_prefix
                          events seen in
  Forall Spec.coherent l
  /\ Forall (Spec.from_qualifying expected_origin base events) l
  /\ filter Spec.is_origin_verdict l = []
  /\ Spec.flagged l = [].
Proof.
  unfold origin_changes.
  destruct expected_origin as [expected|];
    [|cbn; repeat split; constructor].
  destruct (_ && _); [|cbn; repeat split; constructor].
  induction (Py.iter int_order (filter _ seen)) as [|x t IH]; cbn.
  - repeat split; constructor.
  - cbn in IH. destruct IH as (H1 & H2 & H3 & H4).
    repeat split; try (constructor; [reflexivity || exact I | assumption]);
      assumption.
Qed.

(** The detections of a run that returns. *)
Lemma detect_anomalies_effects (out : list Detection) :
  detect_anomalies int_order path_order utcnow events expected_origin
                   expected_prefix = Py.Ok out ->
  Forall Spec.coherent out
  /\ Forall (Spec.from_qualifying expected_origin base events) out
  /\ filter Spec.is_origin_verdict out
     = flat_map (origin_check expected_origin) (filter is_announcement events)
  /\ NoDup (Spec.flagged out)
  /\ (forall e b, In e events -> Spec.qualifies expected_origin base e b ->
                  forall a, In a (Py.inner (as_path e)) ->
                            In a (Spec.flagged out)).
Proof.
  unfold detect_anomalies. fold base.
  destruct (run _ _ _ _ base events initial) as [st|] eqn:Hrun;
    cbn [Py.bind]; [|discriminate].
  intros H. injection H as <-.
  destruct (run_effects events initial st (incl_refl _) Hrun)
    as (added & Han & Hc & Hq & Hv & Hn & _ & Hs & Hcov).
  cbn in Han. subst added.
  destruct (origin_changes_effects (seen_origins st)) as (Hc' & Hq' & Hv' & Hf').
  split; [apply Forall_app; now split|].
  split; [apply Forall_app; now split|].
  split; [rewrite filter_app, Hv, Hv', app_nil_r; reflexivity|].
  rewrite flagged_app, Hf', app_nil_r.
  split; [exact Hn|].
  intros e b He Hq0 a Ha.
  specialize (Hcov e b He Hq0 a Ha). apply Hs in Hcov.
  cbn in Hcov. tauto.
Qed.

(** A run returns exactly when no prefix-length comparison raises. *)
Lemma run_returns (evs : list Event) :
  forall st,
    (forall e, In e evs -> is_announcement e = true ->
               Py.is_ok (more_specific expected_prefix e) = true) ->
    exists st',
      run int_order path_order expected_origin expected_prefix base evs st
      = Py.Ok st'.
Proof.
  induction evs as [|e rest IH]; intros st Hok; cbn [run].
  - now exists st.
  - assert (Hstep : exists st1,
               step int_order path_order expected_origin expected_prefix
                    base st e = Py.Ok st1).
    { unfold step. destruct (is_announcement e) eqn:Hann; cbn [negb];
        [|now exists st].
      specialize (Hok e (or_introl eq_refl) Hann).
      destruct (more_specific expected_prefix e); [|discriminate].
      cbn [Py.bind]. destruct (path_leak _ _ _ _ _ _). eauto. }
    destruct Hstep as [st1 ->]. cbn [Py.bind].
    apply IH. intros x Hx. apply Hok. now right.
Qed.

Lemma detect_anomalies_returns :
  (forall e, In e events -> is_announcement e = true ->
             Py.is_ok (more_specific expected_prefix e) = true) ->
  exists out,
    detect_anomalies int_order path_order utcnow events expected_origin
                     expected_prefix = Py.Ok out.
Proof.
  intros Hok. unfold detect_anomalies. fold base.
  destruct (run_returns events initial Hok) as [st ->]. cbn [Py.bind].
  eauto.
Qed.

End Detection.

Lemma coherent_type (d : Detection) :
  Spec.coherent d ->
  (AnomalyDetection.anomaly_type d = "leak"%string ->
   AnomalyDetection.severity d = "high"%string)
  /\ (AnomalyDetection.anomaly_type d = "hijack"%string ->
      AnomalyDetection.severity d = "critical"%string)
  /\ (AnomalyDetection.anomaly_type d = "path_leak"%string ->
      AnomalyDetection.severity d = "high"%string
      /\ exists p b a, AnomalyDetection.evidence d = PathLeakEvidence p b a).
Proof.
  unfold Spec.coherent.
  destruct (AnomalyDetection.evidence d) as [p o|p l|p x y|p b a|o];
    cbn [Spec.kind_of]; intros H; injection H as Ht Hs; rewrite Ht, Hs;
    repeat split; try discriminate; eauto.
Qed.

Lemma origin_check_spec (expected_origin : option Z) (e : Event) :
  origin_check expected_origin e
  = Spec.spec_origin_verdict expected_origin e.
Proof.
  unfold origin_check, Spec.spec_origin_verdict, Py.truthy_int, Py.mem.
  destruct expected_origin as [expected|]; [|reflexivity].
  destruct (origin_asn e) as [origin|]; [|reflexivity].
  destruct (expected =? 0), (origin =? 0), (origin =? expected);
    reflexivity.
Qed.

Lemma verdicts_counted (expected_origin : option Z) (l : list Event) :
  List.length (flat_map (Spec.spec_origin_verdict expected_origin) l)
  = List.length (filter (Spec.checked expected_origin) l).
Proof.
  induction l as [|e rest IH]; [reflexivity|].
  cbn [flat_map filter]. rewrite length_app, IH.
  unfold Spec.spec_origin_verdict, Spec.checked.
  destruct expected_origin as [expected|]; [|reflexivity].
  destruct (origin_asn e) as [origin|]; [|reflexivity].
  destruct (expected =? 0), (origin =? 0), (origin =? expected);
    cbn [orb negb andb List.length]; try reflexivity.
  destruct (existsb (Z.eqb expected) (as_path e)); reflexivity.
Qed.

Lemma flat_map_nil {A B : Type} (f : A -> list B) (l : list A) :
  (forall x, In x l -> f x = []) -> flat_map f l = [].
Proof.
  induction l as [|x rest IH]; intros H; [reflexivity|].
  cbn [flat_map]. rewrite (H x (or_introl eq_refl)). cbn [app].
  apply IH. intros y Hy. apply H. now right.
Qed.

(** C3 (as amended).  In a run of the historical detection that returns,
    whatever expected origin is given or not, the "leak" and "hijack"
    detections are exactly the verdicts of the origin check on the
    announcements, in order, one for each announcement to which the
    check applies; a leak is of severity "high" and a hijack of severity
    "critical".  An announcement whose origin is present, is not 0 and
    differs from a given expected origin other than 0 is classified as a
    leak when the expected origin occurs in its path, and as a hijack
    otherwise, and every leak or hijack detection classifies such an
    announcement.  An origin or an expected origin that is absent or 0
    is not checked: without an expected origin, or with 0, a run has no
    leak and no hijack detection, and announcements whose origin is
    absent or 0 give none. *)
Theorem origin_mismatch_classified
        (int_order : Py.SetOrder Z) (path_order : Py.SetOrder (list Z))
        (utcnow : Z) (events : list Event) (expected_origin : option Z)
        (expected_prefix : option string) (out : list Detection) :
  detect_anomalies int_order path_order utcnow events expected_origin
                   expected_prefix = Py.Ok out ->
  filter Spec.is_origin_verdict out
  = flat_map (Spec.spec_origin_verdict expected_origin)
             (filter is_announcement events)
  /\ List.length (filter Spec.is_origin_verdict out)
     = List.length (filter (Spec.checked expected_origin)
                           (filter is_announcement events))
  /\ (forall d, In d out ->
        (AnomalyDetection.anomaly_type d = "leak"%string ->
         AnomalyDetection.severity d = "high"%string)
        /\ (AnomalyDetection.anomaly_type d = "hijack"%string ->
            AnomalyDetection.severity d = "critical"%string))
  /\ (forall e expected origin,
        In e events -> is_announcement e = true ->
        expected_origin = Some expected ->
        origin_asn e = Some origin ->
        expected <> 0 -> origin <> 0 -> origin <> expected ->
        (In expected (as_path e) ->
         origin_check expected_origin e = [Spec.leak_of e origin]
         /\ In (Spec.leak_of e origin) out)
        /\ (~ In expected (as_path e) ->
            origin_check expected_origin e
            = [Spec.hijack_of e expected origin]
            /\ In (Spec.hijack_of e expected origin) out))
  /\ (forall d, In d out -> Spec.is_origin_verdict d = true ->
        exists e expected origin,
          In e events /\ is_announcement e = true
          /\ expected_origin = Some expected
          /\ origin_asn e = Some origin
          /\ expected <> 0 /\ origin <> 0 /\ origin <> expected
          /\ ((In expected (as_path e) /\ d = Spec.leak_of e origin)
              \/ (~ In expected (as_path e)
                  /\ d = Spec.hijack_of e expected origin)))
  /\ (expected_origin = None \/ expected_origin = Some 0 ->
      forall d, In d out -> Spec.is_origin_verdict d = false)
  /\ ((forall e, In e events -> is_announcement e = true ->
                 origin_asn e = None \/ origin_asn e = Some 0) ->
      forall d, In d out -> Spec.is_origin_verdict d = false).
Proof.
  intros Hrun.
  destruct (detect_anomalies_effects _ _ _ _ _ _ _ Hrun)
    as (Hcoh & _ & Hverdicts & _ & _).
  assert (Hspec : filter Spec.is_origin_verdict out
                  = flat_map (Spec.spec_origin_verdict expected_origin)
                             (filter is_announcement events)).
  { rewrite Hverdicts. apply flat_map_ext. intros e.
    apply origin_check_spec. }
  assert (Hsound : forall d, In d out -> Spec.is_origin_verdict d = true ->
            exists e expected origin,
              In e events /\ is_announcement e = true
              /\ expected_origin = Some expected
              /\ origin_asn e = Some origin
              /\ expected <> 0 /\ origin <> 0 /\ origin <> expected
              /\ ((In expected (as_path e) /\ d = Spec.leak_of e origin)
                  \/ (~ In expected (as_path e)
                      /\ d = Spec.hijack_of e expected origin))).
  { intros d Hd Hv.
    assert (Hd' : In d (filter Spec.is_origin_verdict out))
      by (apply filter_In; now split).
    rewrite Hverdicts in Hd'. apply in_flat_map in Hd'.
    destruct Hd' as (e & He & Hde). apply filter_In in He.
    destruct He as [He Hann].
    destruct (origin_check_shape expected_origin e)
      as [Hnil | (ex & og & Hex & Hog & H1 & H2 & H3 & Hcase)].
    - rewrite Hnil in Hde. destruct Hde.
    - exists e, ex, og. repeat (split; [assumption|]).
      destruct Hcase as [[Hin Heq] | [Hno Heq]]; rewrite Heq in Hde;
        destruct Hde as [<-|[]]; [left | right]; now split. }
  split; [exact Hspec|].
  split; [rewrite Hspec; apply verdicts_counted|].
  split.
  { intros d Hd. rewrite Forall_forall in Hcoh.
    destruct (coherent_type d (Hcoh d Hd)) as (H1 & H2 & _). now split. }
  split.
  { intros e expected origin He Hann Hexpected Horigin Hexp Hor Hne.
    assert (Hin : forall d, In d (origin_check expected_origin e) ->
                            In d out).
    { intros d Hd.
      assert (Hd' : In d (filter Spec.is_origin_verdict out)).
      { rewrite Hverdicts. apply in_flat_map. exists e.
        split; [apply filter_In; now split | exact Hd]. }
      apply filter_In in Hd'. tauto. }
    destruct (origin_check_shape expected_origin e)
      as [Hnil | (ex & og & Hex & Hog & _ & _ & _ & Hcase)].
    - exfalso. unfold origin_check in Hnil.
      rewrite Hexpected, Horigin in Hnil.
      unfold Py.truthy_int in Hnil.
      destruct (Z.eqb_spec expected 0); [contradiction|].
      destruct (Z.eqb_spec origin 0); [contradiction|].
      destruct (Z.eqb_spec origin expected); [contradiction|].
      cbn in Hnil. destruct (Py.mem expected (as_path e)); discriminate.
    - rewrite Hexpected in Hex. injection Hex as <-.
      rewrite Horigin in Hog. injection Hog as <-.
      split; intros Hpath; destruct Hcase as [[Hyes Heq] | [Hno Heq]];
        try contradiction; (split; [exact Heq|]);
        apply Hin; rewrite Heq; now left. }
  split; [exact Hsound|].
  split.
  { intros Habsent d Hd.
    destruct (Spec.is_origin_verdict d) eqn:Hv; [|reflexivity].
    exfalso.
    destruct (Hsound d Hd Hv) as (e & ex & og & _ & _ & Hex & _ & Hne & _).
    destruct Habsent as [Hn | Hz]; rewrite Hex in *;
      [discriminate | injection Hz as ->; now apply Hne]. }
  intros Hall d Hd.
  destruct (Spec.is_origin_verdict d) eqn:Hv; [|reflexivity].
  exfalso.
  destruct (Hsound d Hd Hv)
    as (e & ex & og & He & Hann & _ & Hog & _ & Hne & _).
  destruct (Hall e He Hann) as [Hn | Hz]; rewrite Hog in *;
    [discriminate | injection Hz as ->; now apply Hne].
Qed.

(** The backtest: a hundred announcements originated by AS 13335, then
    one with origin AS 267613 and AS 13335 in its path, which is
    classified as a leak and not as a hijack. *)
Lemma origin_mismatch_classified_witness :
  exists out : list Detection,
    detect_anomalies int_insertion_order path_insertion_order 0
                     Runs.backtest_events (Some 13335)
                     (Some "1.1.1.0/24"%string) = Py.Ok out
    /\ In Runs.leaked_event Runs.backtest_events
    /\ origin_asn Runs.leaked_event = Some 267613
    /\ In 13335 (as_path Runs.leaked_event)
    /\ In (Spec.leak_of Runs.leaked_event 267613) out
    /\ filter Spec.is_origin_verdict out
       = [Spec.leak_of Runs.leaked_event 267613].
Proof.
  eexists. split; [vm_compute; reflexivity|].
  assert (Hin : In Runs.leaked_event Runs.backtest_events)
    by (apply in_or_app; right; now left).
  assert (Hpath : In 13335 (as_path Runs.leaked_event))
    by (right; now left).
  split; [exact Hin|]. split; [reflexivity|]. split; [exact Hpath|].
  split; [|reflexivity].
  refine (proj2 (proj1 (proj1 (proj2 (proj2 (proj2
            (origin_mismatch_classified
               int_insertion_order path_insertion_order 0
               Runs.backtest_events (Some 13335)
               (Some "1.1.1.0/24"%string) _ _))))
            Runs.leaked_event 13335 267613 Hin eq_refl eq_refl eq_refl
            _ _ _) Hpath));
    [vm_compute; reflexivity | discriminate | discriminate | discriminate].
Defined.

(** C3 as stated fails: the announcement has the observed origin 0, which
    differs from the expected origin 13335, and 13335 is not in its path;
    it is not classified at all. *)
Lemma origin_zero_counterexample :
  is_announcement Runs.as0_event = true
  /\ origin_asn Runs.as0_event = Some 0
  /\ 0 <> 13335
  /\ ~ In 13335 (as_path Runs.as0_event)
  /\ detect_anomalies int_insertion_order path_insertion_order 0
                      [Runs.as0_event] (Some 13335)
                      (Some "1.1.1.0/24"%string) = Py.Ok [].
Proof.
  split; [reflexivity|]. split; [reflexivity|]. split; [discriminate|].
  split; [|vm_compute; reflexivity].
  cbn. intros [H|[H|[]]]; discriminate H.
Qed.

Lemma baseline_inserted_In (events : list Event) (b : list Z) :
  In b (baseline_inserted events)
  <-> exists e0, In e0 events /\ is_announcement e0 = true
                 /\ as_path e0 = b /\ b <> [] /\ Py.len b <= 3.
Proof.
  unfold baseline_inserted. rewrite in_map_iff. split.
  - intros (e0 & <- & Hf). apply filter_In in Hf. destruct Hf as [He0 Hb].
    unfold is_baseline in Hb. apply andb_prop in Hb. destruct Hb as [Hb Hlen].
    apply andb_prop in Hb. destruct Hb as [Hann Hne].
    exists e0. repeat split; try assumption.
    + intro E. rewrite E in Hne. discriminate.
    + now apply Z.leb_le.
  - intros (e0 & He0 & Hann & <- & Hne & Hlen).
    exists e0. split; [reflexivity|]. apply filter_In. split; [exact He0|].
    unfold is_baseline. rewrite Hann. cbn [andb].
    apply andb_true_intro. split; [|now apply Z.leb_le].
    destruct (as_path e0); [congruence | reflexivity].
Qed.

Lemma origin_is_explicit (expected_origin : option Z) (e : Event) :
  origin_is expected_origin e = true
  <-> exists expected,
        expected_origin = Some expected /\ expected <> 0
        /\ origin_asn e = Some expected.
Proof.
  unfold origin_is, Py.truthy_int. split.
  - destruct expected_origin as [expected|]; [|discriminate].
    destruct (origin_asn e) as [origin|]; [|discriminate].
    destruct (Z.eqb_spec expected 0); [discriminate|].
    destruct (Z.eqb_spec origin expected); [|discriminate].
    intros _. exists expected. subst origin. now repeat split.
  - intros (expected & -> & Hne & ->).
    destruct (Z.eqb_spec expected 0); [contradiction|].
    now rewrite Z.eqb_refl.
Qed.

Lemma matches_baseline_explicit (e : Event) (b : list Z) :
  matches_baseline e b = true
  <-> Py.len b <= 2 /\ hd 0 b = hd 0 (as_path e)
      /\ last b 0 = last (as_path e) 0.
Proof.
  unfold matches_baseline, Py.last_or.
  rewrite !andb_true_iff, Z.leb_le, !Z.eqb_eq. intuition congruence.
Qed.

(** The test of the code against a baseline path is the one of the
    description. *)
Lemma qualifies_explicit (expected_origin : option Z)
      (events : list Event) (e : Event) (b : list Z) :
  In e events ->
  (Spec.qualifies expected_origin (baseline_inserted events) e b
   <-> Spec.spec_qualifies expected_origin events e b).
Proof.
  intros He. unfold Spec.qualifies, Spec.spec_qualifies.
  rewrite origin_is_explicit, matches_baseline_explicit,
    baseline_inserted_In.
  split.
  - intros (Hann & (expected & Hex & Hne & Hor) & Hlen
            & (e0 & He0 & Hann0 & Hp0 & Hnil & _) & Hb & Hhd & Hlast).
    exists expected. repeat (split; [assumption|]).
    split; [now exists e0|]. now repeat split.
  - intros (expected & Hex & Hne & _ & Hann & Hor & Hlen
            & (e0 & He0 & Hann0 & Hp0) & Hnil & Hb & Hhd & Hlast).
    split; [exact Hann|]. split; [now exists expected|].
    split; [exact Hlen|]. split; [|now repeat split].
    exists e0. repeat (split; [assumption|]). lia.
Qed.

(** C6 (as amended).  In a run of the historical detection that returns,
    take an announcement whose origin is the expected origin (other than
    0) and whose path has more than two hops, and an announced path of
    at most two hops with the same first and last AS.  Then every AS
    number strictly between the first and the last hop of the
    announcement's path is flagged by a "path_leak" detection of severity
    "high".  Every "path_leak" detection arises in this way, from such an
    announcement and such a path of at most two hops, and no AS number is
    flagged twice in the run.  The baseline holds the non-empty announced
    paths of at most three hops, but its three-hop paths are never
    matched: a run in which every announced path has three hops or more
    has no "path_leak" detection. *)
Theorem path_leak_flagging
        (int_order : Py.SetOrder Z) (path_order : Py.SetOrder (list Z))
        (utcnow : Z) (events : list Event) (expected_origin : option Z)
        (expected_prefix : option string) (out : list Detection) :
  detect_anomalies int_order path_order utcnow events expected_origin
                   expected_prefix = Py.Ok out ->
  NoDup (Spec.flagged out)
  /\ (forall d, In d out ->
        AnomalyDetection.anomaly_type d = "path_leak"%string ->
        AnomalyDetection.severity d = "high"%string
        /\ exists e b a,
             Spec.spec_qualifies expected_origin events e b
             /\ Py.len b <= 2
             /\ In a (Py.inner (as_path e))
             /\ d = Spec.path_leak_of e b a)
  /\ (forall b, In b (baseline_inserted events)
                <-> exists e0, In e0 events /\ is_announcement e0 = true
                               /\ as_path e0 = b /\ b <> [] /\ Py.len b <= 3)
  /\ (forall e b,
        Spec.spec_qualifies expected_origin events e b ->
        forall a, In a (Py.inner (as_path e)) ->
          exists d, In d out
                    /\ AnomalyDetection.anomaly_type d = "path_leak"%string
                    /\ AnomalyDetection.severity d = "high"%string
                    /\ Spec.suspicious_of d = [a])
  /\ ((forall e0, In e0 events -> is_announcement e0 = true ->
                  2 < Py.len (as_path e0)) ->
      forall d, In d out ->
                AnomalyDetection.anomaly_type d <> "path_leak"%string)
  /\ (expected_origin = None \/ expected_origin = Some 0 ->
      forall d, In d out ->
                AnomalyDetection.anomaly_type d <> "path_leak"%string).
Proof.
  intros Hrun.
  destruct (detect_anomalies_effects _ _ _ _ _ _ _ Hrun)
    as (Hcoh & Hfrom & _ & Hnd & Hcov).
  rewrite Forall_forall in Hcoh, Hfrom.
  assert (Hsound : forall d, In d out ->
            AnomalyDetection.anomaly_type d = "path_leak"%string ->
            AnomalyDetection.severity d = "high"%string
            /\ exists e b a,
                 Spec.spec_qualifies expected_origin events e b
                 /\ Py.len b <= 2
                 /\ In a (Py.inner (as_path e))
                 /\ d = Spec.path_leak_of e b a).
  { intros d Hd Htype.
    destruct (coherent_type d (Hcoh d Hd)) as (_ & _ & Hpl).
    destruct (Hpl Htype) as (Hsev & p & b & a & Hev).
    split; [exact Hsev|].
    specialize (Hfrom d Hd). unfold Spec.from_qualifying in Hfrom.
    rewrite Hev in Hfrom. destruct Hfrom as (e & He & Hq & Ha & Hd').
    apply (qualifies_explicit expected_origin events e b He) in Hq.
    exists e, b, a. split; [exact Hq|].
    split; [|split; [exact Ha | exact Hd']].
    destruct Hq as (x & _ & _ & _ & _ & _ & _ & _ & _ & Hb & _).
    exact Hb. }
  split; [exact Hnd|]. split; [exact Hsound|].
  split; [apply baseline_inserted_In|].
  split.
  { intros e b Hq a Ha.
    assert (He : In e events)
      by (destruct Hq as (x & _ & _ & He & _); exact He).
    apply (qualifies_explicit expected_origin events e b He) in Hq.
    specialize (Hcov e b He Hq a Ha).
    unfold Spec.flagged in Hcov. apply in_flat_map in Hcov.
    destruct Hcov as (d & Hd & Hsus).
    exists d. split; [exact Hd|].
    specialize (Hcoh d Hd). unfold Spec.coherent in Hcoh.
    unfold Spec.suspicious_of in *.
    destruct (AnomalyDetection.evidence d) as [? ?|? ?|? ? ?|p b' a'|?];
      try contradiction.
    destruct Hsus as [<-|[]]. cbn in Hcoh. injection Hcoh as Ht Hs.
    repeat split; assumption. }
  split.
  { intros Hlong d Hd Htype.
    destruct (Hsound d Hd Htype) as (_ & e & b & a & Hq & Hb & _).
    destruct Hq as (x & _ & _ & _ & _ & _ & _
                    & (e0 & He0 & Hann0 & Hp0) & _).
    specialize (Hlong e0 He0 Hann0). rewrite Hp0 in Hlong. lia. }
  intros Habsent d Hd Htype.
  destruct (Hsound d Hd Htype) as (_ & e & b & a & Hq & _).
  destruct Hq as (x & Hex & Hne & _).
  destruct Habsent as [Hn | Hz]; rewrite Hex in *;
    [discriminate | injection Hz as ->; now apply Hne].
Qed.

(** A direct path in the baseline, then twice the same announcement with
    AS 666 and AS 667 between the same endpoints: each is flagged, once. *)
Lemma path_leak_flagging_witness :
  exists out : list Detection,
    detect_anomalies int_insertion_order path_insertion_order 0
                     [Runs.direct_event; Runs.detour_event; Runs.detour_event]
                     (Some 3) (Some "1.1.1.0/24"%string) = Py.Ok out
    /\ Spec.flagged out = [666; 667]
    /\ exists d, In d out
                 /\ AnomalyDetection.anomaly_type d = "path_leak"%string
                 /\ AnomalyDetection.severity d = "high"%string
                 /\ Spec.suspicious_of d = [666].
Proof.
  eexists. split; [vm_compute; reflexivity|]. split; [reflexivity|].
  refine (proj1 (proj2 (proj2 (proj2
            (path_leak_flagging
               int_insertion_order path_insertion_order 0
               [Runs.direct_event; Runs.detour_event; Runs.detour_event]
               (Some 3) (Some "1.1.1.0/24"%string) _ _))))
            Runs.detour_event [1; 3] _ 666 _).
  - vm_compute. reflexivity.
  - exists 3. split; [reflexivity|]. split; [discriminate|].
    split; [right; now left|]. split; [reflexivity|].
    split; [reflexivity|]. split; [vm_compute; reflexivity|].
    split; [exists Runs.direct_event; split; [now left | now split]|].
    split; [discriminate|]. split; [vm_compute; discriminate|].
    split; reflexivity.
  - now left.
Defined.

(** C6 as stated fails: the baseline holds the announced three-hop path
    [1 2 3]; a later announcement from the expected origin is longer and
    has the same first and last AS, with AS 666 in the gap; nothing is
    flagged. *)
Lemma three_hop_baseline_counterexample :
  In [1; 2; 3]
     (baseline_inserted [Runs.three_hop_event; Runs.injected_event])
  /\ is_announcement Runs.injected_event = true
  /\ origin_asn Runs.injected_event = Some 3
  /\ as_path Runs.injected_event = [1; 2; 666; 3]
  /\ In 666 (Py.inner (as_path Runs.injected_event))
  /\ detect_anomalies int_insertion_order path_insertion_order 0
                      [Runs.three_hop_event; Runs.injected_event]
                      (Some 3) (Some "1.1.1.0/24"%string) = Py.Ok [].
Proof.
  split; [now left|]. split; [reflexivity|]. split; [reflexivity|].
  split; [reflexivity|]. split; [right; now left|].
  vm_compute. reflexivity.
Qed.

(** ** Further runs *)

(** An expected prefix without a mask length makes the run raise. *)
Example detect_anomalies_raises_without_mask :
  detect_anomalies int_insertion_order path_insertion_order 0
                   [Runs.normal_event] (Some 13335) (Some "1.1.1.0"%string)
  = Py.Raise Py.IndexError.
Proof. vm_compute. reflexivity. Qed.

(** An origin that replaces the expected one altogether is a hijack. *)
Example hijack_without_expected_origin :
  detect_anomalies
    int_insertion_order path_insertion_order 0
    [Runs.announce 1719513000 "1.1.1.0/24" [3356; 267613] (Some 267613)]
    (Some 13335) (Some "1.1.1.0/24"%string)
  = Py.Ok [Spec.hijack_of
             (Runs.announce 1719513000 "1.1.1.0/24" [3356; 267613]
                            (Some 267613))
             13335 267613].
Proof. vm_compute. reflexivity. Qed.

(** AS-SET tokens and other non-numeric tokens are dropped by the path
    parser. *)
Example parse_as_path_skips_sets :
  PathAnalyzer._parse_as_path "3356 {64500,64501} 1_3335 x 13335"
  = [3356; 13335; 13335].
Proof. vm_compute. reflexivity. Qed.

(* ================================================================== *)
(** * Further properties                                                *)
(* ================================================================== *)

From Stdlib Require Import Lqa.

(** ** AS paths *)

Lemma count_prepends_range (p : list Z) :
  0 <= PathAnalyzer.count_prepends p <= Z.max 0 (Py.len p - 1).
Proof.
  unfold Py.len. induction p as [|a t IH]; [cbn; lia|].
  destruct t as [|b t']; [cbn; lia|].
  change (PathAnalyzer.count_prepends (a :: b :: t'))
    with ((if a =? b then 1 else 0) + PathAnalyzer.count_prepends (b :: t')).
  cbn [List.length] in *. destruct (a =? b); lia.
Qed.

Lemma count_prepends_positive (p : list Z) :
  0 < PathAnalyzer.count_prepends p
  <-> exists l1 x l2, p = l1 ++ x :: x :: l2.
Proof.
  induction p as [|a t IH].
  - cbn. split; [lia|]. intros (l1 & x & l2 & H). now destruct l1.
  - destruct t as [|b t'].
    + cbn. split; [lia|]. intros (l1 & x & l2 & H).
      destruct l1 as [|y [|z l1]]; discriminate.
    + change (PathAnalyzer.count_prepends (a :: b :: t'))
        with ((if a =? b then 1 else 0)
              + PathAnalyzer.count_prepends (b :: t')).
      pose proof (count_prepends_range (b :: t')) as Hr.
      destruct (Z.eqb_spec a b) as [->|Hne].
      * split; [|lia]. intros _. now exists [], b, t'.
      * rewrite Z.add_0_l, IH. split.
        -- intros (l1 & x & l2 & ->). now exists (a :: l1), x, l2.
        -- intros (l1 & x & l2 & H). destruct l1 as [|y l1].
           ++ cbn in H. injection H as -> <- _. contradiction.
           ++ cbn in H. injection H as _ H. now exists l1, x, l2.
Qed.

(** X1.  For every path, the AS-path record has the length of the path,
    its origin is the last hop (0 for the empty path), and its prepend
    count lies between 0 and the length minus one; prepending is reported
    exactly when two consecutive hops are equal. *)
Theorem create_as_path_prepending (p : list Z) :
  Models.path (PathAnalyzer._create_as_path p) = p
  /\ Models.length (PathAnalyzer._create_as_path p) = Py.len p
  /\ Models.origin_asn (PathAnalyzer._create_as_path p) = last p 0
  /\ 0 <= Models.prepend_count (PathAnalyzer._create_as_path p)
       <= Z.max 0 (Py.len p - 1)
  /\ (Models.has_prepending (PathAnalyzer._create_as_path p) = true
      <-> exists l1 x l2, p = l1 ++ x :: x :: l2)
  /\ (Models.has_prepending (PathAnalyzer._create_as_path p) = false
      <-> Models.prepend_count (PathAnalyzer._create_as_path p) = 0).
Proof.
  cbn [PathAnalyzer._create_as_path Models.path Models.length
       Models.origin_asn Models.prepend_count Models.has_prepending].
  pose proof (count_prepends_range p) as Hr.
  split; [reflexivity|]. split; [reflexivity|]. split; [reflexivity|].
  split; [exact Hr|]. split.
  - rewrite Z.ltb_lt. apply count_prepends_positive.
  - rewrite Z.ltb_ge. lia.
Qed.

Lemma hops_from_nth (n : Z) (p : list Z) :
  forall (i : Z) (k : nat),
    nth_error (PathAnalyzer.hops_from i n p) k
    = option_map
        (fun a => {| Models.hop_asn := a;
                     Models.position := i + Z.of_nat k;
                     Models.is_origin := i + Z.of_nat k =? 0;
                     Models.is_destination := i + Z.of_nat k =? n - 1 |})
        (nth_error p k).
Proof.
  induction p as [|a t IH]; intros i k.
  - now destruct k.
  - destruct k as [|k].
    + cbn. now rewrite Z.add_0_r.
    + cbn [PathAnalyzer.hops_from nth_error]. rewrite IH.
      replace (i + 1 + Z.of_nat k) with (i + Z.of_nat (S k)) by lia.
      reflexivity.
Qed.

(** X2.  The hops of an AS-path record follow the path: hop [k] carries
    the [k]-th AS and the position [k]; the hop flagged [is_origin] is the
    first one, and the hop flagged [is_destination] is the last one, the
    one whose AS is the record's [origin_asn]. *)
Theorem create_as_path_hops (p : list Z) (k : nat) (h : Models.PathHop) :
  nth_error (Models.hops (PathAnalyzer._create_as_path p)) k = Some h ->
  nth_error p k = Some (Models.hop_asn h)
  /\ Models.position h = Z.of_nat k
  /\ (Models.is_origin h = true <-> k = 0%nat)
  /\ (Models.is_destination h = true <-> S k = List.length p)
  /\ (Models.is_destination h = true ->
      Models.hop_asn h = Models.origin_asn (PathAnalyzer._create_as_path p)).
Proof.
  cbn [PathAnalyzer._create_as_path Models.hops Models.origin_asn].
  rewrite hops_from_nth.
  destruct (nth_error p k) as [a|] eqn:Hk; [|discriminate].
  cbn [option_map]. intros H. injection H as <-.
  cbn [Models.hop_asn Models.position Models.is_origin Models.is_destination].
  rewrite ?Z.add_0_l.
  assert (Hlt : (k < List.length p)%nat)
    by (apply nth_error_Some; congruence).
  assert (Hdest : (Z.of_nat k =? Py.len p - 1) = true <-> S k = List.length p).
  { unfold Py.len. rewrite Z.eqb_eq. lia. }
  split; [reflexivity|]. split; [reflexivity|].
  split; [rewrite Z.eqb_eq; lia|]. split; [exact Hdest|].
  intros H. apply Hdest in H. unfold Py.last_or.
  clear Hdest Hlt. revert k Hk H.
  induction p as [|b t IH]; intros k Hk H; [discriminate|].
  destruct k as [|k].
  - cbn in H. destruct t; [|discriminate]. cbn in Hk. now injection Hk.
  - cbn in Hk, H. injection H as H. destruct t as [|c t']; [discriminate|].
    change (last (b :: c :: t') 0) with (last (c :: t') 0).
    now apply (IH k).
Qed.

(** A path whose first two hops differ from the rest and whose last hop is
    repeated. *)
Lemma create_as_path_hops_witness :
  nth_error (Models.hops (PathAnalyzer._create_as_path [174; 13335; 13335]))
            2
  = Some {| Models.hop_asn := 13335; Models.position := 2;
            Models.is_origin := false; Models.is_destination := true |}
  /\ nth_error [174; 13335; 13335] 2 = Some 13335.
Proof.
  assert (H : nth_error
                (Models.hops (PathAnalyzer._create_as_path [174; 13335; 13335]))
                2
              = Some {| Models.hop_asn := 13335; Models.position := 2;
                        Models.is_origin := false;
                        Models.is_destination := true |}) by reflexivity.
  split; [exact H|].
  exact (proj1 (create_as_path_hops [174; 13335; 13335] 2 _ H)).
Defined.

(** ** Counters and the common transit *)

Lemma counter_add_count (k k' : Z) (c : PathAnalyzer.Counter) :
  Facts.count_of k' (PathAnalyzer.counter_add k c)
  = Facts.count_of k' c + (if k' =? k then 1 else 0).
Proof.
  unfold Facts.count_of.
  induction c as [|[k0 n] t IH]; cbn.
  - rewrite (Z.eqb_sym k k'). destruct (k' =? k); reflexivity.
  - destruct (Z.eqb_spec k k0) as [->|Hne]; cbn.
    + destruct (Z.eqb_spec k0 k') as [->|Hne'].
      * now rewrite Z.eqb_refl.
      * destruct (Z.eqb_spec k' k0); [congruence|]. lia.
    + destruct (Z.eqb_spec k0 k') as [->|Hne'].
      * destruct (Z.eqb_spec k' k); [congruence|]. lia.
      * exact IH.
Qed.

Lemma counter_add_keys (k : Z) (c : PathAnalyzer.Counter) :
  map fst (PathAnalyzer.counter_add k c)
  = if Py.mem k (map fst c) then map fst c else map fst c ++ [k].
Proof.
  unfold Py.mem. induction c as [|[k0 n] t IH]; [reflexivity|]. cbn.
  destruct (k =? k0); cbn; [reflexivity|].
  rewrite IH. now destruct (existsb (Z.eqb k) (map fst t)).
Qed.

Lemma counter_add_NoDup (k : Z) (c : PathAnalyzer.Counter) :
  NoDup (map fst c) -> NoDup (map fst (PathAnalyzer.counter_add k c)).
Proof.
  intros H. rewrite counter_add_keys.
  destruct (Py.mem k (map fst c)) eqn:Hm; [exact H|].
  apply NoDup_app; [exact H | repeat constructor; intros [] |].
  intros a Ha [Hk|[]]. subst a.
  apply (proj2 (mem_In _ _)) in Ha. exact (eq_true_false_abs _ Ha Hm).
Qed.

Lemma counter_update_count (ks : list Z) :
  NoDup ks ->
  forall (k : Z) (c : PathAnalyzer.Counter),
    Facts.count_of k (PathAnalyzer.counter_update c ks)
    = Facts.count_of k c + (if Py.mem k ks then 1 else 0).
Proof.
  unfold PathAnalyzer.counter_update.
  induction 1 as [|a t Ha Ht IH]; intros k c; cbn [fold_left].
  - cbn. lia.
  - rewrite IH, counter_add_count. unfold Py.mem in *. cbn [existsb].
    destruct (Z.eqb_spec k a) as [->|Hne]; cbn [orb].
    + destruct (existsb (Z.eqb a) t) eqn:E; [|lia].
      exfalso. apply Ha. now apply mem_In.
    + destruct (existsb (Z.eqb k) t); lia.
Qed.

Lemma counter_update_NoDup (ks : list Z) (c : PathAnalyzer.Counter) :
  NoDup (map fst c) -> NoDup (map fst (PathAnalyzer.counter_update c ks)).
Proof.
  unfold PathAnalyzer.counter_update. revert c.
  induction ks as [|a t IH]; intros c H; [exact H|].
  cbn [fold_left]. apply IH. now apply counter_add_NoDup.
Qed.

Lemma count_of_In (k n : Z) (c : PathAnalyzer.Counter) :
  NoDup (map fst c) -> In (k, n) c -> Facts.count_of k c = n.
Proof.
  unfold Facts.count_of. induction c as [|[k0 n0] t IH]; [contradiction|].
  cbn. intros Hnd [H|H].
  - injection H as -> ->. now rewrite Z.eqb_refl.
  - inversion Hnd as [|? ? Hnotin Hnd']; subst.
    destruct (Z.eqb_spec k0 k) as [->|Hne]; [|now apply IH].
    exfalso. apply Hnotin. apply in_map_iff. now exists (k, n).
Qed.

Lemma count_of_positive (k : Z) (c : PathAnalyzer.Counter) :
  Facts.count_of k c <> 0 -> In (k, Facts.count_of k c) c.
Proof.
  unfold Facts.count_of.
  destruct (find (fun kc => fst kc =? k) c) as [[k' n]|] eqn:E; [|congruence].
  intros _. apply find_some in E. destruct E as [Hin Hk].
  cbn in Hk. apply Z.eqb_eq in Hk. now subst k'.
Qed.

Lemma counter_update_keys (ks : list Z) :
  forall (c : PathAnalyzer.Counter) (k : Z),
    In k (map fst (PathAnalyzer.counter_update c ks)) ->
    In k (map fst c) \/ In k ks.
Proof.
  unfold PathAnalyzer.counter_update.
  induction ks as [|a t IH]; intros c k; cbn [fold_left]; [tauto|].
  intros H. apply IH in H. rewrite counter_add_keys in H.
  destruct (Py.mem a (map fst c)).
  - destruct H as [H|H]; [now left | right; now right].
  - destruct H as [H|H]; [|right; now right].
    apply in_app_iff in H. destruct H as [H|[<-|[]]];
      [now left | right; now left].
Qed.

Section CommonTransit.
Context (int_order : Py.SetOrder Z).

Lemma transit_asns_NoDup (p : list Z) :
  NoDup (PathAnalyzer.transit_asns int_order p).
Proof.
  unfold PathAnalyzer.transit_asns.
  destruct (2 <? Py.len p); [apply Py.iter_NoDup | constructor].
Qed.

Lemma transit_asns_mem (k : Z) (p : list Z) :
  Py.mem k (PathAnalyzer.transit_asns int_order p)
  = (2 <? Py.len p) && Py.mem k (Py.inner p).
Proof.
  unfold PathAnalyzer.transit_asns.
  destruct (2 <? Py.len p); [|reflexivity]. cbn [andb].
  destruct (Py.mem k (Py.inner p)) eqn:E.
  - apply mem_In. apply (Py.iter_In int_order). now apply mem_In.
  - destruct (Py.mem k (Py.iter int_order (Py.inner p))) eqn:E';
      [|reflexivity].
    apply (proj1 (mem_In _ _)) in E'.
    apply (proj1 (Py.iter_In int_order _ _)) in E'.
    apply (proj2 (mem_In _ _)) in E'. congruence.
Qed.

(** The counter after all paths were counted. *)
Lemma transit_counts (paths : list (list Z)) :
  forall (c : PathAnalyzer.Counter),
    NoDup (map fst c) ->
    let c' := fold_left
                (fun c p =>
                   PathAnalyzer.counter_update
                     c (PathAnalyzer.transit_asns int_order p))
                paths c in
    NoDup (map fst c')
    /\ forall k, Facts.count_of k c'
                 = Facts.count_of k c + Facts.interior_count k paths.
Proof.
  unfold Facts.interior_count.
  induction paths as [|p t IH]; intros c Hc; cbn [fold_left].
  - split; [exact Hc|]. intros k. cbn [filter]. unfold Py.len. cbn. lia.
  - destruct (IH (PathAnalyzer.counter_update
                    c (PathAnalyzer.transit_asns int_order p))
                 (counter_update_NoDup _ _ Hc)) as [Hnd Hcount].
    split; [exact Hnd|]. intros k.
    rewrite Hcount, counter_update_count by apply transit_asns_NoDup.
    rewrite transit_asns_mem. cbn [filter].
    destruct ((2 <? Py.len p) && Py.mem k (Py.inner p));
      unfold Py.len; cbn [List.length]; lia.
Qed.

Lemma transit_keys (paths : list (list Z)) :
  forall (c : PathAnalyzer.Counter) (k : Z),
    In k (map fst
              (fold_left
                 (fun c p =>
                    PathAnalyzer.counter_update
                      c (PathAnalyzer.transit_asns int_order p))
                 paths c)) ->
    In k (map fst c) \/ In k (Facts.interior_asns paths).
Proof.
  induction paths as [|p t IH]; intros c k; cbn [fold_left]; [tauto|].
  intros H. apply IH in H. unfold Facts.interior_asns in *.
  cbn [flat_map]. rewrite in_app_iff.
  destruct H as [H|H]; [|tauto].
  apply counter_update_keys in H. destruct H as [H|H]; [now left|].
  right. left. unfold PathAnalyzer.transit_asns in H.
  destruct (2 <? Py.len p); [|contradiction].
  exact (proj1 (Py.iter_In int_order _ _) H).
Qed.

End CommonTransit.

Lemma insert_by_count_Permutation (x : Z * Z) (l : list (Z * Z)) :
  Permutation (PathAnalyzer.insert_by_count x l) (x :: l).
Proof.
  induction l as [|y t IH]; [reflexivity|]. cbn.
  destruct (snd x <=? snd y); [|reflexivity].
  rewrite IH. apply perm_swap.
Qed.

Lemma sorted_by_count_Permutation (c acc : list (Z * Z)) :
  Permutation
    (fold_left (fun acc x => PathAnalyzer.insert_by_count x acc) c acc)
    (c ++ acc).
Proof.
  revert acc. induction c as [|x t IH]; intros acc; [reflexivity|].
  cbn [fold_left]. rewrite IH, insert_by_count_Permutation.
  cbn. apply Permutation_sym, Permutation_middle.
Qed.

Lemma firstn_In {A : Type} (n : nat) (l : list A) (x : A) :
  In x (firstn n l) -> In x l.
Proof.
  revert n. induction l as [|a t IH]; intros [|n]; cbn; try tauto.
  intros [H|H]; [now left | right; now apply (IH n)].
Qed.

Lemma firstn_NoDup {A : Type} (n : nat) (l : list A) :
  NoDup l -> NoDup (firstn n l).
Proof.
  revert n. induction l as [|a t IH]; intros [|n] H; cbn;
    try constructor.
  - inversion H as [|? ? Hnotin Ht]; subst. intro Hin. apply Hnotin.
    now apply (firstn_In n t).
  - inversion H; subst. now apply IH.
Qed.

Lemma filter_keys_NoDup (f : Z * Z -> bool) (l : list (Z * Z)) :
  NoDup (map fst l) -> NoDup (map fst (filter f l)).
Proof.
  induction l as [|a t IH]; [constructor|]. cbn. intros H.
  inversion H as [|? ? Hnotin Ht]; subst.
  destruct (f a); [|now apply IH]. cbn. constructor; [|now apply IH].
  intro Hin. apply Hnotin. apply in_map_iff in Hin.
  destruct Hin as (y & Hy & Hin). apply filter_In in Hin.
  apply in_map_iff. exists y. tauto.
Qed.

Lemma most_common_spec (n : nat) (c : PathAnalyzer.Counter) :
  (List.length (PathAnalyzer.most_common n c) <= n)%nat
  /\ incl (PathAnalyzer.most_common n c) c
  /\ (NoDup (map fst c) -> NoDup (map fst (PathAnalyzer.most_common n c)))
  /\ ((List.length c <= n)%nat ->
      Permutation (PathAnalyzer.most_common n c) c).
Proof.
  unfold PathAnalyzer.most_common.
  pose proof (sorted_by_count_Permutation c []) as Hp.
  rewrite app_nil_r in Hp.
  split; [apply firstn_le_length|]. split; [|split].
  - intros x Hx. apply (Permutation_in _ Hp). now apply (firstn_In n).
  - intros H. rewrite <- firstn_map. apply firstn_NoDup.
    apply (Permutation_NoDup (Permutation_sym (Permutation_map fst Hp)) H).
  - intros Hlen. rewrite firstn_all2; [exact Hp|].
    now rewrite (Permutation_length Hp).
Qed.

(** X3.  The common transit of a list of raw paths has at most ten
    members and no duplicate, and each member lies strictly between the
    first and the last hop of at least half of the raw paths.  When the
    raw paths have at most ten distinct AS numbers in such positions,
    every one of them that reaches this half is a member. *)
Theorem common_transit_threshold (int_order : Py.SetOrder Z)
        (paths : list (list Z)) :
  let common := PathAnalyzer._find_common_transit int_order paths in
  (List.length common <= 10)%nat
  /\ NoDup common
  /\ (forall k, In k common ->
        0 < Facts.interior_count k paths
        /\ Py.len paths <= 2 * Facts.interior_count k paths)
  /\ ((List.length (nodup Z.eq_dec (Facts.interior_asns paths)) <= 10)%nat ->
      forall k, 0 < Facts.interior_count k paths ->
                Py.len paths <= 2 * Facts.interior_count k paths ->
                In k common).
Proof.
  intros common. subst common. unfold PathAnalyzer._find_common_transit.
  destruct paths as [|p0 rest] eqn:Hpaths.
  { cbn. split; [lia|]. split; [constructor|]. split; [contradiction|].
    intros _ k Hk. unfold Facts.interior_count in Hk. cbn in Hk. lia. }
  rewrite <- Hpaths.
  assert (Hlen : 1 <= Py.len paths)
    by (rewrite Hpaths; unfold Py.len; cbn [List.length]; lia).
  clear Hpaths p0 rest.
  destruct (transit_counts int_order paths [] (NoDup_nil _)) as [Hnd Hcount].
  pose proof (transit_keys int_order paths []) as Hkeys.
  set (c := fold_left
              (fun c p => PathAnalyzer.counter_update
                            c (PathAnalyzer.transit_asns int_order p))
              paths []) in *.
  assert (Hcount' : forall k, Facts.count_of k c
                              = Facts.interior_count k paths)
    by (intros k; rewrite Hcount; reflexivity).
  destruct (most_common_spec 10 c) as (Hmlen & Hmincl & Hmnd & Hmperm).
  set (mc := PathAnalyzer.most_common 10 c) in *.
  set (thr := fun '(_, count) => Py.len paths <=? 2 * count).
  assert (Hmember : forall k,
             In k (map fst (filter thr mc))
             <-> exists n, In (k, n) mc /\ Py.len paths <= 2 * n).
  { intros k. rewrite in_map_iff. split.
    - intros ([k' n] & Hk & Hin). cbn in Hk. subst k'.
      apply filter_In in Hin. destruct Hin as [Hin Hthr].
      exists n. split; [exact Hin | now apply Z.leb_le].
    - intros (n & Hin & Hthr). exists (k, n). split; [reflexivity|].
      apply filter_In. split; [exact Hin | now apply Z.leb_le]. }
  split; [|split; [|split]].
  - rewrite length_map.
    apply (Nat.le_trans _ (List.length mc));
      [apply filter_length_le | exact Hmlen].
  - apply filter_keys_NoDup. now apply Hmnd.
  - intros k Hk. apply Hmember in Hk. destruct Hk as (n & Hin & Hthr).
    rewrite <- Hcount', (count_of_In k n c Hnd (Hmincl _ Hin)). lia.
  - intros Hfew k Hpos Hthr. apply Hmember.
    exists (Facts.interior_count k paths). split; [|exact Hthr].
    rewrite <- Hcount' in *.
    assert (Hsize : (List.length c <= 10)%nat).
    { rewrite <- (length_map fst c).
      assert (Hincl : incl (map fst c)
                           (nodup Z.eq_dec (Facts.interior_asns paths))).
      { intros x Hx. apply nodup_In.
        destruct (Hkeys x Hx) as [[]|H]. exact H. }
      exact (Nat.le_trans _ _ _ (NoDup_incl_length Hnd Hincl) Hfew). }
    apply (Permutation_in _ (Permutation_sym (Hmperm Hsize))).
    apply count_of_positive. lia.
Qed.

(** ** Path analysis *)

Lemma fold_min_spec (t : list Z) (a : Z) :
  In (fold_left Z.min t a) (a :: t)
  /\ forall x, In x (a :: t) -> fold_left Z.min t a <= x.
Proof.
  revert a. induction t as [|b t IH]; intros a.
  - cbn. split; [now left|]. intros x [<-|[]]. lia.
  - cbn [fold_left]. destruct (IH (Z.min a b)) as [Hin Hle]. split.
    + destruct Hin as [Hin|Hin].
      * rewrite <- Hin.
        destruct (Z.min_spec a b) as [[_ E]|[_ E]]; rewrite E.
        -- now left.
        -- right. now left.
      * right. now right.
    + intros x [<-|[<-|Hx]].
      * pose proof (Hle (Z.min a b) (or_introl eq_refl)). lia.
      * pose proof (Hle (Z.min a b) (or_introl eq_refl)). lia.
      * apply Hle. now right.
Qed.

Lemma sum_Z_bounds (lo hi : Z) (l : list Z) :
  (forall x, In x l -> lo <= x <= hi) ->
  lo * Py.len l <= PathAnalyzer.sum_Z l <= hi * Py.len l.
Proof.
  unfold Py.len. induction l as [|a t IH]; intros H.
  - cbn. lia.
  - assert (Ha : lo <= a <= hi) by (apply H; now left).
    assert (Ht : forall x, In x t -> lo <= x <= hi)
      by (intros x Hx; apply H; now right).
    specialize (IH Ht). cbn [PathAnalyzer.sum_Z fold_right List.length].
    unfold PathAnalyzer.sum_Z in IH. rewrite Nat2Z.inj_succ. nia.
Qed.

Lemma peer_paths_nonempty (peer : RIPEstat.RRCPeer) (p : list Z) :
  In p (PathAnalyzer.peer_paths peer) -> p <> [].
Proof.
  unfold PathAnalyzer.peer_paths.
  destruct (Py.truthy_str (RIPEstat.as_path peer)); [|intros []].
  destruct (PathAnalyzer._parse_as_path (RIPEstat.as_path peer)) as [|a t];
    cbn; [intros []|].
  intros [<-|[]]. discriminate.
Qed.

Lemma observed_paths_nonempty (lg : Py.result RIPEstat.LookingGlass)
      (p : list Z) :
  In p (Spec.observed_paths lg) -> 1 <= Py.len p.
Proof.
  destruct lg as [lg|e]; [|intros []]. cbn [Spec.observed_paths].
  unfold PathAnalyzer.collect_paths. intros H.
  apply in_flat_map in H as (rrc & _ & H).
  apply in_flat_map in H as (peer & _ & H).
  apply peer_paths_nonempty in H. destruct p; [congruence|].
  unfold Py.len. cbn [List.length]. lia.
Qed.

Lemma NoDup_two {A : Type} (l : list A) (x y : A) :
  NoDup l -> In x l -> In y l -> x <> y -> (2 <= List.length l)%nat.
Proof.
  intros Hnd Hx Hy Hxy.
  assert (Hincl : incl [x; y] l) by (intros z [<-|[<-|[]]]; assumption).
  assert (Hnd2 : NoDup [x; y]).
  { constructor; [intros [H|[]]; congruence|].
    constructor; [intros []|constructor]. }
  exact (NoDup_incl_length Hnd2 Hincl).
Qed.

Lemma two_of_length {A : Type} (l : list A) :
  NoDup l -> (2 <= List.length l)%nat ->
  exists x y, In x l /\ In y l /\ x <> y.
Proof.
  intros Hnd Hlen. destruct l as [|x [|y t]]; cbn in Hlen; try lia.
  exists x, y. split; [now left|]. split; [right; now left|].
  inversion Hnd as [|? ? Hnotin _]; subst. intros ->. apply Hnotin. now left.
Qed.

Lemma filter_none {A : Type} (f : A -> bool) (l : list A) :
  (forall a, In a l -> f a = false) -> filter f l = [].
Proof.
  induction l as [|x t IH]; intros H; [reflexivity|].
  cbn. rewrite (H x (or_introl eq_refl)). apply IH.
  intros a Ha. apply H. now right.
Qed.

Section PathInvariants.
Context (int_order : Py.SetOrder Z) (path_order : Py.SetOrder (list Z)).

Lemma last_hops_In (l : list (list Z)) (k : Z) :
  In k (Py.iter int_order (map (fun p => last p 0) l))
  <-> exists p, In p l /\ last p 0 = k.
Proof.
  rewrite (Py.iter_In int_order), in_map_iff.
  split; intros (p & H1 & H2); exists p; now split.
Qed.

Lemma analyze_paths_origins (resource : string)
      (lg : Py.result RIPEstat.LookingGlass) :
  Models.origin_asns
    (PathAnalyzer.analyze_paths int_order path_order resource lg)
  = Py.iter int_order (map (fun p => last p 0) (Spec.observed_paths lg)).
Proof.
  destruct lg as [lg|e]; cbn [Spec.observed_paths].
  - unfold PathAnalyzer.analyze_paths.
    destruct (PathAnalyzer.collect_paths lg) as [|p t] eqn:E.
    + cbn. now rewrite iter_nil.
    + reflexivity.
  - cbn. now rewrite iter_nil.
Qed.

Lemma analyze_paths_avg (resource : string)
      (lg : Py.result RIPEstat.LookingGlass) :
  Spec.observed_paths lg <> [] ->
  Models.avg_path_length
    (PathAnalyzer.analyze_paths int_order path_order resource lg)
  = Qmake (PathAnalyzer.sum_Z
             (map (@Py.len Z) (Py.iter path_order (Spec.observed_paths lg))))
          (Z.to_pos
             (Py.len (map (@Py.len Z)
                          (Py.iter path_order (Spec.observed_paths lg))))).
Proof.
  destruct lg as [lg|e]; cbn [Spec.observed_paths]; [|congruence].
  unfold PathAnalyzer.analyze_paths.
  destruct (PathAnalyzer.collect_paths lg); [congruence|reflexivity].
Qed.

Lemma origins_two (resource : string)
      (lg : Py.result RIPEstat.LookingGlass) :
  1 < Py.len (Models.origin_asns
                (PathAnalyzer.analyze_paths int_order path_order resource lg))
  <-> Facts.two_origins (Spec.observed_paths lg).
Proof.
  rewrite analyze_paths_origins. unfold Facts.two_origins, Py.len.
  set (os := map (fun p => last p 0) (Spec.observed_paths lg)).
  split.
  - intros H.
    destruct (two_of_length (Py.iter int_order os)) as (x & y & Hx & Hy & Hxy);
      [apply Py.iter_NoDup|lia|].
    apply (proj1 (Py.iter_In int_order os x)) in Hx.
    apply (proj1 (Py.iter_In int_order os y)) in Hy.
    apply in_map_iff in Hx as (p & <- & Hp).
    apply in_map_iff in Hy as (q & <- & Hq).
    now exists p, q.
  - intros (p & q & Hp & Hq & Hpq).
    assert (H : (2 <= List.length (Py.iter int_order os))%nat).
    { apply (NoDup_two _ (last p 0) (last q 0) (Py.iter_NoDup int_order os));
        [ | |assumption];
        apply (proj2 (Py.iter_In int_order os _)); apply in_map_iff;
        eexists; (split; [reflexivity|eassumption]). }
    lia.
Qed.

(** X4.  What [analyze_paths] returns, for any answer of the looking
    glass: at most twenty stored paths, pairwise distinct and all
    observed, each with a length between the reported minimum and maximum;
    the origin list holds every last hop of an observed path exactly once;
    without any observed path the result is the empty analysis, and
    otherwise the minimum is at least one hop and the average lies between
    minimum and maximum. *)
Theorem analyze_paths_invariants (resource : string)
        (lg : Py.result RIPEstat.LookingGlass) :
  let a := PathAnalyzer.analyze_paths int_order path_order resource lg in
  let observed := Spec.observed_paths lg in
  Models.destination a = resource
  /\ Models.path_count a = Py.len observed
  /\ (List.length (Models.unique_paths a) <= 20)%nat
  /\ Py.len (Models.unique_paths a) <= Models.path_count a
  /\ NoDup (map Models.path (Models.unique_paths a))
  /\ (forall p, In p (Models.unique_paths a) ->
        In (Models.path p) observed
        /\ Models.min_path_length a <= Models.length p
           <= Models.max_path_length a)
  /\ NoDup (Models.origin_asns a)
  /\ (forall k, In k (Models.origin_asns a)
                <-> exists p, In p observed /\ last p 0 = k)
  /\ (observed = [] -> a = Models.PathAnalysis_default resource)
  /\ (observed <> [] ->
      1 <= Models.min_path_length a <= Models.max_path_length a
      /\ (inject_Z (Models.min_path_length a) <= Models.avg_path_length a
          <= inject_Z (Models.max_path_length a))%Q
      /\ Models.unique_paths a <> []
      /\ Models.origin_asns a <> []).
Proof.
  intros a observed.
  pose proof (analyze_paths_fields int_order path_order resource lg)
    as (Hcount & Huniq & Hmax & Hmin).
  fold a observed in Hcount, Huniq, Hmax, Hmin.
  set (unique := Py.iter path_order observed) in *.
  assert (Hnd : NoDup unique) by apply Py.iter_NoDup.
  assert (Hin : forall p, In p unique <-> In p observed)
    by (intros p; apply (Py.iter_In path_order)).
  assert (Hlenu : (List.length unique <= List.length observed)%nat).
  { apply NoDup_incl_length; [assumption|]. intros p. apply Hin. }
  assert (Hbounds : forall p, In p unique ->
            Models.min_path_length a <= Py.len p <= Models.max_path_length a).
  { intros p Hp. rewrite Hmin, Hmax.
    assert (Hl : In (Py.len p) (map (@Py.len Z) unique))
      by (apply in_map_iff; now exists p).
    destruct (map (@Py.len Z) unique) as [|x t]; [destruct Hl|].
    cbn [PathAnalyzer.min_Z PathAnalyzer.max_Z].
    split; [now apply fold_min_spec|now apply fold_max_spec]. }
  assert (Hdest : Models.destination a = resource).
  { subst a. unfold PathAnalyzer.analyze_paths.
    destruct lg as [lg|e]; [|reflexivity].
    destruct (PathAnalyzer.collect_paths lg); reflexivity. }
  split; [exact Hdest|]. split; [exact Hcount|].
  split. { rewrite Huniq, length_map. apply firstn_le_length. }
  split.
  { rewrite Hcount, Huniq. unfold Py.len. rewrite length_map.
    rewrite length_firstn. lia. }
  split.
  { rewrite Huniq, map_map. cbn [PathAnalyzer._create_as_path Models.path].
    rewrite map_id. now apply firstn_NoDup. }
  split.
  { intros p Hp. rewrite Huniq in Hp. apply in_map_iff in Hp as (q & <- & Hq).
    apply firstn_In in Hq. cbn [PathAnalyzer._create_as_path Models.path
                                 Models.length].
    split; [now apply Hin|now apply Hbounds]. }
  split. { unfold a. rewrite analyze_paths_origins. apply Py.iter_NoDup. }
  split.
  { intros k. unfold a. rewrite analyze_paths_origins.
    apply last_hops_In. }
  split.
  { intros Hobs. unfold a, observed in *. unfold PathAnalyzer.analyze_paths.
    destruct lg as [lg|e]; [|reflexivity]. cbn [Spec.observed_paths] in Hobs.
    now rewrite Hobs. }
  intros Hobs.
  pose proof (analyze_paths_avg resource lg Hobs) as Havg.
  fold a observed unique in Havg.
  destruct observed as [|p0 rest] eqn:Eobs; [congruence|].
  assert (Hp0 : In p0 unique) by (apply Hin; now left).
  assert (Hone : forall p, In p unique -> 1 <= Py.len p).
  { intros p Hp. apply (observed_paths_nonempty lg). fold observed.
    rewrite Eobs. now apply Hin. }
  assert (Hminin : In (Models.min_path_length a) (map (@Py.len Z) unique)).
  { rewrite Hmin. destruct (map (@Py.len Z) unique) as [|x t] eqn:E.
    - destruct unique; [destruct Hp0|discriminate].
    - cbn [PathAnalyzer.min_Z]. apply fold_min_spec. }
  apply in_map_iff in Hminin as (pm & Hpm & Hpmin).
  split.
  { pose proof (Hbounds p0 Hp0). pose proof (Hone pm Hpmin). lia. }
  split.
  { rewrite Havg.
    pose proof (sum_Z_bounds (Models.min_path_length a)
                             (Models.max_path_length a)
                             (map (@Py.len Z) unique)) as Hsum.
    assert (Hall : forall x, In x (map (@Py.len Z) unique) ->
              Models.min_path_length a <= x <= Models.max_path_length a).
    { intros x Hx. apply in_map_iff in Hx as (q & <- & Hq).
      now apply Hbounds. }
    specialize (Hsum Hall).
    assert (Hpos : 0 < Py.len (map (@Py.len Z) unique)).
    { unfold Py.len. rewrite length_map. destruct unique; [destruct Hp0|].
      cbn [List.length]. lia. }
    unfold Qle, inject_Z. cbn [Qnum Qden].
    rewrite Z2Pos.id by assumption. lia. }
  split.
  { rewrite Huniq. destruct unique; [destruct Hp0|]. discriminate. }
  subst a. rewrite analyze_paths_origins. fold observed. rewrite Eobs.
  intros Hnil.
  assert (Hl : In (last p0 0)
                  (Py.iter int_order
                     (map (fun p => last p 0) (p0 :: rest)))).
  { apply (proj2 (Py.iter_In int_order _ _)). now left. }
  rewrite Hnil in Hl. destruct Hl.
Qed.

(** The shape of what [_check_moas] returns. *)
Lemma check_moas_shape (resource : string)
        (lg : Py.result RIPEstat.LookingGlass) :
  let found := PathAnalyzer._check_moas int_order path_order resource lg in
  let observed := Spec.observed_paths lg in
  (found <> [] <-> Facts.two_origins observed)
  /\ (forall a, In a found ->
        found = [a]
        /\ Models.type a = Models.MOAS
        /\ Models.severity a = Models.HIGH
        /\ Models.resource a = resource
        /\ exists origins,
             Models.details a = Models.MoasDetails origins (Py.len observed)
             /\ NoDup origins
             /\ 2 <= Py.len origins
             /\ forall k, In k origins
                          <-> exists p, In p observed /\ last p 0 = k).
Proof.
  intros found observed. subst found. unfold PathAnalyzer._check_moas.
  pose proof (origins_two resource lg) as Htwo.
  pose proof (analyze_paths_fields int_order path_order resource lg)
    as (Hcount & _).
  pose proof (analyze_paths_origins resource lg) as Hor.
  fold observed in Htwo, Hcount, Hor.
  set (a := PathAnalyzer.analyze_paths int_order path_order resource lg) in *.
  destruct (1 <? Py.len (Models.origin_asns a)) eqn:E.
  - apply Z.ltb_lt in E. split.
    + split; [intros _; now apply Htwo|discriminate].
    + intros x [<-|[]]. cbn.
      split; [reflexivity|]. split; [reflexivity|]. split; [reflexivity|].
      split; [reflexivity|]. exists (Models.origin_asns a).
      split; [now rewrite Hcount|].
      split; [rewrite Hor; apply Py.iter_NoDup|]. split; [lia|].
      intros k. rewrite Hor. apply last_hops_In.
  - apply Z.ltb_ge in E. split.
    + split; [congruence|]. intros H. apply Htwo in H. lia.
    + intros x [].
Qed.

(** X5.  The MOAS check raises its one anomaly, of high severity, exactly
    when two observed paths end in different AS numbers; the anomaly then
    lists each last hop once, at least two of them, with the number of
    observed paths. *)
Theorem check_moas_two_origins (resource : string)
        (lg : Py.result RIPEstat.LookingGlass) :
  let found := PathAnalyzer._check_moas int_order path_order resource lg in
  let observed := Spec.observed_paths lg in
  (found <> [] <-> Facts.two_origins observed)
  /\ (forall a, In a found ->
        found = [a]
        /\ Models.type a = Models.MOAS
        /\ Models.severity a = Models.HIGH
        /\ Models.resource a = resource
        /\ exists origins,
             Models.details a = Models.MoasDetails origins (Py.len observed)
             /\ NoDup origins
             /\ 2 <= Py.len origins
             /\ forall k, In k origins
                          <-> exists p, In p observed /\ last p 0 = k).
Proof. exact (check_moas_shape resource lg). Qed.

Lemma check_rpki_shape (resource : string)
      (v : Py.result RIPEstat.RPKIValidation) :
  (Checks.rpki_says_invalid resource v = false
   /\ PathAnalyzer._check_rpki resource v = [])
  \/ (Checks.rpki_says_invalid resource v = true
      /\ exists a, PathAnalyzer._check_rpki resource v = [a]
                   /\ Models.severity a = Models.CRITICAL
                   /\ Models.type a = Models.RPKI_INVALID).
Proof.
  unfold Checks.rpki_says_invalid, PathAnalyzer._check_rpki,
    Facts.names_an_as.
  destruct (Py.startswith (Py.upper resource) "AS" || Py.isdigit resource);
    [left; now split|].
  destruct v as [v|e]; [|left; now split]. cbn [negb andb].
  destruct (String.eqb (RIPEstat.status v) "invalid");
    [right|left; now split].
  split; [reflexivity|]. eexists. split; [reflexivity|]. now split.
Qed.

Lemma check_unusual_shape (resource : string)
      (lg : Py.result RIPEstat.LookingGlass) :
  let found :=
    PathAnalyzer._check_unusual_paths int_order path_order resource lg in
  (List.length found <= 2)%nat
  /\ Forall (fun a => Models.severity a = Models.MEDIUM
                      \/ Models.severity a = Models.LOW) found
  /\ (PathAnalyzer.any_severity Models.MEDIUM found = true
      <-> Checks.long_path (Spec.observed_paths lg)).
Proof.
  intros found. subst found. unfold PathAnalyzer._check_unusual_paths.
  rewrite long_path_seen.
  set (a := PathAnalyzer.analyze_paths int_order path_order resource lg).
  assert (Hlong : existsb (fun p => 10 <? Py.len p) (Spec.observed_paths lg)
                  = true <-> Checks.long_path (Spec.observed_paths lg)).
  { rewrite existsb_exists. unfold Checks.long_path.
    split; intros (p & Hp & H); exists p; (split; [assumption|]);
      [now apply Z.ltb_lt|now apply Z.ltb_lt]. }
  destruct (existsb (fun p => 10 <? Py.len p) (Spec.observed_paths lg));
    destruct (PathAnalyzer.first_prepended (Models.unique_paths a));
    cbn; (split; [lia|]);
    (split; [repeat constructor; cbn; auto|]);
    rewrite <- Hlong; split; congruence.
Qed.

(** X6.  The level of an anomaly report by what the three checks saw:
    critical exactly when the resource is not an AS and its validation
    says "invalid"; otherwise high exactly when two observed paths end in
    different AS numbers; otherwise medium exactly when some path has
    more than ten hops; otherwise low.  A report holds at most four
    anomalies, at most one of them critical. *)
Theorem report_level_by_check (resource : string)
        (o : PathAnalyzer.Observed) :
  let r := PathAnalyzer.detect_anomalies int_order path_order resource o in
  let invalid :=
    Checks.rpki_says_invalid resource (PathAnalyzer.rpki_validation o) in
  let moas :=
    Facts.two_origins (Spec.observed_paths (PathAnalyzer.lg_for_moas o)) in
  let long :=
    Checks.long_path (Spec.observed_paths (PathAnalyzer.lg_for_paths o)) in
  (Models.risk_level r = Models.CRITICAL <-> invalid = true)
  /\ (Models.risk_level r = Models.HIGH <-> invalid = false /\ moas)
  /\ (Models.risk_level r = Models.MEDIUM
      <-> invalid = false /\ ~ moas /\ long)
  /\ (Models.risk_level r = Models.LOW
      <-> invalid = false /\ ~ moas /\ ~ long)
  /\ ModelProperties.critical_count r = (if invalid then 1 else 0)
  /\ Models.anomaly_count r <= 4.
Proof.
  intros r invalid moas long. subst r.
  unfold PathAnalyzer.detect_anomalies, ModelProperties.critical_count,
    Models.anomaly_count.
  cbn [Models.risk_level Models.anomalies].
  pose proof (check_moas_shape resource (PathAnalyzer.lg_for_moas o))
    as (Hm1 & Hm2). fold moas in Hm1.
  pose proof (check_rpki_shape resource (PathAnalyzer.rpki_validation o))
    as Hr. fold invalid in Hr.
  pose proof (check_unusual_shape resource (PathAnalyzer.lg_for_paths o))
    as (Hu1 & Hu2 & Hu3). fold long in Hu3.
  set (m := PathAnalyzer._check_moas int_order path_order resource
                                     (PathAnalyzer.lg_for_moas o)) in *.
  set (c := PathAnalyzer._check_rpki resource
                                     (PathAnalyzer.rpki_validation o)) in *.
  set (u := PathAnalyzer._check_unusual_paths
              int_order path_order resource (PathAnalyzer.lg_for_paths o))
    in *.
  assert (Hm : (m = [] /\ ~ moas)
               \/ (moas /\ exists a, m = [a]
                                     /\ Models.severity a = Models.HIGH)).
  { destruct m as [|a t].
    - left. split; [reflexivity|]. intros H. apply Hm1 in H. congruence.
    - right. split; [apply Hm1; discriminate|].
      destruct (Hm2 a (or_introl eq_refl)) as (E & _ & Hs & _).
      exists a. now split. }
  assert (Hucrit : PathAnalyzer.any_severity Models.CRITICAL u = false).
  { unfold PathAnalyzer.any_severity. apply not_true_is_false. intros H.
    apply existsb_exists in H as (a & Ha & Hs).
    rewrite Forall_forall in Hu2. destruct (Hu2 a Ha) as [E|E];
      rewrite E in Hs; discriminate. }
  assert (Huhigh : PathAnalyzer.any_severity Models.HIGH u = false).
  { unfold PathAnalyzer.any_severity. apply not_true_is_false. intros H.
    apply existsb_exists in H as (a & Ha & Hs).
    rewrite Forall_forall in Hu2. destruct (Hu2 a Ha) as [E|E];
      rewrite E in Hs; discriminate. }
  assert (Hufilter : filter Models.is_critical u = []).
  { apply filter_none. intros a Ha.
    rewrite Forall_forall in Hu2. unfold Models.is_critical.
    destruct (Hu2 a Ha) as [E|E]; rewrite E; reflexivity. }
  unfold PathAnalyzer.overall_risk, PathAnalyzer.any_severity in *.
  rewrite !existsb_app, !filter_app, Hufilter.
  unfold Py.len. rewrite !length_app.
  destruct Hm as [(Em & Hnm)|(Hmo & a & Em & Ea)];
    destruct Hr as [(Ei & Ec)|(Ei & b & Ec & Eb & _)];
    rewrite Em, Ec, Ei; cbn [existsb filter app List.length orb];
    unfold Models.is_critical;
    rewrite ?Ea, ?Eb; cbn [Models.RiskLevel_eqb orb List.length app];
    rewrite ?Hucrit, ?Huhigh;
    destruct (existsb (fun a0 => Models.RiskLevel_eqb (Models.severity a0)
                                                      Models.MEDIUM) u)
      eqn:Emed;
    repeat match goal with
           | |- _ /\ _ => split
           | |- _ <-> _ => split; intros
           end;
    try congruence; try lia; try (intuition congruence).
Qed.

End PathInvariants.

(** ** ASN profiles *)

Lemma len_nonneg {A : Type} (l : list A) : 0 <= Py.len l.
Proof. unfold Py.len. lia. Qed.

Lemma Qlt_bool_iff (a b : Q) :
  Recommendations.Qlt_bool a b = true <-> (a < b)%Q.
Proof.
  unfold Recommendations.Qlt_bool. rewrite negb_true_iff.
  rewrite <- not_true_iff_false, Qle_bool_iff. split.
  - apply Qnot_le_lt.
  - apply Qlt_not_le.
Qed.

(** X7.  The RPKI status of a profile: the coverage is a percentage
    between 0 and 100; ROAs are reported exactly when some prefix is
    valid; RPKI counts as deployed exactly when the valid prefixes
    outnumber all the others; and the coverage is complete exactly when
    there is a valid prefix and no other one. *)
Theorem rpki_status_coverage (src : ASNAnalyzer.Sources) :
  let r := ASNAnalyzer.get_rpki_status src in
  0 <= Models.valid_prefixes r
  /\ 0 <= Models.invalid_prefixes r
  /\ 0 <= Models.not_found_prefixes r
  /\ (0 <= Models.coverage_percent r <= 100)%Q
  /\ (Models.has_roas r = true <-> 0 < Models.valid_prefixes r)
  /\ (ModelProperties.is_deployed r = true
      <-> Models.invalid_prefixes r + Models.not_found_prefixes r
          < Models.valid_prefixes r)
  /\ ((Models.coverage_percent r == 100)%Q
      <-> 0 < Models.valid_prefixes r
          /\ Models.invalid_prefixes r = 0
          /\ Models.not_found_prefixes r = 0)
  /\ ((Models.coverage_percent r == 0)%Q <-> Models.valid_prefixes r = 0).
Proof.
  intros r. subst r. unfold ASNAnalyzer.get_rpki_status,
    ModelProperties.is_deployed.
  destruct (ASNAnalyzer.rpki_by_status src) as [d|e].
  - pose proof (len_nonneg (RIPEstat.valid d)) as Hv.
    pose proof (len_nonneg (RIPEstat.invalid d)) as Hi.
    pose proof (len_nonneg (RIPEstat.not_found d)) as Hn.
    cbn [Models.valid_prefixes Models.invalid_prefixes
         Models.not_found_prefixes Models.coverage_percent Models.has_roas].
    set (v := Py.len (RIPEstat.valid d)) in *.
    set (i := Py.len (RIPEstat.invalid d)) in *.
    set (n := Py.len (RIPEstat.not_found d)) in *.
    rewrite andb_true_iff, negb_true_iff, <- not_true_iff_false,
      Qle_bool_iff, Z.ltb_lt.
    destruct (0 <? v + i + n) eqn:E.
    + apply Z.ltb_lt in E.
      unfold Qle, Qeq. cbn [Qnum Qden]. rewrite Z2Pos.id by assumption.
      repeat match goal with |- _ /\ _ => split end; try lia.
    + apply Z.ltb_ge in E. unfold Qle, Qeq. cbn [Qnum Qden].
      repeat match goal with |- _ /\ _ => split end; try lia.
  - cbn. unfold Qle, Qeq. cbn.
    repeat match goal with |- _ /\ _ => split end; try lia;
      try (split; intros; try lia; intuition congruence).
Qed.

Lemma get_identity_asn (a : Z) (src : ASNAnalyzer.Sources)
      (i : Models.ASNIdentity) :
  ASNAnalyzer.get_identity a src = Py.Ok i -> Models.asn i = a.
Proof.
  unfold ASNAnalyzer.get_identity.
  destruct (ASNAnalyzer.network_for_identity src) as [net|[]];
    try discriminate.
  - destruct (ASNAnalyzer.as_overview src);
      destruct (Py.truthy_int (PeeringDB.org_id net));
      try destruct (ASNAnalyzer.organization src (PeeringDB.org_id net));
      intros H; injection H as <-; reflexivity.
  - destruct (ASNAnalyzer.as_overview src);
      intros H; injection H as <-; reflexivity.
Qed.

Lemma get_identity_raises (a : Z) (src : ASNAnalyzer.Sources) (e : Py.exn) :
  ASNAnalyzer.get_identity a src = Py.Raise e
  <-> ASNAnalyzer.network_for_identity src = Py.Raise e
      /\ e <> Py.PeeringDBNotFoundError.
Proof.
  unfold ASNAnalyzer.get_identity.
  destruct (ASNAnalyzer.network_for_identity src) as [net|e'].
  - split; [|intros [H _]; discriminate].
    destruct (Py.truthy_int (PeeringDB.org_id net));
      try destruct (ASNAnalyzer.organization src (PeeringDB.org_id net));
      discriminate.
  - destruct e'; split;
      try (intros H; injection H as <-; split; [reflexivity|discriminate]);
      try (intros [H _]; injection H as <-; reflexivity);
      try discriminate.
    intros [H Hne]. injection H as <-. congruence.
Qed.

(** X8.  A profile run fails only through the network lookup of the
    identity step, with that lookup's exception, unless the exception is
    "not found"; no failure of RIPEstat, of RIPE Atlas or of the other
    PeeringDB calls makes it fail.  A profile that is returned is for
    the AS number asked for. *)
Theorem get_profile_fails_only_on_network (a : Z)
        (src : ASNAnalyzer.Sources) :
  (forall e, ASNAnalyzer.get_profile a src = Py.Raise e
             <-> ASNAnalyzer.network_for_identity src = Py.Raise e
                 /\ e <> Py.PeeringDBNotFoundError)
  /\ (forall p, ASNAnalyzer.get_profile a src = Py.Ok p ->
                Models.asn (Models.identity p) = a).
Proof.
  split.
  - intros e. rewrite <- (get_identity_raises a).
    unfold ASNAnalyzer.get_profile.
    destruct (ASNAnalyzer.get_identity a src); cbn [Py.bind].
    + split; intros H; discriminate H.
    + split; intros H; injection H as <-; reflexivity.
  - intros p. unfold ASNAnalyzer.get_profile.
    destruct (ASNAnalyzer.get_identity a src) as [i|e] eqn:E; cbn;
      [|discriminate].
    intros H. injection H as <-. cbn. now apply get_identity_asn in E.
Qed.

(** X9.  The connectivity facet under partial failure: the exchange
    names are those of the first ten exchanges of the presence record
    and the top upstreams the first five of the upstream list; when the
    presence lookup fails, every PeeringDB field keeps its default, also
    if the network lookup would answer; when only the network lookup
    fails, the counts and names of the presence record are kept. *)
Theorem connectivity_partial_failure (src : ASNAnalyzer.Sources) :
  let c := ASNAnalyzer.get_connectivity_profile src in
  (List.length (Models.ixes c) <= 10)%nat
  /\ (List.length (Models.top_upstreams c) <= 5)%nat
  /\ Models.top_upstreams c
     = match ASNAnalyzer.upstream_asns src with
       | Py.Ok ups => firstn 5 ups
       | Py.Raise _ => []
       end
  /\ match ASNAnalyzer.network_presence src with
     | Py.Raise _ =>
         Models.ix_count c = 0 /\ Models.facility_count c = 0
         /\ Models.ixes c = [] /\ Models.peering_policy c = EmptyString
         /\ Models.irr_as_set c = EmptyString
         /\ Models.has_looking_glass c = false
         /\ Models.has_route_server c = false
     | Py.Ok presence =>
         Models.ix_count c = PeeringDB.ix_count presence
         /\ Models.facility_count c = PeeringDB.facility_count presence
         /\ Models.ixes c
            = firstn 10 (map PeeringDB.ix_name (PeeringDB.exchanges presence))
         /\ match ASNAnalyzer.network_for_connectivity src with
            | Py.Ok network =>
                Models.peering_policy c = PeeringDB.policy_general network
                /\ Models.irr_as_set c = PeeringDB.irr_as_set network
            | Py.Raise _ =>
                Models.peering_policy c = EmptyString
                /\ Models.irr_as_set c = EmptyString
                /\ Models.has_looking_glass c = false
                /\ Models.has_route_server c = false
            end
     end.
Proof.
  intros c. subst c. unfold ASNAnalyzer.get_connectivity_profile.
  destruct (ASNAnalyzer.network_presence src) as [presence|e1];
    [destruct (ASNAnalyzer.network_for_connectivity src) as [network|e2]|];
    destruct (ASNAnalyzer.upstream_asns src) as [ups|e3];
    cbn [Models.ixes Models.top_upstreams Models.ix_count
         Models.facility_count Models.peering_policy Models.irr_as_set
         Models.has_looking_glass Models.has_route_server
         Models.ConnectivityProfile_default];
    rewrite ?length_map, ?length_firstn, ?firstn_map; cbn [List.length];
    repeat match goal with |- _ /\ _ => split end;
    try reflexivity; try lia.
Qed.

Lemma recommendations_shape (p : Models.ASNProfile) :
  let recs := Recommendations.recommendations_of p in
  (List.length recs <= 4)%nat
  /\ NoDup (map Recommendations.type recs)
  /\ (forall r, In r recs -> Recommendations.priority r <> Models.CRITICAL).
Proof.
  intros recs. subst recs.
  unfold Recommendations.recommendations_of,
    Recommendations.rpki_recommendation.
  destruct (0 <? Models.invalid_prefixes (Models.rpki p));
    destruct (Models.has_roas (Models.rpki p));
    destruct (Recommendations.Qlt_bool
                (Models.coverage_percent (Models.rpki p)) 100);
    destruct (Models.upstream_count (Models.footprint p) <? 2);
    destruct ((Models.ix_count (Models.connectivity p) =? 0)
              && (10 <? Models.total_prefixes (Models.footprint p)));
    destruct (Py.truthy_str (Models.irr_as_set (Models.connectivity p)));
    cbn [app negb map List.length Recommendations.type];
    (split; [lia|]);
    (split;
     [repeat (constructor; [cbn [In]; intuition discriminate|]);
      constructor|]);
    intros r Hr; cbn [In] in Hr;
    repeat (destruct Hr as [<-|Hr]; [discriminate|]); destruct Hr.
Qed.

Lemma critical_health_high_priority (p : Models.ASNProfile) :
  ASNAnalyzer._assess_health (Models.footprint p) (Models.rpki p)
                             (Models.connectivity p)
  = Models.HEALTH_CRITICAL ->
  exists r, In r (Recommendations.recommendations_of p)
            /\ Recommendations.priority r = Models.HIGH.
Proof.
  rewrite assess_health_by_issues.
  unfold Spec.spec_issue_count, Spec.spec_health_of_issues,
    Recommendations.recommendations_of, Recommendations.rpki_recommendation.
  destruct (0 <? Models.invalid_prefixes (Models.rpki p)).
  - intros _. eexists. split; [left; reflexivity|reflexivity].
  - destruct (Models.upstream_count (Models.footprint p) <? 2).
    + intros _. eexists.
      split; [apply in_or_app; right; left; reflexivity|reflexivity].
    + destruct (Models.has_roas (Models.rpki p));
        destruct ((Models.ix_count (Models.connectivity p) =? 1)
                  || (Models.ix_count (Models.connectivity p) =? 0)
                     && (0 <? Models.total_prefixes (Models.footprint p)));
        cbn; discriminate.
Qed.

Lemma healthy_low_priority (p : Models.ASNProfile) :
  ASNAnalyzer._assess_health (Models.footprint p) (Models.rpki p)
                             (Models.connectivity p)
  = Models.HEALTHY ->
  forall r, In r (Recommendations.recommendations_of p) ->
            Recommendations.priority r = Models.LOW
            /\ (Recommendations.type r = Recommendations.DEPLOY_RPKI
                \/ Recommendations.type r = Recommendations.UPDATE_IRR).
Proof.
  rewrite assess_health_by_issues.
  unfold Spec.spec_issue_count, Spec.spec_health_of_issues,
    Recommendations.recommendations_of, Recommendations.rpki_recommendation.
  destruct (0 <? Models.invalid_prefixes (Models.rpki p));
    [destruct (Models.upstream_count (Models.footprint p) <? 2);
     destruct ((Models.ix_count (Models.connectivity p) =? 1)
               || (Models.ix_count (Models.connectivity p) =? 0)
                  && (0 <? Models.total_prefixes (Models.footprint p)));
     cbn; discriminate|].
  destruct (Models.has_roas (Models.rpki p));
    [|destruct (Models.upstream_count (Models.footprint p) <? 2);
      destruct ((Models.ix_count (Models.connectivity p) =? 1)
                || (Models.ix_count (Models.connectivity p) =? 0)
                   && (0 <? Models.total_prefixes (Models.footprint p)));
      cbn; discriminate].
  destruct (Models.upstream_count (Models.footprint p) <? 2);
    [destruct ((Models.ix_count (Models.connectivity p) =? 1)
               || (Models.ix_count (Models.connectivity p) =? 0)
                  && (0 <? Models.total_prefixes (Models.footprint p)));
     cbn; discriminate|].
  destruct (Models.ix_count (Models.connectivity p) =? 1);
    [cbn; discriminate|].
  assert (Hix : (Models.ix_count (Models.connectivity p) =? 0)
                && (10 <? Models.total_prefixes (Models.footprint p)) = true
                -> (Models.ix_count (Models.connectivity p) =? 0)
                   && (0 <? Models.total_prefixes (Models.footprint p))
                   = true).
  { rewrite !andb_true_iff, !Z.ltb_lt. intros [H1 H2]. split; [assumption|].
    lia. }
  destruct ((Models.ix_count (Models.connectivity p) =? 0)
            && (10 <? Models.total_prefixes (Models.footprint p))).
  - rewrite (Hix eq_refl). cbn. discriminate.
  - clear Hix. intros _.
    destruct (Recommendations.Qlt_bool
                (Models.coverage_percent (Models.rpki p)) 100);
      destruct (Py.truthy_str (Models.irr_as_set (Models.connectivity p)));
      cbn [app negb In]; intros r Hr;
      repeat (destruct Hr as [<-|Hr]; [cbn; tauto|]); destruct Hr.
Qed.

Lemma recommendations_by_health (p : Models.ASNProfile) :
  let recs := Recommendations.recommendations_of p in
  (List.length recs <= 4)%nat
  /\ NoDup (map Recommendations.type recs)
  /\ (forall r, In r recs -> Recommendations.priority r <> Models.CRITICAL)
  /\ (ASNAnalyzer._assess_health (Models.footprint p) (Models.rpki p)
                                 (Models.connectivity p)
      = Models.HEALTH_CRITICAL ->
      exists r, In r recs /\ Recommendations.priority r = Models.HIGH)
  /\ (ASNAnalyzer._assess_health (Models.footprint p) (Models.rpki p)
                                 (Models.connectivity p)
      = Models.HEALTHY ->
      forall r, In r recs ->
                Recommendations.priority r = Models.LOW
                /\ (Recommendations.type r = Recommendations.DEPLOY_RPKI
                    \/ Recommendations.type r = Recommendations.UPDATE_IRR)).
Proof.
  intros recs. destruct (recommendations_shape p) as (H1 & H2 & H3).
  split; [exact H1|]. split; [exact H2|]. split; [exact H3|].
  split; [apply critical_health_high_priority|apply healthy_low_priority].
Qed.

(** X10.  The recommendations of an AS: at most four, one per kind and
    none of critical priority.  An AS whose health is critical always
    gets a recommendation of high priority, and a healthy AS only
    low-priority ones, about RPKI coverage or the IRR as-set. *)
Theorem recommendations_follow_health (a : Z) (src : ASNAnalyzer.Sources)
        (recs : list Recommendations.Recommendation) :
  Recommendations.get_recommendations a src = Py.Ok recs ->
  exists p,
    ASNAnalyzer.get_profile a src = Py.Ok p
    /\ (List.length recs <= 4)%nat
    /\ NoDup (map Recommendations.type recs)
    /\ (forall r, In r recs -> Recommendations.priority r <> Models.CRITICAL)
    /\ (Models.health p = Models.HEALTH_CRITICAL ->
        exists r, In r recs /\ Recommendations.priority r = Models.HIGH)
    /\ (Models.health p = Models.HEALTHY ->
        forall r, In r recs ->
                  Recommendations.priority r = Models.LOW
                  /\ (Recommendations.type r = Recommendations.DEPLOY_RPKI
                      \/ Recommendations.type r
                         = Recommendations.UPDATE_IRR)).
Proof.
  unfold Recommendations.get_recommendations.
  destruct (ASNAnalyzer.get_profile a src) as [p|e] eqn:E; cbn;
    [|discriminate].
  intros H. injection H as <-. exists p. split; [reflexivity|].
  destruct (get_profile_health a src p E) as (_ & _ & _ & _ & Hh).
  rewrite Hh. apply recommendations_by_health.
Qed.

Lemma recommendations_follow_health_witness :
  exists recs,
    Recommendations.get_recommendations 64500 Runs.only_peeringdb_not_found
    = Py.Ok recs
    /\ (List.length recs <= 4)%nat.
Proof.
  eexists. split; [reflexivity|].
  destruct (recommendations_follow_health
              64500 Runs.only_peeringdb_not_found _ eq_refl)
    as (p & _ & H & _).
  exact H.
Defined.

(** ** The health score *)

Lemma rpki_coverage_range (src : ASNAnalyzer.Sources) :
  (0 <= Models.coverage_percent (ASNAnalyzer.get_rpki_status src) <= 100)%Q.
Proof.
  unfold ASNAnalyzer.get_rpki_status.
  destruct (ASNAnalyzer.rpki_by_status src) as [d|e].
  - pose proof (len_nonneg (RIPEstat.valid d)) as Hv.
    pose proof (len_nonneg (RIPEstat.invalid d)) as Hi.
    pose proof (len_nonneg (RIPEstat.not_found d)) as Hn.
    cbn [Models.coverage_percent].
    destruct (0 <? Py.len (RIPEstat.valid d) + Py.len (RIPEstat.invalid d)
                   + Py.len (RIPEstat.not_found d)) eqn:E.
    + apply Z.ltb_lt in E. unfold Qle. cbn [Qnum Qden].
      rewrite Z2Pos.id by assumption. lia.
    + unfold Qle. cbn. lia.
  - cbn. unfold Qle. cbn. lia.
Qed.

Lemma min_cases (a b : Q) :
  (RouteSherlock.min a b = a /\ (a <= b)%Q)
  \/ (RouteSherlock.min a b = b /\ (b < a)%Q).
Proof.
  unfold RouteSherlock.min.
  destruct (Recommendations.Qlt_bool b a) eqn:E.
  - right. split; [reflexivity|]. now apply Qlt_bool_iff.
  - left. split; [reflexivity|]. apply Qnot_lt_le. intros H.
    apply Qlt_bool_iff in H. congruence.
Qed.

Lemma max_cases (a b : Q) :
  (RouteSherlock.max a b = a /\ (b <= a)%Q)
  \/ (RouteSherlock.max a b = b /\ (a < b)%Q).
Proof.
  unfold RouteSherlock.max.
  destruct (Recommendations.Qlt_bool a b) eqn:E.
  - right. split; [reflexivity|]. now apply Qlt_bool_iff.
  - left. split; [reflexivity|]. apply Qnot_lt_le. intros H.
    apply Qlt_bool_iff in H. congruence.
Qed.

(** X11.  The health score of a report whose profile comes from
    [get_profile]: it lies between 15 and 100, is at most 40 for a
    critical AS and at most 70 for one with a warning, and at least 50
    for a healthy one; it reaches 100 only for a healthy AS that has an
    exchange, complete RPKI coverage and no anomaly above low. *)
Theorem health_score_of_profile (a : Z) (src : ASNAnalyzer.Sources)
        (p : Models.ASNProfile) (found : option Models.AnomalyReport) :
  ASNAnalyzer.get_profile a src = Py.Ok p ->
  let s := RouteSherlock._calculate_health_score
             {| RouteSherlock.profile := Some p;
                RouteSherlock.anomalies := found |} in
  (15 <= s <= 100)%Q
  /\ (Models.health p = Models.HEALTH_CRITICAL -> (s <= 40)%Q)
  /\ (Models.health p = Models.WARNING -> (s <= 70)%Q)
  /\ (Models.health p = Models.HEALTHY -> (50 <= s)%Q)
  /\ ((s == 100)%Q ->
      Models.health p = Models.HEALTHY
      /\ (Models.coverage_percent (Models.rpki p) == 100)%Q
      /\ Models.ix_count (Models.connectivity p) <> 0
      /\ match found with
         | Some r => Models.risk_level r = Models.LOW
         | None => True
         end).
Proof.
  intros Hp s.
  destruct (get_profile_health a src p Hp) as (_ & Hrpki & _ & _ & Hh).
  pose proof (rpki_coverage_range src) as Hcov. rewrite <- Hrpki in Hcov.
  pose proof (assess_health_not_unknown (Models.footprint p) (Models.rpki p)
                                        (Models.connectivity p)) as Hunk.
  rewrite <- Hh in Hunk.
  assert (Hhealthy : Models.health p = Models.HEALTHY ->
            (0 <? Models.invalid_prefixes (Models.rpki p)) = false
            /\ Models.has_roas (Models.rpki p) = true
            /\ (Models.upstream_count (Models.footprint p) <? 2) = false).
  { rewrite Hh, assess_health_by_issues.
    unfold Spec.spec_issue_count, Spec.spec_health_of_issues.
    destruct (0 <? Models.invalid_prefixes (Models.rpki p));
      destruct (Models.has_roas (Models.rpki p));
      destruct (Models.upstream_count (Models.footprint p) <? 2);
      destruct ((Models.ix_count (Models.connectivity p) =? 1)
                || (Models.ix_count (Models.connectivity p) =? 0)
                   && (0 <? Models.total_prefixes (Models.footprint p)));
      cbn; intros H; try discriminate H; now repeat split. }
  subst s. unfold RouteSherlock._calculate_health_score.
  cbn [RouteSherlock.profile RouteSherlock.anomalies].
  set (c := Models.coverage_percent (Models.rpki p)) in *.
  set (s1 := if 0 <? Models.invalid_prefixes (Models.rpki p)
             then (100 - 30)%Q
             else if negb (Models.has_roas (Models.rpki p))
                  then (100 - 20)%Q
                  else if Recommendations.Qlt_bool c 100
                       then (100 - (100 - c) * (1 # 10))%Q
                       else 100%Q).
  set (s2 := if Models.upstream_count (Models.footprint p) <? 2
             then (s1 - 15)%Q else s1).
  set (s3 := if Models.ix_count (Models.connectivity p) =? 0
             then (s2 - 10)%Q else s2).
  set (s4 := match found with
             | Some r =>
                 match Models.risk_level r with
                 | Models.LOW => s3
                 | Models.MEDIUM => (s3 - 10)%Q
                 | Models.HIGH => (s3 - 20)%Q
                 | Models.CRITICAL => (s3 - 30)%Q
                 end
             | None => s3
             end).
  set (s5 := match Models.health p with
             | Models.HEALTH_CRITICAL => RouteSherlock.min s4 40
             | Models.WARNING => RouteSherlock.min s4 70
             | _ => s4
             end).
  assert (H1 : (70 <= s1 <= 100)%Q
               /\ ((s1 == 100)%Q ->
                   (0 <? Models.invalid_prefixes (Models.rpki p)) = false
                   /\ Models.has_roas (Models.rpki p) = true
                   /\ (c == 100)%Q)
               /\ ((0 <? Models.invalid_prefixes (Models.rpki p)) = false ->
                   Models.has_roas (Models.rpki p) = true ->
                   (90 <= s1)%Q)).
  { subst s1.
    destruct (0 <? Models.invalid_prefixes (Models.rpki p));
      [split; [lra|]; split; [lra|discriminate]|].
    destruct (Models.has_roas (Models.rpki p)); cbn [negb];
      [|split; [lra|]; split; [lra|discriminate]].
    destruct (Recommendations.Qlt_bool c 100) eqn:E.
    - apply Qlt_bool_iff in E. split; [lra|]. split; [lra|]. intros _ _. lra.
    - assert (Hge : (100 <= c)%Q).
      { apply Qnot_lt_le. intros H. apply Qlt_bool_iff in H. congruence. }
      split; [lra|]. split; [|intros _ _; lra].
      intros _. split; [reflexivity|]. split; [reflexivity|]. lra. }
  destruct H1 as (H1 & H1eq & H1healthy).
  assert (H2 : (s1 - 15 <= s2 <= s1)%Q
               /\ ((s2 == s1)%Q ->
                   (Models.upstream_count (Models.footprint p) <? 2) = false)
               /\ ((Models.upstream_count (Models.footprint p) <? 2) = false
                   -> s2 = s1)).
  { subst s2. destruct (Models.upstream_count (Models.footprint p) <? 2).
    - split; [lra|]. split; [lra|discriminate].
    - split; [lra|]. split; reflexivity. }
  destruct H2 as (H2 & H2eq & H2healthy).
  assert (H3 : (s2 - 10 <= s3 <= s2)%Q
               /\ ((s3 == s2)%Q ->
                   Models.ix_count (Models.connectivity p) <> 0)).
  { subst s3.
    destruct (Models.ix_count (Models.connectivity p) =? 0) eqn:E.
    - split; [lra|]. lra.
    - split; [lra|]. intros _. now apply Z.eqb_neq. }
  destruct H3 as (H3 & H3eq).
  assert (H4 : (s3 - 30 <= s4 <= s3)%Q
               /\ ((s4 == s3)%Q ->
                   match found with
                   | Some r => Models.risk_level r = Models.LOW
                   | None => True
                   end)).
  { subst s4. destruct found as [r|]; [|split; [lra|trivial]].
    destruct (Models.risk_level r); split; try lra; try reflexivity. }
  destruct H4 as (H4 & H4eq).
  assert (H5 : (s5 <= s4)%Q
               /\ (Models.health p = Models.HEALTH_CRITICAL ->
                   (s5 <= 40)%Q /\ (15 <= s5)%Q)
               /\ (Models.health p = Models.WARNING ->
                   (s5 <= 70)%Q /\ (15 <= s5)%Q)
               /\ (Models.health p = Models.HEALTHY -> s5 = s4)).
  { subst s5. destruct (Models.health p).
    - split; [lra|]. split; [discriminate|]. split; [discriminate|].
      reflexivity.
    - destruct (min_cases s4 70) as [[-> H]|[-> H]];
        (split; [lra|]); (split; [discriminate|]);
        (split; [intros _; lra|discriminate]).
    - destruct (min_cases s4 40) as [[-> H]|[-> H]];
        (split; [lra|]); (split; [intros _; lra|]);
        (split; discriminate).
    - congruence. }
  destruct H5 as (H5 & H5c & H5w & H5h).
  assert (H5low : (15 <= s5)%Q).
  { destruct (Models.health p) eqn:E.
    - rewrite (H5h eq_refl). lra.
    - now apply H5w.
    - now apply H5c.
    - congruence. }
  assert (Hfinal : (RouteSherlock.max 0 (RouteSherlock.min 100 s5) == s5)%Q).
  { destruct (min_cases 100 s5) as [[-> H]|[-> H]].
    - destruct (max_cases 0 100) as [[-> H']|[-> H']]; lra.
    - destruct (max_cases 0 s5) as [[-> H']|[-> H']]; lra. }
  set (s := RouteSherlock.max 0 (RouteSherlock.min 100 s5)) in *.
  split; [lra|].
  split; [intros E; destruct (H5c E); lra|].
  split; [intros E; destruct (H5w E); lra|].
  split.
  { intros E. destruct (Hhealthy E) as (Ei & Er & Eu).
    specialize (H1healthy Ei Er). specialize (H2healthy Eu).
    specialize (H5h E). rewrite H5h in Hfinal. rewrite H2healthy in H2, H3.
    lra. }
  intros E100.
  assert (E4 : (s4 == s3)%Q) by lra.
  assert (E3 : (s3 == s2)%Q) by lra.
  assert (E2 : (s2 == s1)%Q) by lra.
  assert (E1 : (s1 == 100)%Q) by lra.
  destruct (H1eq E1) as (_ & _ & Ec).
  split.
  { destruct (Models.health p) eqn:E; [reflexivity| | |congruence].
    - destruct (H5w eq_refl). lra.
    - destruct (H5c eq_refl). lra. }
  split; [exact Ec|]. split; [now apply H3eq|now apply H4eq].
Qed.

Lemma health_score_of_profile_witness :
  exists p,
    ASNAnalyzer.get_profile 64500 Runs.only_peeringdb_not_found = Py.Ok p
    /\ (15 <= RouteSherlock._calculate_health_score
                {| RouteSherlock.profile := Some p;
                   RouteSherlock.anomalies := None |} <= 100)%Q.
Proof.
  eexists. split; [reflexivity|].
  exact (proj1 (health_score_of_profile
                  64500 Runs.only_peeringdb_not_found _ None eq_refl)).
Defined.

(** ** Historical detection *)

Lemma of_type_mk (ty ty' : string) (ts : Z) (pfx : string) (ev : Evidence)
      (sev : string) :
  Stream.of_type ty (mk ty' ts pfx ev sev) = String.eqb ty' ty.
Proof. reflexivity. Qed.

Lemma flag_new_types (e : Event) (b : list Z) (asns : list Z) :
  forall seen found seen',
    flag_new e b asns seen = (found, seen') ->
    Forall (fun d => AnomalyDetection.anomaly_type d = "path_leak"%string)
           found.
Proof.
  intros seen found seen' H.
  destruct (flag_new_spec e b asns seen found seen' H) as (Hall & _).
  eapply Forall_impl; [|exact Hall]. intros d (asn & _ & ->). reflexivity.
Qed.

Section StreamFacts.
Context (int_order : Py.SetOrder Z) (path_order : Py.SetOrder (list Z)).
Context (expected_origin : option Z) (expected_prefix : option string).
Context (baseline : list (list Z)).

Lemma path_leak_types (e : Event) (seen : list Z) (leaks : list Detection)
      (seen' : list Z) :
  path_leak int_order path_order expected_origin baseline e seen
  = (leaks, seen') ->
  Forall (fun d => AnomalyDetection.anomaly_type d = "path_leak"%string)
         leaks
  /\ (leaks <> [] ->
      origin_is expected_origin e = true /\ 2 < Py.len (as_path e)).
Proof.
  intros H. destruct (path_leak_shape _ _ _ _ _ _ _ _ H)
    as [[-> _]|(Ho & Hlen & b & _ & _ & Hflag)].
  - split; [constructor|congruence].
  - split; [now apply (flag_new_types _ _ _ _ _ _ Hflag)|now split].
Qed.

Lemma origin_check_types (e : Event) :
  Forall (fun d => AnomalyDetection.anomaly_type d = "leak"%string
                   \/ AnomalyDetection.anomaly_type d = "hijack"%string)
         (origin_check expected_origin e).
Proof.
  destruct (origin_check_shape expected_origin e)
    as [->|(ex & og & _ & _ & _ & _ & _ & [[_ ->]|[_ ->]])];
    [constructor|constructor; [now left|constructor]
    |constructor; [now right|constructor]].
Qed.

Lemma more_specific_types (e : Event) :
  Forall (fun d => AnomalyDetection.anomaly_type d = "more_specific"%string)
         (Stream.specifics expected_prefix e).
Proof.
  unfold Stream.specifics.
  destruct (more_specific expected_prefix e) as [l|x] eqn:E; [|constructor].
  destruct (more_specific_shape _ _ _ E) as [->| ->]; repeat constructor.
Qed.

(** One turn of the loop, as what it appends. *)
Lemma step_appends (st : State) (e : Event) :
  match step int_order path_order expected_origin expected_prefix baseline
             st e with
  | Py.Raise x =>
      is_announcement e = true /\ more_specific expected_prefix e = Py.Raise x
  | Py.Ok st' =>
      (is_announcement e = true ->
       Py.is_ok (more_specific expected_prefix e) = true)
      /\ seen_origins st'
         = seen_origins st
           ++ (if is_announcement e then Stream.counted_origin e else [])
      /\ exists leaks,
           anomalies st'
           = anomalies st
             ++ (if is_announcement e
                 then Stream.specifics expected_prefix e
                      ++ origin_check expected_origin e ++ leaks
                 else [])
           /\ Forall (fun d => AnomalyDetection.anomaly_type d
                               = "path_leak"%string) leaks
           /\ (leaks <> [] ->
               is_announcement e = true
               /\ origin_is expected_origin e = true
               /\ 2 < Py.len (as_path e))
  end.
Proof.
  unfold step, Stream.specifics.
  destruct (is_announcement e); cbn [negb].
  - destruct (more_specific expected_prefix e) as [specific|x];
      cbn [Py.bind]; [|now split].
    destruct (path_leak int_order path_order expected_origin baseline e
                        (suspicious_ases_seen st)) as [leaks seen'] eqn:E.
    cbn [seen_origins anomalies]. split; [reflexivity|]. split.
    + unfold track_origin, Stream.counted_origin.
      destruct (origin_asn e) as [o|]; [|now rewrite app_nil_r].
      destruct (Py.truthy_int o); [reflexivity|now rewrite app_nil_r].
    + exists leaks. split; [reflexivity|].
      destruct (path_leak_types _ _ _ _ E) as (H1 & H2).
      split; [exact H1|]. intros H. split; [reflexivity|]. now apply H2.
  - split; [discriminate|]. split; [now rewrite app_nil_r|].
    exists []. split; [now rewrite app_nil_r|]. split; [constructor|].
    congruence.
Qed.

Lemma run_appends (evs : list Event) :
  forall st st',
    run int_order path_order expected_origin expected_prefix baseline evs st
    = Py.Ok st' ->
    seen_origins st' = seen_origins st ++ Stream.origins_seen evs
    /\ exists added,
         anomalies st' = anomalies st ++ added
         /\ Stream.run_added expected_origin expected_prefix evs added.
Proof.
  induction evs as [|e t IH]; intros st st' H.
  - injection H as <-. split; [now rewrite app_nil_r|].
    exists []. split; [now rewrite app_nil_r|].
    split; [reflexivity|]. split; [reflexivity|constructor].
  - cbn [run] in H.
    pose proof (step_appends st e) as Hstep.
    destruct (step int_order path_order expected_origin expected_prefix
                   baseline st e) as [st1|x]; cbn [Py.bind] in H;
      [|discriminate].
    destruct Hstep as (_ & Hseen & leaks & Han & Hleaks & Hwhy).
    destruct (IH st1 st' H) as (Hseen' & added & Han' & Hrest).
    split.
    { rewrite Hseen', Hseen, <- app_assoc. f_equal.
      unfold Stream.origins_seen. cbn [filter].
      destruct (is_announcement e); reflexivity. }
    eexists. split; [rewrite Han', Han, <- app_assoc; reflexivity|].
    assert (Hspec := more_specific_types e).
    assert (Hoc := origin_check_types e).
    unfold Stream.run_added in *. destruct Hrest as (Ho & Hm & Hall).
    rewrite !filter_app, Ho, Hm. cbn [filter].
    destruct (is_announcement e) eqn:Ea.
    + rewrite !filter_app. cbn [flat_map].
      assert (F1 : filter (Stream.of_type "origin_change")
                          (Stream.specifics expected_prefix e) = []).
      { apply filter_none. intros d Hd. rewrite Forall_forall in Hspec.
        unfold Stream.of_type. now rewrite (Hspec d Hd). }
      assert (F2 : filter (Stream.of_type "origin_change")
                          (origin_check expected_origin e) = []).
      { apply filter_none. intros d Hd. rewrite Forall_forall in Hoc.
        unfold Stream.of_type. destruct (Hoc d Hd) as [-> | ->]; reflexivity. }
      assert (F3 : filter (Stream.of_type "origin_change") leaks = []).
      { apply filter_none. intros d Hd. rewrite Forall_forall in Hleaks.
        unfold Stream.of_type. now rewrite (Hleaks d Hd). }
      assert (G1 : filter (Stream.of_type "more_specific")
                          (Stream.specifics expected_prefix e)
                   = Stream.specifics expected_prefix e).
      { apply forallb_filter_id. apply forallb_forall. intros d Hd.
        rewrite Forall_forall in Hspec.
        unfold Stream.of_type. now rewrite (Hspec d Hd). }
      assert (G2 : filter (Stream.of_type "more_specific")
                          (origin_check expected_origin e) = []).
      { apply filter_none. intros d Hd. rewrite Forall_forall in Hoc.
        unfold Stream.of_type. destruct (Hoc d Hd) as [-> | ->]; reflexivity. }
      assert (G3 : filter (Stream.of_type "more_specific") leaks = []).
      { apply filter_none. intros d Hd. rewrite Forall_forall in Hleaks.
        unfold Stream.of_type. now rewrite (Hleaks d Hd). }
      rewrite F1, F2, F3, G1, G2, G3, !app_nil_r.
      split; [reflexivity|]. split; [reflexivity|].
      rewrite !Forall_app. split; [split; [|split]|].
      * rewrite Forall_forall in Hspec. apply Forall_forall. intros d Hd.
        unfold Stream.of_type. rewrite (Hspec d Hd). cbn.
        split; [discriminate|]. split; [discriminate|reflexivity].
      * rewrite Forall_forall in Hoc. apply Forall_forall. intros d Hd.
        unfold Stream.of_type.
        split; [|split].
        -- intros _. exists e. split; [now left|]. split; [exact Ea|exact Hd].
        -- destruct (Hoc d Hd) as [-> | ->]; discriminate.
        -- destruct (Hoc d Hd) as [-> | ->]; reflexivity.
      * rewrite Forall_forall in Hleaks. apply Forall_forall. intros d Hd.
        unfold Stream.of_type. rewrite (Hleaks d Hd). cbn.
        split; [discriminate|]. split; [|reflexivity].
        intros _. exists e. split; [now left|].
        destruct Hwhy as (_ & Hw1 & Hw2); [intros ->; destruct Hd|].
        split; [exact Ea|]. now split.
      * eapply Forall_impl; [|exact Hall]. intros d (H1 & H2 & H3).
        split; [|split; [|exact H3]].
        -- intros Hd. destruct (H1 Hd) as (e' & He' & Hx).
           exists e'. split; [now right|exact Hx].
        -- intros Hd. destruct (H2 Hd) as (e' & He' & Hx).
           exists e'. split; [now right|exact Hx].
    + cbn [app]. split; [reflexivity|]. split; [reflexivity|].
      eapply Forall_impl; [|exact Hall]. intros d (H1 & H2 & H3).
      split; [|split; [|exact H3]].
      * intros Hd. destruct (H1 Hd) as (e' & He' & Hx).
        exists e'. split; [now right|exact Hx].
      * intros Hd. destruct (H2 Hd) as (e' & He' & Hx).
        exists e'. split; [now right|exact Hx].
Qed.

Lemma run_raises (evs : list Event) :
  forall st x,
    run int_order path_order expected_origin expected_prefix baseline evs st
    = Py.Raise x
    <-> exists l1 e l2,
          evs = l1 ++ e :: l2
          /\ is_announcement e = true
          /\ more_specific expected_prefix e = Py.Raise x
          /\ forall e', In e' l1 -> is_announcement e' = true ->
                        Py.is_ok (more_specific expected_prefix e') = true.
Proof.
  induction evs as [|a t IH]; intros st x.
  - cbn [run]. split; [discriminate|].
    intros (l1 & e & l2 & H & _). now destruct l1.
  - cbn [run]. pose proof (step_appends st a) as Hstep.
    destruct (step int_order path_order expected_origin expected_prefix
                   baseline st a) as [st1|y]; cbn [Py.bind].
    + destruct Hstep as (Hok & _). rewrite IH. split.
      * intros (l1 & e & l2 & -> & Ha & Hr & Hl1).
        exists (a :: l1), e, l2. split; [reflexivity|].
        split; [exact Ha|]. split; [exact Hr|].
        intros e' [<-|He']; [exact Hok|now apply Hl1].
      * intros (l1 & e & l2 & Heq & Ha & Hr & Hl1).
        destruct l1 as [|b l1'].
        -- injection Heq as <- <-. specialize (Hok Ha).
           rewrite Hr in Hok. discriminate.
        -- injection Heq as <- ->. exists l1', e, l2.
           split; [reflexivity|]. split; [exact Ha|]. split; [exact Hr|].
           intros e' He'. apply Hl1. now right.
    + destruct Hstep as (Ha & Hr). split.
      * intros H. injection H as <-. exists [], a, t.
        split; [reflexivity|]. split; [exact Ha|]. split; [exact Hr|].
        intros e' [].
      * intros (l1 & e & l2 & Heq & Ha' & Hr' & Hl1).
        destruct l1 as [|b l1'].
        -- injection Heq as <- <-. congruence.
        -- injection Heq as <- ->.
           assert (Hb : Py.is_ok (more_specific expected_prefix a) = true)
             by (apply Hl1; [now left|exact Ha]).
           rewrite Hr in Hb. discriminate.
Qed.

End StreamFacts.

Lemma map_const_repeat {A B : Type} (d : B) (l : list A) :
  map (fun _ => d) l = repeat d (List.length l).
Proof. induction l as [|a t IH]; cbn; [reflexivity|now rewrite IH]. Qed.

Lemma split_on_from_no_sep (sep : ascii) (l : list ascii) :
  forall cur,
    (forall c, In c l -> Ascii.eqb c sep = false) ->
    Py.split_on_from sep cur l = [string_of_list_ascii (rev cur ++ l)].
Proof.
  induction l as [|c t IH]; intros cur H.
  - cbn. now rewrite app_nil_r.
  - cbn [Py.split_on_from]. rewrite (H c (or_introl eq_refl)).
    rewrite IH by (intros c' Hc'; apply H; now right).
    cbn [rev]. now rewrite <- app_assoc.
Qed.

Lemma contains_char_false (c : ascii) (s : string) :
  Py.contains_char c s = false ->
  forall d, In d (list_ascii_of_string s) -> Ascii.eqb d c = false.
Proof.
  induction s as [|a t IH]; cbn; [intros _ d []|].
  intros H d [<-|Hd].
  - apply orb_false_elim in H as [H _]. now rewrite Ascii.eqb_sym.
  - apply orb_false_elim in H as [_ H]. now apply IH.
Qed.

Lemma mask_length_needs_slash (p : string) :
  Py.contains_char "/" p = false ->
  Stream.mask_length p = Py.Raise Py.IndexError.
Proof.
  intros H. unfold Stream.mask_length, Py.split_on.
  rewrite split_on_from_no_sep by (now apply contains_char_false).
  reflexivity.
Qed.

Lemma more_specific_by_mask (ep : string) (e : Event) :
  more_specific (Some ep) e
  = if Py.truthy_str ep then
      n <- Stream.mask_length ep ;;
      m <- (if Py.contains_char "/" (prefix e)
            then Stream.mask_length (prefix e) else Py.Ok 32) ;;
      if (n <? m)
         && Py.startswith (prefix e) (hd EmptyString (Py.split_on "/" ep))
      then Py.Ok [mk "more_specific" (timestamp e) (prefix e)
                     (MoreSpecificEvidence (as_path e) (origin_asn e))
                     "critical"]
      else Py.Ok []
    else Py.Ok [].
Proof.
  unfold more_specific, Stream.mask_length.
  destruct (Py.truthy_str ep); [|reflexivity].
  destruct (Py.index (Py.split_on "/" ep) 1) as [piece|x]; cbn [Py.bind];
    [|reflexivity].
  destruct (Py.int piece) as [n|x]; cbn [Py.bind]; [|reflexivity].
  destruct (Py.contains_char "/" (prefix e)); [|reflexivity].
  destruct (Py.index (Py.split_on "/" (prefix e)) 1) as [p|x];
    cbn [Py.bind]; reflexivity.
Qed.

Lemma more_specific_cases (expected_prefix : option string) (e : Event) :
  forall d, In d (Stream.specifics expected_prefix e) ->
    d = mk "more_specific" (timestamp e) (prefix e)
           (MoreSpecificEvidence (as_path e) (origin_asn e)) "critical"
    /\ exists ep n m,
         expected_prefix = Some ep
         /\ Stream.mask_length ep = Py.Ok n
         /\ (if Py.contains_char "/" (prefix e)
             then Stream.mask_length (prefix e) else Py.Ok 32) = Py.Ok m
         /\ n < m
         /\ Py.startswith (prefix e) (hd EmptyString (Py.split_on "/" ep))
            = true
         /\ prefix e <> ep.
Proof.
  intros d. unfold Stream.specifics.
  destruct expected_prefix as [ep|]; [|intros []].
  rewrite more_specific_by_mask.
  destruct (Py.truthy_str ep); [|intros []].
  destruct (Stream.mask_length ep) as [n|x] eqn:En; cbn [Py.bind];
    [|intros []].
  destruct (if Py.contains_char "/" (prefix e)
            then Stream.mask_length (prefix e) else Py.Ok 32)
    as [m|x] eqn:Em; cbn [Py.bind]; [|intros []].
  destruct (n <? m) eqn:Elt; cbn [andb]; [|intros []].
  destruct (Py.startswith (prefix e) (hd EmptyString (Py.split_on "/" ep)))
    eqn:Es; [|intros []].
  intros [<-|[]]. split; [reflexivity|].
  exists ep, n, m. apply Z.ltb_lt in Elt.
  split; [reflexivity|]. split; [first [exact En|reflexivity]|].
  split; [first [exact Em|reflexivity]|].
  split; [exact Elt|]. split; [first [exact Es|reflexivity]|].
  intros Heq. rewrite Heq in Em.
  destruct (Py.contains_char "/" ep) eqn:Ec.
  - rewrite En in Em. injection Em as <-. lia.
  - rewrite (mask_length_needs_slash ep Ec) in En. discriminate.
Qed.

Lemma first_announcement (events : list Event) :
  (exists e, In e events /\ is_announcement e = true) ->
  exists l1 e l2,
    events = l1 ++ e :: l2 /\ is_announcement e = true
    /\ forall e', In e' l1 -> is_announcement e' = false.
Proof.
  induction events as [|a t IH]; intros (e & He & Ha); [destruct He|].
  destruct (is_announcement a) eqn:E.
  - exists [], a, t. split; [reflexivity|]. split; [exact E|]. intros e' [].
  - destruct He as [->|He]; [congruence|].
    destruct IH as (l1 & e0 & l2 & -> & H0 & Hl1); [now exists e|].
    exists (a :: l1), e0, l2. split; [reflexivity|]. split; [exact H0|].
    intros e' [<-|He']; [exact E|now apply Hl1].
Qed.

Section StreamTheorems.
Context (int_order : Py.SetOrder Z) (path_order : Py.SetOrder (list Z)).
Context (utcnow : Z).

Lemma origin_changes_repeat (expected_origin : option Z)
      (expected_prefix : option string) (events : list Event)
      (seen : list Z) :
  origin_changes int_order utcnow expected_origin expected_prefix events seen
  = repeat (Stream.origin_change_of utcnow expected_prefix events
                                    (Py.iter int_order seen))
           (Stream.unexpected_count expected_origin seen).
Proof.
  unfold origin_changes, Stream.unexpected_count.
  destruct expected_origin as [expected|]; [|reflexivity].
  assert (H1 : Py.len (Py.iter int_order seen)
               = Py.len (nodup Z.eq_dec seen)).
  { unfold Py.len. f_equal. apply Permutation_length.
    apply iter_Permutation. }
  rewrite H1, (andb_comm (Py.truthy_int expected)).
  destruct ((1 <? Py.len (nodup Z.eq_dec seen)) && Py.truthy_int expected);
    [|reflexivity].
  rewrite map_const_repeat. f_equal.
  apply Permutation_length. apply iter_Permutation.
Qed.

Lemma detect_anomalies_unfolded (events : list Event)
      (expected_origin : option Z) (expected_prefix : option string)
      (out : list Detection) :
  detect_anomalies int_order path_order utcnow events expected_origin
                   expected_prefix = Py.Ok out ->
  exists added,
    Stream.run_added expected_origin expected_prefix events added
    /\ out = added
             ++ repeat (Stream.origin_change_of
                          utcnow expected_prefix events
                          (Py.iter int_order (Stream.origins_seen events)))
                       (Stream.unexpected_count
                          expected_origin (Stream.origins_seen events)).
Proof.
  unfold detect_anomalies.
  destruct (run int_order path_order expected_origin expected_prefix
                (baseline_inserted events) events initial) as [st|x] eqn:E;
    cbn [Py.bind]; [|discriminate].
  intros H. injection H as <-.
  destruct (run_appends _ _ _ _ _ _ _ _ E) as (Hseen & added & Han & Hadd).
  cbn in Hseen, Han. exists added. split; [exact Hadd|].
  now rewrite Han, Hseen, origin_changes_repeat.
Qed.

Lemma origins_seen_In (events : list Event) (k : Z) :
  In k (Stream.origins_seen events)
  <-> exists e, In e events /\ is_announcement e = true
                /\ origin_asn e = Some k /\ k <> 0.
Proof.
  unfold Stream.origins_seen. rewrite in_flat_map. split.
  - intros (e & He & Hk). apply filter_In in He as (He & Ha).
    exists e. split; [exact He|]. split; [exact Ha|].
    unfold Stream.counted_origin, Py.truthy_int in Hk.
    destruct (origin_asn e) as [o|]; [|destruct Hk].
    destruct (Z.eqb_spec o 0); cbn in Hk; [destruct Hk|].
    destruct Hk as [<-|[]]. now split.
  - intros (e & He & Ha & Ho & Hk). exists e.
    split; [apply filter_In; now split|].
    unfold Stream.counted_origin, Py.truthy_int. rewrite Ho.
    destruct (Z.eqb_spec k 0); [contradiction|]. now left.
Qed.

(** X12.  The origin changes of a run that returns come last, after
    every other detection, and are copies of one detection: as many as
    there are distinct origins other than the expected one among the
    announcements, when an expected origin other than 0 is given and at
    least two distinct origins were seen, and none otherwise.  The
    detection carries the time of the first event of the list and the
    origins seen, each once; it does not name the unexpected origin. *)
Theorem origin_change_detections (events : list Event)
        (expected_origin : option Z) (expected_prefix : option string)
        (out : list Detection) :
  detect_anomalies int_order path_order utcnow events expected_origin
                   expected_prefix = Py.Ok out ->
  let seen := Stream.origins_seen events in
  let origins := Py.iter int_order seen in
  exists before,
    out = before
          ++ repeat (Stream.origin_change_of utcnow expected_prefix events
                                             origins)
                    (Stream.unexpected_count expected_origin seen)
    /\ filter (Stream.of_type "origin_change") before = []
    /\ NoDup origins
    /\ (forall k, In k origins
                  <-> exists e, In e events /\ is_announcement e = true
                                /\ origin_asn e = Some k /\ k <> 0).
Proof.
  intros H seen origins.
  destruct (detect_anomalies_unfolded _ _ _ _ H) as (added & Hadd & ->).
  exists added. split; [reflexivity|].
  split; [apply Hadd|]. split; [apply Py.iter_NoDup|].
  intros k. unfold origins. rewrite (Py.iter_In int_order).
  apply origins_seen_In.
Qed.

(** X13.  The detection raises exactly when the prefix-length comparison
    raises for some announcement, with the exception of the first such
    announcement.  It never raises without an expected prefix, and it
    raises [IndexError] as soon as there is an announcement when the
    expected prefix has no slash. *)
Theorem detect_anomalies_raises_iff (events : list Event)
        (expected_origin : option Z) (expected_prefix : option string) :
  (forall x,
      detect_anomalies int_order path_order utcnow events expected_origin
                       expected_prefix = Py.Raise x
      <-> exists l1 e l2,
            events = l1 ++ e :: l2
            /\ is_announcement e = true
            /\ more_specific expected_prefix e = Py.Raise x
            /\ forall e', In e' l1 -> is_announcement e' = true ->
                 Py.is_ok (more_specific expected_prefix e') = true)
  /\ (truthy_prefix expected_prefix = false ->
      Py.is_ok (detect_anomalies int_order path_order utcnow events
                                 expected_origin expected_prefix) = true)
  /\ (forall ep,
        expected_prefix = Some ep -> ep <> EmptyString ->
        Py.contains_char "/" ep = false ->
        (exists e, In e events /\ is_announcement e = true) ->
        detect_anomalies int_order path_order utcnow events expected_origin
                         expected_prefix = Py.Raise Py.IndexError).
Proof.
  assert (Hiff : forall x,
      detect_anomalies int_order path_order utcnow events expected_origin
                       expected_prefix = Py.Raise x
      <-> exists l1 e l2,
            events = l1 ++ e :: l2
            /\ is_announcement e = true
            /\ more_specific expected_prefix e = Py.Raise x
            /\ forall e', In e' l1 -> is_announcement e' = true ->
                 Py.is_ok (more_specific expected_prefix e') = true).
  { intros x.
    rewrite <- (run_raises int_order path_order expected_origin
                           expected_prefix (baseline_inserted events)
                           events initial x).
    unfold detect_anomalies.
    destruct (run int_order path_order expected_origin expected_prefix
                  (baseline_inserted events) events initial);
      cbn [Py.bind]; split; intros H; try discriminate H;
      injection H as <-; reflexivity. }
  split; [exact Hiff|]. split.
  - intros Hp.
    destruct (detect_anomalies int_order path_order utcnow events
                               expected_origin expected_prefix)
      as [out|x] eqn:E; [reflexivity|].
    destruct (proj1 (Hiff x) eq_refl) as (l1 & e & l2 & _ & _ & Hr & _).
    unfold more_specific, truthy_prefix in *.
    destruct expected_prefix as [ep|]; [|discriminate].
    rewrite Hp in Hr. discriminate.
  - intros ep -> Hne Hslash Hann.
    apply Hiff.
    destruct (first_announcement events Hann) as (l1 & e & l2 & -> & Ha & Hl1).
    exists l1, e, l2. split; [reflexivity|]. split; [exact Ha|]. split.
    + rewrite more_specific_by_mask.
      destruct ep as [|c ep']; [congruence|]. cbn [Py.truthy_str].
      now rewrite (mask_length_needs_slash _ Hslash).
    + intros e' He' Ha'. rewrite (Hl1 e' He') in Ha'. discriminate.
Qed.

(** X14.  The more-specific detections of a run that returns are those
    of the prefix-length comparison of each announcement, in order.  Such
    a detection is critical and copies the announcement; it is raised
    only when the announcement's mask is longer than the expected one
    (32 for a prefix without slash) and its prefix begins with the text
    of the expected network address, so never for the expected prefix
    itself. *)
Theorem more_specific_detections (events : list Event)
        (expected_origin : option Z) (expected_prefix : option string)
        (out : list Detection) :
  detect_anomalies int_order path_order utcnow events expected_origin
                   expected_prefix = Py.Ok out ->
  filter (Stream.of_type "more_specific") out
  = flat_map (Stream.specifics expected_prefix)
             (filter is_announcement events)
  /\ (forall e d,
        In d (Stream.specifics expected_prefix e) ->
        d = mk "more_specific" (timestamp e) (prefix e)
               (MoreSpecificEvidence (as_path e) (origin_asn e)) "critical"
        /\ exists ep n m,
             expected_prefix = Some ep
             /\ Stream.mask_length ep = Py.Ok n
             /\ (if Py.contains_char "/" (prefix e)
                 then Stream.mask_length (prefix e) else Py.Ok 32) = Py.Ok m
             /\ n < m
             /\ Py.startswith (prefix e)
                              (hd EmptyString (Py.split_on "/" ep)) = true
             /\ prefix e <> ep).
Proof.
  intros H.
  destruct (detect_anomalies_unfolded _ _ _ _ H)
    as (added & (_ & Hm & _) & ->).
  split; [|intros e; apply more_specific_cases].
  rewrite filter_app, Hm.
  rewrite (filter_none (Stream.of_type "more_specific")); [apply app_nil_r|].
  intros d Hd. apply repeat_spec in Hd. now subst d.
Qed.

Lemma origin_check_expected (expected : Z) (e : Event) :
  origin_asn e = Some expected -> origin_check (Some expected) e = [].
Proof.
  intros H. unfold origin_check. rewrite H, Z.eqb_refl.
  now rewrite andb_false_r.
Qed.

(** X15.  A stream whose announcements all have the expected origin
    yields no leak, no hijack and no origin change: every detection is a
    more-specific prefix or a path leak, and only a more-specific prefix
    when no announced path has more than two hops. *)
Theorem expected_origin_stream_quiet (events : list Event) (expected : Z)
        (expected_prefix : option string) (out : list Detection) :
  (forall e, In e events -> is_announcement e = true ->
             origin_asn e = Some expected) ->
  detect_anomalies int_order path_order utcnow events (Some expected)
                   expected_prefix = Py.Ok out ->
  (forall d, In d out ->
             Stream.of_type "more_specific" d
             || Stream.of_type "path_leak" d = true)
  /\ ((forall e, In e events -> is_announcement e = true ->
                 Py.len (as_path e) <= 2) ->
      forall d, In d out -> Stream.of_type "more_specific" d = true).
Proof.
  intros Hexp H.
  destruct (detect_anomalies_unfolded _ _ _ _ H)
    as (added & (_ & _ & Hall) & ->).
  assert (Hcount : Stream.unexpected_count
                     (Some expected) (Stream.origins_seen events) = 0%nat).
  { unfold Stream.unexpected_count.
    rewrite (filter_none (fun a => negb (a =? expected))).
    - cbn. now destruct (_ && _).
    - intros k Hk. apply origins_seen_In in Hk as (e & He & Ha & Ho & _).
      rewrite (Hexp e He Ha) in Ho. injection Ho as <-.
      now rewrite Z.eqb_refl. }
  rewrite Hcount. cbn [repeat]. rewrite app_nil_r.
  rewrite Forall_forall in Hall.
  assert (Hverdict : forall d, In d added ->
            Stream.of_type "leak" d || Stream.of_type "hijack" d = false).
  { intros d Hd. apply not_true_is_false. intros Ht.
    destruct (Hall d Hd) as (H1 & _).
    destruct (H1 Ht) as (e & He & Ha & Hin).
    rewrite (origin_check_expected expected e (Hexp e He Ha)) in Hin.
    destruct Hin. }
  split.
  - intros d Hd. destruct (Hall d Hd) as (_ & _ & H3).
    specialize (Hverdict d Hd). apply orb_false_elim in Hverdict as [E1 E2].
    rewrite E1, E2 in H3.
    destruct (Stream.of_type "more_specific" d);
      destruct (Stream.of_type "path_leak" d); cbn in *; congruence.
  - intros Hshort d Hd. destruct (Hall d Hd) as (_ & H2 & H3).
    specialize (Hverdict d Hd). apply orb_false_elim in Hverdict as [E1 E2].
    rewrite E1, E2 in H3.
    destruct (Stream.of_type "path_leak" d) eqn:Ep.
    + destruct (H2 eq_refl) as (e & He & Ha & _ & Hlen).
      specialize (Hshort e He Ha). lia.
    + destruct (Stream.of_type "more_specific" d); cbn in *; congruence.
Qed.

Lemma run_silent (events : list Event) (expected_origin : option Z)
      (expected_prefix : option string) (baseline : list (list Z)) :
  Py.truthy_opt expected_origin = false ->
  truthy_prefix expected_prefix = false ->
  forall st,
    exists st',
      run int_order path_order expected_origin expected_prefix baseline
          events st = Py.Ok st'
      /\ anomalies st' = anomalies st.
Proof.
  intros Ho Hp. induction events as [|e t IH]; intros st.
  - exists st. now split.
  - cbn [run]. unfold step.
    assert (Hspec : more_specific expected_prefix e = Py.Ok []).
    { unfold more_specific, truthy_prefix in *.
      destruct expected_prefix as [ep|]; [|reflexivity]. now rewrite Hp. }
    assert (Hcheck : origin_check expected_origin e = []).
    { unfold origin_check, Py.truthy_opt in *.
      destruct expected_origin as [ex|]; [|reflexivity].
      destruct (origin_asn e); [|reflexivity]. now rewrite Ho. }
    assert (Hleak : forall seen,
               path_leak int_order path_order expected_origin baseline e seen
               = ([], seen)).
    { intros seen. unfold path_leak, origin_is, Py.truthy_opt in *.
      destruct expected_origin as [ex|]; [|reflexivity].
      destruct (origin_asn e); [|reflexivity]. now rewrite Ho. }
    destruct (is_announcement e); cbn [negb Py.bind].
    + rewrite Hspec, Hcheck, Hleak. cbn [Py.bind app].
      destruct (IH {| anomalies := anomalies st ++ [];
                      seen_origins := track_origin e (seen_origins st);
                      suspicious_ases_seen := suspicious_ases_seen st |})
        as (st' & Hrun & Han).
      exists st'. split; [exact Hrun|]. rewrite Han. cbn. apply app_nil_r.
    + apply IH.
Qed.

(** X16.  Without an expected origin and without an expected prefix
    (absent, 0 or empty) the detection reports nothing, whatever the
    events: conflicting origins alone are never reported. *)
Theorem detect_without_expectations (events : list Event)
        (expected_origin : option Z) (expected_prefix : option string) :
  Py.truthy_opt expected_origin = false ->
  truthy_prefix expected_prefix = false ->
  detect_anomalies int_order path_order utcnow events expected_origin
                   expected_prefix = Py.Ok [].
Proof.
  intros Ho Hp. unfold detect_anomalies.
  destruct (run_silent events expected_origin expected_prefix
                       (baseline_inserted events) Ho Hp initial)
    as (st' & -> & Han).
  cbn [Py.bind]. rewrite Han. cbn [anomalies initial app].
  unfold origin_changes, Py.truthy_opt in *.
  destruct expected_origin as [ex|]; [|reflexivity].
  now rewrite Ho, andb_false_r.
Qed.

End StreamTheorems.

(** The expected origin AS 13335 announces directly, then AS 267613
    appears behind it: one leak, then one origin change. *)
Lemma origin_change_detections_witness :
  exists out before,
    detect_anomalies int_insertion_order path_insertion_order 0
                     [Runs.normal_event; Runs.leaked_event] (Some 13335)
                     (Some "1.1.1.0/24"%string) = Py.Ok out
    /\ out = before
             ++ repeat (Stream.origin_change_of
                          0 (Some "1.1.1.0/24"%string)
                          [Runs.normal_event; Runs.leaked_event]
                          (Py.iter int_insertion_order
                             (Stream.origins_seen
                                [Runs.normal_event; Runs.leaked_event])))
                       (Stream.unexpected_count
                          (Some 13335)
                          (Stream.origins_seen
                             [Runs.normal_event; Runs.leaked_event])).
Proof.
  eexists.
  destruct (origin_change_detections
              int_insertion_order path_insertion_order 0
              [Runs.normal_event; Runs.leaked_event] (Some 13335)
              (Some "1.1.1.0/24"%string) _ eq_refl) as (before & H & _).
  exists before. split; [reflexivity|exact H].
Defined.

(** A /25 inside the monitored /24 is reported once. *)
Lemma more_specific_detections_witness :
  exists out,
    detect_anomalies int_insertion_order path_insertion_order 0
                     [Runs.normal_event;
                      Runs.announce 1719513000 "1.1.1.0/25" [174; 13335]
                                    (Some 13335)]
                     (Some 13335) (Some "1.1.1.0/24"%string) = Py.Ok out
    /\ filter (Stream.of_type "more_specific") out
       = flat_map (Stream.specifics (Some "1.1.1.0/24"%string))
                  (filter is_announcement
                          [Runs.normal_event;
                           Runs.announce 1719513000 "1.1.1.0/25" [174; 13335]
                                         (Some 13335)]).
Proof.
  eexists. split; [reflexivity|].
  exact (proj1 (more_specific_detections
                  int_insertion_order path_insertion_order 0
                  [Runs.normal_event;
                   Runs.announce 1719513000 "1.1.1.0/25" [174; 13335]
                                 (Some 13335)]
                  (Some 13335) (Some "1.1.1.0/24"%string) _ eq_refl)).
Defined.

Lemma expected_origin_stream_quiet_witness :
  exists out,
    detect_anomalies int_insertion_order path_insertion_order 0
                     [Runs.normal_event; Runs.normal_event] (Some 13335)
                     (Some "1.1.1.0/24"%string) = Py.Ok out
    /\ forall d, In d out ->
                 Stream.of_type "more_specific" d
                 || Stream.of_type "path_leak" d = true.
Proof.
  eexists. split; [reflexivity|].
  refine (proj1 (expected_origin_stream_quiet
                   int_insertion_order path_insertion_order 0
                   [Runs.normal_event; Runs.normal_event] 13335
                   (Some "1.1.1.0/24"%string) _ _ eq_refl)).
  intros e [<-|[<-|[]]] _; reflexivity.
Defined.

Lemma detect_without_expectations_witness :
  detect_anomalies int_insertion_order path_insertion_order 0
                   Runs.backtest_events (Some 0) (Some ""%string)
  = Py.Ok [].
Proof.
  apply detect_without_expectations; reflexivity.
Defined.

(** ** Peer-risk score: the range of the total *)

Lemma maturity_bounds (target : Z) (my_asn : option Z)
      (src : PeerRisk.Sources) :
  let r := PeerRisk.maturity target my_asn src in
  0 <= PeerRisk.score (fst (fst r)) <= 20
  /\ PeerRisk.max (fst (fst r)) = 20
  /\ (5 <= PeerRisk.score (fst (fst r)) \/ PeerRisk.policy (snd r) = None)
  /\ (Py.is_ok (PeerRisk.network src) = false ->
      PeerRisk.score (fst (fst r)) = 0
      /\ PeerRisk.policy (snd r) = None
      /\ PeerRisk.irr_as_set (snd r) = None).
Proof.
  intros r. subst r. unfold PeerRisk.maturity.
  destruct (PeerRisk.network src) as [net|e].
  - assert (Htier : forall n, 0 <= fst (fst (PeerRisk.ix_tier n)) <= 7).
    { intros n. unfold PeerRisk.ix_tier.
      destruct (10 <=? n); [cbn; lia|].
      destruct (5 <=? n); [cbn; lia|].
      destruct (1 <=? n); cbn; lia. }
    destruct (Py.truthy_str (PeeringDB.irr_as_set net));
      destruct (Py.truthy_str (PeeringDB.policy_url net));
      (destruct (PeerRisk.ixlans src) as [conns|e];
       [specialize (Htier (Py.len (PeerRisk.distinct
                                     (map PeeringDB.ix_id conns))));
        destruct (PeerRisk.ix_tier
                    (Py.len (PeerRisk.distinct (map PeeringDB.ix_id conns))))
          as [[s2 f2] w2];
        cbn [fst snd] in Htier;
        destruct (Py.truthy_opt my_asn);
        [destruct (PeerRisk.my_ixlans src) as [mine|e];
         [|destruct e]|]
       |destruct e]);
      cbn [fst snd PeerRisk.score PeerRisk.max PeerRisk.policy
           PeerRisk.irr_as_set Py.is_ok];
      (split; [lia|]); (split; [reflexivity|]);
      (split; [left; lia|discriminate]).
  - destruct e; cbn [fst snd PeerRisk.score PeerRisk.max PeerRisk.policy
                     PeerRisk.irr_as_set Py.is_ok];
      (split; [lia|]); (split; [reflexivity|]);
      (split; [now right|]); intros _; now repeat split.
Qed.

Lemma stability_bounds (days : Z) (src : PeerRisk.Sources) :
  5 <= PeerRisk.score (fst (PeerRisk.stability days src)) <= 30
  /\ PeerRisk.max (fst (PeerRisk.stability days src)) = 30.
Proof.
  unfold PeerRisk.stability.
  destruct (PeerRisk.update_count src) as [n|e]; [|cbn; lia].
  assert (Hd : 1 <= Z.max days 1) by lia.
  set (d := Z.max days 1) in *.
  destruct (100 * d <? n) eqn:E1;
    [|destruct (50 * d <? n) eqn:E2; [|destruct (10 * d <? n) eqn:E3]];
    try apply Z.ltb_lt in E1; try apply Z.ltb_lt in E2;
    try apply Z.ltb_lt in E3;
    destruct (PeerRisk.stability_prefixes src);
    cbn [fst PeerRisk.score PeerRisk.max];
    try (split; [lia|reflexivity]);
    match goal with
    | |- context [Z.quot n ?k] =>
        assert (0 <= Z.quot n k) by (apply Z.quot_pos; lia)
    end; (split; [lia|reflexivity]).
Qed.

Lemma incident_bounds (src : PeerRisk.Sources) :
  let r := PeerRisk.incident_history src in
  25 <= PeerRisk.score (fst (fst r)) <= 30
  /\ PeerRisk.max (fst (fst r)) = 30.
Proof.
  intros r. subst r. unfold PeerRisk.incident_history.
  destruct (PeerRisk.as_overview src) as [o|e];
    [destruct (PeerRisk.as_neighbours src) as [nb|e];
     [destruct (Py.len (RIPEstat.upstreams nb) =? 1);
      [|destruct (3 <=? Py.len (RIPEstat.upstreams nb))]|]|];
    destruct (PeerRisk.rpki_prefixes src) as [n|e'];
    try destruct (0 <? n);
    cbn [fst snd PeerRisk.score PeerRisk.max]; (split; [lia|reflexivity]).
Qed.

Lemma policy_bounds (info : PeerRisk.NetworkInfo) :
  0 <= PeerRisk.score (fst (PeerRisk.policy_category info)) <= 10
  /\ PeerRisk.max (fst (PeerRisk.policy_category info)) = 10
  /\ (PeerRisk.policy info = None ->
      PeerRisk.score (fst (PeerRisk.policy_category info)) = 5).
Proof.
  unfold PeerRisk.policy_category, PeerRisk.policy_of.
  destruct (PeerRisk.policy info) as [p|].
  - destruct (Py.truthy_str p);
      [|cbn [fst PeerRisk.score PeerRisk.max];
        split; [lia|]; split; [reflexivity|discriminate]].
    remember (Py.lower p) as pl.
    destruct (String.eqb pl "open");
      [|destruct (String.eqb pl "selective");
        [|destruct (String.eqb pl "restrictive")]];
      cbn [fst PeerRisk.score PeerRisk.max];
      (split; [lia|]); (split; [reflexivity|discriminate]).
  - cbn [fst PeerRisk.score PeerRisk.max Py.truthy_str Py.lower
         Py.lower_char String.eqb Ascii.eqb].
    vm_compute. split; [split; discriminate|]. split; reflexivity.
Qed.

Lemma security_bounds (info : PeerRisk.NetworkInfo) (topo : option Z) :
  5 <= PeerRisk.score (PeerRisk.security info topo) <= 10
  /\ PeerRisk.max (PeerRisk.security info topo) = 10
  /\ (PeerRisk.irr_as_set info = None ->
      PeerRisk.score (PeerRisk.security info topo) <= 7).
Proof.
  unfold PeerRisk.security.
  destruct (PeerRisk.irr_as_set info) as [s|]; [destruct (Py.truthy_str s)|];
    (destruct topo as [n|]; [destruct (2 <=? n)|]);
    cbn [PeerRisk.score PeerRisk.max];
    (split; [lia|]); (split; [reflexivity|]); intros H;
    try discriminate H; lia.
Qed.

(** The five categories of an assessment, with their ranges. *)
Lemma run_peer_risk_categories (target : Z) (my_asn : option Z) (days : Z)
      (src : PeerRisk.Sources) :
  let a := PeerRisk.run_peer_risk target my_asn days src in
  exists m s i p sec,
    PeerRisk.scores a
    = [("maturity", m); ("stability", s); ("incident_history", i);
       ("policy", p); ("security", sec)]%string
    /\ 0 <= PeerRisk.score m <= 20 /\ PeerRisk.max m = 20
    /\ 5 <= PeerRisk.score s <= 30 /\ PeerRisk.max s = 30
    /\ 25 <= PeerRisk.score i <= 30 /\ PeerRisk.max i = 30
    /\ 0 <= PeerRisk.score p <= 10 /\ PeerRisk.max p = 10
    /\ 5 <= PeerRisk.score sec <= 10 /\ PeerRisk.max sec = 10
    /\ (5 <= PeerRisk.score m \/ PeerRisk.score p = 5)
    /\ (Py.is_ok (PeerRisk.network src) = false ->
        PeerRisk.score m = 0 /\ PeerRisk.score p = 5
        /\ PeerRisk.score sec <= 7).
Proof.
  intros a. subst a. unfold PeerRisk.run_peer_risk.
  pose proof (maturity_bounds target my_asn src) as Hm.
  pose proof (stability_bounds days src) as Hs.
  pose proof (incident_bounds src) as Hi.
  destruct (PeerRisk.maturity target my_asn src) as [[m w1] info].
  destruct (PeerRisk.stability days src) as [s w2].
  destruct (PeerRisk.incident_history src) as [[i w3] topo].
  cbn [fst snd] in Hm, Hs, Hi.
  destruct Hm as (Hm1 & Hm2 & Hm3 & Hm4).
  set (info' := match PeerRisk.as_overview src with
                | Py.Ok overview =>
                    match RIPEstat.holder overview with
                    | Some h =>
                        if Py.truthy_str h
                        then {| PeerRisk.net_name := PeerRisk.NameText h;
                                PeerRisk.policy := PeerRisk.policy info;
                                PeerRisk.irr_as_set :=
                                  PeerRisk.irr_as_set info |}
                        else info
                    | None => info
                    end
                | Py.Raise _ => info
                end).
  assert (Hinfo : PeerRisk.policy info' = PeerRisk.policy info
                  /\ PeerRisk.irr_as_set info' = PeerRisk.irr_as_set info).
  { subst info'. destruct (PeerRisk.as_overview src) as [o|e];
      [destruct (RIPEstat.holder o) as [h|];
       [destruct (Py.truthy_str h)|]|]; now split. }
  destruct Hinfo as (Hpol & Hirr).
  pose proof (policy_bounds info') as (Hp1 & Hp2 & Hp3).
  pose proof (security_bounds info' topo) as (Hc1 & Hc2 & Hc3).
  rewrite Hpol in Hp3. rewrite Hirr in Hc3.
  destruct (PeerRisk.policy_category info') as [p w4].
  cbn [fst] in Hp1, Hp2, Hp3. cbn [PeerRisk.scores].
  exists m, s, i, p, (PeerRisk.security info' topo).
  split; [reflexivity|].
  repeat match goal with |- _ /\ _ => split end;
    try (apply Hs); try (apply Hi); try lia; try assumption.
  - destruct Hm3 as [H|H]; [now left|right; now apply Hp3].
  - intros H. destruct (Hm4 H) as (E1 & E2 & E3).
    split; [exact E1|]. split; [now apply Hp3|now apply Hc3].
Qed.

(** X17.  Every peer-risk assessment totals between 40 and 100 out of
    100, each category within its own range; so the level is never HIGH
    and the recommendation never NOT RECOMMENDED, whatever the
    providers answer. *)
Theorem peer_risk_never_high (target : Z) (my_asn : option Z) (days : Z)
        (src : PeerRisk.Sources) :
  let a := PeerRisk.run_peer_risk target my_asn days src in
  40 <= PeerRisk.total_score a <= 100
  /\ PeerRisk.max_score a = 100
  /\ (forall key c, PeerRisk.category key a = Some c ->
                    0 <= PeerRisk.score c <= PeerRisk.max c)
  /\ PeerRisk.risk_level a <> "HIGH"%string
  /\ PeerRisk.recommendation a <> "NOT RECOMMENDED"%string.
Proof.
  intros a.
  destruct (run_peer_risk_categories target my_asn days src)
    as (m & s & i & p & sec & Hsc & Hm & Hmm & Hs & Hsm & Hi & Him & Hp
        & Hpm & Hc & Hcm & Hlink & _).
  fold a in Hsc.
  destruct (run_peer_risk_verdict target my_asn days src) as (Hv & Ht).
  fold a in Hv, Ht.
  assert (Htotal : 40 <= PeerRisk.total_score a <= 100).
  { rewrite Ht, Hsc. cbn. lia. }
  assert (Hmax : PeerRisk.max_score a = 100).
  { subst a. unfold PeerRisk.run_peer_risk in *.
    destruct (PeerRisk.maturity target my_asn src) as [[m0 w1] info].
    destruct (PeerRisk.stability days src) as [s0 w2].
    destruct (PeerRisk.incident_history src) as [[i0 w3] topo].
    match goal with
    | |- context [PeerRisk.policy_category ?x] =>
        destruct (PeerRisk.policy_category x) as [p0 w4]
    end.
    cbn [PeerRisk.scores PeerRisk.max_score] in *.
    injection Hsc as -> -> -> -> ->. cbn. lia. }
  split; [exact Htotal|]. split; [exact Hmax|]. split.
  - intros key c. unfold PeerRisk.category. rewrite Hsc. cbn [find fst].
    repeat match goal with
           | |- context [String.eqb ?x key] =>
               destruct (String.eqb x key);
               [cbn; intros H; injection H as <-; lia|]
           end.
    discriminate.
  - unfold PeerRisk.risk_level_of in Hv.
    destruct (Z.leb_spec 80 (PeerRisk.total_score a));
      [injection Hv as -> ->; split; discriminate|].
    destruct (Z.leb_spec 60 (PeerRisk.total_score a));
      [injection Hv as -> ->; split; discriminate|].
    destruct (Z.leb_spec 40 (PeerRisk.total_score a));
      [injection Hv as -> ->; split; discriminate|lia].
Qed.

(** X18.  A target whose PeeringDB network lookup fails scores nothing
    for maturity, 5 for policy and at most 7 for security: its total is
    between 40 and 72, so it is rated MODERATE or ELEVATED and never
    LOW. *)
Theorem peer_risk_unregistered (target : Z) (my_asn : option Z) (days : Z)
        (src : PeerRisk.Sources) :
  Py.is_ok (PeerRisk.network src) = false ->
  let a := PeerRisk.run_peer_risk target my_asn days src in
  PeerRisk.category "maturity" a
  = Some {| PeerRisk.score := 0; PeerRisk.max := 20;
            PeerRisk.factors := [] |}
  /\ 40 <= PeerRisk.total_score a <= 72
  /\ ((PeerRisk.risk_level a, PeerRisk.recommendation a)
      = ("MODERATE", "ACCEPTABLE")%string
      \/ (PeerRisk.risk_level a, PeerRisk.recommendation a)
         = ("ELEVATED", "CAUTION")%string).
Proof.
  intros Hnet a.
  destruct (run_peer_risk_categories target my_asn days src)
    as (m & s & i & p & sec & Hsc & Hm & Hmm & Hs & Hsm & Hi & Him & Hp
        & Hpm & Hc & Hcm & _ & Hun).
  fold a in Hsc. destruct (Hun Hnet) as (E1 & E2 & E3).
  destruct (run_peer_risk_verdict target my_asn days src) as (Hv & Ht).
  fold a in Hv, Ht.
  assert (Htotal : 40 <= PeerRisk.total_score a <= 72).
  { rewrite Ht, Hsc. cbn. lia. }
  split.
  - subst a. unfold PeerRisk.category, PeerRisk.run_peer_risk,
      PeerRisk.maturity.
    destruct (PeerRisk.network src) as [net|e]; [discriminate|].
    destruct (PeerRisk.stability days src) as [s0 w2].
    destruct (PeerRisk.incident_history src) as [[i0 w3] topo].
    destruct e;
      match goal with
      | |- context [PeerRisk.policy_category ?x] =>
          destruct (PeerRisk.policy_category x) as [p0 w4]
      end; reflexivity.
  - split; [exact Htotal|].
    destruct (risk_level_of_tiers (PeerRisk.total_score a))
      as (_ & H60 & H40 & _).
    rewrite Hv.
    destruct (Z.le_gt_cases 60 (PeerRisk.total_score a));
      [left; apply H60; lia|right; apply H40; lia].
Qed.

Lemma peer_risk_unregistered_witness :
  40 <= PeerRisk.total_score
          (PeerRisk.run_peer_risk 64500 None 30 Runs.peer_unregistered)
     <= 72.
Proof.
  exact (proj1 (proj2 (peer_risk_unregistered
                         64500 None 30 Runs.peer_unregistered eq_refl))).
Defined.

(** X19.  The stability score does not fall as the churn grows: a target
    with more than 100 and fewer than 120 updates a day scores 25, more
    than any target with 60 to 100 updates a day, which scores between
    20 and 24. *)
Theorem stability_not_monotone (days n n' : Z) (src src' : PeerRisk.Sources) :
  PeerRisk.update_count src = Py.Ok n ->
  PeerRisk.update_count src' = Py.Ok n' ->
  60 * Z.max days 1 <= n <= 100 * Z.max days 1 ->
  100 * Z.max days 1 < n' < 120 * Z.max days 1 ->
  20 <= PeerRisk.score (fst (PeerRisk.stability days src)) <= 24
  /\ PeerRisk.score (fst (PeerRisk.stability days src')) = 25.
Proof.
  intros Hn Hn' Hr Hr'. unfold PeerRisk.stability. rewrite Hn, Hn'.
  assert (Hd : 1 <= Z.max days 1) by lia.
  set (d := Z.max days 1) in *.
  assert (E1 : (100 * d <? n) = false) by (apply Z.ltb_ge; lia).
  assert (E2 : (50 * d <? n) = true) by (apply Z.ltb_lt; lia).
  assert (E1' : (100 * d <? n') = true) by (apply Z.ltb_lt; lia).
  rewrite E1, E2, E1'.
  assert (Hq : 6 <= Z.quot n (10 * d) <= 10).
  { rewrite Z.quot_div_nonneg by lia. split.
    - apply Z.div_le_lower_bound; lia.
    - apply Z.div_le_upper_bound; lia. }
  assert (Hq' : Z.quot n' (20 * d) = 5).
  { rewrite Z.quot_div_nonneg by lia.
    symmetry. apply Z.div_unique with (r := n' - 5 * (20 * d)); lia. }
  rewrite Hq'.
  destruct (PeerRisk.stability_prefixes src);
    destruct (PeerRisk.stability_prefixes src');
    cbn [fst PeerRisk.score]; lia.
Qed.

Lemma stability_not_monotone_witness :
  20 <= PeerRisk.score
          (fst (PeerRisk.stability
                  30 {| PeerRisk.network := Py.Raise Py.PeeringDBNotFoundError;
                        PeerRisk.ixlans := Py.Ok [];
                        PeerRisk.my_ixlans := Py.Ok [];
                        PeerRisk.update_count := Py.Ok 3000;
                        PeerRisk.stability_prefixes := Py.Ok 4;
                        PeerRisk.as_overview := Py.Ok Runs.an_overview;
                        PeerRisk.as_neighbours :=
                          Py.Ok (Runs.neighbours_with [174]);
                        PeerRisk.rpki_prefixes := Py.Ok 4 |})) <= 24
  /\ PeerRisk.score
       (fst (PeerRisk.stability
               30 {| PeerRisk.network := Py.Raise Py.PeeringDBNotFoundError;
                     PeerRisk.ixlans := Py.Ok [];
                     PeerRisk.my_ixlans := Py.Ok [];
                     PeerRisk.update_count := Py.Ok 3001;
                     PeerRisk.stability_prefixes := Py.Ok 4;
                     PeerRisk.as_overview := Py.Ok Runs.an_overview;
                     PeerRisk.as_neighbours :=
                       Py.Ok (Runs.neighbours_with [174]);
                     PeerRisk.rpki_prefixes := Py.Ok 4 |})) = 25.
Proof.
  apply (stability_not_monotone 30 3000 3001); try reflexivity; cbn; lia.
Defined.

(** ** Resource names *)

Lemma upper_char_space (c : ascii) :
  Py.is_space (Py.upper_char c) = Py.is_space c.
Proof. destruct c as [[] [] [] [] [] [] [] []]; reflexivity. Qed.

Lemma upper_char_idem (c : ascii) :
  Py.upper_char (Py.upper_char c) = Py.upper_char c.
Proof. destruct c as [[] [] [] [] [] [] [] []]; reflexivity. Qed.

Lemma upper_char_digit (c : ascii) :
  Py.is_digit c = true -> Py.upper_char c = c.
Proof. destruct c as [[] [] [] [] [] [] [] []]; (reflexivity || discriminate). Qed.

Lemma digit_not_space (c : ascii) :
  Py.is_digit c = true -> Py.is_space c = false.
Proof. destruct c as [[] [] [] [] [] [] [] []]; (reflexivity || discriminate). Qed.

Lemma upper_chars (s : string) :
  list_ascii_of_string (Py.upper s)
  = map Py.upper_char (list_ascii_of_string s).
Proof. induction s as [|c t IH]; cbn; [reflexivity|now rewrite IH]. Qed.

Lemma upper_of_chars (l : list ascii) :
  Py.upper (string_of_list_ascii l)
  = string_of_list_ascii (map Py.upper_char l).
Proof. induction l as [|c t IH]; cbn; [reflexivity|now rewrite IH]. Qed.

Lemma upper_idem (s : string) : Py.upper (Py.upper s) = Py.upper s.
Proof.
  induction s as [|c t IH]; cbn; [reflexivity|].
  now rewrite upper_char_idem, IH.
Qed.

Lemma lstrip_map_upper (l : list ascii) :
  Py.lstrip (map Py.upper_char l) = map Py.upper_char (Py.lstrip l).
Proof.
  induction l as [|c t IH]; [reflexivity|].
  cbn [map Py.lstrip]. rewrite upper_char_space.
  destruct (Py.is_space c); [exact IH|reflexivity].
Qed.

Lemma strip_map_upper (l : list ascii) :
  Py.strip (map Py.upper_char l) = map Py.upper_char (Py.strip l).
Proof.
  unfold Py.strip.
  now rewrite lstrip_map_upper, <- map_rev, lstrip_map_upper, map_rev.
Qed.

Lemma lstrip_fixed (l : list ascii) :
  match l with [] => True | c :: _ => Py.is_space c = false end ->
  Py.lstrip l = l.
Proof. destruct l as [|c t]; [reflexivity|]. cbn. now intros ->. Qed.

Lemma lstrip_head (l : list ascii) :
  match Py.lstrip l with [] => True | c :: _ => Py.is_space c = false end.
Proof.
  induction l as [|c t IH]; [exact I|].
  cbn. destruct (Py.is_space c) eqn:E; [exact IH|exact E].
Qed.

Lemma lstrip_idem (l : list ascii) : Py.lstrip (Py.lstrip l) = Py.lstrip l.
Proof. apply lstrip_fixed, lstrip_head. Qed.

(** What [lstrip] leaves at the end of a list whose end is not blank. *)
Lemma lstrip_keeps_last (l : list ascii) (c : ascii) :
  Py.is_space c = false ->
  exists l', Py.lstrip (l ++ [c]) = l' ++ [c].
Proof.
  intros Hc. induction l as [|a t IH].
  - exists []. cbn. now rewrite Hc.
  - cbn. destruct (Py.is_space a); [exact IH|].
    now exists (a :: t).
Qed.

Lemma strip_head (l : list ascii) :
  match Py.strip l with [] => True | c :: _ => Py.is_space c = false end.
Proof.
  unfold Py.strip. pose proof (lstrip_head l) as H.
  destruct (Py.lstrip l) as [|c t]; [exact I|].
  cbn [rev].
  destruct (lstrip_keeps_last (rev t) c H) as (l' & ->).
  rewrite rev_app_distr. exact H.
Qed.

Lemma strip_last (l : list ascii) :
  match rev (Py.strip l) with
  | [] => True
  | c :: _ => Py.is_space c = false
  end.
Proof.
  unfold Py.strip. rewrite rev_involutive. apply lstrip_head.
Qed.

Lemma strip_fixed (l : list ascii) :
  match l with [] => True | c :: _ => Py.is_space c = false end ->
  match rev l with [] => True | c :: _ => Py.is_space c = false end ->
  Py.strip l = l.
Proof.
  intros H1 H2. unfold Py.strip.
  rewrite (lstrip_fixed l H1), (lstrip_fixed (rev l) H2).
  apply rev_involutive.
Qed.

Lemma strip_idem (l : list ascii) : Py.strip (Py.strip l) = Py.strip l.
Proof. apply strip_fixed; [apply strip_head|apply strip_last]. Qed.

(** [upper(strip(s))], the common first step. *)
Lemma upper_strip_chars (s : string) :
  list_ascii_of_string (Py.upper (Normalize.str_strip s))
  = map Py.upper_char (Py.strip (list_ascii_of_string s)).
Proof.
  unfold Normalize.str_strip.
  now rewrite upper_chars, list_ascii_of_string_of_list_ascii.
Qed.

Lemma upper_strip_idem (s : string) :
  Py.upper (Normalize.str_strip (Py.upper (Normalize.str_strip s)))
  = Py.upper (Normalize.str_strip s).
Proof.
  rewrite <- (string_of_list_ascii_of_string
                (Py.upper (Normalize.str_strip
                             (Py.upper (Normalize.str_strip s))))).
  rewrite <- (string_of_list_ascii_of_string
                (Py.upper (Normalize.str_strip s))) at 2.
  f_equal. rewrite !upper_strip_chars, strip_map_upper, strip_idem.
  rewrite map_map.
  apply map_ext. intros c. apply upper_char_idem.
Qed.

Lemma isdigit_chars (s : string) :
  Py.isdigit s = true
  <-> s <> EmptyString
      /\ forall c, In c (list_ascii_of_string s) -> Py.is_digit c = true.
Proof.
  unfold Py.isdigit. rewrite andb_true_iff, forallb_forall.
  destruct s; cbn [Py.truthy_str]; split; intros [H1 H2];
    (split; [congruence|exact H2]).
Qed.

(** The normal form of a resource made of digits: nothing to strip and
    nothing to raise. *)
Lemma upper_strip_AS_digits (s : string) :
  Py.isdigit s = true ->
  Py.upper (Normalize.str_strip ("AS" ++ s)) = ("AS" ++ s)%string
  /\ Py.isdigit ("AS" ++ s) = false.
Proof.
  intros H. apply isdigit_chars in H as (Hne & Hall). split; [|reflexivity].
  rewrite <- (string_of_list_ascii_of_string
                (Py.upper (Normalize.str_strip ("AS" ++ s)))).
  rewrite upper_strip_chars. cbn [append list_ascii_of_string].
  rewrite <- (string_of_list_ascii_of_string s) at 2.
  change (String "A" (String "S"
            (string_of_list_ascii (list_ascii_of_string s))))
    with (string_of_list_ascii ("A" :: "S" :: list_ascii_of_string s)%char).
  f_equal.
  set (l := list_ascii_of_string s) in *.
  assert (Hstrip : Py.strip ("A" :: "S" :: l)%char = ("A" :: "S" :: l)%char).
  { apply strip_fixed; [reflexivity|].
    destruct l as [|c t] using rev_ind.
    - reflexivity.
    - change ("A" :: "S" :: t ++ [c])%char
        with (("A" :: "S" :: t) ++ [c])%char.
      rewrite rev_app_distr. cbn [rev app].
      apply digit_not_space, Hall, in_or_app. right. now left. }
  rewrite Hstrip. cbn [map]. f_equal. f_equal.
  rewrite <- (map_id l) at 2. apply map_ext_in.
  intros c Hc. now apply upper_char_digit, Hall.
Qed.

(** X20.  [_normalize_resource] is idempotent: a normalised resource is
    left as it is.  Its result is never made of digits only, and a
    resource made of digits, possibly with blanks around, is given the
    prefix "AS". *)
Theorem normalize_resource_idempotent (resource : string) :
  Normalize._normalize_resource (Normalize._normalize_resource resource)
  = Normalize._normalize_resource resource
  /\ Py.isdigit (Normalize._normalize_resource resource) = false
  /\ (Py.isdigit (Normalize.str_strip resource) = true ->
      Normalize._normalize_resource resource
      = ("AS" ++ Normalize.str_strip resource)%string).
Proof.
  unfold Normalize._normalize_resource.
  destruct (Py.isdigit (Py.upper (Normalize.str_strip resource))) eqn:E.
  - destruct (upper_strip_AS_digits _ E) as (H1 & H2).
    rewrite H1, H2. split; [reflexivity|]. split; [reflexivity|].
    intros Hd. f_equal.
    apply isdigit_chars in Hd as (_ & Hall).
    rewrite <- (string_of_list_ascii_of_string
                  (Py.upper (Normalize.str_strip resource))).
    rewrite <- (string_of_list_ascii_of_string
                  (Normalize.str_strip resource)) at 2.
    f_equal. rewrite upper_chars.
    rewrite <- (map_id (list_ascii_of_string (Normalize.str_strip resource)))
      at 2.
    apply map_ext_in. intros c Hc. now apply upper_char_digit, Hall.
  - rewrite upper_strip_idem, E. split; [reflexivity|].
    split; [reflexivity|].
    intros Hd. exfalso.
    assert (Hup : Py.upper (Normalize.str_strip resource)
                  = Normalize.str_strip resource).
    { apply isdigit_chars in Hd as (_ & Hall).
      rewrite <- (string_of_list_ascii_of_string
                    (Py.upper (Normalize.str_strip resource))).
      rewrite <- (string_of_list_ascii_of_string
                    (Normalize.str_strip resource)) at 2.
      f_equal. rewrite upper_chars.
      rewrite <- (map_id (list_ascii_of_string
                            (Normalize.str_strip resource))) at 2.
      apply map_ext_in. intros c Hc. now apply upper_char_digit, Hall. }
    rewrite Hup in E. congruence.
Qed.

(** X21.  Normalising a resource first does not change what
    [normalize_asn] makes of it: the AS number, or the [ValueError], is
    the same for every input. *)
Theorem normalize_asn_of_normalized (resource : string) :
  Normalize.normalize_asn (Normalize._normalize_resource resource)
  = Normalize.normalize_asn resource.
Proof.
  unfold Normalize.normalize_asn, Normalize._normalize_resource.
  destruct (Py.isdigit (Py.upper (Normalize.str_strip resource))) eqn:E.
  - destruct (upper_strip_AS_digits _ E) as (H1 & _). rewrite H1.
    reflexivity.
  - now rewrite upper_strip_idem.
Qed.

(** *** Decimal numerals *)

Lemma digit_char_facts (c : ascii) :
  Py.is_digit c = true ->
  Ascii.eqb c "-" = false /\ Ascii.eqb c "+" = false
  /\ Ascii.eqb c "A" = false.
Proof.
  destruct c as [[] [] [] [] [] [] [] []]; intros H;
    try discriminate H; now repeat split.
Qed.

Lemma decimal_chars_digits (u : Decimal.uint) (c : ascii) :
  In c (list_ascii_of_string (DecimalString.NilEmpty.string_of_uint u)) ->
  Py.is_digit c = true.
Proof.
  induction u; cbn; try (intros [<-|H]; [reflexivity|now apply IHu]).
  intros [].
Qed.

Lemma digits_from_acc (u : Decimal.uint) :
  forall p : positive,
    Py.digits_from (Z.pos p) false
      (list_ascii_of_string (DecimalString.NilEmpty.string_of_uint u))
    = Some (Z.pos (Pos.of_uint_acc u p)).
Proof.
  induction u; intros p; [reflexivity|..];
    cbn [DecimalString.NilEmpty.string_of_uint list_ascii_of_string
         Py.digits_from Pos.of_uint_acc];
    match goal with
    | |- context [Py.is_digit ?c] =>
        change (Py.is_digit c) with true; cbv iota;
        let v := eval vm_compute in (Py.digit_val c) in
        change (Py.digit_val c) with v
    end;
    rewrite <- IHu; f_equal; lia.
Qed.

Lemma digits_from_zero (u : Decimal.uint) :
  Py.digits_from 0 false
    (list_ascii_of_string (DecimalString.NilEmpty.string_of_uint u))
  = Some (Z.of_N (N.of_uint u)).
Proof.
  induction u; [reflexivity|exact IHu|..];
    cbn [DecimalString.NilEmpty.string_of_uint list_ascii_of_string
         Py.digits_from];
    match goal with
    | |- context [Py.is_digit ?c] =>
        change (Py.is_digit c) with true; cbv iota
    end;
    match goal with
    | |- Py.digits_from ?a false _ = _ =>
        let v := eval vm_compute in a in change a with v
    end;
    rewrite digits_from_acc; reflexivity.
Qed.

Lemma digits_decimal (u : Decimal.uint) :
  u <> Decimal.Nil ->
  Py.digits
    (list_ascii_of_string (DecimalString.NilEmpty.string_of_uint u))
  = Some (Z.of_N (N.of_uint u)).
Proof.
  intros Hu. destruct u; [congruence|..];
    cbn [DecimalString.NilEmpty.string_of_uint list_ascii_of_string
         Py.digits];
    match goal with
    | |- context [Py.is_digit ?c] =>
        change (Py.is_digit c) with true; cbv iota
    end;
    match goal with
    | |- Py.digits_from ?a false _ = _ =>
        let v := eval vm_compute in a in change a with v
    end;
    first [apply (digits_from_zero u)
          |rewrite digits_from_acc; reflexivity].
Qed.

Lemma to_uint_nonnil (n : N) : N.to_uint n <> Decimal.Nil.
Proof.
  destruct n as [|p]; [discriminate|].
  apply DecimalPos.Unsigned.to_uint_nonnil.
Qed.

Lemma decimal_chars (n : N) :
  Normalize.decimal n
  = DecimalString.NilEmpty.string_of_uint (N.to_uint n).
Proof.
  unfold Normalize.decimal. pose proof (to_uint_nonnil n).
  now destruct (N.to_uint n).
Qed.

Lemma decimal_isdigit (n : N) : Py.isdigit (Normalize.decimal n) = true.
Proof.
  apply isdigit_chars. rewrite decimal_chars. split.
  - pose proof (to_uint_nonnil n). destruct (N.to_uint n); cbn; congruence.
  - intros c. apply decimal_chars_digits.
Qed.

Lemma strip_digits (l : list ascii) :
  (forall c, In c l -> Py.is_digit c = true) -> Py.strip l = l.
Proof.
  intros H. apply strip_fixed.
  - destruct l as [|c t]; [exact I|]. apply digit_not_space, H. now left.
  - destruct (rev l) as [|c t] eqn:E; [exact I|].
    apply digit_not_space, H, in_rev. rewrite E. now left.
Qed.

Lemma int_digits (s : string) :
  Py.isdigit s = true ->
  Py.int s
  = match Py.digits (list_ascii_of_string s) with
    | Some z => Py.Ok z
    | None => Py.Raise Py.ValueError
    end.
Proof.
  intros H. apply isdigit_chars in H as (Hne & Hall).
  unfold Py.int, Py.int_of_chars. rewrite (strip_digits _ Hall).
  destruct (list_ascii_of_string s) as [|c t] eqn:E; [reflexivity|].
  destruct (digit_char_facts c (Hall c (or_introl eq_refl))) as (-> & -> & _).
  reflexivity.
Qed.

Lemma remove_AS_digits (l : list ascii) :
  (forall c, In c l -> Py.is_digit c = true) -> Normalize.remove_AS l = l.
Proof.
  induction l as [|c t IH]; intros H; [reflexivity|].
  cbn [Normalize.remove_AS]. destruct t as [|d t']; [reflexivity|].
  destruct (digit_char_facts c (H c (or_introl eq_refl))) as (_ & _ & ->).
  cbn [andb]. f_equal. apply IH. intros x Hx. apply H. now right.
Qed.

Lemma upper_strip_prefixed (a s : ascii) (ds : string) :
  Py.upper_char a = "A"%char -> Py.upper_char s = "S"%char ->
  Py.is_space a = false ->
  Py.isdigit ds = true ->
  Py.upper (Normalize.str_strip (String a (String s ds)))
  = ("AS" ++ ds)%string.
Proof.
  intros Ha Hs Hsp H. apply isdigit_chars in H as (Hne & Hall).
  rewrite <- (string_of_list_ascii_of_string
                (Py.upper (Normalize.str_strip (String a (String s ds))))).
  rewrite upper_strip_chars. cbn [append list_ascii_of_string].
  rewrite <- (string_of_list_ascii_of_string ds) at 2.
  change (String "A" (String "S"
            (string_of_list_ascii (list_ascii_of_string ds))))
    with (string_of_list_ascii ("A" :: "S" :: list_ascii_of_string ds)%char).
  f_equal.
  set (l := list_ascii_of_string ds) in *.
  assert (Hl : l <> []).
  { subst l. destruct ds; [congruence|discriminate]. }
  assert (Hstrip : Py.strip (a :: s :: l) = a :: s :: l).
  { apply strip_fixed; [exact Hsp|].
    destruct l as [|c t] using rev_ind; [congruence|].
    change (a :: s :: t ++ [c]) with ((a :: s :: t) ++ [c]).
    rewrite rev_app_distr. cbn [rev app].
    apply digit_not_space, Hall, in_or_app. right. now left. }
  rewrite Hstrip. cbn [map]. rewrite Ha, Hs. f_equal. f_equal.
  rewrite <- (map_id l) at 2. apply map_ext_in.
  intros c Hc. now apply upper_char_digit, Hall.
Qed.

Lemma upper_strip_digits (s : string) :
  Py.isdigit s = true -> Py.upper (Normalize.str_strip s) = s.
Proof.
  intros H. apply isdigit_chars in H as (Hne & Hall).
  rewrite <- (string_of_list_ascii_of_string
                (Py.upper (Normalize.str_strip s))).
  rewrite <- (string_of_list_ascii_of_string s) at 2.
  f_equal. rewrite upper_strip_chars, (strip_digits _ Hall).
  rewrite <- (map_id (list_ascii_of_string s)) at 2. apply map_ext_in.
  intros c Hc. now apply upper_char_digit, Hall.
Qed.

(** X22.  Round trip: [normalize_asn] reads back every AS number from its
    decimal form, bare or with the prefix "AS" in either case, and
    [_normalize_resource] gives the bare form the prefix "AS". *)
Theorem normalize_asn_decimal (n : N) :
  let s := Normalize.decimal n in
  Normalize.normalize_asn s = Py.Ok (Z.of_N n)
  /\ Normalize.normalize_asn ("AS" ++ s) = Py.Ok (Z.of_N n)
  /\ Normalize.normalize_asn ("as" ++ s) = Py.Ok (Z.of_N n)
  /\ Normalize._normalize_resource s = ("AS" ++ s)%string.
Proof.
  intros s. pose proof (decimal_isdigit n) as Hd. fold s in Hd.
  assert (Hbare : Normalize.normalize_asn s = Py.Ok (Z.of_N n)).
  { unfold Normalize.normalize_asn. rewrite (upper_strip_digits s Hd).
    assert (Hrep : Normalize.replace_AS s = s).
    { unfold Normalize.replace_AS. rewrite remove_AS_digits.
      - apply string_of_list_ascii_of_string.
      - now apply isdigit_chars in Hd as (_ & Hall). }
    rewrite Hrep, (int_digits s Hd). subst s. rewrite decimal_chars.
    rewrite (digits_decimal _ (to_uint_nonnil n)).
    now rewrite DecimalN.Unsigned.of_to. }
  assert (Hpre : forall a c,
             Py.upper_char a = "A"%char -> Py.upper_char c = "S"%char ->
             Py.is_space a = false ->
             Normalize.normalize_asn (String a (String c s))
             = Py.Ok (Z.of_N n)).
  { intros a c Ha Hc Hsp. rewrite <- Hbare.
    unfold Normalize.normalize_asn.
    rewrite (upper_strip_prefixed a c s Ha Hc Hsp Hd),
      (upper_strip_digits s Hd).
    reflexivity. }
  split; [exact Hbare|].
  split; [now apply Hpre|]. split; [now apply Hpre|].
  unfold Normalize._normalize_resource.
  now rewrite (upper_strip_digits s Hd), Hd.
Qed.

(** ** The in-memory cache *)

Section CacheFacts.
Context {V : Type}.
Implicit Types (st : @MemoryCache.Store V) (key : string).

Lemma lookup_none key st :
  MemoryCache.lookup key st = None <-> ~ In key (map fst st).
Proof.
  induction st as [|[k e] t IH]; cbn; [tauto|].
  destruct (String.eqb_spec k key) as [->|Hne].
  - split; [discriminate|]. intros H. exfalso. apply H. now left.
  - rewrite IH. split; [intros H [E|E]; [congruence|contradiction]|].
    intros H E. apply H. now right.
Qed.

Lemma lookup_In key st (e : MemoryCache.Entry) :
  MemoryCache.well_formed st ->
  (MemoryCache.lookup key st = Some e <-> In (key, e) st).
Proof.
  unfold MemoryCache.well_formed.
  induction st as [|[k e'] t IH]; cbn; intros Hwf.
  - split; [discriminate|tauto].
  - inversion Hwf as [|? ? Hnotin Hwf']; subst.
    destruct (String.eqb_spec k key) as [->|Hne].
    + split.
      * intros H. injection H as <-. now left.
      * intros [H|H]; [now injection H as <-|].
        exfalso. apply Hnotin. apply in_map_iff. now exists (key, e).
    + rewrite (IH Hwf'). split; [tauto|].
      intros [H|H]; [injection H as -> _; congruence|exact H].
Qed.

Lemma remove_keys key st :
  forall k, In k (map fst (MemoryCache.remove key st)) -> In k (map fst st).
Proof.
  induction st as [|[k0 e] t IH]; cbn; [tauto|]. intros k.
  destruct (String.eqb k0 key); cbn; [tauto|].
  intros [H|H]; [now left|right; now apply IH].
Qed.

Lemma remove_well_formed key st :
  MemoryCache.well_formed st ->
  MemoryCache.well_formed (MemoryCache.remove key st).
Proof.
  unfold MemoryCache.well_formed.
  induction st as [|[k e] t IH]; cbn; intros Hwf; [constructor|].
  inversion Hwf as [|? ? Hnotin Hwf']; subst.
  destruct (String.eqb k key); [exact Hwf'|].
  cbn. constructor; [|now apply IH].
  intros H. apply Hnotin. now apply (remove_keys key).
Qed.

Lemma lookup_remove key key' st :
  MemoryCache.well_formed st ->
  MemoryCache.lookup key' (MemoryCache.remove key st)
  = if String.eqb key key' then None else MemoryCache.lookup key' st.
Proof.
  unfold MemoryCache.well_formed.
  induction st as [|[k e] t IH]; cbn; intros Hwf.
  - now destruct (String.eqb key key').
  - inversion Hwf as [|? ? Hnotin Hwf']; subst.
    destruct (String.eqb_spec k key) as [->|Hne].
    + destruct (String.eqb_spec key key') as [<-|Hne'].
      * now apply lookup_none.
      * reflexivity.
    + cbn. destruct (String.eqb_spec k key') as [->|Hne'].
      * destruct (String.eqb_spec key key'); [congruence|reflexivity].
      * now apply IH.
Qed.

Lemma remove_absent key st :
  ~ In key (map fst st) -> MemoryCache.remove key st = st.
Proof.
  induction st as [|[k e] t IH]; cbn; intros H; [reflexivity|].
  destruct (String.eqb_spec k key) as [->|Hne]; [tauto|].
  f_equal. apply IH. tauto.
Qed.

Lemma assign_keys key (entry : MemoryCache.Entry) st :
  map fst (MemoryCache.assign key entry st)
  = match MemoryCache.lookup key st with
    | Some _ => map fst st
    | None => map fst st ++ [key]
    end.
Proof.
  induction st as [|[k e] t IH]; cbn; [reflexivity|].
  destruct (String.eqb k key); cbn; [reflexivity|].
  rewrite IH. now destruct (MemoryCache.lookup key t).
Qed.

Lemma assign_well_formed key (entry : MemoryCache.Entry) st :
  MemoryCache.well_formed st ->
  MemoryCache.well_formed (MemoryCache.assign key entry st).
Proof.
  unfold MemoryCache.well_formed. intros Hwf. rewrite assign_keys.
  destruct (MemoryCache.lookup key st) eqn:E; [exact Hwf|].
  apply lookup_none in E.
  apply NoDup_app; [exact Hwf|repeat constructor; intros []|].
  intros k Hk [<-|[]]. contradiction.
Qed.

Lemma lookup_assign key key' (entry : MemoryCache.Entry) st :
  MemoryCache.lookup key' (MemoryCache.assign key entry st)
  = if String.eqb key key' then Some entry else MemoryCache.lookup key' st.
Proof.
  induction st as [|[k e] t IH]; cbn.
  - reflexivity.
  - destruct (String.eqb_spec k key) as [->|Hne]; cbn.
    + now destruct (String.eqb key key').
    + destruct (String.eqb_spec k key') as [->|Hne'].
      * destruct (String.eqb_spec key key'); [congruence|reflexivity].
      * exact IH.
Qed.

Lemma size_remove key st :
  MemoryCache.size (MemoryCache.remove key st)
  = MemoryCache.size st
    - match MemoryCache.lookup key st with Some _ => 1 | None => 0 end.
Proof.
  unfold MemoryCache.size, Py.len.
  induction st as [|[k e] t IH]; cbn [MemoryCache.remove MemoryCache.lookup];
    [reflexivity|].
  destruct (String.eqb k key); cbn [List.length]; [lia|].
  rewrite !Nat2Z.inj_succ, IH. lia.
Qed.

(** X23.  Round trip of the cache: after [set], a [get] of the same key
    gives the value back as long as the entry has not expired, that is
    unless a time to live other than 0 was given and its end lies before
    the time of the [get]; without a time to live, or with 0, the entry
    never expires.  The answers for the other keys stay as they were,
    and the store gains at most one entry. *)
Theorem cache_set_get (now now' : Q) key key' (value : V) (ttl : option Z)
        st :
  MemoryCache.well_formed st ->
  let st' := MemoryCache.set now key value ttl st in
  MemoryCache.well_formed st'
  /\ fst (MemoryCache.get now' key st')
     = (if match ttl with
           | Some t => negb (t =? 0)
                       && negb (Qle_bool now' (now + inject_Z t))
           | None => false
           end
        then None else Some value)
  /\ (key' <> key ->
      fst (MemoryCache.get now' key' st') = fst (MemoryCache.get now' key' st))
  /\ MemoryCache.size st'
     = MemoryCache.size st
       + match MemoryCache.lookup key st with Some _ => 0 | None => 1 end.
Proof.
  intros Hwf st'. subst st'. unfold MemoryCache.set.
  set (entry := (value,
                 match ttl with
                 | Some t =>
                     if Py.truthy_int t then Some (now + inject_Z t)%Q
                     else None
                 | None => None
                 end)).
  split; [now apply assign_well_formed|]. split; [|split].
  - unfold MemoryCache.get. rewrite lookup_assign, String.eqb_refl.
    subst entry. cbn [fst snd]. unfold Py.truthy_int.
    destruct ttl as [t|]; [|reflexivity].
    destruct (t =? 0); cbn [negb andb MemoryCache.expired]; [reflexivity|].
    now destruct (Qle_bool now' (now + inject_Z t)).
  - intros Hne. unfold MemoryCache.get. rewrite lookup_assign.
    destruct (String.eqb_spec key key'); [congruence|].
    destruct (MemoryCache.lookup key' st) as [[v e]|]; [|reflexivity].
    now destruct (MemoryCache.expired now' e).
  - unfold MemoryCache.size, Py.len.
    assert (H : List.length (MemoryCache.assign key entry st)
                = List.length (map fst (MemoryCache.assign key entry st)))
      by (now rewrite length_map).
    rewrite H, assign_keys.
    destruct (MemoryCache.lookup key st).
    + rewrite length_map. lia.
    + rewrite length_app, length_map. cbn. lia.
Qed.

(** X24.  A [get] never returns a stale value: it answers with a value
    only for an entry that is present and not expired at that time, and
    then leaves the store as it is; when it finds the entry expired it
    removes it, and only it, so that the key is absent afterwards.  After
    [delete] the key is absent, too. *)
Theorem cache_get_drops_expired (now : Q) key st :
  MemoryCache.well_formed st ->
  let r := MemoryCache.get now key st in
  MemoryCache.well_formed (snd r)
  /\ (forall v, fst r = Some v ->
        snd r = st
        /\ exists e, In (key, (v, e)) st /\ MemoryCache.expired now e = false)
  /\ (fst r = None ->
      MemoryCache.lookup key (snd r) = None
      /\ forall key', key' <> key ->
           MemoryCache.lookup key' (snd r) = MemoryCache.lookup key' st)
  /\ MemoryCache.lookup key (MemoryCache.delete key st) = None
  /\ fst (MemoryCache.get now key (MemoryCache.delete key st)) = None.
Proof.
  intros Hwf r. subst r. unfold MemoryCache.get, MemoryCache.delete.
  assert (Hdel : MemoryCache.lookup key (MemoryCache.remove key st) = None).
  { rewrite (lookup_remove key key st Hwf). now rewrite String.eqb_refl. }
  rewrite Hdel.
  destruct (MemoryCache.lookup key st) as [[v e]|] eqn:E.
  - destruct (MemoryCache.expired now e) eqn:Ex; cbn [fst snd].
    + split; [now apply remove_well_formed|].
      split; [discriminate|]. split; [|now split].
      intros _. split; [exact Hdel|].
      intros key' Hne. rewrite (lookup_remove key key' st Hwf).
      destruct (String.eqb_spec key key'); [congruence|reflexivity].
    + split; [exact Hwf|]. split; [|split; [discriminate|now split]].
      intros v' H. injection H as <-. split; [reflexivity|].
      exists e. split; [now apply lookup_In|exact Ex].
  - cbn [fst snd]. split; [exact Hwf|]. split; [discriminate|].
    split; [|now split]. intros _. split; [exact E|reflexivity].
Qed.

Lemma filter_remove key (todo : list string) st :
  MemoryCache.well_formed st ->
  filter (fun kv => negb (existsb (String.eqb (fst kv)) todo))
         (MemoryCache.remove key st)
  = filter (fun kv => negb (existsb (String.eqb (fst kv)) (key :: todo))) st.
Proof.
  unfold MemoryCache.well_formed.
  induction st as [|[k0 e0] t IHt]; intros Hwf; [reflexivity|].
  inversion Hwf as [|? ? Hn0 Hwf0]; subst.
  cbn [MemoryCache.remove].
  destruct (String.eqb_spec k0 key) as [->|Hne].
  - rewrite <- (remove_absent key t Hn0) at 1. rewrite (IHt Hwf0).
    cbn [filter fst existsb]. now rewrite String.eqb_refl.
  - cbn [filter fst existsb]. rewrite (IHt Hwf0).
    destruct (String.eqb_spec k0 key); [congruence|]. reflexivity.
Qed.

Lemma remove_each (todo : list string) :
  forall st,
    MemoryCache.well_formed st ->
    fold_left (fun s key => MemoryCache.remove key s) todo st
    = filter (fun kv => negb (existsb (String.eqb (fst kv)) todo)) st.
Proof.
  induction todo as [|k todo IH]; intros st Hwf.
  - cbn. clear. induction st as [|x t IHt]; [reflexivity|].
    cbn. now f_equal.
  - cbn [fold_left]. rewrite IH by (now apply remove_well_formed).
    now apply filter_remove.
Qed.

Lemma filter_well_formed (f : string * @MemoryCache.Entry V -> bool) st :
  MemoryCache.well_formed st -> MemoryCache.well_formed (filter f st).
Proof.
  unfold MemoryCache.well_formed.
  induction st as [|[k e] t IH]; cbn; intros Hwf; [constructor|].
  inversion Hwf as [|? ? Hnotin Hwf0]; subst.
  destruct (f (k, e)); cbn; [|now apply IH].
  constructor; [|now apply IH].
  intros H. apply Hnotin. apply in_map_iff in H as (x & Hx & Hin).
  apply filter_In in Hin as (Hin & _). apply in_map_iff. now exists x.
Qed.

Lemma remove_all (keep : string * @MemoryCache.Entry V -> bool) st :
  MemoryCache.well_formed st ->
  fold_left (fun s key => MemoryCache.remove key s)
            (map fst (filter (fun kv => negb (keep kv)) st)) st
  = filter keep st.
Proof.
  intros Hwf. rewrite (remove_each _ st Hwf).
  apply filter_ext_in. intros [k e] Hke. cbn [fst].
  destruct (keep (k, e)) eqn:Ekeep.
  - apply negb_true_iff, not_true_is_false. intros H.
    apply existsb_exists in H as (k' & Hk' & Heq).
    apply String.eqb_eq in Heq. subst k'.
    apply in_map_iff in Hk' as ([k2 e2] & Hk2 & Hin2). cbn in Hk2. subst k2.
    apply filter_In in Hin2 as (Hin2 & Hneg).
    assert (e2 = e).
    { apply (lookup_In k st e2 Hwf) in Hin2.
      apply (lookup_In k st e Hwf) in Hke. congruence. }
    subst e2. rewrite Ekeep in Hneg. discriminate.
  - apply negb_false_iff, existsb_exists. exists k.
    split; [|apply String.eqb_refl].
    apply in_map_iff. exists (k, e). split; [reflexivity|].
    apply filter_In. split; [exact Hke|]. now rewrite Ekeep.
Qed.

(** X25.  [cleanup_expired] keeps exactly the entries that have not
    expired, in their order, and returns the number of entries it
    removed; it does not change what a [get] at that time answers. *)
Theorem cache_cleanup_expired (now : Q) st :
  MemoryCache.well_formed st ->
  let r := MemoryCache.cleanup_expired now st in
  snd r = filter (fun kv => negb (MemoryCache.expired now (snd (snd kv)))) st
  /\ MemoryCache.well_formed (snd r)
  /\ fst r = MemoryCache.size st - MemoryCache.size (snd r)
  /\ 0 <= fst r <= MemoryCache.size st
  /\ (forall key,
        fst (MemoryCache.get now key (snd r))
        = fst (MemoryCache.get now key st)).
Proof.
  intros Hwf r.
  set (keep := fun kv : string * (V * option Q) =>
                 negb (MemoryCache.expired now (snd (snd kv)))).
  assert (Hfilter :
            filter (fun kv : string * (V * option Q) =>
                      MemoryCache.expired now (snd (snd kv))) st
            = filter (fun kv => negb (keep kv)) st).
  { apply filter_ext. intros kv. subst keep. cbn. now rewrite negb_involutive. }
  assert (Hr : r = (Py.len (map fst (filter (fun kv => negb (keep kv)) st)),
                    filter keep st)).
  { subst r. unfold MemoryCache.cleanup_expired.
    change (filter (fun kv : string * @MemoryCache.Entry V =>
                      MemoryCache.expired now (snd (snd kv))) st)
      with (filter (fun kv : string * (V * option Q) =>
                      MemoryCache.expired now (snd (snd kv))) st).
    rewrite Hfilter. f_equal. exact (remove_all keep st Hwf). }
  rewrite Hr. cbn [fst snd]. clear Hr r.
  assert (Hwf' : MemoryCache.well_formed (filter keep st))
    by (now apply filter_well_formed).
  assert (Hlen : Py.len (map fst (filter (fun kv => negb (keep kv)) st))
                 = MemoryCache.size st - MemoryCache.size (filter keep st)).
  { unfold MemoryCache.size, Py.len. rewrite length_map. clear.
    induction st as [|x t IH]; [reflexivity|].
    cbn [filter]. destruct (keep x); cbn [negb List.length];
      rewrite ?Nat2Z.inj_succ; lia. }
  split; [reflexivity|]. split; [exact Hwf'|]. split; [exact Hlen|].
  split.
  { rewrite Hlen. unfold MemoryCache.size, Py.len.
    pose proof (filter_length_le keep st) as H. split.
    - apply Zle_minus_le_0, Nat2Z.inj_le. exact H.
    - apply Z.le_sub_nonneg, Nat2Z.is_nonneg. }
  intros key. unfold MemoryCache.get.
  destruct (MemoryCache.lookup key st) as [[v e]|] eqn:E.
  - destruct (MemoryCache.expired now e) eqn:Ex.
    + assert (Hnone : MemoryCache.lookup key (filter keep st) = None).
      { apply lookup_none. intros H.
        apply in_map_iff in H as ([k2 [v2 e2]] & Hk & Hin). cbn in Hk.
        subst k2. apply filter_In in Hin as (Hin & Hkeep).
        apply (lookup_In key st (v2, e2) Hwf) in Hin.
        rewrite E in Hin. injection Hin as <- <-.
        subst keep. cbn in Hkeep. rewrite Ex in Hkeep. discriminate. }
      now rewrite Hnone.
    + assert (Hsome : MemoryCache.lookup key (filter keep st) = Some (v, e)).
      { apply (lookup_In key _ (v, e) Hwf'). apply filter_In.
        split; [now apply lookup_In|]. subst keep. cbn. now rewrite Ex. }
      now rewrite Hsome, Ex.
  - assert (Hnone : MemoryCache.lookup key (filter keep st) = None).
    { apply lookup_none. intros H. apply lookup_none in E. apply E.
      apply in_map_iff in H as (x & Hx & Hin).
      apply filter_In in Hin as (Hin & _). apply in_map_iff. now exists x. }
    now rewrite Hnone.
Qed.

End CacheFacts.

(** An entry set at time 0 for 60 seconds is found at time 30. *)
Lemma cache_set_get_witness :
  MemoryCache.well_formed (@nil (string * @MemoryCache.Entry Z))
  /\ fst (MemoryCache.get 30 "as13335"
                          (MemoryCache.set 0 "as13335" 7 (Some 60) []))
     = Some 7.
Proof.
  split; [constructor|].
  exact (proj1 (proj2 (cache_set_get 0 30 "as13335" "as13335"%string 7
                                     (Some 60) [] (NoDup_nil _)))).
Defined.

(** The same entry is no longer found at time 61, and is dropped. *)
Lemma cache_get_drops_expired_witness :
  MemoryCache.well_formed
    (MemoryCache.set 0 "as13335" 7 (Some 60) [])
  /\ fst (MemoryCache.get 61 "as13335"
                          (MemoryCache.set 0 "as13335" 7 (Some 60) []))
     = None
  /\ MemoryCache.lookup
       "as13335"
       (snd (MemoryCache.get 61 "as13335"
                             (MemoryCache.set 0 "as13335" 7 (Some 60) [])))
     = None.
Proof.
  assert (Hwf : MemoryCache.well_formed
                  (MemoryCache.set 0 "as13335" 7 (Some 60) []))
    by (repeat constructor; intros []).
  split; [exact Hwf|]. split; [reflexivity|].
  exact (proj1 (proj1 (proj2 (proj2 (cache_get_drops_expired
                                       61 "as13335"%string _ Hwf)))
                      eq_refl)).
Defined.

Lemma cache_cleanup_expired_witness :
  MemoryCache.well_formed
    (MemoryCache.set 0 "as174" 9 None
                     (MemoryCache.set 0 "as13335" 7 (Some 60) []))
  /\ fst (MemoryCache.cleanup_expired
            61 (MemoryCache.set 0 "as174" 9 None
                                (MemoryCache.set 0 "as13335" 7 (Some 60) [])))
     = 1.
Proof.
  assert (Hwf : MemoryCache.well_formed
                  (MemoryCache.set 0 "as174" 9 None
                     (MemoryCache.set 0 "as13335" 7 (Some 60) []))).
  { repeat constructor; cbn; intuition discriminate. }
  split; [exact Hwf|].
  exact (proj1 (proj2 (proj2 (cache_cleanup_expired 61 _ Hwf)))).
Defined.

From Stdlib Require Import Sorted.

(** ** Incident reports *)

Lemma update_keys (minute : Z) (f : Incident.Minute.t -> Incident.Minute.t)
      (t : Incident.Timeline) :
  map fst (Incident.update minute f t) = map fst t.
Proof.
  induction t as [|[m c] rest IH]; [reflexivity|].
  cbn [Incident.update]. destruct (m =? minute); cbn; [reflexivity|].
  now rewrite IH.
Qed.

Lemma has_keys (minute : Z) (t : Incident.Timeline) :
  Incident.has minute t = true <-> In minute (map fst t).
Proof.
  unfold Incident.has. rewrite existsb_exists, in_map_iff.
  split; intros ([m c] & H1 & H2); exists (m, c); cbn in *.
  - apply Z.eqb_eq in H2. now split.
  - split; [exact H2|]. now apply Z.eqb_eq.
Qed.

Lemma update_total (g : Incident.Minute.t -> Z) (minute : Z)
      (f : Incident.Minute.t -> Incident.Minute.t) (d : Z)
      (t : Incident.Timeline) :
  (forall c, g (f c) = g c + d) ->
  Incident.total g (Incident.update minute f t)
  = Incident.total g t + (if Incident.has minute t then d else 0).
Proof.
  intros Hf. unfold Incident.has.
  induction t as [|[m c] rest IH]; [reflexivity|].
  cbn [Incident.update existsb fst].
  destruct (m =? minute); cbn [Incident.total fold_right snd orb].
  - rewrite Hf. unfold Incident.total. lia.
  - fold (Incident.total g (Incident.update minute f rest)).
    fold (Incident.total g rest). rewrite IH. lia.
Qed.

Lemma total_app (g : Incident.Minute.t -> Z) (t u : Incident.Timeline) :
  Incident.total g (t ++ u) = Incident.total g t + Incident.total g u.
Proof.
  unfold Incident.total. induction t as [|x t IH]; cbn; [reflexivity|].
  rewrite IH. lia.
Qed.

Lemma has_app (minute : Z) (t u : Incident.Timeline) :
  Incident.has minute (t ++ u)
  = Incident.has minute t || Incident.has minute u.
Proof. unfold Incident.has. apply existsb_app. Qed.

(** One event: its minute becomes a key, and one of the two counts of
    that minute grows by one. *)
Lemma count_event_effect (t : Incident.Timeline) (e : Event) :
  let t' := Incident.count_event t e in
  (forall m, In m (map fst t')
             <-> In m (map fst t) \/ m = Incident.minute_of (timestamp e))
  /\ (NoDup (map fst t) -> NoDup (map fst t'))
  /\ Incident.total Incident.Minute.announcements t'
     = Incident.total Incident.Minute.announcements t
       + (if is_announcement e then 1 else 0)
  /\ Incident.total Incident.Minute.withdrawals t'
     = Incident.total Incident.Minute.withdrawals t
       + (if is_announcement e then 0 else 1)
  /\ Incident.total Incident.Minute.anomalies t'
     = Incident.total Incident.Minute.anomalies t.
Proof.
  intros t'. subst t'. unfold Incident.count_event.
  set (minute := Incident.minute_of (timestamp e)).
  set (t1 := if Incident.has minute t then t
             else t ++ [(minute, Incident.Minute.zero)]).
  assert (Hhas : Incident.has minute t1 = true).
  { subst t1. destruct (Incident.has minute t) eqn:E; [exact E|].
    rewrite has_app. cbn. rewrite Z.eqb_refl. now rewrite orb_true_r. }
  assert (Hkeys : forall m, In m (map fst t1)
                            <-> In m (map fst t) \/ m = minute).
  { intros m. subst t1. destruct (Incident.has minute t) eqn:E.
    - apply has_keys in E. split; [tauto|]. intros [H| ->]; assumption.
    - rewrite map_app, in_app_iff. cbn. intuition. }
  assert (Hnd : NoDup (map fst t) -> NoDup (map fst t1)).
  { intros H. subst t1. destruct (Incident.has minute t) eqn:E; [exact H|].
    rewrite map_app. apply NoDup_app; [exact H|repeat constructor; intros []|].
    intros m Hm [Heq|[]]. rewrite <- Heq in Hm. apply has_keys in Hm.
    unfold minute in *. cbn [fst] in Hm. congruence. }
  assert (Htot : forall g, g Incident.Minute.zero = 0 ->
                           Incident.total g t1 = Incident.total g t).
  { intros g Hg. subst t1. destruct (Incident.has minute t); [reflexivity|].
    rewrite total_app. cbn. lia. }
  destruct (is_announcement e).
  - rewrite update_keys. split; [exact Hkeys|]. split; [exact Hnd|].
    rewrite (update_total _ minute _ 1) by (intros c; cbn; lia).
    rewrite (update_total _ minute _ 0) by (intros c; cbn; lia).
    rewrite (update_total _ minute _ 0) by (intros c; cbn; lia).
    rewrite Hhas, !Htot by reflexivity.
    split; [lia|]. split; lia.
  - rewrite update_keys. split; [exact Hkeys|]. split; [exact Hnd|].
    rewrite (update_total _ minute _ 0) by (intros c; cbn; lia).
    rewrite (update_total _ minute _ 1) by (intros c; cbn; lia).
    rewrite (update_total _ minute _ 0) by (intros c; cbn; lia).
    rewrite Hhas, !Htot by reflexivity.
    split; [lia|]. split; lia.
Qed.

Lemma count_events_effect (evs : list Event) :
  forall t,
    let t' := fold_left Incident.count_event evs t in
    (forall m, In m (map fst t')
               <-> In m (map fst t)
                   \/ exists e, In e evs
                                /\ Incident.minute_of (timestamp e) = m)
    /\ (NoDup (map fst t) -> NoDup (map fst t'))
    /\ Incident.total Incident.Minute.announcements t'
       = Incident.total Incident.Minute.announcements t
         + Py.len (filter is_announcement evs)
    /\ Incident.total Incident.Minute.withdrawals t'
       = Incident.total Incident.Minute.withdrawals t
         + (Py.len evs - Py.len (filter is_announcement evs))
    /\ Incident.total Incident.Minute.anomalies t'
       = Incident.total Incident.Minute.anomalies t.
Proof.
  induction evs as [|e rest IH]; intros t.
  - cbn [fold_left filter]. cbv zeta. unfold Py.len. cbn [List.length].
    split; [|split; [tauto|split; [lia|split; lia]]].
    intros m. split; [tauto|]. intros [H|(e & He & _)]; [exact H|destruct He].
  - cbn [fold_left]. cbv zeta.
    destruct (count_event_effect t e) as (K1 & N1 & A1 & W1 & F1).
    destruct (IH (Incident.count_event t e)) as (K2 & N2 & A2 & W2 & F2).
    split; [|split; [tauto|]].
    + intros m. rewrite K2, K1. split.
      * intros [[H| ->]|(e' & He' & Hm)]; [now left| |].
        -- right. exists e. split; [now left|reflexivity].
        -- right. exists e'. split; [now right|exact Hm].
      * intros [H|(e' & [<-|He'] & Hm)]; [tauto| |].
        -- left. right. now symmetry.
        -- right. now exists e'.
    + rewrite A2, A1, W2, W1, F2, F1. cbn [filter].
      unfold Py.len.
      destruct (is_announcement e); cbn [List.length];
        rewrite ?Nat2Z.inj_succ; repeat split; lia.
Qed.

Lemma count_anomalies_effect (ds : list Detection) :
  forall t,
    (forall d, In d ds ->
               In (Incident.minute_of (AnomalyDetection.timestamp d))
                  (map fst t)) ->
    let t' := fold_left Incident.count_anomaly ds t in
    map fst t' = map fst t
    /\ Incident.total Incident.Minute.announcements t'
       = Incident.total Incident.Minute.announcements t
    /\ Incident.total Incident.Minute.withdrawals t'
       = Incident.total Incident.Minute.withdrawals t
    /\ Incident.total Incident.Minute.anomalies t'
       = Incident.total Incident.Minute.anomalies t + Py.len ds.
Proof.
  induction ds as [|d rest IH]; intros t Hin.
  - cbn [fold_left]. cbv zeta. unfold Py.len. cbn [List.length].
    split; [reflexivity|split; [lia|split; lia]].
  - cbn [fold_left]. cbv zeta.
    assert (Hhas : Incident.has
                     (Incident.minute_of (AnomalyDetection.timestamp d)) t
                   = true)
      by (apply has_keys, Hin; now left).
    assert (Hstep : map fst (Incident.count_anomaly t d) = map fst t
                    /\ Incident.total Incident.Minute.announcements
                                      (Incident.count_anomaly t d)
                       = Incident.total Incident.Minute.announcements t
                    /\ Incident.total Incident.Minute.withdrawals
                                      (Incident.count_anomaly t d)
                       = Incident.total Incident.Minute.withdrawals t
                    /\ Incident.total Incident.Minute.anomalies
                                      (Incident.count_anomaly t d)
                       = Incident.total Incident.Minute.anomalies t + 1).
    { unfold Incident.count_anomaly. rewrite Hhas, update_keys.
      rewrite (update_total _ _ _ 0) by (intros c; cbn; lia).
      rewrite (update_total _ _ _ 0) by (intros c; cbn; lia).
      rewrite (update_total _ _ _ 1) by (intros c; cbn; lia).
      rewrite Hhas. split; [reflexivity|]. split; [lia|]. split; lia. }
    destruct Hstep as (K1 & A1 & W1 & F1).
    destruct (IH (Incident.count_anomaly t d)) as (K2 & A2 & W2 & F2).
    { intros d' Hd'. rewrite K1. apply Hin. now right. }
    rewrite K2, K1, A2, A1, W2, W1, F2, F1.
    unfold Py.len. cbn [List.length]. rewrite Nat2Z.inj_succ.
    repeat split; lia.
Qed.

Lemma insert_by_minute_Permutation (x : Z * Incident.Minute.t)
      (t : Incident.Timeline) :
  Permutation (Incident.insert_by_minute x t) (x :: t).
Proof.
  induction t as [|y rest IH]; [reflexivity|].
  cbn. destruct (fst x <? fst y); [reflexivity|].
  rewrite IH. apply perm_swap.
Qed.

Lemma sorted_items_Permutation (t : Incident.Timeline) :
  Permutation (Incident.sorted_items t) t.
Proof.
  unfold Incident.sorted_items. induction t as [|x rest IH]; [reflexivity|].
  cbn. rewrite insert_by_minute_Permutation. now constructor.
Qed.

Lemma total_Permutation (g : Incident.Minute.t -> Z)
      (t u : Incident.Timeline) :
  Permutation t u -> Incident.total g t = Incident.total g u.
Proof.
  unfold Incident.total.
  induction 1 as [|x t u _ IH|x y t|t u v _ IH1 _ IH2]; cbn; lia.
Qed.

Lemma insert_by_minute_sorted (x : Z * Incident.Minute.t)
      (t : Incident.Timeline) :
  ~ In (fst x) (map fst t) ->
  StronglySorted Z.lt (map fst t) ->
  StronglySorted Z.lt (map fst (Incident.insert_by_minute x t)).
Proof.
  induction t as [|y rest IH]; intros Hnotin Hs.
  - cbn. constructor; constructor.
  - cbn [map] in Hs. inversion Hs as [|? ? Hs' Hall]; subst.
    cbn [Incident.insert_by_minute]. destruct (Z.ltb_spec (fst x) (fst y)).
    + cbn [map]. constructor; [exact Hs|].
      constructor; [assumption|].
      eapply Forall_impl; [|exact Hall]. intros a Ha. lia.
    + cbn [map]. assert (Hne : fst x <> fst y)
        by (intros E; apply Hnotin; left; now symmetry).
      constructor.
      * apply IH; [|exact Hs']. intros Hin. apply Hnotin. now right.
      * apply Forall_forall. intros a Ha.
        apply (Permutation_in a (Permutation_map fst
                 (insert_by_minute_Permutation x rest))) in Ha.
        destruct Ha as [<-|Ha]; [lia|].
        rewrite Forall_forall in Hall. now apply Hall.
Qed.

Lemma sorted_items_sorted (t : Incident.Timeline) :
  NoDup (map fst t) ->
  StronglySorted Z.lt (map fst (Incident.sorted_items t)).
Proof.
  unfold Incident.sorted_items. induction t as [|x rest IH]; intros Hnd.
  - constructor.
  - cbn [map] in Hnd. inversion Hnd as [|? ? Hnotin Hnd']; subst.
    cbn [fold_right]. apply insert_by_minute_sorted; [|now apply IH].
    intros Hin. apply Hnotin.
    apply (Permutation_in (fst x) (Permutation_map fst
             (sorted_items_Permutation rest))). exact Hin.
Qed.

Section IncidentFacts.
Context (int_order : Py.SetOrder Z) (path_order : Py.SetOrder (list Z)).
Context (utcnow : Z).

Lemma step_timestamps (expected_origin : option Z)
      (expected_prefix : option string) (baseline : list (list Z))
      (st st' : State) (e : Event) :
  step int_order path_order expected_origin expected_prefix baseline st e
  = Py.Ok st' ->
  exists added,
    anomalies st' = anomalies st ++ added
    /\ Forall (fun d => AnomalyDetection.timestamp d = timestamp e) added.
Proof.
  intros H. destruct (step_shape _ _ _ _ _ _ _ _ H)
    as [[_ ->]|(_ & specific & leaks & Hs & Hl & ->)].
  - exists []. split; [now rewrite app_nil_r|constructor].
  - exists (specific ++ origin_check expected_origin e ++ leaks).
    split; [reflexivity|]. rewrite !Forall_app. split; [|split].
    + destruct (more_specific_shape _ _ _ Hs) as [->| ->];
        repeat constructor.
    + destruct (origin_check_shape expected_origin e)
        as [->|(ex & og & _ & _ & _ & _ & _ & [[_ ->]|[_ ->]])];
        repeat constructor.
    + destruct (path_leak_shape _ _ _ _ _ _ _ _ Hl)
        as [[-> _]|(_ & _ & b & _ & _ & Hflag)]; [constructor|].
      destruct (flag_new_spec _ _ _ _ _ _ Hflag) as (Hall & _).
      eapply Forall_impl; [|exact Hall]. intros d (asn & _ & ->).
      reflexivity.
Qed.

Lemma run_timestamps (expected_origin : option Z)
      (expected_prefix : option string) (baseline : list (list Z))
      (evs : list Event) :
  forall st st',
    run int_order path_order expected_origin expected_prefix baseline evs st
    = Py.Ok st' ->
    exists added,
      anomalies st' = anomalies st ++ added
      /\ Forall (fun d => exists e, In e evs
                           /\ AnomalyDetection.timestamp d = timestamp e)
                added.
Proof.
  induction evs as [|e rest IH]; intros st st' H.
  - injection H as <-. exists []. split; [now rewrite app_nil_r|constructor].
  - cbn [run] in H.
    destruct (step int_order path_order expected_origin expected_prefix
                   baseline st e) as [st1|x] eqn:E; cbn [Py.bind] in H;
      [|discriminate].
    destruct (step_timestamps _ _ _ _ _ _ E) as (a1 & H1 & F1).
    destruct (IH st1 st' H) as (a2 & H2 & F2).
    exists (a1 ++ a2). split; [now rewrite H2, H1, app_assoc|].
    apply Forall_app. split.
    + eapply Forall_impl; [|exact F1]. intros d Hd. exists e.
      split; [now left|exact Hd].
    + eapply Forall_impl; [|exact F2]. intros d (e' & He' & Hd).
      exists e'. split; [now right|exact Hd].
Qed.

(** Every detection carries the time of one of the events. *)
Lemma detect_anomalies_timestamps (events : list Event)
      (expected_origin : option Z) (expected_prefix : option string)
      (out : list Detection) :
  detect_anomalies int_order path_order utcnow events expected_origin
                   expected_prefix = Py.Ok out ->
  Forall (fun d => exists e, In e events
                   /\ AnomalyDetection.timestamp d = timestamp e) out.
Proof.
  unfold detect_anomalies.
  destruct (run int_order path_order expected_origin expected_prefix
                (baseline_inserted events) events initial) as [st|x] eqn:E;
    cbn [Py.bind]; [|discriminate].
  intros H. injection H as <-.
  destruct (run_timestamps _ _ _ _ _ _ E) as (added & Han & Hall).
  cbn in Han. rewrite Han. apply Forall_app. split; [exact Hall|].
  rewrite origin_changes_repeat. apply Forall_forall. intros d Hd.
  destruct events as [|e0 rest].
  - exfalso. cbn in E. injection E as <-. cbn in Hd.
    destruct expected_origin as [ex|]; [|destruct Hd].
    unfold Stream.unexpected_count in Hd. cbn [nodup Py.len List.length] in Hd.
    change (1 <? Z.of_nat 0) with false in Hd.
    rewrite andb_false_r in Hd. destruct Hd.
  - apply repeat_spec in Hd. subst d.
    exists e0. split; [now left|reflexivity].
Qed.

End IncidentFacts.

Lemma announcements_and_withdrawals (evs : list Event) :
  Py.len (filter is_announcement evs) + Py.len (filter is_withdrawal evs)
  <= Py.len evs.
Proof.
  unfold Py.len. induction evs as [|e rest IH]; [cbn; lia|].
  cbn [filter]. unfold is_announcement, is_withdrawal in *.
  destruct (String.eqb_spec (event_type e) "A") as [Ha|Ha];
    destruct (String.eqb_spec (event_type e) "W") as [Hw|Hw];
    try congruence; cbn [List.length]; rewrite ?Nat2Z.inj_succ; lia.
Qed.

Section IncidentReport.
Context (int_order : Py.SetOrder Z) (path_order : Py.SetOrder (list Z)).
Context (utcnow : Z).

(** X26.  An incident report is consistent with the events it was made
    from, those whose prefix is the monitored one or begins with its
    first three octets: the minutes of the timeline are those of these
    events, in ascending order and each once; over the timeline the
    announcements add up to the reported number, the withdrawals to the
    number of all other events (at least the reported withdrawals), and
    the anomalies to the number of detections, none of which falls
    outside the timeline; the involved AS numbers are distinct and never
    include the expected origin. *)
Theorem incident_report_counts (prefix : string) (expected_origin : Z)
        (updates : Py.result (list Event)) (r : Incident.Report) :
  Incident.investigate_incident int_order path_order utcnow prefix
                                expected_origin updates = Py.Ok r ->
  exists events,
    updates = Py.Ok events
    /\ let relevant := filter (Incident.relevant prefix) events in
       detect_anomalies int_order path_order utcnow relevant
                        (Some expected_origin) (Some prefix)
       = Py.Ok (Incident.anomalies r)
       /\ Incident.total_events r = Py.len relevant
       /\ Incident.announcements r + Incident.withdrawals r
          <= Incident.total_events r
       /\ StronglySorted Z.lt (map fst (Incident.timeline r))
       /\ (forall m, In m (map fst (Incident.timeline r))
                     <-> exists e, In e relevant
                                   /\ Incident.minute_of (timestamp e) = m)
       /\ Incident.total Incident.Minute.announcements (Incident.timeline r)
          = Incident.announcements r
       /\ Incident.total Incident.Minute.withdrawals (Incident.timeline r)
          = Incident.total_events r - Incident.announcements r
       /\ Incident.total Incident.Minute.anomalies (Incident.timeline r)
          = Py.len (Incident.anomalies r)
       /\ NoDup (Incident.involved_ases r)
       /\ ~ In expected_origin (Incident.involved_ases r)
       /\ Incident.first_anomaly r
          = option_map AnomalyDetection.timestamp
                       (hd_error (Incident.anomalies r)).
Proof.
  unfold Incident.investigate_incident.
  destruct updates as [events|x]; cbn [Py.bind]; [|discriminate].
  set (relevant := filter (Incident.relevant prefix) events).
  destruct (detect_anomalies int_order path_order utcnow relevant
                             (Some expected_origin) (Some prefix))
    as [found|x] eqn:E; cbn [Py.bind]; [|discriminate].
  intros H. injection H as <-. exists events. split; [reflexivity|].
  cbv zeta.
  cbn [Incident.anomalies Incident.total_events Incident.announcements
       Incident.withdrawals Incident.timeline Incident.involved_ases
       Incident.first_anomaly].
  destruct (count_events_effect relevant []) as (K1 & N1 & A1 & W1 & F1).
  set (t1 := fold_left Incident.count_event relevant []) in *.
  pose proof (detect_anomalies_timestamps
                int_order path_order utcnow _ _ _ _ E) as Hts.
  rewrite Forall_forall in Hts.
  destruct (count_anomalies_effect found t1) as (K2 & A2 & W2 & F2).
  { intros d Hd. destruct (Hts d Hd) as (e & He & Heq).
    apply K1. right. exists e. split; [exact He|]. now rewrite Heq. }
  set (t2 := fold_left Incident.count_anomaly found t1) in *.
  pose proof (sorted_items_Permutation t2) as Hperm.
  split; [exact E|]. split; [reflexivity|].
  split; [apply announcements_and_withdrawals|].
  split.
  { apply sorted_items_sorted. rewrite K2. apply N1. constructor. }
  split.
  { intros m. split.
    - intros Hm.
      apply (Permutation_in m (Permutation_map fst Hperm)) in Hm.
      rewrite K2 in Hm. apply K1 in Hm as [[]|Hm]. exact Hm.
    - intros Hm.
      apply (Permutation_in m (Permutation_map
                                 fst (Permutation_sym Hperm))).
      rewrite K2. apply K1. now right. }
  rewrite !(total_Permutation _ _ _ Hperm), A2, W2, F2, A1, W1, F1.
  cbn [Incident.total fold_right].
  split; [lia|]. split; [lia|]. split; [lia|].
  split; [apply Py.iter_NoDup|]. split.
  - intros Hin. apply (proj1 (Py.iter_In int_order _ _)) in Hin.
    now apply remove_In in Hin.
  - now destruct found.
Qed.

End IncidentReport.

(** A leak inside the monitored /24, seen by one collector. *)
Lemma incident_report_counts_witness :
  exists r,
    Incident.investigate_incident
      int_insertion_order path_insertion_order 0 "1.1.1.0/24" 13335
      (Py.Ok [Runs.normal_event; Runs.leaked_event]) = Py.Ok r
    /\ Incident.total Incident.Minute.anomalies (Incident.timeline r)
       = Py.len (Incident.anomalies r).
Proof.
  eexists. split; [reflexivity|].
  destruct (incident_report_counts
              int_insertion_order path_insertion_order 0 "1.1.1.0/24" 13335
              (Py.Ok [Runs.normal_event; Runs.leaked_event]) _ eq_refl)
    as (events & _ & _ & _ & _ & _ & _ & _ & _ & H & _).
  exact H.
Defined.

(** ** Peering *)

(** X27.  The decision table of [analyze_peering_opportunity]: the
    feasibility is "low" exactly when the two networks share no exchange
    and no facility, "medium" when they share one and one of them is
    restrictive, "high" otherwise.  No blocker is listed exactly when it
    is "high"; the advice is "no immediate opportunity" exactly when it
    is "low", names the first common exchange exactly when it is "high"
    and there is one, and otherwise follows from the feasibility and
    from whether an exchange is shared. *)
Theorem peering_feasibility (o : PeeringAnalyzer.PeeringOpportunity)
        (n1 n2 : PeeringDB.Network) :
  let located :=
    Py.nonempty (PeeringAnalyzer.common_ixes o)
    || Py.nonempty (PeeringAnalyzer.common_facilities o) in
  let restricted :=
    PeeringAnalyzer.restrictive n1 || PeeringAnalyzer.restrictive n2 in
  exists a,
    PeeringAnalyzer.analyze_peering_opportunity (Py.Ok o) (Py.Ok n1)
                                                (Py.Ok n2)
    = Py.Ok (PeeringAnalyzer.Analysed a)
    /\ PeeringAnalyzer.feasibility a
       = (if located then if restricted then "medium" else "high"
          else "low")%string
    /\ (PeeringAnalyzer.blockers a = []
        <-> PeeringAnalyzer.feasibility a = "high"%string)
    /\ (List.length (PeeringAnalyzer.blockers a)
        = (if located then 0 else 1)
          + (if PeeringAnalyzer.restrictive n2 then 1 else 0)
          + (if PeeringAnalyzer.restrictive n1 then 1 else 0))%nat
    /\ (PeeringAnalyzer.recommendation a
        = PeeringAnalyzer.NoImmediateOpportunity
        <-> PeeringAnalyzer.feasibility a = "low"%string)
    /\ PeeringAnalyzer.recommendation a
       = match PeeringAnalyzer.common_ixes o with
         | best :: _ =>
             if restricted then PeeringAnalyzer.NegotiationNeeded
             else PeeringAnalyzer.EstablishAt (PeeringDB.ix_name best)
         | [] =>
             if located then
               if restricted then PeeringAnalyzer.JoinCommonIxFirst
               else PeeringAnalyzer.PrivatePeeringPossible
             else PeeringAnalyzer.NoImmediateOpportunity
         end.
Proof.
  intros located restricted. subst located restricted.
  unfold PeeringAnalyzer.analyze_peering_opportunity,
    PeeringAnalyzer._get_peering_recommendation.
  cbn [Py.bind].
  destruct (PeeringAnalyzer.common_ixes o) as [|best ixes];
    destruct (PeeringAnalyzer.common_facilities o) as [|f fs];
    destruct (PeeringAnalyzer.restrictive n1);
    destruct (PeeringAnalyzer.restrictive n2);
    cbn [Py.nonempty negb andb orb app String.eqb Ascii.eqb Bool.eqb
         hd_error];
    eexists; (split; [reflexivity|]);
    cbn [PeeringAnalyzer.feasibility PeeringAnalyzer.blockers
         PeeringAnalyzer.recommendation List.length Nat.add];
    (split; [reflexivity|]);
    (split; [split; intros H; (discriminate H || reflexivity)|]);
    (split; [reflexivity|]);
    (split; [split; intros H; (discriminate H || reflexivity)
            |reflexivity]).
Qed.

(** A failure of a PeeringDB call: "not found" gives the error dict,
    anything else is raised. *)
Lemma peering_opportunity_failures
      (opportunity : Py.result PeeringAnalyzer.PeeringOpportunity)
      (net1 net2 : Py.result PeeringDB.Network) (e : Py.exn) :
  opportunity = Py.Raise e ->
  PeeringAnalyzer.analyze_peering_opportunity opportunity net1 net2
  = match e with
    | Py.PeeringDBNotFoundError => Py.Ok PeeringAnalyzer.ErrorOnly
    | _ => Py.Raise e
    end.
Proof. intros ->. now destruct e. Qed.

(** *** Common peers *)

Lemma insert_sorted_In (x : Z) (l : list Z) (k : Z) :
  In k (PeeringAnalyzer.insert_sorted x l) <-> k = x \/ In k l.
Proof.
  induction l as [|y rest IH]; cbn; [intuition|].
  destruct (x <? y); cbn; [intuition|]. rewrite IH. intuition.
Qed.

Lemma sorted_In (l : list Z) (k : Z) :
  In k (PeeringAnalyzer.sorted l) <-> In k l.
Proof.
  unfold PeeringAnalyzer.sorted. induction l as [|x rest IH]; cbn; [tauto|].
  rewrite insert_sorted_In, IH. intuition.
Qed.

Lemma insert_sorted_strict (x : Z) (l : list Z) :
  ~ In x l -> StronglySorted Z.lt l ->
  StronglySorted Z.lt (PeeringAnalyzer.insert_sorted x l).
Proof.
  induction l as [|y rest IH]; intros Hnotin Hs.
  - cbn. constructor; constructor.
  - inversion Hs as [|? ? Hs' Hall]; subst.
    cbn [PeeringAnalyzer.insert_sorted]. destruct (Z.ltb_spec x y).
    + constructor; [exact Hs|]. constructor; [assumption|].
      eapply Forall_impl; [|exact Hall]. intros a Ha. lia.
    + assert (Hne : x <> y) by (intros ->; apply Hnotin; now left).
      constructor.
      * apply IH; [|exact Hs']. intros Hin. apply Hnotin. now right.
      * apply Forall_forall. intros a Ha. apply insert_sorted_In in Ha.
        destruct Ha as [->|Ha]; [lia|].
        rewrite Forall_forall in Hall. now apply Hall.
Qed.

Lemma sorted_strict (l : list Z) :
  NoDup l -> StronglySorted Z.lt (PeeringAnalyzer.sorted l).
Proof.
  unfold PeeringAnalyzer.sorted. induction l as [|x rest IH]; intros Hnd.
  - constructor.
  - inversion Hnd as [|? ? Hnotin Hnd']; subst. cbn [fold_right].
    apply insert_sorted_strict; [|now apply IH].
    intros Hin. apply Hnotin. exact (proj1 (sorted_In rest x) Hin).
Qed.

(** Two strictly ascending lists with the same members are equal. *)
Lemma strictly_sorted_unique (l l' : list Z) :
  StronglySorted Z.lt l -> StronglySorted Z.lt l' ->
  (forall k, In k l <-> In k l') -> l = l'.
Proof.
  revert l'. induction l as [|x t IH]; intros l' Hs Hs' Hin.
  - destruct l' as [|y t']; [reflexivity|].
    exfalso. apply (proj2 (Hin y)). now left.
  - destruct l' as [|y t'].
    + exfalso. apply (proj1 (Hin x)). now left.
    + inversion Hs as [|? ? Hst Hall]; subst.
      inversion Hs' as [|? ? Hst' Hall']; subst.
      rewrite Forall_forall in Hall, Hall'.
      assert (Hxy : x = y).
      { destruct (proj1 (Hin x) (or_introl eq_refl)) as [E|Hx];
          [now symmetry|].
        destruct (proj2 (Hin y) (or_introl eq_refl)) as [E|Hy];
          [exact E|].
        specialize (Hall y Hy). specialize (Hall' x Hx). lia. }
      subst y. f_equal. apply IH; [exact Hst|exact Hst'|].
      intros k. split; intros Hk.
      * destruct (proj1 (Hin k) (or_intror Hk)) as [E|H]; [|exact H].
        specialize (Hall k Hk). lia.
      * destruct (proj2 (Hin k) (or_intror Hk)) as [E|H]; [|exact H].
        specialize (Hall' k Hk). lia.
Qed.

Section CommonPeers.
Context (asn1 asn2 : Z) (get_ix_members : Z -> Py.result (list Z)).

Lemma members_loop (ids : list Z) :
  forall acc,
    match PeeringAnalyzer.fold_result
            (PeeringAnalyzer.members_step asn1 asn2 get_ix_members) ids acc
    with
    | Py.Raise _ => exists ix, In ix ids /\ Py.is_ok (get_ix_members ix) = false
    | Py.Ok acc' =>
        (forall ix, In ix ids -> Py.is_ok (get_ix_members ix) = true)
        /\ (forall k, In k (fst acc')
                      <-> In k (fst acc)
                          \/ exists ix members,
                               In ix ids /\ get_ix_members ix = Py.Ok members
                               /\ In asn1 members /\ In k members)
        /\ (forall k, In k (snd acc')
                      <-> In k (snd acc)
                          \/ exists ix members,
                               In ix ids /\ get_ix_members ix = Py.Ok members
                               /\ In asn2 members /\ In k members)
    end.
Proof.
  induction ids as [|ix rest IH]; intros acc.
  - cbn. split; [intros ix []|].
    split; intros k; (split; [tauto|]);
      intros [H|(ix & m & [] & _)]; exact H.
  - cbn [PeeringAnalyzer.fold_result].
    unfold PeeringAnalyzer.members_step at 1.
    destruct (get_ix_members ix) as [members|x] eqn:E; cbn [Py.bind].
    + match goal with
      | |- match PeeringAnalyzer.fold_result _ _ ?a with _ => _ end =>
          specialize (IH a); set (acc1 := a) in *
      end.
      destruct (PeeringAnalyzer.fold_result
                  (PeeringAnalyzer.members_step asn1 asn2 get_ix_members)
                  rest acc1) as [acc'|y].
      * destruct IH as (Hok & H1 & H2). split.
        { intros i [<-|Hi]; [now rewrite E|now apply Hok]. }
        subst acc1. cbn [fst snd] in H1, H2.
        split; intros k; [rewrite H1|rewrite H2].
        -- destruct (Py.mem asn1 members) eqn:Em.
           ++ apply mem_In in Em. rewrite in_app_iff. split.
              ** intros [[H|H]|(i & m & Hi & Hm & Ha & Hk)]; [now left| |].
                 --- right. exists ix, members. repeat split; auto.
                     now left.
                 --- right. exists i, m. repeat split; auto. now right.
              ** intros [H|(i & m & [<-|Hi] & Hm & Ha & Hk)].
                 --- left. now left.
                 --- rewrite E in Hm. injection Hm as <-. left. now right.
                 --- right. exists i, m. repeat split; auto.
           ++ split.
              ** intros [H|(i & m & Hi & Hm & Ha & Hk)]; [now left|].
                 right. exists i, m. repeat split; auto. now right.
              ** intros [H|(i & m & [<-|Hi] & Hm & Ha & Hk)].
                 --- now left.
                 --- rewrite E in Hm. injection Hm as <-.
                     apply mem_In in Ha. congruence.
                 --- right. exists i, m. repeat split; auto.
        -- destruct (Py.mem asn2 members) eqn:Em.
           ++ apply mem_In in Em. rewrite in_app_iff. split.
              ** intros [[H|H]|(i & m & Hi & Hm & Ha & Hk)]; [now left| |].
                 --- right. exists ix, members. repeat split; auto.
                     now left.
                 --- right. exists i, m. repeat split; auto. now right.
              ** intros [H|(i & m & [<-|Hi] & Hm & Ha & Hk)].
                 --- left. now left.
                 --- rewrite E in Hm. injection Hm as <-. left. now right.
                 --- right. exists i, m. repeat split; auto.
           ++ split.
              ** intros [H|(i & m & Hi & Hm & Ha & Hk)]; [now left|].
                 right. exists i, m. repeat split; auto. now right.
              ** intros [H|(i & m & [<-|Hi] & Hm & Ha & Hk)].
                 --- now left.
                 --- rewrite E in Hm. injection Hm as <-.
                     apply mem_In in Ha. congruence.
                 --- right. exists i, m. repeat split; auto.
      * destruct IH as (i & Hi & Hf). exists i. split; [now right|exact Hf].
    + exists ix. split; [now left|now rewrite E].
Qed.

End CommonPeers.

Section CommonPeersResult.
Context (asn1 asn2 : Z).
Context (conn1 conn2 : Py.result (list PeeringDB.NetworkIXLan)).
Context (get_ix_members : Z -> Py.result (list Z)).

Lemma common_peers_spec (int_order : Py.SetOrder Z) :
  let peers :=
    PeeringAnalyzer.find_common_peers int_order asn1 asn2 conn1 conn2
                                      get_ix_members in
  StronglySorted Z.lt peers
  /\ forall k, In k peers
               <-> PeeringAnalyzer.is_common_peer asn1 asn2 conn1 conn2
                                                  get_ix_members k.
Proof.
  intros peers. subst peers.
  unfold PeeringAnalyzer.find_common_peers,
    PeeringAnalyzer.common_peers_or_raise, PeeringAnalyzer.is_common_peer.
  destruct conn1 as [c1|x1]; cbn [Py.bind].
  2:{ split; [constructor|]. intros k. split; [intros []|].
      intros (a & b & H & _). discriminate. }
  destruct conn2 as [c2|x2]; cbn [Py.bind].
  2:{ split; [constructor|]. intros k. split; [intros []|].
      intros (a & b & _ & H & _). discriminate. }
  set (ids := Py.iter int_order
                (filter (fun i => Py.mem i (map PeeringDB.ix_id c2))
                        (map PeeringDB.ix_id c1))).
  assert (Hids : forall ix, In ix ids <-> PeeringAnalyzer.common_ix c1 c2 ix).
  { intros ix. subst ids. rewrite (Py.iter_In int_order), filter_In.
    unfold PeeringAnalyzer.common_ix. now rewrite mem_In. }
  assert (Hmet : forall asn k,
             (exists ix members,
                 In ix ids /\ get_ix_members ix = Py.Ok members
                 /\ In asn members /\ In k members)
             <-> PeeringAnalyzer.met_at get_ix_members c1 c2 asn k).
  { intros asn k. unfold PeeringAnalyzer.met_at.
    split; intros (ix & m & Hi & Hrest); exists ix, m;
      (split; [now apply Hids|exact Hrest]). }
  destruct (Py.nonempty ids) eqn:Ene; cbn [negb].
  2:{ split; [constructor|]. intros k. split; [intros []|].
      intros (a & b & Ha & Hb & _ & _ & _ & Hm & _).
      injection Ha as <-. injection Hb as <-.
      apply Hmet in Hm as (ix & m & Hi & _).
      destruct ids; [destruct Hi|discriminate]. }
  pose proof (members_loop asn1 asn2 get_ix_members ids ([], [])) as Hloop.
  destruct (PeeringAnalyzer.fold_result
              (PeeringAnalyzer.members_step asn1 asn2 get_ix_members)
              ids ([], [])) as [[at1 at2]|x]; cbn [Py.bind].
  - destruct Hloop as (Hok & H1 & H2). cbn [fst snd] in *.
    split; [apply sorted_strict, Py.iter_NoDup|].
    intros k. rewrite sorted_In, (Py.iter_In int_order). split.
    + intros Hk. apply in_remove in Hk as (Hk & Hn2).
      apply in_remove in Hk as (Hk & Hn1).
      apply filter_In in Hk as (Hk1 & Hk2). apply mem_In in Hk2.
      apply H1 in Hk1 as [[]|Hk1]. apply H2 in Hk2 as [[]|Hk2].
      exists c1, c2. split; [reflexivity|]. split; [reflexivity|].
      split; [intros ix Hix; now apply Hok, Hids|].
      split; [exact Hn1|]. split; [exact Hn2|].
      split; [now apply Hmet|now apply Hmet].
    + intros (a & b & Ha & Hb & _ & Hn1 & Hn2 & Hm1 & Hm2).
      injection Ha as <-. injection Hb as <-.
      apply in_in_remove; [exact Hn2|]. apply in_in_remove; [exact Hn1|].
      apply filter_In. split.
      * apply H1. right. now apply Hmet.
      * apply mem_In, H2. right. now apply Hmet.
  - destruct Hloop as (ix & Hix & Hfail).
    split; [constructor|]. intros k. split; [intros []|].
    intros (a & b & Ha & Hb & Hall & _).
    injection Ha as <-. injection Hb as <-.
    rewrite (Hall ix (proj1 (Hids ix) Hix)) in Hfail. discriminate.
Qed.

(** X28.  [find_common_peers] does not depend on the order in which the
    sets are iterated.  Its result is strictly ascending and holds
    neither of the two networks; when every member lookup at a common
    exchange answers, it holds exactly the other AS numbers met at a
    common exchange next to the first network and at a common exchange
    next to the second; when one of these lookups fails, or one of the
    two port lookups, it is empty. *)
Theorem common_peers_order_independent (int_order int_order' : Py.SetOrder Z) :
  let peers :=
    PeeringAnalyzer.find_common_peers int_order asn1 asn2 conn1 conn2
                                      get_ix_members in
  PeeringAnalyzer.find_common_peers int_order' asn1 asn2 conn1 conn2
                                    get_ix_members = peers
  /\ StronglySorted Z.lt peers
  /\ ~ In asn1 peers /\ ~ In asn2 peers
  /\ (forall c1 c2,
        conn1 = Py.Ok c1 -> conn2 = Py.Ok c2 ->
        (forall ix, PeeringAnalyzer.common_ix c1 c2 ix ->
                    Py.is_ok (get_ix_members ix) = true) ->
        forall k,
          In k peers
          <-> k <> asn1 /\ k <> asn2
              /\ PeeringAnalyzer.met_at get_ix_members c1 c2 asn1 k
              /\ PeeringAnalyzer.met_at get_ix_members c1 c2 asn2 k)
  /\ (Py.is_ok conn1 = false \/ Py.is_ok conn2 = false
      \/ (exists c1 c2 ix,
             conn1 = Py.Ok c1 /\ conn2 = Py.Ok c2
             /\ PeeringAnalyzer.common_ix c1 c2 ix
             /\ Py.is_ok (get_ix_members ix) = false) ->
      peers = []).
Proof.
  intros peers.
  destruct (common_peers_spec int_order) as (Hs & Hin).
  destruct (common_peers_spec int_order') as (Hs' & Hin').
  fold peers in Hs, Hin.
  split.
  { apply strictly_sorted_unique; [exact Hs'|exact Hs|].
    intros k. now rewrite Hin, Hin'. }
  split; [exact Hs|].
  split.
  { intros H. apply Hin in H as (_ & _ & _ & _ & _ & H & _). congruence. }
  split.
  { intros H. apply Hin in H as (_ & _ & _ & _ & _ & _ & H & _). congruence. }
  split.
  - intros c1 c2 E1 E2 Hall k. rewrite Hin. unfold PeeringAnalyzer.is_common_peer. split.
    + intros (a & b & Ha & Hb & _ & Hrest).
      rewrite E1 in Ha. rewrite E2 in Hb.
      injection Ha as <-. injection Hb as <-. exact Hrest.
    + intros Hrest. exists c1, c2. now repeat split.
  - intros Hfail.
    destruct peers as [|k rest] eqn:Ep; [reflexivity|]. exfalso.
    destruct (proj1 (Hin k) (or_introl eq_refl))
      as (a & b & Ha & Hb & Hall & _).
    destruct Hfail as [H|[H|(c1 & c2 & ix & E1 & E2 & Hix & H)]].
    + rewrite Ha in H. discriminate.
    + rewrite Hb in H. discriminate.
    + rewrite E1 in Ha. rewrite E2 in Hb.
      injection Ha as <-. injection Hb as <-.
      rewrite (Hall ix Hix) in H. discriminate.
Qed.

End CommonPeersResult.

(** ** Peering candidates *)

Lemma count_again_asns member ix_name m :
  map PeeringAnalyzer.asn (PeeringAnalyzer.count_again member ix_name m)
  = map PeeringAnalyzer.asn m.
Proof.
  induction m as [|c rest IH]; cbn [PeeringAnalyzer.count_again map].
  - reflexivity.
  - destruct (PeeringAnalyzer.asn c =? member); cbn [map PeeringAnalyzer.asn].
    + reflexivity.
    + now rewrite IH.
Qed.

Lemma insert_by_score_perm x l :
  Permutation (PeeringAnalyzer.insert_by_score x l) (x :: l).
Proof.
  induction l as [|y rest IH]; cbn [PeeringAnalyzer.insert_by_score].
  - apply Permutation_refl.
  - destruct (PeeringAnalyzer.score x <=? PeeringAnalyzer.score y).
    + eapply Permutation_trans; [apply perm_skip, IH | apply perm_swap].
    + apply Permutation_refl.
Qed.

Lemma sort_by_score_perm_acc l acc :
  Permutation
    (fold_left (fun acc x => PeeringAnalyzer.insert_by_score x acc) l acc)
    (l ++ acc).
Proof.
  revert acc. induction l as [|x rest IH]; intros acc; cbn [fold_left app].
  - apply Permutation_refl.
  - eapply Permutation_trans; [apply IH|].
    eapply Permutation_trans;
      [apply Permutation_app_head, insert_by_score_perm|].
    apply Permutation_sym, Permutation_middle.
Qed.

Lemma sort_by_score_perm l :
  Permutation (PeeringAnalyzer.sort_by_score l) l.
Proof.
  unfold PeeringAnalyzer.sort_by_score.
  eapply Permutation_trans; [apply sort_by_score_perm_acc|].
  now rewrite app_nil_r.
Qed.

Lemma insert_by_score_sorted x l :
  StronglySorted PeeringAnalyzer.by_score_desc l ->
  StronglySorted PeeringAnalyzer.by_score_desc (PeeringAnalyzer.insert_by_score x l).
Proof.
  induction l as [|y rest IH]; intros Hs;
    cbn [PeeringAnalyzer.insert_by_score].
  - constructor; [constructor | constructor].
  - inversion Hs as [|? ? Hrest Hall]; subst.
    destruct (PeeringAnalyzer.score x <=? PeeringAnalyzer.score y) eqn:E.
    + apply Z.leb_le in E. constructor; [now apply IH|].
      rewrite Forall_forall. intros z Hz.
      apply (Permutation_in _ (insert_by_score_perm x rest)) in Hz.
      destruct Hz as [<- | Hz]; [exact E|].
      rewrite Forall_forall in Hall. now apply Hall.
    + apply Z.leb_gt in E. constructor; [exact Hs|].
      constructor; [unfold PeeringAnalyzer.by_score_desc; lia|].
      rewrite Forall_forall in Hall |- *. intros z Hz.
      specialize (Hall z Hz). unfold PeeringAnalyzer.by_score_desc in *. lia.
Qed.

Lemma sort_by_score_sorted l :
  StronglySorted PeeringAnalyzer.by_score_desc (PeeringAnalyzer.sort_by_score l).
Proof.
  unfold PeeringAnalyzer.sort_by_score.
  assert (H : forall acc, StronglySorted PeeringAnalyzer.by_score_desc acc ->
            StronglySorted PeeringAnalyzer.by_score_desc
              (fold_left
                 (fun acc x => PeeringAnalyzer.insert_by_score x acc) l acc)).
  { induction l as [|x rest IH]; intros acc Hacc; cbn [fold_left].
    - exact Hacc.
    - apply IH. now apply insert_by_score_sorted. }
  apply H. constructor.
Qed.

Lemma firstn_sorted {A} (R : A -> A -> Prop) n l :
  StronglySorted R l -> StronglySorted R (firstn n l).
Proof.
  revert l. induction n as [|n IH]; intros l Hs; cbn [firstn].
  - constructor.
  - destruct l as [|x rest]; [constructor|].
    inversion Hs as [|? ? Hrest Hall]; subst.
    constructor; [now apply IH|].
    rewrite Forall_forall in Hall |- *. intros z Hz.
    apply Hall. eapply firstn_In; eauto.
Qed.

Lemma firstn_NoDup_map {A B} (f : A -> B) n l :
  NoDup (map f l) -> NoDup (map f (firstn n l)).
Proof.
  revert l. induction n as [|n IH]; intros l Hnd; cbn [firstn map].
  - constructor.
  - destruct l as [|x rest]; [constructor|]. cbn [map] in *.
    inversion Hnd as [|? ? Hnot Hrest]; subst.
    constructor; [|now apply IH].
    intros Hin. apply Hnot. rewrite in_map_iff in Hin |- *.
    destruct Hin as (y & Hy & Hin). exists y. split; [exact Hy|].
    eapply firstn_In; eauto.
Qed.

Lemma slice_to_firstn {A} n (l : list A) :
  exists k, PeeringAnalyzer.slice_to n l = firstn k l
            /\ (0 <= n -> k = Z.to_nat n).
Proof.
  unfold PeeringAnalyzer.slice_to. destruct (0 <=? n) eqn:E.
  - eexists. split; [reflexivity|]. reflexivity.
  - apply Z.leb_gt in E. eexists. split; [reflexivity|]. lia.
Qed.

Lemma score_candidate_rescored u c :
  PeeringAnalyzer._score_candidate (PeeringAnalyzer.rescored u c) u
  = PeeringAnalyzer._score_candidate c u.
Proof. reflexivity. Qed.

Lemma score_candidate_bounds c u :
  PeeringAnalyzer.accepts (PeeringAnalyzer.peering_policy c) = true ->
  PeeringAnalyzer.common_ix_count c + 1
  <= PeeringAnalyzer._score_candidate c u
  <= PeeringAnalyzer.common_ix_count c + 6.
Proof.
  unfold PeeringAnalyzer.accepts, PeeringAnalyzer._score_candidate.
  intros H.
  destruct (String.eqb (Py.lower (PeeringAnalyzer.peering_policy c)) "open");
    destruct (String.eqb (Py.lower (PeeringAnalyzer.peering_policy c))
                         "selective");
    try discriminate H;
    destruct (Py.mem (PeeringAnalyzer.asn c) u);
    destruct (String.eqb (Py.lower (PeeringAnalyzer.traffic_ratio c))
                         "balanced"
              || String.eqb (Py.lower (PeeringAnalyzer.traffic_ratio c))
                            "mostly inbound")%bool;
    lia.
Qed.

Section CandidateFacts.
Context (int_order : Py.SetOrder Z).
Context (target : Z).
Context (get_ix_members : Z -> Py.result (list Z)).
Context (get_ix : Z -> Py.result PeeringDB.InternetExchange).
Context (get_network_by_asn : Z -> Py.result PeeringAnalyzer.Network).
Context (ixlans : list PeeringDB.NetworkIXLan).

Local Abbreviation met_on :=
  (PeeringAnalyzer.met_on get_ix_members get_ix ixlans).
Local Abbreviation described :=
  (PeeringAnalyzer.described target get_ix_members get_ix
     get_network_by_asn ixlans).
Local Abbreviation scan_ok :=
  (PeeringAnalyzer.scan_ok target get_ix_members get_ix
     get_network_by_asn ixlans).

Lemma count_again_described member ix_name seen m :
  met_on member ix_name ->
  Forall (fun c => In (PeeringAnalyzer.asn c) seen /\ described c) m ->
  Forall (fun c => In (PeeringAnalyzer.asn c) seen /\ described c)
         (PeeringAnalyzer.count_again member ix_name m).
Proof.
  intros Hmet. induction m as [|c rest IH]; intros Hall;
    cbn [PeeringAnalyzer.count_again].
  - constructor.
  - inversion Hall as [|? ? [Hseen Hc] Hrest]; subst.
    destruct (PeeringAnalyzer.asn c =? member) eqn:E.
    + apply Z.eqb_eq in E. constructor; [|exact Hrest].
      cbn [PeeringAnalyzer.asn]. split; [exact Hseen|].
      destruct Hc as (H1 & H2 & H3 & H4 & H5 & H6).
      unfold PeeringAnalyzer.described.
      cbn [PeeringAnalyzer.asn PeeringAnalyzer.candidate_name
           PeeringAnalyzer.peering_policy PeeringAnalyzer.common_ix_count
           PeeringAnalyzer.candidate_ixes PeeringAnalyzer.traffic_ratio].
      repeat split; try assumption.
      * rewrite H4. unfold Py.len. rewrite length_app. cbn [List.length].
        lia.
      * lia.
      * apply Forall_app. split; [exact H6|].
        constructor; [|constructor]. now rewrite E.
    + constructor; [now split | now apply IH].
Qed.

Lemma seen_more seen member m :
  Forall (fun c => In (PeeringAnalyzer.asn c) seen /\ described c) m ->
  Forall (fun c => In (PeeringAnalyzer.asn c) (seen ++ [member])
                   /\ described c) m.
Proof.
  intros H. eapply Forall_impl; [|exact H].
  intros c [Hin Hc]. split; [|exact Hc]. apply in_or_app. now left.
Qed.

Lemma scan_members_ok ix_id ix all_members members st :
  In ix_id (map PeeringDB.ix_id ixlans) ->
  get_ix ix_id = Py.Ok ix ->
  get_ix_members ix_id = Py.Ok all_members ->
  incl members all_members ->
  scan_ok st ->
  scan_ok (PeeringAnalyzer.scan_members target get_network_by_asn
             (PeeringDB.ix_name ix) members st).
Proof.
  intros Hid Hix Hall. revert st.
  induction members as [|member rest IH]; intros st Hincl Hok;
    cbn [PeeringAnalyzer.scan_members].
  - exact Hok.
  - assert (Hrest : incl rest all_members)
      by (intros z Hz; apply Hincl; now right).
    assert (Hmet : met_on member (PeeringDB.ix_name ix)).
    { exists ix_id, ix, all_members. repeat split; try assumption.
      apply Hincl. now left. }
    destruct (member =? target) eqn:Et; [now apply IH|].
    apply Z.eqb_neq in Et.
    destruct Hok as [Hnd Hfor].
    destruct (Py.mem member (PeeringAnalyzer.seen_asns st)) eqn:Eseen.
    + apply IH; [exact Hrest|]. split;
        cbn [PeeringAnalyzer.candidate_map PeeringAnalyzer.seen_asns].
      * now rewrite count_again_asns.
      * now apply count_again_described.
    + assert (Hnew : ~ In member
                       (map PeeringAnalyzer.asn
                            (PeeringAnalyzer.candidate_map st))).
      { intros Hin. apply in_map_iff in Hin.
        destruct Hin as (c & Hc & Hin).
        rewrite Forall_forall in Hfor. destruct (Hfor c Hin) as [Hs _].
        rewrite Hc in Hs. apply mem_In in Hs. congruence. }
      assert (Hmore : scan_ok
                {| PeeringAnalyzer.seen_asns :=
                     PeeringAnalyzer.seen_asns st ++ [member];
                   PeeringAnalyzer.candidate_map :=
                     PeeringAnalyzer.candidate_map st |}).
      { split; cbn [PeeringAnalyzer.candidate_map PeeringAnalyzer.seen_asns];
          [exact Hnd | now apply seen_more]. }
      cbv zeta.
      cbn [PeeringAnalyzer.candidate_map PeeringAnalyzer.seen_asns].
      destruct (get_network_by_asn member) as [network|e] eqn:Enet.
      * destruct (PeeringAnalyzer.accepts
                    (PeeringAnalyzer.policy_general network)) eqn:Eacc;
          [|now apply IH].
        apply IH; [exact Hrest|]. split;
          cbn [PeeringAnalyzer.candidate_map PeeringAnalyzer.seen_asns].
        -- rewrite map_app. cbn [map PeeringAnalyzer.asn].
           apply NoDup_app_remove_l with (l := []). cbn [app].
           apply Permutation_NoDup
             with (l := member :: map PeeringAnalyzer.asn
                                      (PeeringAnalyzer.candidate_map st)).
           ++ apply Permutation_cons_append.
           ++ now constructor.
        -- apply Forall_app. split; [now apply seen_more|].
           constructor; [|constructor].
           cbn [PeeringAnalyzer.asn]. split.
           ++ apply in_or_app. right. now left.
           ++ unfold PeeringAnalyzer.described.
              cbn [PeeringAnalyzer.asn PeeringAnalyzer.candidate_name
                   PeeringAnalyzer.peering_policy
                   PeeringAnalyzer.common_ix_count
                   PeeringAnalyzer.candidate_ixes
                   PeeringAnalyzer.traffic_ratio].
              repeat split; try assumption; try lia.
              ** exists network. now repeat split.
              ** constructor; [exact Hmet | constructor].
      * destruct e; first [now apply IH | exact Hmore].
Qed.

Lemma scan_ix_ok st ix_id :
  In ix_id (map PeeringDB.ix_id ixlans) ->
  scan_ok st ->
  scan_ok (PeeringAnalyzer.scan_ix target get_ix_members get_ix
             get_network_by_asn st ix_id).
Proof.
  intros Hid Hok. unfold PeeringAnalyzer.scan_ix.
  destruct (get_ix_members ix_id) as [members|] eqn:Em; [|exact Hok].
  destruct (get_ix ix_id) as [ix|] eqn:Ei; [|exact Hok].
  eapply scan_members_ok; eauto. apply incl_refl.
Qed.

Lemma scan_all_ok ids st :
  incl ids (map PeeringDB.ix_id ixlans) ->
  scan_ok st ->
  scan_ok (fold_left (PeeringAnalyzer.scan_ix target get_ix_members get_ix
                        get_network_by_asn) ids st).
Proof.
  revert st. induction ids as [|ix_id rest IH]; intros st Hincl Hok;
    cbn [fold_left].
  - exact Hok.
  - apply IH.
    + intros z Hz. apply Hincl. now right.
    + apply scan_ix_ok; [apply Hincl; now left | exact Hok].
Qed.

(** X29. What [find_peering_candidates] returns.  It raises only what
    the first lookup raises, other than "not found", which gives the empty
    list; every other failure is passed over.  A returned list names no AS
    twice and never the target, is in descending order of score, and is no
    longer than a non-negative [max_candidates].  Each candidate carries
    the name, policy and traffic ratio of its PeeringDB record, has an open
    or selective policy, counts as many exchanges as it lists (at least
    one), each of them an exchange of the target that lists the candidate
    as a member, and has the score of [_score_candidate], which lies
    between the count plus one and the count plus six. *)
Theorem peering_candidates_invariants
        (max_candidates : Z)
        (target_ixlans : Py.result (list PeeringDB.NetworkIXLan))
        (neighbours : Py.result RIPEstat.ASNeighbours) :
  let found :=
    PeeringAnalyzer.find_peering_candidates int_order target get_ix_members
      get_ix get_network_by_asn max_candidates target_ixlans neighbours in
  (forall e, found = Py.Raise e
             <-> target_ixlans = Py.Raise e
                 /\ e <> Py.PeeringDBNotFoundError)
  /\ (target_ixlans = Py.Raise Py.PeeringDBNotFoundError
      -> found = Py.Ok [])
  /\ (forall candidates,
        target_ixlans = Py.Ok ixlans ->
        found = Py.Ok candidates ->
        NoDup (map PeeringAnalyzer.asn candidates)
        /\ StronglySorted PeeringAnalyzer.by_score_desc candidates
        /\ (0 <= max_candidates -> Py.len candidates <= max_candidates)
        /\ Forall
             (fun c =>
                described c
                /\ PeeringAnalyzer.score c
                   = PeeringAnalyzer._score_candidate c
                       (PeeringAnalyzer.upstreams_or_none neighbours)
                /\ PeeringAnalyzer.common_ix_count c + 1
                   <= PeeringAnalyzer.score c
                   <= PeeringAnalyzer.common_ix_count c + 6)
             candidates).
Proof.
  intros found. subst found. split; [|split].
  - intros e. unfold PeeringAnalyzer.find_peering_candidates.
    destruct target_ixlans as [l|e0].
    + split; [|intros [H _]; discriminate H].
      destruct (negb _); cbv zeta; discriminate.
    + destruct e0; split;
        try (intros H; discriminate H);
        try (intros [H Hne]; injection H as <-; congruence);
        intros H; injection H as <-; split; congruence.
  - intros ->. unfold PeeringAnalyzer.find_peering_candidates.
    f_equal. unfold PeeringAnalyzer.slice_to.
    destruct (0 <=? max_candidates); cbn [List.length Nat.sub];
      now rewrite firstn_nil.
  - intros candidates -> Hfound.
    unfold PeeringAnalyzer.find_peering_candidates in Hfound.
    destruct (negb (Py.nonempty
                      (Py.iter int_order (map PeeringDB.ix_id ixlans)))).
    { injection Hfound as <-. cbn [map]. repeat split.
      - constructor.
      - constructor.
      - intros H. cbn. exact H.
      - constructor. }
    cbv zeta in Hfound. injection Hfound as <-.
    set (u := PeeringAnalyzer.upstreams_or_none neighbours).
    set (st := fold_left _ _ _).
    assert (Hst : scan_ok st).
    { apply scan_all_ok.
      - intros z Hz.
        apply (proj1 (Py.iter_In int_order (map PeeringDB.ix_id ixlans) z)).
        exact (firstn_In 10
                 (Py.iter int_order (map PeeringDB.ix_id ixlans)) z Hz).
      - split; cbn [PeeringAnalyzer.candidate_map]; constructor. }
    destruct Hst as [Hnd Hfor].
    set (scored := map (PeeringAnalyzer.rescored u)
                       (PeeringAnalyzer.candidate_map st)).
    assert (Hasn : map PeeringAnalyzer.asn scored
                   = map PeeringAnalyzer.asn
                         (PeeringAnalyzer.candidate_map st)).
    { unfold scored. rewrite map_map. reflexivity. }
    pose proof (sort_by_score_perm scored) as Hperm.
    destruct (slice_to_firstn max_candidates
                (PeeringAnalyzer.sort_by_score scored)) as (k & -> & Hk).
    split; [|split; [|split]].
    + apply firstn_NoDup_map.
      apply Permutation_NoDup
        with (l := map PeeringAnalyzer.asn scored).
      * apply Permutation_map, Permutation_sym, Hperm.
      * now rewrite Hasn.
    + apply firstn_sorted, sort_by_score_sorted.
    + intros Hmax. unfold Py.len. rewrite length_firstn.
      rewrite (Hk Hmax). lia.
    + rewrite Forall_forall. intros c Hc. apply firstn_In in Hc.
      apply (Permutation_in _ Hperm) in Hc.
      unfold scored in Hc. apply in_map_iff in Hc.
      destruct Hc as (c0 & <- & Hc0).
      rewrite Forall_forall in Hfor. destruct (Hfor c0 Hc0) as [_ Hd].
      split; [exact Hd|]. split; [reflexivity|].
      cbn [PeeringAnalyzer.score PeeringAnalyzer.rescored
           PeeringAnalyzer.common_ix_count].
      apply score_candidate_bounds. apply Hd.
Qed.

End CandidateFacts.

Lemma peering_candidates_invariants_witness :
  PeeringAnalyzer.find_peering_candidates int_insertion_order
    CandidateRun.target CandidateRun.get_ix_members CandidateRun.get_ix
    CandidateRun.get_network_by_asn 20 (Py.Ok CandidateRun.ixlans)
    CandidateRun.neighbours
  = Py.Ok CandidateRun.candidates
  /\ NoDup (map PeeringAnalyzer.asn CandidateRun.candidates)
  /\ StronglySorted PeeringAnalyzer.by_score_desc CandidateRun.candidates
  /\ Py.len CandidateRun.candidates <= 20.
Proof.
  assert (E : PeeringAnalyzer.find_peering_candidates int_insertion_order
                CandidateRun.target CandidateRun.get_ix_members
                CandidateRun.get_ix CandidateRun.get_network_by_asn 20
                (Py.Ok CandidateRun.ixlans) CandidateRun.neighbours
              = Py.Ok CandidateRun.candidates) by (vm_compute; reflexivity).
  split; [exact E|].
  destruct (peering_candidates_invariants int_insertion_order
              CandidateRun.target CandidateRun.get_ix_members
              CandidateRun.get_ix CandidateRun.get_network_by_asn
              CandidateRun.ixlans 20 (Py.Ok CandidateRun.ixlans)
              CandidateRun.neighbours) as (_ & _ & H).
  destruct (H CandidateRun.candidates eq_refl E) as (H1 & H2 & H3 & _).
  split; [exact H1|]. split; [exact H2|]. apply H3. lia.
Defined.

(** ** Path changes *)

Section PathChangeFacts.
Context {Value : Type}.
Implicit Types (u : PathChanges.BGPUpdate Value)
         (t : PathChanges.Tally Value).

Lemma path_changes_tally (updates : list (PathChanges.BGPUpdate Value)) t :
  let t' := fold_left PathChanges.step updates t in
  PathChanges.tally_announcements t'
  = PathChanges.tally_announcements t
    + Py.len (filter (fun u => String.eqb (PathChanges.type u) "A") updates)
  /\ PathChanges.tally_withdrawals t'
     = PathChanges.tally_withdrawals t
       + Py.len (filter (fun u => String.eqb (PathChanges.type u) "W")
                        updates)
  /\ PathChanges.tally_changes t'
     = PathChanges.tally_changes t
       ++ map PathChanges.change_of
              (filter PathChanges.carries_path updates).
Proof.
  revert t. induction updates as [|u rest IH]; intros t; cbv zeta;
    cbn [fold_left filter].
  - unfold Py.len. cbn [List.length map]. rewrite app_nil_r.
    repeat split; lia.
  - destruct (IH (PathChanges.step t u)) as (Ha & Hw & Hc).
    rewrite Ha, Hw, Hc. clear IH Ha Hw Hc.
    unfold PathChanges.step.
    cbn [PathChanges.tally_announcements PathChanges.tally_withdrawals
         PathChanges.tally_changes].
    destruct (String.eqb (PathChanges.type u) "A") eqn:EA.
    + apply String.eqb_eq in EA.
      assert (EW : String.eqb (PathChanges.type u) "W" = false)
        by (rewrite EA; reflexivity).
      rewrite EW. destruct (PathChanges.carries_path u);
        unfold Py.len; cbn [List.length map];
        rewrite <- ?app_assoc; cbn [app]; repeat split; lia.
    + destruct (String.eqb (PathChanges.type u) "W");
        destruct (PathChanges.carries_path u);
        unfold Py.len; cbn [List.length map];
        rewrite <- ?app_assoc; cbn [app]; repeat split; lia.
Qed.

Lemma two_filters_length {A} (f g : A -> bool) (l : list A) :
  (forall x, f x = true -> g x = false) ->
  (List.length (filter f l) + List.length (filter g l) <= List.length l)%nat.
Proof.
  intros Hfg. induction l as [|x rest IH]; cbn [filter List.length].
  - lia.
  - destruct (f x) eqn:Ef.
    + rewrite (Hfg x Ef). cbn [List.length]. lia.
    + destruct (g x); cbn [List.length]; lia.
Qed.

(** The report of the [try] block. *)
Lemma report_of_updates (resource : string) (hours : Z)
      (updates : Py.result (list (PathChanges.BGPUpdate Value))) :
  match updates with
  | Py.Raise e =>
      PathChanges.report_of resource hours updates
      = PathChanges.Error resource e
  | Py.Ok l =>
      exists r,
        PathChanges.report_of resource hours updates
        = PathChanges.Changes r
        /\ PathChanges.resource r = resource
        /\ PathChanges.period_hours r = hours
        /\ PathChanges.total_updates r = Py.len l
        /\ PathChanges.announcements r
           = Py.len (filter (fun u => String.eqb (PathChanges.type u) "A") l)
        /\ PathChanges.withdrawals r
           = Py.len (filter (fun u => String.eqb (PathChanges.type u) "W") l)
        /\ PathChanges.announcements r + PathChanges.withdrawals r
           <= PathChanges.total_updates r
        /\ PathChanges.path_changes r
           = firstn 50 (map PathChanges.change_of
                            (filter PathChanges.carries_path l))
        /\ Py.len (PathChanges.path_changes r) <= 50
        /\ (PathChanges.is_stable r = true <-> Py.len l < 10)
        /\ (PathChanges.is_stable r = true ->
            PathChanges.path_changes r
            = map PathChanges.change_of
                  (filter PathChanges.carries_path l))
  end.
Proof.
  destruct updates as [l|e]; [|reflexivity].
  eexists. split; [reflexivity|].
  cbn [PathChanges.resource PathChanges.period_hours
       PathChanges.total_updates PathChanges.announcements
       PathChanges.withdrawals PathChanges.path_changes
       PathChanges.is_stable].
  destruct (path_changes_tally l
              {| PathChanges.tally_announcements := 0;
                 PathChanges.tally_withdrawals := 0;
                 PathChanges.tally_changes := [] |}) as (Ha & Hw & Hc).
  cbn [PathChanges.tally_announcements PathChanges.tally_withdrawals
       PathChanges.tally_changes app] in Ha, Hw, Hc.
  rewrite Ha, Hw, Hc.
  assert (Hsum : (List.length
                    (filter (fun u => String.eqb (PathChanges.type u) "A") l)
                  + List.length
                      (filter (fun u => String.eqb (PathChanges.type u) "W")
                              l)
                  <= List.length l)%nat).
  { apply two_filters_length. intros u Hu. apply String.eqb_eq in Hu.
    rewrite Hu. reflexivity. }
  assert (Hcut : (List.length
                    (map PathChanges.change_of
                         (filter PathChanges.carries_path l))
                  <= List.length l)%nat).
  { rewrite length_map. apply filter_length_le. }
  repeat split; try reflexivity.
  - unfold Py.len. lia.
  - unfold Py.len. rewrite length_firstn. lia.
  - intros H. now apply Z.ltb_lt in H.
  - intros H. now apply Z.ltb_lt.
  - intros H. apply Z.ltb_lt in H. apply firstn_all2.
    unfold Py.len in H. lia.
Qed.

Lemma window_start (utcnow hours : Z) :
  (PathChanges.window_in_range utcnow hours ->
   (delta <- PathChanges.timedelta_hours hours ;;
    PathChanges.datetime_sub utcnow delta)
   = Py.Ok (utcnow - hours * 3600 * 1000000))
  /\ (~ PathChanges.window_in_range utcnow hours ->
      (delta <- PathChanges.timedelta_hours hours ;;
       PathChanges.datetime_sub utcnow delta)
      = Py.Raise PathChanges.OverflowError).
Proof.
  unfold PathChanges.window_in_range, PathChanges.timedelta_hours,
    PathChanges.datetime_sub.
  cbv zeta.
  destruct (Z.leb_spec (-999999999) (hours * 3600 / 86400));
    destruct (Z.leb_spec (hours * 3600 / 86400) 999999999);
    cbn [andb Py.bind];
    try (split; [intros [[? ?] _]; lia | reflexivity]).
  destruct (Z.leb_spec 0 (utcnow - hours * 3600 * 1000000));
    destruct (Z.leb_spec (utcnow - hours * 3600 * 1000000)
                         PathChanges.datetime_max);
    cbn [andb];
    try (split; [intros [_ [? ?]]; lia | reflexivity]).
  split; [reflexivity|]. intros Hno. exfalso. apply Hno. lia.
Qed.

(** X30. The report of [get_path_changes].  The call raises exactly when
    the look-back window cannot be computed, and then [OverflowError]:
    when [hours] makes a time span of more than 999999999 days, or puts
    the start of the window outside the years 1 to 9999; with a clock in
    that range it does not raise for any number of hours from 0 up to
    the age of the clock.  Otherwise the lookup is made for the window
    that ends now and starts [hours] earlier; a failed lookup gives the
    error form; else the two counters are the numbers of updates of type
    "A" and of type "W", their sum is at most [total_updates], the number
    of updates; [path_changes] holds, in order, the first fifty updates
    whose [attrs] has an "as_path" key, with their own timestamp and
    type; and a report marked stable has fewer than ten updates, so that
    none of its path changes is cut off. *)
Theorem path_changes_report (utcnow : Z)
        (get_bgp_updates :
           string -> Z -> Z ->
           Py.result (list (PathChanges.BGPUpdate Value)))
        (resource : string) (hours : Z) :
  let start_time := utcnow - hours * 3600 * 1000000 in
  let returned :=
    PathChanges.get_path_changes utcnow get_bgp_updates resource hours in
  (forall e, returned = Py.Raise e
             <-> e = PathChanges.OverflowError
                 /\ ~ PathChanges.window_in_range utcnow hours)
  /\ (0 <= utcnow <= PathChanges.datetime_max ->
      0 <= hours -> hours * 3600 * 1000000 <= utcnow ->
      PathChanges.window_in_range utcnow hours)
  /\ (0 <= utcnow <= PathChanges.datetime_max ->
      utcnow < hours * 3600 * 1000000 ->
      returned = Py.Raise PathChanges.OverflowError)
  /\ (PathChanges.window_in_range utcnow hours ->
      match get_bgp_updates resource start_time utcnow with
      | Py.Raise e => returned = Py.Ok (PathChanges.Error resource e)
      | Py.Ok l =>
          exists r,
            returned = Py.Ok (PathChanges.Changes r)
            /\ PathChanges.resource r = resource
            /\ PathChanges.period_hours r = hours
            /\ PathChanges.total_updates r = Py.len l
            /\ PathChanges.announcements r
               = Py.len (filter (fun u => String.eqb (PathChanges.type u) "A")
                                l)
            /\ PathChanges.withdrawals r
               = Py.len (filter (fun u => String.eqb (PathChanges.type u) "W")
                                l)
            /\ PathChanges.announcements r + PathChanges.withdrawals r
               <= PathChanges.total_updates r
            /\ PathChanges.path_changes r
               = firstn 50 (map PathChanges.change_of
                                (filter PathChanges.carries_path l))
            /\ Py.len (PathChanges.path_changes r) <= 50
            /\ (PathChanges.is_stable r = true <-> Py.len l < 10)
            /\ (PathChanges.is_stable r = true ->
                PathChanges.path_changes r
                = map PathChanges.change_of
                      (filter PathChanges.carries_path l))
      end).
Proof.
  intros start_time returned.
  destruct (window_start utcnow hours) as [Hin Hout].
  assert (Hok : PathChanges.window_in_range utcnow hours ->
                returned
                = Py.Ok (PathChanges.report_of resource hours
                           (get_bgp_updates resource start_time utcnow))).
  { intros Hw. specialize (Hin Hw). unfold returned,
      PathChanges.get_path_changes. cbv zeta.
    destruct (PathChanges.timedelta_hours hours) as [delta|e0];
      cbn [Py.bind] in Hin |- *; [|discriminate Hin].
    rewrite Hin. reflexivity. }
  assert (Hraise : ~ PathChanges.window_in_range utcnow hours ->
                   returned = Py.Raise PathChanges.OverflowError).
  { intros Hw. specialize (Hout Hw). unfold returned,
      PathChanges.get_path_changes. cbv zeta.
    destruct (PathChanges.timedelta_hours hours) as [delta|e0];
      cbn [Py.bind] in Hout |- *; [|injection Hout as ->; reflexivity].
    rewrite Hout. reflexivity. }
  assert (Hdec : PathChanges.window_in_range utcnow hours
                 \/ ~ PathChanges.window_in_range utcnow hours).
  { unfold PathChanges.window_in_range. lia. }
  split; [|split; [|split]].
  - intros e. split.
    + intros He. destruct Hdec as [Hw | Hw].
      * rewrite (Hok Hw) in He. discriminate He.
      * rewrite (Hraise Hw) in He. injection He as <-. now split.
    + intros [-> Hw]. now apply Hraise.
  - intros Hnow Hh Hage. unfold PathChanges.window_in_range.
    unfold PathChanges.datetime_max in *.
    split; [|lia].
    assert (0 <= hours * 3600 / 86400) by (apply Z.div_pos; lia).
    assert (hours * 3600 / 86400 <= 3652059)
      by (apply Z.div_le_upper_bound; lia).
    lia.
  - intros Hnow Hage. apply Hraise. unfold PathChanges.window_in_range. lia.
  - intros Hw. rewrite (Hok Hw).
    pose proof (report_of_updates resource hours
                  (get_bgp_updates resource start_time utcnow)) as Hr.
    destruct (get_bgp_updates resource start_time utcnow) as [l|e].
    + destruct Hr as (r & Hr & Hrest). exists r.
      split; [now rewrite Hr | exact Hrest].
    + now rewrite Hr.
Qed.

End PathChangeFacts.

(** A look-back of a day from 2024-06-27 18:00 UTC is reported; one of
    ten thousand million hours, more than a million years, raises. *)
Lemma path_changes_report_witness :
  (exists r,
     PathChanges.get_path_changes PathChangeRun.utcnow
       PathChangeRun.get_bgp_updates "AS13335" 24
     = Py.Ok (PathChanges.Changes r)
     /\ PathChanges.announcements r = 1
     /\ PathChanges.withdrawals r = 1
     /\ PathChanges.total_updates r = 2
     /\ PathChanges.is_stable r = true)
  /\ PathChanges.get_path_changes PathChangeRun.utcnow
       PathChangeRun.get_bgp_updates "AS13335" 10000000000
     = Py.Raise PathChanges.OverflowError.
Proof.
  assert (Hnow : 0 <= PathChangeRun.utcnow <= PathChanges.datetime_max)
    by (unfold PathChangeRun.utcnow, PathChanges.datetime_max; lia).
  split.
  - destruct (path_changes_report PathChangeRun.utcnow
                PathChangeRun.get_bgp_updates "AS13335" 24)
      as (_ & Hrange & _ & Hreport).
    assert (Hw : PathChanges.window_in_range PathChangeRun.utcnow 24)
      by (apply Hrange; [exact Hnow | lia
                         | unfold PathChangeRun.utcnow; lia]).
    destruct (Hreport Hw)
      as (r & Hr & _ & _ & Ht & Ha & Hwd & _ & _ & _ & Hs & _).
    exists r. split; [exact Hr|]. split; [exact Ha|].
    split; [exact Hwd|]. split; [exact Ht|].
    apply Hs. reflexivity.
  - destruct (path_changes_report PathChangeRun.utcnow
                PathChangeRun.get_bgp_updates "AS13335" 10000000000)
      as (_ & _ & Hraise & _).
    apply Hraise; [exact Hnow | unfold PathChangeRun.utcnow; lia].
Defined.
